(** * Crowdfunding console application: model and verified properties

    A shallow embedding of the crowdfunding CLI (modules [validation],
    [data_storage], [user_auth] and [project_manager]) together with the
    parts of the Python runtime it relies on.

    Conventions of the embedding:
    - a Python [str] is a Rocq [string]; its characters are the bytes of the
      UTF-8 text.  The [str] methods used by the program ([strip], [lower],
      [isalpha], [isspace], [split]) and the literals that [int], [float]
      and [strptime] read are given with Python's behaviour on the ASCII
      range; what is proved about text that goes through them is stated
      for ASCII text ([PyStr.ascii_text]);
    - a Python [float] is an IEEE-754 binary64 value, [spec_float] of the
      standard library, with the conversions [float(s)], [repr] and the
      fixed-point [format] written out;
    - the module-level registries, the two data files, the console and the
      clock form a [world]; operations are computations in a state and
      exception monad over it. *)

From Stdlib Require Import String Ascii List ZArith Lia Bool Arith PeanoNat.
From Stdlib Require Import Floats.SpecFloat.
From Stdlib Require Import DecimalString.
Import ListNotations.
Local Open Scope string_scope.
Local Open Scope list_scope.
Local Open Scope nat_scope.

(** String concatenation, Python's [+] on [str]. *)
Infix "+++" := String.append (right associativity, at level 60).

(** ** Python [str] methods *)

Module PyStr.

Definition ord (c : ascii) : nat := nat_of_ascii c.

Definition in_range (lo hi : nat) (c : ascii) : bool :=
  (lo <=? ord c) && (ord c <=? hi).

(** [str.isspace] on one character of the ASCII range: TAB..CR, FS..US and
    the space. *)
Definition isspace (c : ascii) : bool := in_range 9 13 c || in_range 28 32 c.

Definition isdigit (c : ascii) : bool := in_range 48 57 c.
Definition isupper (c : ascii) : bool := in_range 65 90 c.
Definition islower (c : ascii) : bool := in_range 97 122 c.
Definition isalpha (c : ascii) : bool := isupper c || islower c.

Definition lower_char (c : ascii) : ascii :=
  if isupper c then ascii_of_nat (ord c + 32) else c.

Fixpoint lower (s : string) : string :=
  match s with
  | EmptyString => EmptyString
  | String c s' => String (lower_char c) (lower s')
  end.

Fixpoint lstrip (s : string) : string :=
  match s with
  | EmptyString => EmptyString
  | String c s' => if isspace c then lstrip s' else s
  end.

Fixpoint rstrip (s : string) : string :=
  match s with
  | EmptyString => EmptyString
  | String c s' =>
      match rstrip s' with
      | EmptyString => if isspace c then EmptyString else String c EmptyString
      | r => String c r
      end
  end.

(** [s.strip()] *)
Definition strip (s : string) : string := rstrip (lstrip s).

(** Truth value of a string: [if s:] *)
Definition truthy (s : string) : bool :=
  match s with EmptyString => false | _ => true end.

(** [s.split(sep)] for a one-character separator. *)
Fixpoint split (sep : ascii) (s : string) : list string :=
  match s with
  | EmptyString => [EmptyString]
  | String c s' =>
      if Ascii.eqb c sep then EmptyString :: split sep s'
      else match split sep s' with
           | h :: t => String c h :: t
           | [] => [String c EmptyString]
           end
  end.

(** [sep.join(parts)] *)
Definition join (sep : string) (parts : list string) : string :=
  String.concat sep parts.

Fixpoint forallb_str (p : ascii -> bool) (s : string) : bool :=
  match s with
  | EmptyString => true
  | String c s' => p c && forallb_str p s'
  end.

Fixpoint filter_str (p : ascii -> bool) (s : string) : string :=
  match s with
  | EmptyString => EmptyString
  | String c s' => if p c then String c (filter_str p s') else filter_str p s'
  end.

(** [c in s] for a character [c] *)
Fixpoint contains (c : ascii) (s : string) : bool :=
  match s with
  | EmptyString => false
  | String d s' => Ascii.eqb d c || contains c s'
  end.

(** Text in the ASCII range.  On such text the methods above are Python's;
    beyond it [str.isspace] (and so [str.strip]), [str.isalpha] and
    [str.lower] know characters that are not modelled here, and the
    theorems about text that goes through them are stated for ASCII text. *)
Definition is_ascii (c : ascii) : bool := ord c <? 128.
Definition ascii_text (s : string) : bool := forallb_str is_ascii s.

(** [str(n)] for a natural number *)
Definition str_nat (n : nat) : string := NilZero.string_of_uint (Nat.to_uint n).

(** [str(b)] for a boolean *)
Definition str_bool (b : bool) : string := if b then "True" else "False".

(** zero-padded decimal of width [w], as in [%02d] *)
Definition zfill (w : nat) (s : string) : string :=
  string_of_list_ascii (repeat "0"%char (w - String.length s)) +++ s.

End PyStr.

(** ** Regular expressions, the fragment of [re] the validators use *)

Module Re.

Inductive regex : Type :=
| Void                                   (* matches nothing *)
| Eps                                    (* the empty string *)
| Chr (c : ascii)                        (* a literal character *)
| Class (p : ascii -> bool)              (* a character class [...] *)
| Cat (r1 r2 : regex)
| Alt (r1 r2 : regex)                    (* r1|r2 *)
| Star (r : regex).                      (* r* *)

(** [r?], [r+], [r{n}], [r{n,}] and literal text *)
Definition Opt (r : regex) : regex := Alt r Eps.
Definition Plus (r : regex) : regex := Cat r (Star r).

Fixpoint Rep (n : nat) (r : regex) : regex :=
  match n with
  | O => Eps
  | S k => Cat r (Rep k r)
  end.

Definition AtLeast (n : nat) (r : regex) : regex := Cat (Rep n r) (Star r).

Fixpoint Lit (s : string) : regex :=
  match s with
  | EmptyString => Eps
  | String c s' => Cat (Chr c) (Lit s')
  end.

(** The strings a pattern denotes. *)
Inductive lang : regex -> string -> Prop :=
| L_Eps : lang Eps EmptyString
| L_Chr c : lang (Chr c) (String c EmptyString)
| L_Class p c : p c = true -> lang (Class p) (String c EmptyString)
| L_Cat r1 r2 s1 s2 : lang r1 s1 -> lang r2 s2 -> lang (Cat r1 r2) (s1 +++ s2)
| L_AltL r1 r2 s : lang r1 s -> lang (Alt r1 r2) s
| L_AltR r1 r2 s : lang r2 s -> lang (Alt r1 r2) s
| L_StarNil r : lang (Star r) EmptyString
| L_StarCons r c s1 s2 :
    lang r (String c s1) -> lang (Star r) s2 -> lang (Star r) (String c s1 +++ s2).

(** Matching by derivatives. *)
Fixpoint nullable (r : regex) : bool :=
  match r with
  | Void => false
  | Eps => true
  | Chr _ => false
  | Class _ => false
  | Cat r1 r2 => nullable r1 && nullable r2
  | Alt r1 r2 => nullable r1 || nullable r2
  | Star _ => true
  end.

Fixpoint deriv (a : ascii) (r : regex) : regex :=
  match r with
  | Void => Void
  | Eps => Void
  | Chr c => if Ascii.eqb a c then Eps else Void
  | Class p => if p a then Eps else Void
  | Cat r1 r2 =>
      if nullable r1 then Alt (Cat (deriv a r1) r2) (deriv a r2)
      else Cat (deriv a r1) r2
  | Alt r1 r2 => Alt (deriv a r1) (deriv a r2)
  | Star r1 => Cat (deriv a r1) (Star r1)
  end.

(** [re.fullmatch(r, s) is not None] *)
Fixpoint fullmatch (r : regex) (s : string) : bool :=
  match s with
  | EmptyString => nullable r
  | String c s' => fullmatch (deriv c r) s'
  end.

(** [s] without its last character when that character is a newline. *)
Fixpoint chop_newline (s : string) : option string :=
  match s with
  | EmptyString => None
  | String c EmptyString => if Ascii.eqb c "010" then Some EmptyString else None
  | String c s' => option_map (String c) (chop_newline s')
  end.

(** [re.match('^' + r + '$', s) is not None]: without the MULTILINE flag
    [$] matches at the end of the string and also just before a newline
    that ends the string. *)
Definition match_anchored (r : regex) (s : string) : bool :=
  fullmatch r s ||
  match chop_newline s with
  | Some t => fullmatch r t
  | None => false
  end.

(** Character classes of the patterns. *)
Definition digit : ascii -> bool := PyStr.in_range 48 57.              (* [0-9] *)
Definition letter (c : ascii) : bool :=                                (* [a-zA-Z] *)
  PyStr.in_range 97 122 c || PyStr.in_range 65 90 c.
Definition one_of (chars : string) (c : ascii) : bool := PyStr.contains c chars.

(** [\s], which for [str] patterns is [str.isspace] *)
Definition space : ascii -> bool := PyStr.isspace.

(** [re.sub('[...]', '', s)] for a character class: delete its characters. *)
Definition sub_class_empty (p : ascii -> bool) (s : string) : string :=
  PyStr.filter_str (fun c => negb (p c)) s.

End Re.

(** ** Exceptions, [int(s)] and floats *)

Inductive exn : Type :=
| EOFError            (* [input()] at end of input *)
| ValueError          (* a failed conversion or [strptime] *)
| ZeroDivisionError
| KeyError
| OSError.            (* a file that exists and cannot be read *)

Module PyNum.

(** The whitespace that [int(s)] and [float(s)] skip around an ASCII
    literal: TAB..CR and the space. *)
Definition c_isspace (c : ascii) : bool :=
  PyStr.in_range 9 13 c || Ascii.eqb c " ".

Fixpoint lstrip_c (s : string) : string :=
  match s with
  | EmptyString => EmptyString
  | String c s' => if c_isspace c then lstrip_c s' else s
  end.

Fixpoint rstrip_c (s : string) : string :=
  match s with
  | EmptyString => EmptyString
  | String c s' =>
      match rstrip_c s' with
      | EmptyString => if c_isspace c then EmptyString else String c EmptyString
      | r => String c r
      end
  end.

Definition strip_c (s : string) : string := rstrip_c (lstrip_c s).

(** Digit grouping: an underscore is legal only between two digits, and is
    then dropped.  [prev] tells whether the previous character was a digit. *)
Fixpoint drop_underscores (prev : bool) (s : string) : option string :=
  match s with
  | EmptyString => Some EmptyString
  | String c s' =>
      if Ascii.eqb c "_" then
        match s' with
        | String d _ =>
            if prev && PyStr.isdigit d then drop_underscores false s' else None
        | EmptyString => None
        end
      else option_map (String c) (drop_underscores (PyStr.isdigit c) s')
  end.

Definition digit_val (c : ascii) : N := N.of_nat (PyStr.ord c - 48).

(** value of a string of decimal digits, most significant first *)
Fixpoint digits_val (acc : N) (s : string) : N :=
  match s with
  | EmptyString => acc
  | String c s' => digits_val (acc * 10 + digit_val c)%N s'
  end.

Definition all_digits (s : string) : bool := PyStr.forallb_str PyStr.isdigit s.

(** an optional sign: [(negative, rest)] *)
Definition take_sign (s : string) : bool * string :=
  match s with
  | String "-" s' => (true, s')
  | String "+" s' => (false, s')
  | _ => (false, s)
  end.

(** The most digits that [int(s)] converts: [sys.get_int_max_str_digits()]
    as the interpreter starts with. *)
Definition max_str_digits : nat := 4300.

(** [int(s)] in base 10; [None] stands for [ValueError], which is also
    what a literal of more than [max_str_digits] digits gives (the sign,
    the whitespace around and the underscores are not counted). *)
Definition py_int (s : string) : option Z :=
  let '(neg, body) := take_sign (strip_c s) in
  match drop_underscores false body with
  | Some ds =>
      if PyStr.truthy ds && all_digits ds then
        if max_str_digits <? String.length ds then None
        else
          let v := Z.of_N (digits_val 0 ds) in
          Some (if neg then Z.opp v else v)
      else None
  | None => None
  end.

End PyNum.

(** ** Python floats: IEEE-754 binary64 *)

Module PyFloat.

Definition float : Type := spec_float.

Definition prec : Z := 53.
Definition emax : Z := 1024.

Definition nan : float := S754_nan.
Definition zero : float := S754_zero false.

(** the float nearest to an integer, [float(n)] *)
Definition of_Z (z : Z) : float := binary_normalize prec emax z 0 false.

(** Comparison operators; every comparison with a NaN is false. *)
Definition eqb (x y : float) : bool := SFeqb x y.
Definition ltb (x y : float) : bool := SFltb x y.
Definition leb (x y : float) : bool := SFleb x y.
Definition gtb (x y : float) : bool := SFltb y x.

(** [x * y] *)
Definition mul (x y : float) : float := SFmul prec emax x y.

(** [x / y]: division by a zero of either sign raises. *)
Definition div (x y : float) : exn + float :=
  match y with
  | S754_zero _ => inl ZeroDivisionError
  | _ => inr (SFdiv prec emax x y)
  end.

(** The float nearest to the rational [p / q], ties to even. *)
Definition round_ratio (neg : bool) (p q : positive) : float :=
  let '(mz, ez, lz) := SFdiv_core_binary prec emax (Zpos p) 0 (Zpos q) 0 in
  binary_round_aux prec emax neg mz ez lz.

(** The float nearest to [m * 10^e10]. *)
Definition of_decimal (neg : bool) (m : N) (e10 : Z) : float :=
  match m with
  | N0 => S754_zero neg
  | Npos p =>
      if (0 <=? e10)%Z then round_ratio neg (p * Z.to_pos (10 ^ e10)) 1
      else round_ratio neg p (Z.to_pos (10 ^ (- e10)))
  end.

(** the longest prefix of digits, and what follows it *)
Fixpoint span_digits (s : string) : string * string :=
  match s with
  | EmptyString => (EmptyString, EmptyString)
  | String c s' =>
      if PyStr.isdigit c then
        let '(ds, rest) := span_digits s' in (String c ds, rest)
      else (EmptyString, s)
  end.

(** the exponent part: empty, or [e]/[E], an optional sign and digits *)
Definition parse_exponent (s : string) : option Z :=
  match s with
  | EmptyString => Some 0%Z
  | String c s' =>
      if Ascii.eqb c "e" || Ascii.eqb c "E" then
        let '(neg, ds) := PyNum.take_sign s' in
        if PyStr.truthy ds && PyNum.all_digits ds then
          let v := Z.of_N (PyNum.digits_val 0 ds) in
          Some (if neg then Z.opp v else v)
        else None
      else None
  end.

(** an unsigned decimal literal: [(mantissa, decimal exponent)] *)
Definition parse_decimal (s : string) : option (N * Z) :=
  let '(ip, r1) := span_digits s in
  let '(fp, r2) :=
    match r1 with
    | String "." r => span_digits r
    | _ => (EmptyString, r1)
    end in
  if PyStr.truthy ip || PyStr.truthy fp then
    match parse_exponent r2 with
    | Some e =>
        Some (PyNum.digits_val 0 (ip +++ fp), (e - Z.of_nat (String.length fp))%Z)
    | None => None
    end
  else None.

(** [float(s)]; [None] stands for [ValueError]. *)
Definition py_float (s : string) : option float :=
  match PyNum.drop_underscores false (PyNum.strip_c s) with
  | None => None
  | Some u =>
      let '(neg, body) := PyNum.take_sign u in
      let word := PyStr.lower body in
      if String.eqb word "inf" || String.eqb word "infinity"
      then Some (S754_infinity neg)
      else if String.eqb word "nan" then Some S754_nan
      else match parse_decimal body with
           | Some (m, e) => Some (of_decimal neg m e)
           | None => None
           end
  end.

(** Decimal output.  A finite non-zero float is the rational [p / q]. *)
Definition ratio_of (m : positive) (e : Z) : positive * positive :=
  match e with
  | Zneg n => (m, Pos.pow 2 n)
  | Z0 => (m, 1%positive)
  | Zpos n => ((m * Pos.pow 2 n)%positive, 1%positive)
  end.

(** number of decimal digits of a positive integer *)
Fixpoint ndigits_fuel (fuel : nat) (n : Z) : nat :=
  match fuel with
  | O => 1
  | S f => if (n <? 10)%Z then 1 else S (ndigits_fuel f (n / 10)%Z)
  end.

Definition ndigits (n : positive) : nat :=
  ndigits_fuel (Z.to_nat (Z.log2 (Zpos n))) (Zpos n).

(** [floor (p / q / 10^sh)] and whether twice the remainder is below, at or
    above the divisor *)
Definition scaled_floor (p q : positive) (sh : Z) : Z * comparison :=
  let '(num, den) :=
    if (0 <=? sh)%Z then (Zpos p, (Zpos q * 10 ^ sh)%Z)
    else ((Zpos p * 10 ^ (- sh))%Z, Zpos q) in
  ((num / den)%Z, (2 * (num mod den) ?= den)%Z).

(** the [k] with [10^k <= p / q < 10^(k+1)] *)
Definition floor_log10 (p q : positive) : Z :=
  let k0 := (Z.of_nat (ndigits p) - Z.of_nat (ndigits q))%Z in
  if (fst (scaled_floor p q k0) =? 0)%Z then (k0 - 1)%Z else k0.

(** The shortest decimal [d * 10^sh] that converts back to [x], trying
    1, 2, ... significant digits; among the two neighbours of [x] with that
    many digits the nearer one that converts back is taken. *)
Fixpoint shortest_fuel (fuel : nat) (x : float) (p q : positive) (k : Z) (nd : Z)
  : Z * Z :=
  let sh := (k - nd + 1)%Z in
  let '(lo, side) := scaled_floor p q sh in
  let hi := (lo + 1)%Z in
  let lo_ok := eqb (of_decimal false (Z.to_N lo) sh) x in
  let hi_ok := eqb (of_decimal false (Z.to_N hi) sh) x in
  let nearest :=
    match side with
    | Lt => lo
    | Gt => hi
    | Eq => if Z.even lo then lo else hi
    end in
  match fuel with
  | O => (nearest, sh)
  | S f =>
      if lo_ok && hi_ok then (nearest, sh)
      else if lo_ok then (lo, sh)
      else if hi_ok then (hi, sh)
      else shortest_fuel f x p q k (nd + 1)%Z
  end.

(** drop trailing zeros of the digit string, raising the exponent *)
Fixpoint strip_zeros_fuel (fuel : nat) (d sh : Z) : Z * Z :=
  match fuel with
  | O => (d, sh)
  | S f =>
      if ((d mod 10 =? 0) && (0 <? d))%Z then strip_zeros_fuel f (d / 10)%Z (sh + 1)%Z
      else (d, sh)
  end.

(** digits and position of the decimal point: the value is
    [0.d1d2...dn * 10^decpt] *)
Definition shortest_digits (m : positive) (e : Z) : string * Z :=
  let '(p, q) := ratio_of m e in
  let k := floor_log10 p q in
  let '(d0, sh0) := shortest_fuel 16 (S754_finite false m e) p q k 1 in
  let '(d, sh) := strip_zeros_fuel 17 d0 sh0 in
  let ds := NilZero.string_of_uint (N.to_uint (Z.to_N d)) in
  (ds, (Z.of_nat (String.length ds) + sh)%Z).

Definition zeros (n : nat) : string := string_of_list_ascii (repeat "0"%char n).

Definition str_Z_abs (z : Z) : string := NilZero.string_of_uint (N.to_uint (Z.abs_N z)).

(** the layout of [repr]: exponent form when [decpt <= -4] or [decpt > 16] *)
Definition layout_repr (ds : string) (decpt : Z) : string :=
  let n := String.length ds in
  if ((decpt <=? -4) || (16 <? decpt))%Z then
    let e := (decpt - 1)%Z in
    let mant :=
      match ds with
      | String c EmptyString => ds
      | String c rest => String c ("." +++ rest)
      | EmptyString => ds
      end in
    mant +++ "e" +++ (if (e <? 0)%Z then "-" else "+") +++ PyStr.zfill 2 (str_Z_abs e)
  else if (decpt <=? 0)%Z then "0." +++ zeros (Z.to_nat (- decpt)) +++ ds
  else if (Z.of_nat n <=? decpt)%Z then ds +++ zeros (Z.to_nat decpt - n) +++ ".0"
  else substring 0 (Z.to_nat decpt) ds +++ "." +++
       substring (Z.to_nat decpt) (n - Z.to_nat decpt) ds.

Definition sign_str (neg : bool) : string := if neg then "-" else "".

(** [repr(x)], which is also [str(x)] and what an f-string field [{x}] gives *)
Definition repr (x : float) : string :=
  match x with
  | S754_nan => "nan"
  | S754_infinity s => sign_str s +++ "inf"
  | S754_zero s => sign_str s +++ "0.0"
  | S754_finite s m e =>
      let '(ds, decpt) := shortest_digits m e in
      sign_str s +++ layout_repr ds decpt
  end.

(** Fixed-point formatting, [format(x, '.Nf')] and [format(x, ',.Nf')]. *)

(** [round (p / q * 10^nd)], ties to even *)
Definition round_scaled (p q : positive) (nd : nat) : Z :=
  let '(fl, side) := scaled_floor p q (- Z.of_nat nd) in
  match side with
  | Lt => fl
  | Gt => (fl + 1)%Z
  | Eq => if Z.even fl then fl else (fl + 1)%Z
  end.

(** a comma before every group of three digits, counted from the right;
    [n] is the length of [s] *)
Fixpoint group3 (n : nat) (s : string) : string :=
  match s with
  | EmptyString => EmptyString
  | String c s' =>
      let rest := group3 (n - 1) s' in
      if PyStr.truthy s' && ((n - 1) mod 3 =? 0) then String c ("," +++ rest)
      else String c rest
  end.

(** the digits of the scaled integer [v] laid out with [nd] decimals *)
Definition layout_fixed (grouping : bool) (nd : nat) (v : Z) : string :=
  let ds := PyStr.zfill (nd + 1) (str_Z_abs v) in
  let n := String.length ds in
  let ip := substring 0 (n - nd) ds in
  let fp := substring (n - nd) nd ds in
  (if grouping then group3 (String.length ip) ip else ip) +++
  (match nd with O => "" | S _ => "." +++ fp end).

Definition format_f (grouping : bool) (nd : nat) (x : float) : string :=
  match x with
  | S754_nan => "nan"
  | S754_infinity s => sign_str s +++ "inf"
  | S754_zero s => sign_str s +++ layout_fixed grouping nd 0
  | S754_finite s m e =>
      let '(p, q) := ratio_of m e in
      sign_str s +++ layout_fixed grouping nd (round_scaled p q nd)
  end.

(** The characters [repr] writes: digits, the point, the exponent mark,
    signs and the letters of [inf] and [nan]. *)
Definition repr_char (c : ascii) : bool :=
  PyStr.isdigit c || PyStr.contains c ".e+-infa".

End PyFloat.

(** ** [datetime]: calendar dates, [strptime] with ['%Y-%m-%d'], [isoformat] *)

Module Datetime.

Record date : Type := mkdate { year : nat; month : nat; day : nat }.

Record datetime : Type := mkdatetime {
  dt_date : date;
  hour : nat;
  minute : nat;
  second : nat;
  microsecond : nat
}.

Definition is_leap (y : nat) : bool :=
  (y mod 4 =? 0) && (negb (y mod 100 =? 0) || (y mod 400 =? 0)).

Definition days_in_month (y m : nat) : nat :=
  match m with
  | 1 | 3 | 5 | 7 | 8 | 10 | 12 => 31
  | 4 | 6 | 9 | 11 => 30
  | 2 => if is_leap y then 29 else 28
  | _ => 0
  end.

(** Dates and datetimes are ordered field by field. *)
Definition lex (c1 c2 : comparison) : comparison :=
  match c1 with Eq => c2 | _ => c1 end.

Definition date_compare (a b : date) : comparison :=
  lex (year a ?= year b) (lex (month a ?= month b) (day a ?= day b)).

Definition datetime_compare (a b : datetime) : comparison :=
  lex (date_compare (dt_date a) (dt_date b))
   (lex (hour a ?= hour b)
     (lex (minute a ?= minute b)
       (lex (second a ?= second b) (microsecond a ?= microsecond b)))).

Definition date_leb (a b : date) : bool :=
  match date_compare a b with Gt => false | _ => true end.

Definition datetime_ltb (a b : datetime) : bool :=
  match datetime_compare a b with Lt => true | _ => false end.

(** [a >= b] *)
Definition datetime_geb (a b : datetime) : bool := negb (datetime_ltb a b).

(** [a <= b] *)
Definition datetime_leb (a b : datetime) : bool :=
  match datetime_compare a b with Gt => false | _ => true end.

Definition digit_of (c : ascii) : option nat :=
  if PyStr.isdigit c then Some (PyStr.ord c - 48) else None.

Definition nonzero_digit (c : ascii) : bool := PyStr.in_range 49 57 c.

(** [%m]: the alternatives [1[0-2]], [0[1-9]], [[1-9]], in this order *)
Definition parse_month (s : string) : option (nat * string) :=
  match s with
  | String c1 rest =>
      match rest with
      | String c2 rest2 =>
          if Ascii.eqb c1 "1" && PyStr.in_range 48 50 c2
          then Some (10 + (PyStr.ord c2 - 48), rest2)
          else if Ascii.eqb c1 "0" && nonzero_digit c2
          then Some (PyStr.ord c2 - 48, rest2)
          else if nonzero_digit c1 then Some (PyStr.ord c1 - 48, rest)
          else None
      | EmptyString =>
          if nonzero_digit c1 then Some (PyStr.ord c1 - 48, rest) else None
      end
  | EmptyString => None
  end.

(** [%d]: [3[0-1]], [[1-2]\d], [0[1-9]], [[1-9]], a space and [[1-9]] *)
Definition parse_day (s : string) : option (nat * string) :=
  match s with
  | String c1 rest =>
      match rest with
      | String c2 rest2 =>
          if Ascii.eqb c1 "3" && PyStr.in_range 48 49 c2
          then Some (30 + (PyStr.ord c2 - 48), rest2)
          else if PyStr.in_range 49 50 c1 && PyStr.isdigit c2
          then Some (10 * (PyStr.ord c1 - 48) + (PyStr.ord c2 - 48), rest2)
          else if Ascii.eqb c1 "0" && nonzero_digit c2
          then Some (PyStr.ord c2 - 48, rest2)
          else if nonzero_digit c1 then Some (PyStr.ord c1 - 48, rest)
          else if Ascii.eqb c1 " " && nonzero_digit c2
          then Some (PyStr.ord c2 - 48, rest2)
          else None
      | EmptyString =>
          if nonzero_digit c1 then Some (PyStr.ord c1 - 48, rest) else None
      end
  | EmptyString => None
  end.

(** [%Y]: exactly four digits *)
Definition parse_year (s : string) : option (nat * string) :=
  match s with
  | String a (String b (String c (String d rest))) =>
      match digit_of a, digit_of b, digit_of c, digit_of d with
      | Some x, Some y, Some z, Some w =>
          Some (1000 * x + 100 * y + 10 * z + w, rest)
      | _, _, _, _ => None
      end
  | _ => None
  end.

Definition expect (c : ascii) (s : string) : option string :=
  match s with
  | String d rest => if Ascii.eqb d c then Some rest else None
  | EmptyString => None
  end.

(** [datetime.strptime(s, '%Y-%m-%d').date()]; [None] stands for
    [ValueError].  The whole string must be consumed, the year must be at
    least 1 and the day must exist in the month. *)
Definition strptime_date (s : string) : option date :=
  match parse_year s with
  | Some (y, r1) =>
    match expect "-" r1 with
    | Some r2 =>
      match parse_month r2 with
      | Some (m, r3) =>
        match expect "-" r3 with
        | Some r4 =>
          match parse_day r4 with
          | Some (d, EmptyString) =>
              if (1 <=? y) && (d <=? days_in_month y m)
              then Some (mkdate y m d) else None
          | _ => None
          end
        | None => None
        end
      | None => None
      end
    | None => None
    end
  | None => None
  end.

(** [datetime.strptime(s, '%Y-%m-%d')]: midnight of that date *)
Definition strptime (s : string) : option datetime :=
  option_map (fun d => mkdatetime d 0 0 0 0) (strptime_date s).

Definition pad (w n : nat) : string := PyStr.zfill w (PyStr.str_nat n).

(** [dt.isoformat()] *)
Definition isoformat (t : datetime) : string :=
  pad 4 (year (dt_date t)) +++ "-" +++ pad 2 (month (dt_date t)) +++ "-" +++
  pad 2 (day (dt_date t)) +++ "T" +++ pad 2 (hour t) +++ ":" +++
  pad 2 (minute t) +++ ":" +++ pad 2 (second t) +++
  (match microsecond t with
   | O => ""
   | us => "." +++ pad 6 us
   end).

End Datetime.

(** ** SHA-256, as [hashlib.sha256(data).hexdigest()] *)

Module Sha256.

Local Open Scope N_scope.

Definition mask32 : N := 0xffffffff.
Definition w32 (x : N) : N := N.land x mask32.

Definition rotr (n x : N) : N := w32 (N.lor (N.shiftr x n) (N.shiftl x (32 - n))).
Definition shr (n x : N) : N := N.shiftr x n.

Definition Ch (x y z : N) : N := N.lxor (N.land x y) (N.land (N.lxor x mask32) z).
Definition Maj (x y z : N) : N :=
  N.lxor (N.lxor (N.land x y) (N.land x z)) (N.land y z).
Definition Sigma0 (x : N) : N := N.lxor (N.lxor (rotr 2 x) (rotr 13 x)) (rotr 22 x).
Definition Sigma1 (x : N) : N := N.lxor (N.lxor (rotr 6 x) (rotr 11 x)) (rotr 25 x).
Definition sigma0 (x : N) : N := N.lxor (N.lxor (rotr 7 x) (rotr 18 x)) (shr 3 x).
Definition sigma1 (x : N) : N := N.lxor (N.lxor (rotr 17 x) (rotr 19 x)) (shr 10 x).

(** The round constants are the first 32 bits of the fractional parts of
    the cube roots of the first 64 primes, the initial state those of the
    square roots of the first 8. *)
Definition is_prime (n : nat) : bool :=
  forallb (fun d => negb (n mod d =? 0)%nat) (seq 2 (n - 2)).

Definition primes : list nat := filter is_prime (seq 2 310).

(** the integer cube root, one bit at a time from bit [n - 1] down *)
Fixpoint cbrt_bits (n : nat) (x acc : N) : N :=
  match n with
  | O => acc
  | S k =>
      let cand := acc + N.shiftl 1 (N.of_nat k) in
      if cand * cand * cand <=? x then cbrt_bits k x cand else cbrt_bits k x acc
  end.

Definition frac_cbrt (p : nat) : N := w32 (cbrt_bits 36 (N.shiftl (N.of_nat p) 96) 0).
Definition frac_sqrt (p : nat) : N := w32 (N.sqrt (N.shiftl (N.of_nat p) 64)).

Definition K : list N := Eval vm_compute in map frac_cbrt primes.

Definition H0 : list N := Eval vm_compute in map frac_sqrt (firstn 8 primes).

(** the message followed by the bit 1, zeros, and its length in bits as a
    64-bit big-endian number, to a multiple of 64 bytes *)
Definition be_bytes (width : nat) (x : N) : list N :=
  map (fun i => N.land (N.shiftr x (8 * N.of_nat i)) 0xff) (rev (seq 0 width)).

Definition pad (msg : list N) : list N :=
  let len := List.length msg in
  let zeros := ((119 - len mod 64) mod 64)%nat in
  msg ++ [0x80] ++ repeat 0 zeros ++ be_bytes 8 (8 * N.of_nat len).

Fixpoint words (fuel : nat) (bytes : list N) : list N :=
  match fuel, bytes with
  | S f, a :: b :: c :: d :: rest =>
      (N.shiftl a 24 + N.shiftl b 16 + N.shiftl c 8 + d) :: words f rest
  | _, _ => []
  end.

(** the message schedule, most recent word first *)
Fixpoint schedule (n : nat) (w : list N) : list N :=
  match n with
  | O => w
  | S k =>
      let at_ i := nth i w 0 in
      schedule k (w32 (sigma1 (at_ 1%nat) + at_ 6%nat + sigma0 (at_ 14%nat) + at_ 15%nat) :: w)
  end.

Definition state : Type := (N * N * N * N * N * N * N * N)%type.

Definition round (s : state) (kw : N * N) : state :=
  let '(a, b, c, d, e, f, g, h) := s in
  let t1 := h + Sigma1 e + Ch e f g + fst kw + snd kw in
  let t2 := Sigma0 a + Maj a b c in
  (w32 (t1 + t2), a, b, c, w32 (d + t1), e, f, g).

Definition compress (s : state) (block : list N) : state :=
  let w := rev (schedule 48 (rev block)) in
  let '(a, b, c, d, e, f, g, h) := s in
  let '(a', b', c', d', e', f', g', h') := fold_left round (combine K w) s in
  (w32 (a + a'), w32 (b + b'), w32 (c + c'), w32 (d + d'),
   w32 (e + e'), w32 (f + f'), w32 (g + g'), w32 (h + h')).

Fixpoint blocks (fuel : nat) (ws : list N) : list (list N) :=
  match fuel, ws with
  | S f, _ :: _ => firstn 16 ws :: blocks f (skipn 16 ws)
  | _, _ => []
  end.

Definition initial : state :=
  match H0 with
  | [a; b; c; d; e; f; g; h] => (a, b, c, d, e, f, g, h)
  | _ => (0, 0, 0, 0, 0, 0, 0, 0)
  end.

Definition digest_words (msg : list N) : list N :=
  let bytes := pad msg in
  let ws := words (List.length bytes) bytes in
  let '(a, b, c, d, e, f, g, h) :=
    fold_left compress (blocks (List.length ws) ws) initial in
  [a; b; c; d; e; f; g; h].

Definition hex_digit (n : N) : ascii :=
  nth (N.to_nat n) (list_ascii_of_string "0123456789abcdef") "0"%char.

Definition hex8 (x : N) : string :=
  string_of_list_ascii
    (map (fun i => hex_digit (N.land (N.shiftr x (4 * N.of_nat i)) 0xf)) (rev (seq 0 8))).

(** [hashlib.sha256(s.encode()).hexdigest()] *)
Definition hexdigest (s : string) : string :=
  String.concat ""
    (map hex8 (digest_words (map N_of_ascii (list_ascii_of_string s)))).

End Sha256.

(** ** Records, the process state and the monad of operations *)

Import PyFloat.

Definition nl : string := String "010" EmptyString.   (* "\n" *)
Definition cr : string := String "013" EmptyString.   (* "\r" *)

(** A user record, the dictionary built by [create_user] and [load_data]. *)
Record user : Type := mkuser {
  u_first_name : string;
  u_last_name : string;
  u_email : string;
  u_password_hash : string;
  u_mobile : string;
  u_is_active : bool;
  u_created_at : string
}.

(** A project record, the dictionary built by [create_project_data] and
    [load_data]. *)
Record project : Type := mkproject {
  p_title : string;
  p_details : string;
  p_total_target : float;
  p_start_date : string;
  p_end_date : string;
  p_owner_email : string;
  p_created_at : string;
  p_current_amount : float
}.

(** A Python [dict] with string keys: the items in insertion order. *)
Definition dict (V : Type) : Type := list (string * V).

Fixpoint dict_get {V} (k : string) (d : dict V) : option V :=
  match d with
  | [] => None
  | (k', v) :: d' => if String.eqb k' k then Some v else dict_get k d'
  end.

(** [k in d] *)
Definition dict_in {V} (k : string) (d : dict V) : bool :=
  match dict_get k d with Some _ => true | None => false end.

(** [d[k] = v]: an existing key keeps its place, a new key goes last. *)
Fixpoint dict_set {V} (k : string) (v : V) (d : dict V) : dict V :=
  match d with
  | [] => [(k, v)]
  | (k', v') :: d' =>
      if String.eqb k' k then (k, v) :: d' else (k', v') :: dict_set k v d'
  end.

(** The state of a data file. *)
Inductive file : Type :=
| NoFile                       (* [os.path.exists] is false *)
| Unreadable                   (* exists, and opening or decoding it fails *)
| Text (content : string).

Record world : Type := mkworld {
  users_data : dict user;               (* storage.users_data *)
  projects_data : list project;         (* storage.projects_data *)
  current_user_email : option string;   (* storage.current_user_email *)
  users_file : file;                    (* users.txt *)
  projects_file : file;                 (* projects.txt *)
  stdin : list string;                  (* the lines still to be read *)
  stdout : list string;                 (* what was written, oldest first *)
  clock : Datetime.datetime             (* what [datetime.now()] returns *)
}.

Definition set_users_data (v : dict user) (w : world) : world :=
  mkworld v (projects_data w) (current_user_email w) (users_file w)
          (projects_file w) (stdin w) (stdout w) (clock w).
Definition set_projects_data (v : list project) (w : world) : world :=
  mkworld (users_data w) v (current_user_email w) (users_file w)
          (projects_file w) (stdin w) (stdout w) (clock w).
Definition set_current_user_email (v : option string) (w : world) : world :=
  mkworld (users_data w) (projects_data w) v (users_file w)
          (projects_file w) (stdin w) (stdout w) (clock w).
Definition set_users_file (v : file) (w : world) : world :=
  mkworld (users_data w) (projects_data w) (current_user_email w) v
          (projects_file w) (stdin w) (stdout w) (clock w).
Definition set_projects_file (v : file) (w : world) : world :=
  mkworld (users_data w) (projects_data w) (current_user_email w) (users_file w)
          v (stdin w) (stdout w) (clock w).
Definition set_stdin (v : list string) (w : world) : world :=
  mkworld (users_data w) (projects_data w) (current_user_email w) (users_file w)
          (projects_file w) v (stdout w) (clock w).
Definition set_stdout (v : list string) (w : world) : world :=
  mkworld (users_data w) (projects_data w) (current_user_email w) (users_file w)
          (projects_file w) (stdin w) v (clock w).

(** The outcome of a call: a value, or an exception that propagates. *)
Inductive result (A : Type) : Type :=
| Ok (a : A)
| Raise (e : exn).
Arguments Ok {A} a.
Arguments Raise {A} e.

Definition M (A : Type) : Type := world -> result A * world.

Definition ret {A} (a : A) : M A := fun w => (Ok a, w).
Definition raise {A} (e : exn) : M A := fun w => (Raise e, w).

Definition bind {A B} (c : M A) (k : A -> M B) : M B :=
  fun w =>
    match c w with
    | (Ok a, w') => k a w'
    | (Raise e, w') => (Raise e, w')
    end.

Notation "x <- c1 ;; c2" := (bind c1 (fun x => c2))
  (at level 61, c1 at next level, right associativity).
Notation "c1 ;; c2" := (bind c1 (fun _ => c2))
  (at level 61, right associativity).

Definition get : M world := fun w => (Ok w, w).
Definition modify (f : world -> world) : M unit := fun w => (Ok tt, f w).

(** [print(s)] *)
Definition print (s : string) : M unit :=
  modify (fun w => set_stdout (stdout w ++ [s +++ nl]) w).

(** [input(prompt)]: writes the prompt and reads one line, without its
    newline; at end of input it raises [EOFError]. *)
Definition input (prompt : string) : M string :=
  fun w =>
    let w1 := set_stdout (stdout w ++ [prompt]) w in
    match stdin w with
    | [] => (Raise EOFError, w1)
    | line :: rest => (Ok line, set_stdin rest w1)
    end.

(** [datetime.now()] *)
Definition now : M Datetime.datetime := fun w => (Ok (clock w), w).

(** [for x in l: body(x)] *)
Fixpoint for_each {A} (l : list A) (body : A -> M unit) : M unit :=
  match l with
  | [] => ret tt
  | x :: l' => body x ;; for_each l' body
  end.

(** [enumerate(l, 1)] *)
Definition enumerate1 {A} (l : list A) : list (nat * A) :=
  combine (seq 1 (List.length l)) l.

(** ** validation.py *)

Module validation.

Import Re.

(** [(\+20|0020|20)?] *)
Definition country_code : regex :=
  Opt (Alt (Lit "+20") (Alt (Lit "0020") (Lit "20"))).

(** [^(\+20|0020|20)?01[0125][0-9]{8}$] *)
Definition mobile_pattern : regex :=
  Cat country_code
      (Cat (Lit "01") (Cat (Class (one_of "0125")) (Rep 8 (Class digit)))).

(** [^(\+20|0020|20)?02[0-9]{8}$] *)
Definition landline_pattern : regex :=
  Cat country_code (Cat (Lit "02") (Rep 8 (Class digit))).

Definition patterns : list regex := [mobile_pattern; landline_pattern].

(** the class [[\s\-\(\)]] *)
Definition phone_noise (c : ascii) : bool := space c || one_of "-()" c.

Definition validate_egyptian_phone (phone : string) : bool :=
  let phone := sub_class_empty phone_noise phone in
  existsb (fun pattern => match_anchored pattern phone) patterns.

(** [[a-zA-Z0-9._%+-]] and [[a-zA-Z0-9.-]] *)
Definition local_char (c : ascii) : bool := letter c || digit c || one_of "._%+-" c.
Definition domain_char (c : ascii) : bool := letter c || digit c || one_of ".-" c.

(** [^[a-zA-Z0-9._%+-]+@[a-zA-Z0-9.-]+\.[a-zA-Z]{2,}$] *)
Definition email_pattern : regex :=
  Cat (Plus (Class local_char))
      (Cat (Chr "@")
           (Cat (Plus (Class domain_char))
                (Cat (Chr ".") (AtLeast 2 (Class letter))))).

Definition validate_email (email : string) : bool :=
  match_anchored email_pattern email.

Definition validate_date (date_str : string) : bool :=
  match Datetime.strptime date_str with
  | Some _ => true
  | None => false
  end.

(** The truth value of what [validate_name] returns. *)
Definition validate_name (name : string) : bool :=
  if negb (PyStr.truthy name) || negb (PyStr.truthy (PyStr.strip name)) then false
  else PyStr.forallb_str (fun char => PyStr.isalpha char || PyStr.isspace char)
                         (PyStr.strip name)
       && PyStr.truthy (PyStr.strip name).

(** Returns the pair [(is_valid, error_msg)].  The bare [except] turns every
    failure of [strptime] into the third message. *)
Definition validate_date_range (start_date end_date : string) : M (bool * string) :=
  match Datetime.strptime start_date with
  | None => ret (false, "Invalid date format!")
  | Some start_dt =>
      match Datetime.strptime end_date with
      | None => ret (false, "Invalid date format!")
      | Some end_dt =>
          if Datetime.datetime_geb start_dt end_dt
          then ret (false, "End date must be after start date!")
          else
            t <- now ;;
            if Datetime.datetime_ltb start_dt t
            then ret (false, "Start date cannot be in the past!")
            else ret (true, "")
      end
  end.

End validation.

(** ** data_storage.py *)

Module data_storage.

(** Reading a text file: with universal newlines a carriage return, alone
    or before a line feed, is read as a line feed. *)
Fixpoint universal_newlines (s : string) : string :=
  match s with
  | EmptyString => EmptyString
  | String c s' =>
      if Ascii.eqb c "013" then
        match s' with
        | String "010" s'' => String "010" (universal_newlines s'')
        | _ => String "010" (universal_newlines s')
        end
      else String c (universal_newlines s')
  end.

(** [for line in f]: the lines, each with the line feed that ends it. *)
Fixpoint readlines (s : string) : list string :=
  match s with
  | EmptyString => []
  | String c s' =>
      if Ascii.eqb c "010" then nl :: readlines s'
      else match readlines s' with
           | [] => [String c EmptyString]
           | l :: ls => String c l :: ls
           end
  end.

Definition file_lines (content : string) : list string :=
  readlines (universal_newlines content).

(** One iteration of the loop over the users file. *)
Definition load_user_line (users : dict user) (line : string) : dict user :=
  let line := PyStr.strip line in
  if PyStr.truthy line then
    let parts := PyStr.split "|" line in
    if List.length parts =? 7 then
      let part i := nth i parts EmptyString in
      let email := part 0 in
      dict_set email
        (mkuser (part 1) (part 2) email (part 3) (part 4)
                (String.eqb (PyStr.lower (part 5)) "true") (part 6))
        users
    else users
  else users.

(** One iteration of the loop over the projects file; [float] may raise. *)
Definition load_project_line (projects : list project) (line : string)
  : exn + list project :=
  let line := PyStr.strip line in
  if PyStr.truthy line then
    let parts := PyStr.split "|" line in
    if List.length parts =? 8 then
      let part i := nth i parts EmptyString in
      match py_float (part 2) with
      | None => inl ValueError
      | Some total_target =>
          match py_float (part 7) with
          | None => inl ValueError
          | Some current_amount =>
              inr (projects ++
                   [mkproject (part 0) (part 1) total_target (part 3) (part 4)
                              (part 5) (part 6) current_amount])
          end
      end
    else inr projects
  else inr projects.

Fixpoint load_project_lines (projects : list project) (lines : list string)
  : exn + list project :=
  match lines with
  | [] => inr projects
  | line :: rest =>
      match load_project_line projects line with
      | inl e => inl e
      | inr projects' => load_project_lines projects' rest
      end
  end.

(** The body of the first [try], and its [except] clause. *)
Definition read_users (f : file) : exn + dict user :=
  match f with
  | Text content => inr (fold_left load_user_line (file_lines content) [])
  | _ => inl OSError
  end.

Definition read_projects (f : file) : exn + list project :=
  match f with
  | Text content => load_project_lines [] (file_lines content)
  | _ => inl OSError
  end.

Definition load_data : M unit :=
  w <- get ;;
  (match users_file w with
   | NoFile => ret tt
   | f =>
       match read_users f with
       | inr users => modify (set_users_data users)
       | inl _ => modify (set_users_data [])
       end
   end) ;;
  (match projects_file w with
   | NoFile => ret tt
   | f =>
       match read_projects f with
       | inr projects => modify (set_projects_data projects)
       | inl _ => modify (set_projects_data [])
       end
   end).

Definition user_line (u : user) : string :=
  u_email u +++ "|" +++ u_first_name u +++ "|" +++ u_last_name u +++ "|" +++
  u_password_hash u +++ "|" +++ u_mobile u +++ "|" +++
  PyStr.str_bool (u_is_active u) +++ "|" +++ u_created_at u +++ nl.

Definition project_line (p : project) : string :=
  p_title p +++ "|" +++ p_details p +++ "|" +++ repr (p_total_target p) +++ "|" +++
  p_start_date p +++ "|" +++ p_end_date p +++ "|" +++ p_owner_email p +++ "|" +++
  p_created_at p +++ "|" +++ repr (p_current_amount p) +++ nl.

(** Both files are rewritten from the registries; writing is taken to
    succeed. *)
Definition save_data : M unit :=
  w <- get ;;
  modify (set_users_file
            (Text (String.concat "" (map (fun kv => user_line (snd kv)) (users_data w))))) ;;
  modify (set_projects_file
            (Text (String.concat "" (map project_line (projects_data w))))).

Definition get_current_user : M (option user) :=
  w <- get ;;
  match current_user_email w with
  | Some e =>
      if PyStr.truthy e && dict_in e (users_data w)
      then ret (dict_get e (users_data w))
      else ret None
  | None => ret None
  end.

Definition set_current_user (email : string) : M unit :=
  modify (set_current_user_email (Some email)).

Definition clear_current_user : M unit :=
  modify (set_current_user_email None).

End data_storage.

(** ** user_auth.py *)

Module user_auth.

Import validation data_storage.

Definition hash_password (password : string) : string :=
  Sha256.hexdigest password.

Definition verify_password (stored_hash password : string) : bool :=
  String.eqb stored_hash (hash_password password).

Definition create_user (first_name last_name email password mobile : string)
  : M user :=
  t <- now ;;
  ret (mkuser first_name last_name email (hash_password password) mobile
              false (Datetime.isoformat t)).

(** [storage.users_data[email]['is_active'] = True] *)
Definition activate_user (email : string) : M unit :=
  w <- get ;;
  match dict_get email (users_data w) with
  | Some u =>
      modify (set_users_data
                (dict_set email
                   (mkuser (u_first_name u) (u_last_name u) (u_email u)
                           (u_password_hash u) (u_mobile u) true (u_created_at u))
                   (users_data w)))
  | None => raise KeyError
  end.

Definition register_user : M bool :=
  print (nl +++ "=== REGISTRATION ===") ;;
  first_name <- input "First Name: " ;;
  let first_name := PyStr.strip first_name in
  if negb (validate_name first_name) then
    print "❌ First name must contain only letters and spaces!" ;; ret false
  else
  last_name <- input "Last Name: " ;;
  let last_name := PyStr.strip last_name in
  if negb (validate_name last_name) then
    print "❌ Last name must contain only letters and spaces!" ;; ret false
  else
  email <- input "Email: " ;;
  let email := PyStr.lower (PyStr.strip email) in
  if negb (validate_email email) then
    print "❌ Invalid email format!" ;; ret false
  else
  w <- get ;;
  if dict_in email (users_data w) then
    print "❌ Email already exists!" ;; ret false
  else
  password <- input "Password: " ;;
  let password := PyStr.strip password in
  if String.length password <? 6 then
    print "❌ Password must be at least 6 characters!" ;; ret false
  else
  confirm_password <- input "Confirm Password: " ;;
  let confirm_password := PyStr.strip confirm_password in
  if negb (String.eqb password confirm_password) then
    print "❌ Passwords don't match!" ;; ret false
  else
  mobile <- input "Mobile Phone: " ;;
  let mobile := PyStr.strip mobile in
  if negb (validate_egyptian_phone mobile) then
    print "❌ Invalid Egyptian phone number format!" ;; ret false
  else
  user <- create_user first_name last_name email password mobile ;;
  modify (fun w => set_users_data (dict_set email user (users_data w)) w) ;;
  save_data ;;
  print "✅ Registration successful!" ;;
  print "⚠️  Account created but not activated. Please activate your account to login." ;;
  activate <- input "Activate account now? (y/n): " ;;
  let activate := PyStr.lower activate in
  (if String.eqb activate "y" then
     activate_user email ;;
     save_data ;;
     print "✅ Account activated!"
   else ret tt) ;;
  ret true.

Definition login_user : M bool :=
  print (nl +++ "=== LOGIN ===") ;;
  email <- input "Email: " ;;
  let email := PyStr.lower (PyStr.strip email) in
  password <- input "Password: " ;;
  let password := PyStr.strip password in
  w <- get ;;
  match dict_get email (users_data w) with
  | None => print "❌ Email not found!" ;; ret false
  | Some user =>
      if negb (u_is_active user) then
        print "❌ Account not activated!" ;; ret false
      else if negb (verify_password (u_password_hash user) password) then
        print "❌ Invalid password!" ;; ret false
      else
        set_current_user email ;;
        print ("✅ Welcome, " +++ u_first_name user +++ " " +++ u_last_name user +++ "!") ;;
        ret true
  end.

Definition logout_user : M unit :=
  clear_current_user ;;
  print "✅ Logged out successfully!".

End user_auth.

(** ** project_manager.py *)

Module project_manager.

Import validation data_storage.

Definition create_project_data
  (title details : string) (total_target : float)
  (start_date end_date owner_email : string) : M project :=
  t <- now ;;
  ret (mkproject title details total_target start_date end_date owner_email
                 (Datetime.isoformat t) zero).

Definition create_new_project : M bool :=
  current_user <- get_current_user ;;
  match current_user with
  | None => print "❌ Please login first!" ;; ret false
  | Some current_user =>
  print (nl +++ "=== CREATE PROJECT ===") ;;
  title <- input "Project Title: " ;;
  let title := PyStr.strip title in
  if negb (PyStr.truthy title) then
    print "❌ Title cannot be empty!" ;; ret false
  else
  details <- input "Project Details: " ;;
  let details := PyStr.strip details in
  if negb (PyStr.truthy details) then
    print "❌ Details cannot be empty!" ;; ret false
  else
  target_text <- input "Total Target (EGP): " ;;
  match py_float target_text with
  | None => print "❌ Invalid target amount!" ;; ret false
  | Some total_target =>
  if leb total_target (of_Z 0) then
    print "❌ Target must be positive!" ;; ret false
  else
  start_date <- input "Start Date (YYYY-MM-DD): " ;;
  let start_date := PyStr.strip start_date in
  if negb (validate_date start_date) then
    print "❌ Invalid start date format!" ;; ret false
  else
  end_date <- input "End Date (YYYY-MM-DD): " ;;
  let end_date := PyStr.strip end_date in
  if negb (validate_date end_date) then
    print "❌ Invalid end date format!" ;; ret false
  else
  range <- validate_date_range start_date end_date ;;
  let '(is_valid, error_msg) := range in
  if negb is_valid then
    print ("❌ " +++ error_msg) ;; ret false
  else
  project <- create_project_data title details total_target start_date end_date
                                 (u_email current_user) ;;
  modify (fun w => set_projects_data (projects_data w ++ [project]) w) ;;
  save_data ;;
  print "✅ Project created successfully!" ;;
  ret true
  end
  end.

(** [(project['current_amount'] / project['total_target']) * 100] *)
Definition progress_of (p : project) : M float :=
  match div (p_current_amount p) (p_total_target p) with
  | inl e => raise e
  | inr ratio => ret (mul ratio (of_Z 100))
  end.

Definition print_amounts (p : project) (progress : float) : M unit :=
  print ("   Target: " +++ format_f true 2 (p_total_target p) +++ " EGP") ;;
  print ("   Progress: " +++ format_f true 2 (p_current_amount p) +++ " EGP (" +++
         format_f false 1 progress +++ "%)") ;;
  print ("   Duration: " +++ p_start_date p +++ " to " +++ p_end_date p).

(** The body of the listing loops; [with_owner] tells the listings that
    show the owner from [view_my_projects], which does not. *)
Definition print_project (with_owner : bool) (ip : nat * project) : M unit :=
  let '(i, p) := ip in
  progress <- progress_of p ;;
  print (nl +++ PyStr.str_nat i +++ ". " +++ p_title p) ;;
  (if with_owner then print ("   Owner: " +++ p_owner_email p) else ret tt) ;;
  print ("   Details: " +++ p_details p) ;;
  print_amounts p progress.

Definition view_all_projects : M unit :=
  print (nl +++ "=== ALL PROJECTS ===") ;;
  w <- get ;;
  match projects_data w with
  | [] => print "No projects available."
  | projects => for_each (enumerate1 projects) (print_project true)
  end.

(** A reference to a project dictionary: its position in
    [storage.projects_data]. *)
Definition ref : Type := nat.

Definition owned_by (email : string) (p : project) : bool :=
  String.eqb (p_owner_email p) email.

Fixpoint refs_from (i : nat) (email : string) (projects : list project) : list ref :=
  match projects with
  | [] => []
  | p :: rest =>
      if owned_by email p then i :: refs_from (S i) email rest
      else refs_from (S i) email rest
  end.

(** [[p for p in storage.projects_data if p['owner_email'] == email]]: the
    list holds the dictionaries of the registry themselves. *)
Definition get_user_projects (email : string) : M (list ref) :=
  w <- get ;;
  ret (refs_from 0 email (projects_data w)).

(** reading through a reference *)
Definition deref (r : ref) : M project :=
  w <- get ;;
  match nth_error (projects_data w) r with
  | Some p => ret p
  | None => raise KeyError
  end.

Definition view_my_projects : M unit :=
  current_user <- get_current_user ;;
  match current_user with
  | None => print "❌ Please login first!"
  | Some current_user =>
      print (nl +++ "=== MY PROJECTS ===") ;;
      my_projects <- get_user_projects (u_email current_user) ;;
      match my_projects with
      | [] => print "You haven't created any projects yet."
      | _ =>
          for_each (enumerate1 my_projects)
            (fun ir => p <- deref (snd ir) ;; print_project false (fst ir, p))
      end
  end.

Fixpoint list_update {A} (r : nat) (f : A -> A) (l : list A) : list A :=
  match l, r with
  | [], _ => []
  | x :: l', O => f x :: l'
  | x :: l', S r' => x :: list_update r' f l'
  end.

(** writing through a reference: [project[key] = value] *)
Definition assign (r : ref) (f : project -> project) : M unit :=
  modify (fun w => set_projects_data (list_update r f (projects_data w)) w).

Definition with_title (v : string) (p : project) : project :=
  mkproject v (p_details p) (p_total_target p) (p_start_date p) (p_end_date p)
            (p_owner_email p) (p_created_at p) (p_current_amount p).
Definition with_details (v : string) (p : project) : project :=
  mkproject (p_title p) v (p_total_target p) (p_start_date p) (p_end_date p)
            (p_owner_email p) (p_created_at p) (p_current_amount p).
Definition with_total_target (v : float) (p : project) : project :=
  mkproject (p_title p) (p_details p) v (p_start_date p) (p_end_date p)
            (p_owner_email p) (p_created_at p) (p_current_amount p).

(** The numbered list of titles shown before a selection. *)
Definition print_titles (my_projects : list ref) : M unit :=
  for_each (enumerate1 my_projects)
    (fun ir => p <- deref (snd ir) ;;
               print (PyStr.str_nat (fst ir) +++ ". " +++ p_title p)).

(** [int(input(prompt)) - 1] checked against the list: the selected
    reference, or [None] after the message for a bad selection. *)
Definition select_project (prompt : string) (my_projects : list ref)
  : M (option ref) :=
  text <- input prompt ;;
  match PyNum.py_int text with
  | None => print "❌ Invalid input!" ;; ret None
  | Some n =>
      let choice := (n - 1)%Z in
      if (choice <? 0)%Z || (Z.of_nat (List.length my_projects) <=? choice)%Z then
        print "❌ Invalid selection!" ;; ret None
      else
        match nth_error my_projects (Z.to_nat choice) with
        | Some project => ret (Some project)
        | None => raise KeyError
        end
  end.

Definition edit_user_project : M bool :=
  current_user <- get_current_user ;;
  match current_user with
  | None => print "❌ Please login first!" ;; ret false
  | Some current_user =>
  my_projects <- get_user_projects (u_email current_user) ;;
  match my_projects with
  | [] => print "❌ You have no projects to edit!" ;; ret false
  | _ =>
  print (nl +++ "=== EDIT PROJECT ===") ;;
  print "Your projects:" ;;
  print_titles my_projects ;;
  selected <- select_project "Select project number to edit: " my_projects ;;
  match selected with
  | None => ret false
  | Some project =>
  p <- deref project ;;
  print (nl +++ "Editing: " +++ p_title p) ;;
  print "Press Enter to keep current value." ;;
  new_title <- input ("Title (" +++ p_title p +++ "): ") ;;
  let new_title := PyStr.strip new_title in
  (if PyStr.truthy new_title then assign project (with_title new_title) else ret tt) ;;
  p <- deref project ;;
  new_details <- input ("Details (" +++ p_details p +++ "): ") ;;
  let new_details := PyStr.strip new_details in
  (if PyStr.truthy new_details then assign project (with_details new_details)
   else ret tt) ;;
  p <- deref project ;;
  new_target <- input ("Target (" +++ repr (p_total_target p) +++ "): ") ;;
  let new_target := PyStr.strip new_target in
  (if PyStr.truthy new_target then
     match py_float new_target with
     | Some target_value =>
         if gtb target_value (of_Z 0)
         then assign project (with_total_target target_value)
         else print "⚠️  Invalid target, keeping current value."
     | None => print "⚠️  Invalid target format, keeping current value."
     end
   else ret tt) ;;
  save_data ;;
  print "✅ Project updated successfully!" ;;
  ret true
  end
  end
  end.

(** [==] on two project dictionaries: every value compared with [==] *)
Definition project_eqb (p q : project) : bool :=
  String.eqb (p_title p) (p_title q) && String.eqb (p_details p) (p_details q) &&
  eqb (p_total_target p) (p_total_target q) &&
  String.eqb (p_start_date p) (p_start_date q) &&
  String.eqb (p_end_date p) (p_end_date q) &&
  String.eqb (p_owner_email p) (p_owner_email q) &&
  String.eqb (p_created_at p) (p_created_at q) &&
  eqb (p_current_amount p) (p_current_amount q).

(** [l.remove(x)] where [x] is the object at position [r]: the first item
    that is [x] itself or equal to it goes.  [i] is the position of the head
    of [l]. *)
Fixpoint list_remove (i : nat) (r : ref) (x : project) (l : list project)
  : option (list project) :=
  match l with
  | [] => None
  | y :: l' =>
      if (i =? r) || project_eqb y x then Some l'
      else option_map (cons y) (list_remove (S i) r x l')
  end.

Definition delete_user_project : M bool :=
  current_user <- get_current_user ;;
  match current_user with
  | None => print "❌ Please login first!" ;; ret false
  | Some current_user =>
  my_projects <- get_user_projects (u_email current_user) ;;
  match my_projects with
  | [] => print "❌ You have no projects to delete!" ;; ret false
  | _ =>
  print (nl +++ "=== DELETE PROJECT ===") ;;
  print "Your projects:" ;;
  print_titles my_projects ;;
  selected <- select_project "Select project number to delete: " my_projects ;;
  match selected with
  | None => ret false
  | Some project =>
  p <- deref project ;;
  confirm <- input ("Are you sure you want to delete '" +++ p_title p +++ "'? (y/N): ") ;;
  let confirm := PyStr.lower confirm in
  if String.eqb confirm "y" then
    w <- get ;;
    match list_remove 0 project p (projects_data w) with
    | Some projects =>
        modify (set_projects_data projects) ;;
        save_data ;;
        print "✅ Project deleted successfully!" ;;
        ret true
    | None => raise ValueError
    end
  else
    print "❌ Deletion cancelled." ;; ret false
  end
  end
  end.

(** The loop that fills [matching_projects]; [strptime] on a stored date
    may raise. *)
Fixpoint matching_projects (search_date : Datetime.date) (projects : list project)
  : exn + list project :=
  match projects with
  | [] => inr []
  | p :: rest =>
      match Datetime.strptime_date (p_start_date p),
            Datetime.strptime_date (p_end_date p) with
      | Some start_date, Some end_date =>
          match matching_projects search_date rest with
          | inl e => inl e
          | inr found =>
              if Datetime.date_leb start_date search_date &&
                 Datetime.date_leb search_date end_date
              then inr (p :: found) else inr found
          end
      | _, _ => inl ValueError
      end
  end.

Definition search_projects_by_date : M unit :=
  print (nl +++ "=== SEARCH PROJECTS BY DATE ===") ;;
  date_str <- input "Enter date (YYYY-MM-DD): " ;;
  let date_str := PyStr.strip date_str in
  if negb (validate_date date_str) then print "❌ Invalid date format!"
  else
    match Datetime.strptime_date date_str with
    | None => raise ValueError
    | Some search_date =>
        w <- get ;;
        match matching_projects search_date (projects_data w) with
        | inl e => raise e
        | inr [] => print ("No projects found running on " +++ date_str)
        | inr matching =>
            print (nl +++ "Projects running on " +++ date_str +++ ":") ;;
            for_each (enumerate1 matching) (print_project true)
        end
    end.

End project_manager.


(** ** crowdfunding_app.py *)

Module crowdfunding_app.

Import data_storage user_auth project_manager.

(** What can reach the top of the program: an exception raised by one of
    the operations, or the [TypeError] of subscripting [None]. *)
Inductive uncaught : Type :=
| Exn (e : exn)
| TypeError.

(** A computation of the program itself: a value, or an exception that
    nothing catches. *)
Definition P (A : Type) : Type := world -> (A + uncaught) * world.

(** calling an operation of the other modules *)
Definition call {A} (c : M A) : P A :=
  fun w =>
    match c w with
    | (Ok a, w') => (inl a, w')
    | (Raise e, w') => (inr (Exn e), w')
    end.

Definition fail {A} (e : uncaught) : P A := fun w => (inr e, w).

Definition and_then {A B} (c : P A) (k : A -> P B) : P B :=
  fun w =>
    match c w with
    | (inl a, w') => k a w'
    | (inr e, w') => (inr e, w')
    end.

Notation "x <-- c1 ;;; c2" := (and_then c1 (fun x => c2))
  (at level 61, c1 at next level, right associativity).
Notation "c1 ;;; c2" := (and_then c1 (fun _ => c2))
  (at level 61, right associativity).

Definition show_guest_menu : M unit :=
  print (nl +++ "=== MAIN MENU ===") ;;
  print "1. Register" ;;
  print "2. Login" ;;
  print "3. View All Projects" ;;
  print "4. Search Projects by Date" ;;
  print "0. Exit".

(** [current_user['first_name']] of a [None] is a [TypeError]. *)
Definition show_user_menu : P unit :=
  current_user <-- call get_current_user ;;;
  match current_user with
  | None => fail TypeError
  | Some current_user =>
      call (print (nl +++ "=== USER MENU (" +++ u_first_name current_user +++ ") ===") ;;
            print "1. Create Project" ;;
            print "2. View All Projects" ;;
            print "3. View My Projects" ;;
            print "4. Edit My Project" ;;
            print "5. Delete My Project" ;;
            print "6. Search Projects by Date" ;;
            print "7. Logout" ;;
            print "0. Exit")
  end.

(** The value an operation returns is dropped; [False] asks to leave. *)
Definition handle_guest_menu (choice : string) : M bool :=
  if String.eqb choice "1" then register_user ;; ret true
  else if String.eqb choice "2" then login_user ;; ret true
  else if String.eqb choice "3" then view_all_projects ;; ret true
  else if String.eqb choice "4" then search_projects_by_date ;; ret true
  else if String.eqb choice "0" then ret false
  else print "❌ Invalid option!" ;; ret true.

Definition handle_user_menu (choice : string) : M bool :=
  if String.eqb choice "1" then create_new_project ;; ret true
  else if String.eqb choice "2" then view_all_projects ;; ret true
  else if String.eqb choice "3" then view_my_projects ;; ret true
  else if String.eqb choice "4" then edit_user_project ;; ret true
  else if String.eqb choice "5" then delete_user_project ;; ret true
  else if String.eqb choice "6" then search_projects_by_date ;; ret true
  else if String.eqb choice "7" then logout_user ;; ret true
  else if String.eqb choice "0" then ret false
  else print "❌ Invalid option!" ;; ret true.

(** One turn of the [while True] loop of [main]: [false] stands for
    [break]. *)
Definition turn : P bool :=
  current_user <-- call get_current_user ;;;
  match current_user with
  | None =>
      call show_guest_menu ;;;
      choice <-- call (input (nl +++ "Select option: ")) ;;;
      call (handle_guest_menu (PyStr.strip choice))
  | Some _ =>
      show_user_menu ;;;
      choice <-- call (input (nl +++ "Select option: ")) ;;;
      call (handle_user_menu (PyStr.strip choice))
  end.

(** [while True: body], run for at most [fuel] turns; [None] when the
    turns are used up before the loop is left. *)
Fixpoint while_true (fuel : nat) (body : P bool) (w : world)
  : option ((unit + uncaught) * world) :=
  match fuel with
  | O => None
  | S fuel' =>
      match body w with
      | (inl true, w') => while_true fuel' body w'
      | (inl false, w') => Some (inl tt, w')
      | (inr e, w') => Some (inr e, w')
      end
  end.

Definition main_with (fuel : nat) (w : world) : option ((unit + uncaught) * world) :=
  match (call load_data ;;; call (print "🎉 Welcome to the Crowdfunding Platform!")) w with
  | (inl _, w1) =>
      match while_true fuel turn w1 with
      | Some (inl _, w2) => Some (call (print "👋 Goodbye!") w2)
      | stopped => stopped
      end
  | (inr e, w1) => Some (inr e, w1)
  end.

(** Every turn reads a line of the console, so one turn more than there
    are lines is enough. *)
Definition main (w : world) : option ((unit + uncaught) * world) :=
  main_with (S (List.length (stdin w))) w.

End crowdfunding_app.
(** ** Vocabulary of the specification *)

Module Spec.

(** The shape of an accepted phone number, in the words of the
    specification: an optional country-code variant, then a mobile prefix
    or the landline prefix, then eight digits. *)
Definition country_codes : list string := ["+20"; "0020"; "20"].
Definition mobile_prefixes : list string := ["010"; "011"; "012"; "015"].
Definition landline_prefix : string := "02".

Definition eight_digits (s : string) : Prop :=
  String.length s = 8 /\ PyStr.forallb_str PyStr.isdigit s = true.

Definition optional_country_code (cc : string) : Prop :=
  cc = EmptyString \/ In cc country_codes.

Definition mobile_shape (s : string) : Prop :=
  exists cc pre ds,
    s = cc +++ pre +++ ds /\ optional_country_code cc /\
    In pre mobile_prefixes /\ eight_digits ds.

Definition landline_shape (s : string) : Prop :=
  exists cc ds,
    s = cc +++ landline_prefix +++ ds /\ optional_country_code cc /\
    eight_digits ds.

(** whitespace, hyphens and parentheses removed *)
Definition is_separator (c : ascii) : bool :=
  PyStr.isspace c || Ascii.eqb c "-" || Ascii.eqb c "(" || Ascii.eqb c ")".

Definition without_separators (s : string) : string :=
  PyStr.filter_str (fun c => negb (is_separator c)) s.

(** A project runs on a date when the date lies in its interval
    [[start_date, end_date]], both ends included. *)
Definition running_on (d : Datetime.date) (p : project) : bool :=
  match Datetime.strptime_date (p_start_date p),
        Datetime.strptime_date (p_end_date p) with
  | Some s, Some e => Datetime.date_leb s d && Datetime.date_leb d e
  | _, _ => false
  end.

(** Both dates of a project are parseable as YYYY-MM-DD. *)
Definition dates_parseable (p : project) : Prop :=
  validation.validate_date (p_start_date p) = true /\
  validation.validate_date (p_end_date p) = true.

(** A field value that holds no separator and no line break. *)
Definition field_ok (s : string) : bool :=
  negb (PyStr.contains "|" s) && negb (PyStr.contains "010" s) &&
  negb (PyStr.contains "013" s).

Definition user_fields (u : user) : list string :=
  [u_email u; u_first_name u; u_last_name u; u_password_hash u; u_mobile u;
   u_created_at u].

Definition project_fields (p : project) : list string :=
  [p_title p; p_details p; p_start_date p; p_end_date p; p_owner_email p;
   p_created_at p].

(** No field value of either registry contains the separator or a line
    break. *)
Definition fields_plain (w : world) : Prop :=
  Forall (fun kv => forallb field_ok (user_fields (snd kv)) = true) (users_data w) /\
  Forall (fun p => forallb field_ok (project_fields p) = true) (projects_data w).

(** A float that [float] reads back from its [repr]. *)
Definition float_stable (x : PyFloat.float) : Prop :=
  PyFloat.py_float (PyFloat.repr x) = Some x.

(** What a line of each file keeps of a record: the whole line is stripped,
    so the first field loses leading and the last field trailing
    whitespace; a user is filed under the email written in the record.
    The first field of a line and the last text field are ASCII text, on
    which [strip] is Python's. *)
Definition user_storable (kv : string * user) : Prop :=
  fst kv = u_email (snd kv) /\
  PyStr.ascii_text (u_email (snd kv)) = true /\
  PyStr.lstrip (u_email (snd kv)) = u_email (snd kv) /\
  PyStr.ascii_text (u_created_at (snd kv)) = true /\
  PyStr.rstrip (u_created_at (snd kv)) = u_created_at (snd kv).

Definition title_storable (p : project) : Prop :=
  PyStr.ascii_text (p_title p) = true /\ PyStr.lstrip (p_title p) = p_title p.

Definition project_storable (p : project) : Prop :=
  title_storable p /\
  float_stable (p_total_target p) /\ float_stable (p_current_amount p).

Definition storable (w : world) : Prop :=
  NoDup (map fst (users_data w)) /\
  Forall user_storable (users_data w) /\
  Forall project_storable (projects_data w).



(** The items of a list when none is missing. *)
Fixpoint all_some {A} (l : list (option A)) : option (list A) :=
  match l with
  | [] => Some []
  | x :: rest =>
      match x, all_some rest with
      | Some a, Some rest' => Some (a :: rest')
      | _, _ => None
      end
  end.


(** A new process over the same files: empty registries, nobody logged in. *)
Definition restart (w : world) : world :=
  set_users_data [] (set_projects_data [] (set_current_user_email None w)).

(** [save()] followed by a fresh [load()] *)
Definition save_then_load (w : world) : world :=
  snd (data_storage.load_data (restart (snd (data_storage.save_data w)))).

(** The text of a line without the line feed that ends it. *)
Definition user_record (u : user) : string :=
  u_email u +++ "|" +++ u_first_name u +++ "|" +++ u_last_name u +++ "|" +++
  u_password_hash u +++ "|" +++ u_mobile u +++ "|" +++
  PyStr.str_bool (u_is_active u) +++ "|" +++ u_created_at u.

Definition project_record (p : project) : string :=
  p_title p +++ "|" +++ p_details p +++ "|" +++ PyFloat.repr (p_total_target p) +++ "|" +++
  p_start_date p +++ "|" +++ p_end_date p +++ "|" +++ p_owner_email p +++ "|" +++
  p_created_at p +++ "|" +++ PyFloat.repr (p_current_amount p).

(** The fields of a line of a data file, and lines with a given number
    of them. *)
Definition fields_of (line : string) : list string :=
  PyStr.split "|" (PyStr.strip line).

Definition has_fields (n : nat) (line : string) : bool :=
  List.length (fields_of line) =? n.

(** What a line of seven fields says of a user: the email first, then
    the two names, the hash, the phone, the activation flag (true when it
    reads [true] in any letter case) and the time of creation. *)
Definition user_of_line (line : string) : user :=
  let field i := nth i (fields_of line) EmptyString in
  mkuser (field 1) (field 2) (field 0) (field 3) (field 4)
         (String.eqb (PyStr.lower (field 5)) "true") (field 6).

(** Filing it: a later line with the same email takes the place of an
    earlier one. *)
Definition file_user (users : dict user) (line : string) : dict user :=
  dict_set (u_email (user_of_line line)) (user_of_line line) users.

(** What a line of eight fields says of a project: title, details, target,
    the two dates, the owner, the time of creation and the pledged amount;
    nothing when [float] does not read the target or the amount. *)
Definition project_of_line (line : string) : option project :=
  let field i := nth i (fields_of line) EmptyString in
  match PyFloat.py_float (field 2), PyFloat.py_float (field 7) with
  | Some total_target, Some current_amount =>
      Some (mkproject (field 0) (field 1) total_target (field 3) (field 4)
                      (field 5) (field 6) current_amount)
  | _, _ => None
  end.

(** A line of the projects file with the right number of fields and an
    amount that [float] rejects. *)
Definition bad_amount (line : string) : Prop :=
  has_fields 8 line = true /\
  (PyFloat.py_float (nth 2 (fields_of line) EmptyString) = None \/
   PyFloat.py_float (nth 7 (fields_of line) EmptyString) = None).

(** The three ways a login is refused: the email is unknown, the account
    is not active, the hash of the password is not the stored one. *)
Definition login_failure (users : dict user) (email password : string) : Prop :=
  dict_get email users = None \/
  (exists u, dict_get email users = Some u /\ u_is_active u = false) \/
  (exists u, dict_get email users = Some u /\
             u_password_hash u <> Sha256.hexdigest password).

(** Two characters that differ at most in letter case: the same character,
    or a letter and the letter 32 positions away. *)
Definition case_variant (c d : ascii) : Prop :=
  c = d \/
  (PyStr.isalpha c = true /\ PyStr.isalpha d = true /\
   (PyStr.ord c = PyStr.ord d + 32 \/ PyStr.ord d = PyStr.ord c + 32)).

Inductive same_up_to_case : string -> string -> Prop :=
| suc_nil : same_up_to_case EmptyString EmptyString
| suc_cons c d s t :
    case_variant c d -> same_up_to_case s t ->
    same_up_to_case (String c s) (String d t).

Definition blank (s : string) : Prop := PyStr.forallb_str PyStr.isspace s = true.

(** Two inputs that differ only in letter case and in the whitespace
    around them. *)
Definition email_variant (e1 e2 : string) : Prop :=
  exists l1 m1 r1 l2 m2 r2,
    e1 = l1 +++ m1 +++ r1 /\ e2 = l2 +++ m2 +++ r2 /\
    blank l1 /\ blank r1 /\ blank l2 /\ blank r2 /\
    same_up_to_case m1 m2.

(** The edit that three answers [t], [d] and [g] ask for: a blank answer
    keeps the field, a target that is not a number above zero is not
    taken. *)
Definition accepted_target (g : string) : option PyFloat.float :=
  if PyStr.truthy (PyStr.strip g) then
    match PyFloat.py_float (PyStr.strip g) with
    | Some v => if PyFloat.gtb v (PyFloat.of_Z 0) then Some v else None
    | None => None
    end
  else None.

Definition apply_edit (t d g : string) (p : project) : project :=
  mkproject
    (if PyStr.truthy (PyStr.strip t) then PyStr.strip t else p_title p)
    (if PyStr.truthy (PyStr.strip d) then PyStr.strip d else p_details p)
    (match accepted_target g with Some v => v | None => p_total_target p end)
    (p_start_date p) (p_end_date p) (p_owner_email p) (p_created_at p)
    (p_current_amount p).

(** The warning printed for an answer [g] to the target prompt. *)
Definition target_warning (g : string) : list string :=
  if PyStr.truthy (PyStr.strip g) then
    match PyFloat.py_float (PyStr.strip g) with
    | Some v =>
        if PyFloat.gtb v (PyFloat.of_Z 0) then []
        else ["⚠️  Invalid target, keeping current value." +++ nl]
    | None => ["⚠️  Invalid target format, keeping current value." +++ nl]
    end
  else [].

End Spec.

(** ** Reasoning about operations *)

Module Logic.

(** [wp c Q w]: running [c] from [w] ends, with a value or an exception,
    in a state that satisfies [Q]. *)
Definition wp {A} (c : M A) (Q : result A -> world -> Prop) (w : world) : Prop :=
  Q (fst (c w)) (snd (c w)).

(** The user [get_current_user] returns. *)
Definition logged_in (w : world) : option user :=
  match current_user_email w with
  | Some e =>
      if PyStr.truthy e && dict_in e (users_data w)
      then dict_get e (users_data w) else None
  | None => None
  end.

(** The console only grows. *)
Definition console_grows (w w' : world) : Prop :=
  exists lines, stdout w' = stdout w ++ lines.

(** Nothing but the console and the data files changed. *)
Definition same_registries (w w' : world) : Prop :=
  users_data w' = users_data w /\
  projects_data w' = projects_data w /\
  current_user_email w' = current_user_email w /\
  console_grows w w'.

(** The projects that [email] does not own. *)
Definition others (email : string) (projects : list project) : list project :=
  filter (fun p => negb (project_manager.owned_by email p)) projects.

(** A reference to a project that [email] owns. *)
Definition owned_ref (email : string) (r : nat) (projects : list project) : Prop :=
  exists p, nth_error projects r = Some p /\ project_manager.owned_by email p = true.

(** Two versions of a project that differ at most in title, details and
    target. *)
Definition same_frame (p p' : project) : Prop :=
  p_start_date p' = p_start_date p /\
  p_end_date p' = p_end_date p /\
  p_owner_email p' = p_owner_email p /\
  p_created_at p' = p_created_at p /\
  p_current_amount p' = p_current_amount p.

(** The registry [projects'] is [projects] with at most the project at
    [r] edited, within its frame. *)
Definition edited_at (r : nat) (projects projects' : list project) : Prop :=
  exists f, (forall p, same_frame p (f p)) /\
            projects' = project_manager.list_update r f projects.

(** The numbered titles that [edit_user_project] and
    [delete_user_project] show for a list of projects. *)
Definition title_lines (mine : list project) : list string :=
  map (fun ip => (PyStr.str_nat (fst ip) +++ ". " +++ p_title (snd ip)) +++ nl)
      (enumerate1 mine).

(** What holds of the state while the project at [r] is being edited:
    [shown] is what was printed up to the selection. *)
Definition edit_inv (w0 : world) (email : string) (r : nat) (shown : list string)
           (w : world) : Prop :=
  users_data w = users_data w0 /\
  current_user_email w = current_user_email w0 /\
  (exists more, stdout w = stdout w0 ++ shown ++ more) /\
  edited_at r (projects_data w0) (projects_data w) /\
  owned_ref email r (projects_data w).

(** What [edit_user_project] leaves behind, however it ends: the users
    and the session are as before; when the current user owns projects,
    their titles are what is listed, and at most one of them is edited,
    within its frame. *)
Definition edit_post (w w' : world) : Prop :=
  users_data w' = users_data w /\
  current_user_email w' = current_user_email w /\
  match logged_in w with
  | None => projects_data w' = projects_data w
  | Some cu =>
      let email := u_email cu in
      match project_manager.refs_from 0 email (projects_data w) with
      | [] => projects_data w' = projects_data w
      | refs =>
          (exists more,
             stdout w' = stdout w ++
               [(nl +++ "=== EDIT PROJECT ===") +++ nl; "Your projects:" +++ nl] ++
               title_lines (filter (project_manager.owned_by email) (projects_data w)) ++
               more) /\
          exists r, In r refs /\ edited_at r (projects_data w) (projects_data w')
      end
  end.

(** Only the console moved since [w0], and it shows [shown]. *)
Definition listed (w0 : world) (shown : list string) (w : world) : Prop :=
  users_data w = users_data w0 /\
  projects_data w = projects_data w0 /\
  current_user_email w = current_user_email w0 /\
  exists more, stdout w = stdout w0 ++ shown ++ more.

(** What [delete_user_project] leaves behind, however it ends: the users
    and the session are as before; when the current user owns projects,
    their titles are what is listed, and the projects of the other owners
    are all there, in their order. *)
Definition delete_post (w w' : world) : Prop :=
  users_data w' = users_data w /\
  current_user_email w' = current_user_email w /\
  match logged_in w with
  | None => projects_data w' = projects_data w
  | Some cu =>
      let email := u_email cu in
      match project_manager.refs_from 0 email (projects_data w) with
      | [] => projects_data w' = projects_data w
      | _ :: _ =>
          (exists more,
             stdout w' = stdout w ++
               [(nl +++ "=== DELETE PROJECT ===") +++ nl; "Your projects:" +++ nl] ++
               title_lines (filter (project_manager.owned_by email) (projects_data w)) ++
               more) /\
          others email (projects_data w') = others email (projects_data w) /\
          List.length (projects_data w) <= S (List.length (projects_data w'))
      end
  end.

(** What [create_new_project] leaves behind, however it ends: the
    registry as it was, or with one more project, last, that the current
    user owns, with nothing pledged and a target that passed the test
    [total_target <= 0]. *)
Definition create_post (w w' : world) : Prop :=
  users_data w' = users_data w /\
  (projects_data w' = projects_data w \/
   exists cu p,
     logged_in w = Some cu /\
     projects_data w' = projects_data w ++ [p] /\
     p_owner_email p = u_email cu /\
     p_current_amount p = PyFloat.zero /\
     PyFloat.leb (p_total_target p) (PyFloat.of_Z 0) = false).

(** A target that is not a zero of either sign. *)
Definition nonzero_target (p : project) : Prop :=
  forall s, p_total_target p <> S754_zero s.

End Logic.


(** ** Vocabulary for the behaviour of the operations *)

From Stdlib Require DecimalNat.

Module Behaviour.

Import PyFloat.

(** A console whose lines are ASCII text. *)
Definition ascii_console (w : world) : Prop :=
  Forall (fun line => PyStr.ascii_text line = true) (stdin w).

(** A string with no line break, as [input] returns it. *)
Definition one_line (s : string) : Prop :=
  PyStr.contains "010" s = false /\ PyStr.contains "013" s = false.

(** The characters of a phone number that passed: digits, the plus sign
    and what [validate_egyptian_phone] removes. *)
Definition phone_char (c : ascii) : bool :=
  Spec.is_separator c || PyStr.isdigit c || Ascii.eqb c "+".

(** The characters of [isoformat]. *)
Definition iso_char (c : ascii) : bool := PyStr.isdigit c || PyStr.contains c "-T:.".

(** The shape [validate_email] asks for: a local part, [@], a domain, a
    dot and a top-level name of two letters or more. *)
Definition email_shape (s : string) : Prop :=
  exists loc dom tld,
    s = loc +++ "@" +++ dom +++ "." +++ tld /\
    loc <> EmptyString /\ PyStr.forallb_str validation.local_char loc = true /\
    dom <> EmptyString /\ PyStr.forallb_str validation.domain_char dom = true /\
    2 <= String.length tld /\ PyStr.forallb_str Re.letter tld = true.

(** Letters and whitespace only, with a letter among them. *)
Definition name_char (c : ascii) : bool := PyStr.isalpha c || PyStr.isspace c.

Definition name_shape (s : string) : Prop :=
  PyStr.forallb_str name_char s = true /\ PyStr.forallb_str PyStr.isspace s = false.

(** A lowercase hexadecimal digit. *)
Definition hex_char (c : ascii) : bool := PyStr.isdigit c || PyStr.in_range 97 102 c.

(** *** States before and after an operation *)

(** The lines read from the console between two states: what is left is
    the rest of what was there. *)
Definition reads (w w' : world) : Prop := exists taken, stdin w = taken ++ stdin w'.

(** What every operation does: it reads and writes the console, and
    leaves the clock alone. *)
Definition moved (w w' : world) : Prop :=
  clock w' = clock w /\ Logic.console_grows w w' /\ reads w w'.

Definition files_kept (w w' : world) : Prop :=
  users_file w' = users_file w /\ projects_file w' = projects_file w.

(** Only the console moved. *)
Definition console_only (w w' : world) : Prop :=
  users_data w' = users_data w /\ projects_data w' = projects_data w /\
  current_user_email w' = current_user_email w /\
  files_kept w w' /\ moved w w'.

(** The text [save_data] writes to each file, and a state in which both
    files hold what the registries hold. *)
Definition users_text (users : dict user) : string :=
  String.concat "" (map (fun kv => data_storage.user_line (snd kv)) users).

Definition projects_text (projects : list project) : string :=
  String.concat "" (map data_storage.project_line projects).

Definition in_sync (w : world) : Prop :=
  users_file w = Text (users_text (users_data w)) /\
  projects_file w = Text (projects_text (projects_data w)).

(** An operation that ends with a value, or at the end of the input. *)
Definition ends_well {A} (r : result A) : Prop :=
  match r with
  | Ok _ => True
  | Raise e => e = EOFError
  end.

(** Every account of [users] is in [users'], as it was. *)
Definition accounts_kept (users users' : dict user) : Prop :=
  forall e u, dict_get e users = Some u -> dict_get e users' = Some u.

(** *** What each operation leaves behind, however it ends *)

(** [register_user]: the registry as it was, or with one new account
    filed last under an email that was free, and then saved. *)
Definition register_post (w : world) (r : result bool) (w' : world) : Prop :=
  moved w w' /\ ends_well r /\
  projects_data w' = projects_data w /\
  current_user_email w' = current_user_email w /\
  ((users_data w' = users_data w /\ files_kept w w' /\ r <> Ok true) \/
   (exists u,
      dict_get (u_email u) (users_data w) = None /\
      users_data w' = users_data w ++ [(u_email u, u)] /\
      in_sync w' /\
      (r = Ok true \/ (r = Raise EOFError /\ u_is_active u = false)))).

(** The checks of [register_user] on its first six answers, in the
    registry [users]. *)
Definition registration_accepted (users : dict user)
           (fn ln e pw cpw mob : string) : bool :=
  validation.validate_name (PyStr.strip fn) &&
  validation.validate_name (PyStr.strip ln) &&
  validation.validate_email (PyStr.lower (PyStr.strip e)) &&
  negb (dict_in (PyStr.lower (PyStr.strip e)) users) &&
  (6 <=? String.length (PyStr.strip pw)) &&
  String.eqb (PyStr.strip pw) (PyStr.strip cpw) &&
  validation.validate_egyptian_phone (PyStr.strip mob).

(** The account these answers make at time [t]; [act] is the answer to
    the activation prompt. *)
Definition new_account (t : Datetime.datetime) (fn ln e pw mob act : string) : user :=
  mkuser (PyStr.strip fn) (PyStr.strip ln) (PyStr.lower (PyStr.strip e))
         (user_auth.hash_password (PyStr.strip pw)) (PyStr.strip mob)
         (String.eqb (PyStr.lower act) "y") (Datetime.isoformat t).

(** The state while [register_user] goes on after filing [u]. *)
Definition registered (w : world) (u : user) (w' : world) : Prop :=
  moved w w' /\
  projects_data w' = projects_data w /\
  current_user_email w' = current_user_email w /\
  dict_get (u_email u) (users_data w) = None /\
  users_data w' = users_data w ++ [(u_email u, u)] /\
  in_sync w'.

(** [login_user]: nothing but the session pointer moves, and it moves
    only to an active account. *)
Definition login_post (w : world) (r : result bool) (w' : world) : Prop :=
  moved w w' /\ ends_well r /\
  users_data w' = users_data w /\ projects_data w' = projects_data w /\
  files_kept w w' /\
  ((current_user_email w' = current_user_email w /\ r <> Ok true) \/
   (exists e u,
      dict_get e (users_data w) = Some u /\ u_is_active u = true /\
      current_user_email w' = Some e /\ r = Ok true)).

(** *** Projects *)

(** A project as [create_new_project] makes it for [owner] at time [t]:
    nothing pledged, a target that passed [total_target <= 0], dates that
    passed [validate_date] and [validate_date_range]. *)
Definition fresh_project (owner : string) (t : Datetime.datetime) (p : project) : Prop :=
  p_owner_email p = owner /\
  p_current_amount p = zero /\
  leb (p_total_target p) (of_Z 0) = false /\
  p_title p <> EmptyString /\ p_details p <> EmptyString /\
  p_created_at p = Datetime.isoformat t /\
  exists s e,
    Datetime.strptime (p_start_date p) = Some s /\
    Datetime.strptime (p_end_date p) = Some e /\
    Datetime.datetime_ltb s e = true /\
    Datetime.datetime_ltb s t = false.

(** The checks of [create_new_project] on its five answers at time [t]. *)
Definition creation_accepted (t : Datetime.datetime)
           (title details target start_date end_date : string) : bool :=
  PyStr.truthy (PyStr.strip title) && PyStr.truthy (PyStr.strip details) &&
  match py_float target with
  | Some total_target => negb (leb total_target (of_Z 0))
  | None => false
  end &&
  match Datetime.strptime (PyStr.strip start_date),
        Datetime.strptime (PyStr.strip end_date) with
  | Some s, Some e => Datetime.datetime_ltb s e && negb (Datetime.datetime_ltb s t)
  | _, _ => false
  end.

(** The project these answers make for [owner] at time [t]. *)
Definition new_project (owner : string) (t : Datetime.datetime)
           (title details target start_date end_date : string) : project :=
  mkproject (PyStr.strip title) (PyStr.strip details)
            (match py_float target with Some v => v | None => nan end)
            (PyStr.strip start_date) (PyStr.strip end_date) owner
            (Datetime.isoformat t) zero.

(** [create_new_project]: the registry as it was, or with one fresh
    project of the current user last, and then saved. *)
Definition creation_post (w : world) (r : result bool) (w' : world) : Prop :=
  moved w w' /\ ends_well r /\
  users_data w' = users_data w /\
  current_user_email w' = current_user_email w /\
  ((projects_data w' = projects_data w /\ files_kept w w' /\ r <> Ok true) \/
   (exists cu p,
      Logic.logged_in w = Some cu /\
      fresh_project (u_email cu) (clock w) p /\
      projects_data w' = projects_data w ++ [p] /\
      in_sync w' /\ r = Ok true)).

(** What an edit may do to a project: title, details and target may
    change, and a new target is above zero. *)
Definition revised (p p' : project) : Prop :=
  Logic.same_frame p p' /\
  (p_total_target p' = p_total_target p \/ gtb (p_total_target p') (of_Z 0) = true).

(** The registry with the project at position [j] taken out. *)
Definition without (j : nat) (projects : list project) : list project :=
  firstn j projects ++ skipn (S j) projects.

(** The state while [edit_user_project] works on the project at [r]. *)
Definition editing (w : world) (r : nat) (w' : world) : Prop :=
  moved w w' /\
  users_data w' = users_data w /\
  current_user_email w' = current_user_email w /\
  files_kept w w' /\
  r < List.length (projects_data w) /\
  exists f, (forall p, revised p (f p)) /\
            projects_data w' = project_manager.list_update r f (projects_data w).

(** [edit_user_project]: at most one project is revised; [True] comes
    with the files rewritten, anything else with the files untouched, and
    [False] with the registry untouched as well. *)
Definition edit_outcome (w : world) (r : result bool) (w' : world) : Prop :=
  moved w w' /\ ends_well r /\
  users_data w' = users_data w /\
  current_user_email w' = current_user_email w /\
  (exists j f, (forall p, revised p (f p)) /\
               projects_data w' = project_manager.list_update j f (projects_data w)) /\
  (r = Ok true -> in_sync w') /\
  (r <> Ok true -> files_kept w w') /\
  (r = Ok false -> projects_data w' = projects_data w).

(** [delete_user_project]: the registry as it was, or without one project:
    the selected one, or the first one before it that compares equal to
    it; the files are then rewritten. *)
Definition delete_outcome (w : world) (r : result bool) (w' : world) : Prop :=
  moved w w' /\ ends_well r /\
  users_data w' = users_data w /\
  current_user_email w' = current_user_email w /\
  ((projects_data w' = projects_data w /\ files_kept w w' /\ r <> Ok true) \/
   (exists cu sel p j y,
      Logic.logged_in w = Some cu /\
      nth_error (projects_data w) sel = Some p /\
      project_manager.owned_by (u_email cu) p = true /\
      nth_error (projects_data w) j = Some y /\
      j <= sel /\ (j = sel \/ project_manager.project_eqb y p = true) /\
      projects_data w' = without j (projects_data w) /\
      in_sync w' /\ r = Ok true)).

(** The message for an answer to a selection prompt that selects none of
    [n] projects: not a number, or a number outside 1..[n]. *)
Definition selection_error (n : nat) (answer : string) : option string :=
  match PyNum.py_int answer with
  | None => Some "❌ Invalid input!"
  | Some k =>
      if ((k <? 1)%Z || (Z.of_nat n <? k)%Z) then Some "❌ Invalid selection!"
      else None
  end.

(** What [edit_user_project] prints once a project [p] is selected, with
    [answers] waiting on the console: the title of the project, the hint,
    and the prompts for title, details and target, each with the value the
    project has, as far as there are answers; after the third answer the
    warning for the target, if there is one, and the closing message. *)
Definition edit_prompts (p : project) (answers : list string) : list string :=
  [(nl +++ "Editing: " +++ p_title p) +++ nl;
   "Press Enter to keep current value." +++ nl;
   "Title (" +++ p_title p +++ "): "] ++
  match answers with
  | [] => []
  | _ :: answers =>
      ("Details (" +++ p_details p +++ "): ") ::
      match answers with
      | [] => []
      | _ :: answers =>
          ("Target (" +++ repr (p_total_target p) +++ "): ") ::
          match answers with
          | [] => []
          | g :: _ =>
              Spec.target_warning g ++ ["✅ Project updated successfully!" +++ nl]
          end
      end
  end.

(** What [delete_user_project] prints once [p] is selected: the question,
    and the outcome of the answer if there is one. *)
Definition delete_prompts (p : project) (answers : list string) : list string :=
  ("Are you sure you want to delete '" +++ p_title p +++ "'? (y/N): ") ::
  match answers with
  | [] => []
  | confirm :: _ =>
      if String.eqb (PyStr.lower confirm) "y"
      then ["✅ Project deleted successfully!" +++ nl]
      else ["❌ Deletion cancelled." +++ nl]
  end.

(** What follows the list of titles, for the user's projects [mine] and
    the lines waiting on the console: the selection prompt, then the
    message for an answer that selects nothing, or what is printed for the
    project selected among [mine]. *)
Definition selection_script (prompt : string)
           (prompts : project -> list string -> list string)
           (mine : list project) (lines : list string) : list string :=
  prompt ::
  match lines with
  | [] => []
  | answer :: answers =>
      match selection_error (List.length mine) answer with
      | Some msg => [msg +++ nl]
      | None =>
          match PyNum.py_int answer with
          | Some n =>
              match nth_error mine (Z.to_nat (n - 1)%Z) with
              | Some p => prompts p answers
              | None => []
              end
          | None => []
          end
      end
  end.

Definition edit_script : list project -> list string -> list string :=
  selection_script "Select project number to edit: " edit_prompts.

Definition delete_script : list project -> list string -> list string :=
  selection_script "Select project number to delete: " delete_prompts.

(** [search_projects_by_date] and the listings: nothing but the console
    moves; with stored dates that parse and targets that are not zero they
    end with a value or at the end of the input. *)
Definition reading_post (w : world) (r : result unit) (w' : world) : Prop :=
  console_only w w' /\
  (Forall Spec.dates_parseable (projects_data w) ->
   Forall Logic.nonzero_target (projects_data w) -> ends_well r).

(** *** Listings *)

(** A target that is a zero of either sign. *)
Definition zero_target (p : project) : bool :=
  match p_total_target p with
  | S754_zero _ => true
  | _ => false
  end.

(** The percentage shown for a project whose target is not zero. *)
Definition progress (p : project) : float :=
  mul (SFdiv prec emax (p_current_amount p) (p_total_target p)) (of_Z 100).

(** The lines of one entry of a listing, numbered [i]. *)
Definition entry_lines (with_owner : bool) (i : nat) (p : project) : list string :=
  [(nl +++ PyStr.str_nat i +++ ". " +++ p_title p) +++ nl] ++
  (if with_owner then [("   Owner: " +++ p_owner_email p) +++ nl] else []) ++
  [("   Details: " +++ p_details p) +++ nl;
   ("   Target: " +++ format_f true 2 (p_total_target p) +++ " EGP") +++ nl;
   ("   Progress: " +++ format_f true 2 (p_current_amount p) +++ " EGP (" +++
    format_f false 1 (progress p) +++ "%)") +++ nl;
   ("   Duration: " +++ p_start_date p +++ " to " +++ p_end_date p) +++ nl].

(** The entries of the projects that come before the first zero target,
    numbered from [i]. *)
Fixpoint listed_entries (with_owner : bool) (i : nat) (projects : list project)
  : list string :=
  match projects with
  | [] => []
  | p :: rest =>
      if zero_target p then []
      else entry_lines with_owner i p ++ listed_entries with_owner (S i) rest
  end.

(** All the entries of [projects], numbered from 1. *)
Definition entries (with_owner : bool) (projects : list project) : list string :=
  concat (map (fun ip => entry_lines with_owner (fst ip) (snd ip)) (enumerate1 projects)).

(** How a listing of [projects] ends. *)
Definition listing_result (projects : list project) : result unit :=
  if existsb zero_target projects then Raise ZeroDivisionError else Ok tt.

(** *** A whole run *)

(** A project that the listings and the search can handle: its target is
    not zero and its dates parse. *)
Definition safe_project (p : project) : Prop :=
  Logic.nonzero_target p /\ Spec.dates_parseable p.

(** What one operation can do to the registry of projects. *)
Inductive projects_step (projects : list project) : list project -> Prop :=
| step_same : projects_step projects projects
| step_add owner t p :
    fresh_project owner t p -> projects_step projects (projects ++ [p])
| step_edit j f :
    (forall p, revised p (f p)) ->
    projects_step projects (project_manager.list_update j f projects)
| step_delete j : projects_step projects (without j projects).

(** A property of projects that no operation can break: an edit keeps
    it, and every new project has it. *)
Definition stable (Q : project -> Prop) : Prop :=
  (forall p p', revised p p' -> Q p -> Q p') /\
  (forall owner t p, fresh_project owner t p -> Q p).

(** What every operation of the menus leaves behind. *)
Definition step_post {A} (w : world) (r : result A) (w' : world) : Prop :=
  moved w w' /\
  accounts_kept (users_data w) (users_data w') /\
  projects_step (projects_data w) (projects_data w') /\
  (Logic.logged_in w = None -> projects_data w' = projects_data w) /\
  (Forall safe_project (projects_data w) -> ends_well r).

(** The same for a turn of the loop of [main]; a turn that goes on has
    read a line. *)
Definition turn_post (w : world) (r : bool + crowdfunding_app.uncaught) (w' : world)
  : Prop :=
  moved w w' /\
  accounts_kept (users_data w) (users_data w') /\
  projects_step (projects_data w) (projects_data w') /\
  (Logic.logged_in w = None -> projects_data w' = projects_data w) /\
  (r = inl true -> List.length (stdin w') < List.length (stdin w)) /\
  (Forall safe_project (projects_data w) ->
   r = inl true \/ r = inl false \/ r = inr (crowdfunding_app.Exn EOFError)).

(** The registry of projects over any number of operations. *)
Inductive projects_run : list project -> list project -> Prop :=
| run_done projects : projects_run projects projects
| run_more projects projects' projects'' :
    projects_step projects projects' -> projects_run projects' projects'' ->
    projects_run projects projects''.

(** What a run of the loop of [main] leaves behind. *)
Definition run_post (w : world) (r : unit + crowdfunding_app.uncaught) (w' : world)
  : Prop :=
  moved w w' /\
  accounts_kept (users_data w) (users_data w') /\
  projects_run (projects_data w) (projects_data w') /\
  (Forall safe_project (projects_data w) ->
   r = inl tt \/ r = inr (crowdfunding_app.Exn EOFError)).


(** *** Separators in stored text *)

(** The number of separators in a string. *)
Definition separators (s : string) : nat :=
  String.length (PyStr.filter_str (fun c => Ascii.eqb c "|") s).

(** A project with a separator in one of its text fields. *)
Definition has_separator (p : project) : bool :=
  existsb (PyStr.contains "|") (Spec.project_fields p).

(** *** Dates *)

(** A day of the calendar, in the years that [datetime] has. *)
Definition real_date (d : Datetime.date) : Prop :=
  1 <= Datetime.year d < 10 * 1000 /\ 1 <= Datetime.month d <= 12 /\
  1 <= Datetime.day d <= Datetime.days_in_month (Datetime.year d) (Datetime.month d).

(** A date written as YYYY-MM-DD, and with month and day as plain
    numbers. *)
Definition iso_date (d : Datetime.date) : string :=
  Datetime.pad 4 (Datetime.year d) +++ "-" +++ Datetime.pad 2 (Datetime.month d) +++
  "-" +++ Datetime.pad 2 (Datetime.day d).

Definition short_date (d : Datetime.date) : string :=
  Datetime.pad 4 (Datetime.year d) +++ "-" +++ PyStr.str_nat (Datetime.month d) +++
  "-" +++ PyStr.str_nat (Datetime.day d).

(** The decimal digit [x], as a character and in front of a numeral. *)
Definition digit_char (x : nat) : ascii := ascii_of_nat (48 + x).

Definition udigit (x : nat) (u : Decimal.uint) : Decimal.uint :=
  match x with
  | 0 => Decimal.D0 u | 1 => Decimal.D1 u | 2 => Decimal.D2 u | 3 => Decimal.D3 u
  | 4 => Decimal.D4 u | 5 => Decimal.D5 u | 6 => Decimal.D6 u | 7 => Decimal.D7 u
  | 8 => Decimal.D8 u | _ => Decimal.D9 u
  end.

(** Data files and console lines in ASCII. *)
Definition ascii_file (f : file) : Prop :=
  match f with
  | Text content => PyStr.ascii_text content = true
  | _ => True
  end.

Definition ascii_world (w : world) : Prop :=
  ascii_file (users_file w) /\ ascii_file (projects_file w) /\ ascii_console w.

End Behaviour.
(** ** Sample data *)

Module Examples.

Import Datetime PyFloat.

Definition noon : datetime := mkdatetime (mkdate 2025 6 1) 12 0 0 0.

(** a process that has just started, with no data files *)
Definition empty_world : world := mkworld [] [] None NoFile NoFile [] [] noon.

Definition ali : user :=
  mkuser "Ali" "Hassan" "ali@example.com" (user_auth.hash_password "secret1")
         "01012345678" true "2025-06-01T12:00:00".

Definition mona : user :=
  mkuser "Mona" "Said" "mona@example.com" (user_auth.hash_password "letmein")
         "0212345678" false "2025-06-01T12:00:00".

Definition wells : project :=
  mkproject "Wells" "Dig wells" (of_Z 5000) "2030-01-01" "2030-06-01"
            "ali@example.com" "2025-06-01T12:00:00" zero.

Definition school : project :=
  mkproject "School" "Build a school" (of_Z 120000) "2030-03-01" "2030-12-31"
            "mona@example.com" "2025-06-01T12:00:00" zero.

Definition sample_world : world :=
  set_users_data [("ali@example.com", ali); ("mona@example.com", mona)]
    (set_projects_data [wells; school] empty_world).



(** Ali logged in, with the given lines waiting on the console *)
Definition ali_session (lines : list string) : world :=
  set_stdin lines (set_current_user_email (Some "ali@example.com") sample_world).

(** a projects file whose second line has a target that is not a number *)
Definition broken_file : string :=
  "Wells|Dig wells|5000.0|2030-01-01|2030-06-01|ali@example.com|2025-06-01T12:00:00|0.0" +++ nl +++
  "School|Build a school|lots|2030-03-01|2030-12-31|mona@example.com|2025-06-01T12:00:00|0.0" +++ nl.

(** Ali creates a project and answers "nan" for the target *)
Definition nan_session : world :=
  ali_session ["Roof"; "Mend the roof"; "nan"; "2030-01-01"; "2030-06-01"].

(** Ali edits the first project: a new title, the details kept, a target
    that is not a number *)
Definition edit_session : world := ali_session ["1"; "Deep wells"; ""; "lots"].

(** a registration that declines the activation, followed by a login *)
Definition register_session : world :=
  set_stdin ["Omar"; "Adel"; "Omar@Example.com"; "hunter22"; "hunter22";
             "01112345678"; "n"; "Omar@Example.com"; "hunter22"]
            sample_world.

End Examples.


(** ** More sample data *)

Module Sessions.

Import Examples PyFloat.

(** Ali selects his project, types a new title, and the input ends *)
Definition cut_edit : world := ali_session ["1"; "Deep wells"].

(** a guest who leaves at once *)
Definition guest_leaves : world := set_stdin ["0"] sample_world.

(** a guest who asks for the projects that run on a day *)
Definition day_search : world := set_stdin ["2030-06-01"] sample_world.

(** Ali answers a selection prompt with a number that is not on the list *)
Definition off_list : world := ali_session ["7"].

(** Ali deletes his project *)
Definition delete_session : world := ali_session ["1"; "y"].

(** Ali creates a project with a separator in its title *)
Definition pipe_session : world :=
  ali_session ["Roof|top"; "Mend the roof"; "9000"; "2030-01-01"; "2030-06-01"].

(** a project with a separator in its title, between two others *)
Definition piped : project :=
  mkproject "Roof|top" "Mend the roof" (of_Z 9000) "2030-01-01" "2030-06-01"
            "ali@example.com" "2025-06-01T12:00:00" zero.

Definition piped_world : world := set_projects_data [wells; piped; school] empty_world.

(** a registration in a process that found a broken projects file *)
Definition broken_start : world := set_projects_file (Text broken_file) register_session.

End Sessions.

(** * Properties *)

(** ** Strings *)

Lemma append_nil_r (s : string) : s +++ EmptyString = s.
Proof. induction s as [|c s IH]; simpl; [reflexivity | now rewrite IH]. Qed.

Lemma append_assoc (a b c : string) : (a +++ b) +++ c = a +++ (b +++ c).
Proof. induction a as [|x a IH]; simpl; [reflexivity | now rewrite IH]. Qed.

Lemma append_length (a b : string) :
  String.length (a +++ b) = String.length a + String.length b.
Proof. induction a as [|x a IH]; simpl; [reflexivity | now rewrite IH]. Qed.

Lemma append_eq_nil (a b : string) :
  a +++ b = EmptyString -> a = EmptyString /\ b = EmptyString.
Proof. destruct a; simpl; [auto | discriminate]. Qed.

(** A concatenation that starts with [c] takes [c] from its first
    non-empty part. *)
Lemma append_eq_cons (a b : string) (c : ascii) (s : string) :
  a +++ b = String c s ->
  (a = EmptyString /\ b = String c s) \/
  (exists a', a = String c a' /\ s = a' +++ b).
Proof.
  destruct a as [|x a]; simpl; intros H.
  - left; auto.
  - right. injection H as -> <-. now exists a.
Qed.

Lemma forallb_str_app (p : ascii -> bool) (a b : string) :
  PyStr.forallb_str p (a +++ b) = PyStr.forallb_str p a && PyStr.forallb_str p b.
Proof.
  induction a as [|x a IH]; simpl; [reflexivity|].
  rewrite IH. now rewrite andb_assoc.
Qed.

Lemma length_zero_nil (s : string) : String.length s = 0 -> s = EmptyString.
Proof. destruct s; simpl; [reflexivity | discriminate]. Qed.

(** ** The matcher decides membership in the language of a pattern *)

Section RegexCorrect.
Import Re.

Lemma lang_cat_inv (r1 r2 : regex) (s : string) :
  lang (Cat r1 r2) s <-> exists s1 s2, s = s1 +++ s2 /\ lang r1 s1 /\ lang r2 s2.
Proof.
  split.
  - intros H; inversion H; subst. eauto.
  - intros (s1 & s2 & -> & H1 & H2). now constructor.
Qed.

Lemma lang_alt_inv (r1 r2 : regex) (s : string) :
  lang (Alt r1 r2) s <-> lang r1 s \/ lang r2 s.
Proof.
  split.
  - intros H; inversion H; subst; auto.
  - intros [H | H]; [now apply L_AltL | now apply L_AltR].
Qed.

Lemma nullable_lang (r : regex) : nullable r = true <-> lang r EmptyString.
Proof.
  induction r as [| | c | p | r1 IH1 r2 IH2 | r1 IH1 r2 IH2 | r IH]; simpl.
  - split; [discriminate | intros H; inversion H].
  - split; [constructor | reflexivity].
  - split; [discriminate | intros H; inversion H].
  - split; [discriminate | intros H; inversion H].
  - rewrite andb_true_iff, IH1, IH2. split.
    + intros [H1 H2]. exact (L_Cat _ _ _ _ H1 H2).
    + intros H. apply lang_cat_inv in H as (s1 & s2 & E & H1 & H2).
      symmetry in E. apply append_eq_nil in E as [-> ->]. now split.
  - rewrite orb_true_iff, IH1, IH2. split.
    + intros [H | H]; [now apply L_AltL | now apply L_AltR].
    + intros H; inversion H; subst; auto.
  - split; [constructor | reflexivity].
Qed.

Lemma lang_star_cons_inv (r : regex) (a : ascii) (s : string) :
  lang (Star r) (String a s) ->
  exists s1 s2, s = s1 +++ s2 /\ lang r (String a s1) /\ lang (Star r) s2.
Proof.
  intros H. inversion H; subst. eauto.
Qed.

Lemma deriv_lang (r : regex) :
  forall a s, lang (deriv a r) s <-> lang r (String a s).
Proof.
  induction r as [| | c | p | r1 IH1 r2 IH2 | r1 IH1 r2 IH2 | r IH];
    intros a s; simpl.
  - split; intros H; inversion H.
  - split; intros H; inversion H.
  - destruct (Ascii.eqb a c) eqn:E.
    + apply Ascii.eqb_eq in E; subst. split; intros H; inversion H; constructor.
    + apply Ascii.eqb_neq in E. split; intros H; inversion H; subst; congruence.
  - destruct (p a) eqn:E.
    + split; intros H; inversion H; subst; now constructor.
    + split; intros H; inversion H; subst; congruence.
  - assert (Hcat : lang (Cat (deriv a r1) r2) s <->
                   exists s1 s2, s = s1 +++ s2 /\ lang r1 (String a s1) /\ lang r2 s2).
    { rewrite lang_cat_inv. split; intros (s1 & s2 & E & H1 & H2);
        exists s1, s2; (split; [exact E|]); (split; [|exact H2]); now apply IH1. }
    destruct (nullable r1) eqn:N.
    + rewrite lang_alt_inv, Hcat, IH2, lang_cat_inv. split.
      * intros [(s1 & s2 & -> & H1 & H2) | H].
        -- exists (String a s1), s2. auto.
        -- exists EmptyString, (String a s). repeat split; auto.
           now apply nullable_lang.
      * intros (s1 & s2 & E & H1 & H2). symmetry in E.
        apply append_eq_cons in E as [[-> ->] | (s1' & -> & ->)].
        -- now right.
        -- left. exists s1', s2. auto.
    + rewrite Hcat, lang_cat_inv. split.
      * intros (s1 & s2 & -> & H1 & H2). exists (String a s1), s2. auto.
      * intros (s1 & s2 & E & H1 & H2). symmetry in E.
        apply append_eq_cons in E as [[-> ->] | (s1' & -> & ->)].
        -- apply nullable_lang in H1. congruence.
        -- exists s1', s2. auto.
  - rewrite !lang_alt_inv, IH1, IH2. tauto.
  - rewrite lang_cat_inv. split.
    + intros (s1 & s2 & -> & H1 & H2). apply IH in H1.
      exact (L_StarCons _ _ _ _ H1 H2).
    + intros H. apply lang_star_cons_inv in H as (s1 & s2 & -> & H1 & H2).
      exists s1, s2. repeat split; auto. now apply IH.
Qed.

Lemma fullmatch_lang (s : string) :
  forall r, fullmatch r s = true <-> lang r s.
Proof.
  induction s as [|a s IH]; intros r; simpl.
  - apply nullable_lang.
  - rewrite IH. apply deriv_lang.
Qed.

(** What the building blocks of the patterns denote. *)
Lemma lang_eps (s : string) : lang Eps s <-> s = EmptyString.
Proof. split; [intros H; now inversion H | intros ->; constructor]. Qed.

Lemma lang_chr (c : ascii) (s : string) : lang (Chr c) s <-> s = String c EmptyString.
Proof. split; [intros H; now inversion H | intros ->; constructor]. Qed.

Lemma lang_class (p : ascii -> bool) (s : string) :
  lang (Class p) s <-> exists c, s = String c EmptyString /\ p c = true.
Proof.
  split.
  - intros H; inversion H; subst; eauto.
  - intros (c & -> & H). now constructor.
Qed.

Lemma lang_lit (t s : string) : lang (Lit t) s <-> s = t.
Proof.
  revert s. induction t as [|c t IH]; intros s; simpl.
  - apply lang_eps.
  - rewrite lang_cat_inv. split.
    + intros (s1 & s2 & -> & H1 & H2). apply lang_chr in H1 as ->.
      apply IH in H2 as ->. reflexivity.
    + intros ->. exists (String c EmptyString), t. repeat split.
      * constructor.
      * now apply IH.
Qed.

Lemma lang_opt (r : regex) (s : string) :
  lang (Opt r) s <-> lang r s \/ s = EmptyString.
Proof. unfold Opt. now rewrite lang_alt_inv, lang_eps. Qed.

Lemma lang_rep_class (p : ascii -> bool) (n : nat) (s : string) :
  lang (Rep n (Class p)) s <->
  String.length s = n /\ PyStr.forallb_str p s = true.
Proof.
  revert s. induction n as [|n IH]; intros s; simpl.
  - rewrite lang_eps. split.
    + intros ->. auto.
    + intros [H _]. now apply length_zero_nil.
  - rewrite lang_cat_inv. split.
    + intros (s1 & s2 & -> & H1 & H2).
      apply lang_class in H1 as (c & -> & Hc). apply IH in H2 as [Hl Hp].
      simpl. rewrite Hc, Hl, Hp. auto.
    + intros [Hl Hp]. destruct s as [|c s]; simpl in *; [discriminate|].
      apply andb_true_iff in Hp as [Hc Hp].
      exists (String c EmptyString), s. repeat split.
      * now constructor.
      * apply IH. split; [lia | assumption].
Qed.

End RegexCorrect.

(** ** [strip], [split] and reading lines *)

Section StrMethods.
Import PyStr.

Lemma contains_app (c : ascii) (a b : string) :
  contains c (a +++ b) = contains c a || contains c b.
Proof.
  induction a as [|x a IH]; simpl; [reflexivity|].
  now rewrite IH, orb_assoc.
Qed.

Lemma split_no_sep (sep : ascii) (s : string) :
  contains sep s = false -> split sep s = [s].
Proof.
  induction s as [|c s IH]; simpl; [reflexivity|].
  intros H. apply orb_false_iff in H as [Hc Hs].
  rewrite Hc, (IH Hs). reflexivity.
Qed.

Lemma split_app_sep (sep : ascii) (a b : string) :
  contains sep a = false ->
  split sep (a +++ String sep b) = a :: split sep b.
Proof.
  induction a as [|c a IH]; simpl.
  - intros _. now rewrite Ascii.eqb_refl.
  - intros H. apply orb_false_iff in H as [Hc Ha].
    rewrite Hc, (IH Ha). reflexivity.
Qed.

Lemma lstrip_app_keep (a b : string) :
  lstrip a = a -> lstrip b = b -> lstrip (a +++ b) = a +++ b.
Proof.
  destruct a as [|c a]; simpl; [auto|].
  destruct (isspace c) eqn:E; [|reflexivity].
  intros H _. exfalso.
  assert (Hlen : forall s, String.length (lstrip s) <= String.length s).
  { induction s as [|x s IH]; simpl; [lia|]. destruct (isspace x); simpl; lia. }
  specialize (Hlen a). rewrite H in Hlen. simpl in Hlen. lia.
Qed.

Lemma rstrip_cons_nonspace (c : ascii) (s : string) :
  isspace c = false -> rstrip (String c s) = String c (rstrip s).
Proof. intros H. simpl. rewrite H. now destruct (rstrip s). Qed.

Lemma rstrip_app_empty (a b : string) :
  rstrip b = EmptyString -> rstrip (a +++ b) = rstrip a.
Proof.
  intros Hb. induction a as [|c a IH]; simpl; [assumption|].
  now rewrite IH.
Qed.

Lemma rstrip_app_nonempty (a b : string) :
  rstrip b <> EmptyString -> rstrip (a +++ b) = a +++ rstrip b.
Proof.
  intros Hb. induction a as [|c a IH]; simpl; [reflexivity|].
  rewrite IH. destruct a; simpl; destruct (rstrip b); congruence.
Qed.

(** A separator that is not whitespace shields what is before it. *)
Lemma rstrip_app_sep (a b : string) (c : ascii) :
  isspace c = false -> rstrip (a +++ String c b) = a +++ String c (rstrip b).
Proof.
  intros Hc. rewrite rstrip_app_nonempty; rewrite (rstrip_cons_nonspace _ _ Hc);
    [reflexivity | discriminate].
Qed.

Lemma lstrip_no_space (s : string) :
  forallb_str (fun c => negb (isspace c)) s = true -> lstrip s = s.
Proof.
  destruct s as [|c s]; simpl; [reflexivity|].
  intros H. apply andb_true_iff in H as [Hc _].
  apply negb_true_iff in Hc. now rewrite Hc.
Qed.

Lemma rstrip_no_space (s : string) :
  forallb_str (fun c => negb (isspace c)) s = true -> rstrip s = s.
Proof.
  induction s as [|c s IH]; simpl; [reflexivity|].
  intros H. apply andb_true_iff in H as [Hc Hs].
  apply negb_true_iff in Hc. rewrite (IH Hs), Hc. now destruct s.
Qed.

Lemma truthy_app_cons (a b : string) (c : ascii) : truthy (a +++ String c b) = true.
Proof. now destruct a. Qed.

Lemma concat_empty_cons (x : string) (l : list string) :
  String.concat EmptyString (x :: l) = x +++ String.concat EmptyString l.
Proof. destruct l; simpl; [now rewrite append_nil_r | reflexivity]. Qed.

Lemma forallb_str_impl (p q : ascii -> bool) (s : string) :
  (forall c, p c = true -> q c = true) ->
  forallb_str p s = true -> forallb_str q s = true.
Proof.
  intros Hpq. induction s as [|c s IH]; simpl; [reflexivity|].
  intros H. apply andb_true_iff in H as [Hc Hs].
  now rewrite (Hpq _ Hc), (IH Hs).
Qed.

Lemma forallb_str_not_contains (p : ascii -> bool) (c : ascii) (s : string) :
  p c = false -> forallb_str p s = true -> contains c s = false.
Proof.
  intros Hc. induction s as [|x s IH]; simpl; [reflexivity|].
  intros H. apply andb_true_iff in H as [Hx Hs]. rewrite (IH Hs), orb_false_r.
  destruct (Ascii.eqb x c) eqn:E; [|reflexivity].
  apply Ascii.eqb_eq in E. congruence.
Qed.

End StrMethods.

Section ReadingLines.
Import PyStr data_storage.

Lemma universal_newlines_app (a b : string) :
  contains "013" a = false ->
  universal_newlines (a +++ b) = a +++ universal_newlines b.
Proof.
  induction a as [|c a IH]; [reflexivity|].
  intros H. cbn [contains] in H. apply orb_false_iff in H as [Hc Ha].
  cbn [String.append universal_newlines]. rewrite Hc, (IH Ha). reflexivity.
Qed.

Lemma universal_newlines_lf (s : string) :
  universal_newlines (String "010" s) = String "010" (universal_newlines s).
Proof. reflexivity. Qed.

Lemma readlines_line (a b : string) :
  contains "010" a = false ->
  readlines (a +++ String "010" b) = (a +++ nl) :: readlines b.
Proof.
  induction a as [|c a IH]; [reflexivity|].
  intros H. cbn [contains] in H. apply orb_false_iff in H as [Hc Ha].
  cbn [String.append readlines]. rewrite Hc, (IH Ha). reflexivity.
Qed.

(** What was written line by line is read back line by line. *)
Lemma file_lines_concat (bodies : list string) :
  Forall (fun b => contains "010" b = false /\ contains "013" b = false) bodies ->
  file_lines (String.concat EmptyString (map (fun b => b +++ nl) bodies))
  = map (fun b => b +++ nl) bodies.
Proof.
  unfold file_lines. induction 1 as [|b bs [Hlf Hcr] _ IH]; [reflexivity|].
  cbn [map]. rewrite concat_empty_cons, append_assoc.
  rewrite (universal_newlines_app _ _ Hcr). unfold nl at 1.
  cbn [String.append]. rewrite universal_newlines_lf, (readlines_line _ _ Hlf), IH.
  reflexivity.
Qed.

End ReadingLines.

(** ** The characters of [repr] *)

Section ReprChars.
Import PyStr PyFloat.

Lemma all_repr_app (a b : string) :
  forallb_str repr_char a = true -> forallb_str repr_char b = true -> forallb_str repr_char (a +++ b) = true.
Proof. intros Ha Hb. now rewrite forallb_str_app, Ha, Hb. Qed.

Lemma all_repr_uint_empty (u : Decimal.uint) :
  forallb_str repr_char (NilEmpty.string_of_uint u) = true.
Proof. induction u; simpl; auto. Qed.

Lemma all_repr_uint (u : Decimal.uint) :
  forallb_str repr_char (NilZero.string_of_uint u) = true.
Proof.
  unfold NilZero.string_of_uint. destruct u; try reflexivity;
    apply (all_repr_uint_empty (_ u)).
Qed.

Lemma all_repr_zeros (n : nat) : forallb_str repr_char (zeros n) = true.
Proof. unfold zeros. induction n; simpl; auto. Qed.

Lemma all_repr_zfill (w : nat) (s : string) :
  forallb_str repr_char s = true -> forallb_str repr_char (zfill w s) = true.
Proof. intros H. unfold zfill. apply all_repr_app; [apply all_repr_zeros | exact H]. Qed.

Lemma all_repr_substring (s : string) :
  forallb_str repr_char s = true -> forall n m, forallb_str repr_char (substring n m s) = true.
Proof.
  induction s as [|c s IH]; intros H n m.
  - now destruct n, m.
  - simpl in H. apply andb_true_iff in H as [Hc Hs].
    destruct n as [|n]; simpl.
    + destruct m as [|m]; simpl; [reflexivity|]. rewrite Hc. now apply IH.
    + now apply IH.
Qed.

Lemma all_repr_sign (s : bool) : forallb_str repr_char (sign_str s) = true.
Proof. now destruct s. Qed.

Lemma all_repr_layout (ds : string) (decpt : Z) :
  forallb_str repr_char ds = true -> forallb_str repr_char (layout_repr ds decpt) = true.
Proof.
  intros H. unfold layout_repr.
  destruct ((decpt <=? -4)%Z || (16 <? decpt)%Z).
  - apply all_repr_app.
    + destruct ds as [|c [|d ds]]; exact H.
    + apply all_repr_app; [reflexivity|]. apply all_repr_app.
      * now destruct (decpt - 1 <? 0)%Z.
      * apply all_repr_zfill, all_repr_uint.
  - destruct (decpt <=? 0)%Z.
    + apply all_repr_app; [reflexivity|].
      apply all_repr_app; [apply all_repr_zeros | exact H].
    + destruct (Z.of_nat (String.length ds) <=? decpt)%Z.
      * apply all_repr_app; [exact H|].
        apply all_repr_app; [apply all_repr_zeros | reflexivity].
      * apply all_repr_app; [now apply all_repr_substring|].
        apply all_repr_app; [reflexivity | now apply all_repr_substring].
Qed.

Lemma all_repr_repr (x : float) : forallb_str repr_char (repr x) = true.
Proof.
  destruct x as [s | s | | s m e]; simpl.
  - apply all_repr_app; [apply all_repr_sign | reflexivity].
  - apply all_repr_app; [apply all_repr_sign | reflexivity].
  - reflexivity.
  - unfold shortest_digits.
    destruct (ratio_of m e) as [p q].
    destruct (shortest_fuel _ _ _ _ _ _) as [d0 sh0].
    destruct (strip_zeros_fuel _ _ _) as [d sh].
    apply all_repr_app; [apply all_repr_sign|].
    apply all_repr_layout, all_repr_uint.
Qed.

Lemma repr_char_plain (c : ascii) :
  repr_char c = true ->
  isspace c = false /\ Ascii.eqb c "|" = false /\
  Ascii.eqb c "010" = false /\ Ascii.eqb c "013" = false.
Proof.
  destruct c as [[] [] [] [] [] [] [] []]; vm_compute; intros H;
    try discriminate H; auto.
Qed.

Lemma repr_no_char (x : float) (c : ascii) :
  repr_char c = false -> contains c (repr x) = false.
Proof. intros H. exact (forallb_str_not_contains _ _ _ H (all_repr_repr x)). Qed.

Lemma repr_no_space (x : float) :
  forallb_str (fun c => negb (isspace c)) (repr x) = true.
Proof.
  apply (forallb_str_impl repr_char); [|apply all_repr_repr].
  intros c H. apply repr_char_plain in H as [-> _]. reflexivity.
Qed.

End ReprChars.

(** ** Rules for running operations *)

(** Unfolding the monad on a state given field by field. *)
Ltac run :=
  cbv [bind print input modify get ret raise now data_storage.set_current_user data_storage.clear_current_user
       user_auth.create_user user_auth.activate_user data_storage.save_data
       set_users_data set_projects_data set_current_user_email set_users_file
       set_projects_file set_stdin set_stdout];
  cbn [stdin stdout users_data projects_data current_user_email users_file
       projects_file clock fst snd].


Ltac run_in H :=
  cbv [bind print input modify get ret raise now data_storage.set_current_user data_storage.clear_current_user
       user_auth.create_user user_auth.activate_user data_storage.save_data
       set_users_data set_projects_data set_current_user_email set_users_file
       set_projects_file set_stdin set_stdout] in H;
  cbn [stdin stdout users_data projects_data current_user_email users_file
       projects_file clock fst snd] in H.

Section WpRules.
Import Logic.

Lemma wp_ret {A} (a : A) (Q : result A -> world -> Prop) (w : world) :
  Q (Ok a) w -> wp (ret a) Q w.
Proof. exact (fun H => H). Qed.

Lemma wp_raise {A} (e : exn) (Q : result A -> world -> Prop) (w : world) :
  Q (Raise e) w -> wp (raise e) Q w.
Proof. exact (fun H => H). Qed.

Lemma wp_bind {A B} (c : M A) (k : A -> M B) (Q : result B -> world -> Prop)
      (w : world) :
  wp c (fun r w' => match r with
                    | Ok a => wp (k a) Q w'
                    | Raise e => Q (Raise e) w'
                    end) w ->
  wp (bind c k) Q w.
Proof. unfold wp, bind. destruct (c w) as [[a|e] w']; simpl; auto. Qed.

Lemma wp_mono {A} (c : M A) (Q Q' : result A -> world -> Prop) (w : world) :
  (forall r w', Q r w' -> Q' r w') -> wp c Q w -> wp c Q' w.
Proof. unfold wp. auto. Qed.

Lemma wp_get (Q : result world -> world -> Prop) (w : world) :
  Q (Ok w) w -> wp get Q w.
Proof. exact (fun H => H). Qed.

Lemma wp_modify (f : world -> world) (Q : result unit -> world -> Prop) (w : world) :
  Q (Ok tt) (f w) -> wp (modify f) Q w.
Proof. exact (fun H => H). Qed.

Lemma wp_now (Q : result Datetime.datetime -> world -> Prop) (w : world) :
  Q (Ok (clock w)) w -> wp now Q w.
Proof. exact (fun H => H). Qed.

Lemma wp_print (s : string) (Q : result unit -> world -> Prop) (w : world) :
  Q (Ok tt) (set_stdout (stdout w ++ [s +++ nl]) w) -> wp (print s) Q w.
Proof. exact (fun H => H). Qed.

Lemma wp_input (prompt : string) (Q : result string -> world -> Prop) (w : world) :
  (stdin w = [] -> Q (Raise EOFError) (set_stdout (stdout w ++ [prompt]) w)) ->
  (forall line rest, stdin w = line :: rest ->
     Q (Ok line) (set_stdin rest (set_stdout (stdout w ++ [prompt]) w))) ->
  wp (input prompt) Q w.
Proof.
  unfold wp, input. intros H1 H2. destruct (stdin w) as [|line rest]; simpl; auto.
Qed.

(** An operation that ends with a value. *)
Lemma bind_ok {A B} (c : M A) (k : A -> M B) (w w' : world) (a : A) :
  c w = (Ok a, w') -> bind c k w = k a w'.
Proof. unfold bind. now intros ->. Qed.

Lemma wp_eq {A} (c : M A) (Q : result A -> world -> Prop) (w w' : world) (r : result A) :
  c w = (r, w') -> Q r w' -> wp c Q w.
Proof. unfold wp. now intros ->. Qed.

(** [same_registries] is a preorder, and the console operations move along it. *)
Lemma console_grows_refl (w : world) : console_grows w w.
Proof. exists []. now rewrite app_nil_r. Qed.

Lemma console_grows_trans (w1 w2 w3 : world) :
  console_grows w1 w2 -> console_grows w2 w3 -> console_grows w1 w3.
Proof.
  intros [l1 H1] [l2 H2]. exists (l1 ++ l2). now rewrite H2, H1, app_assoc.
Qed.

Lemma same_registries_refl (w : world) : same_registries w w.
Proof. repeat split. apply console_grows_refl. Qed.

Lemma same_registries_trans (w1 w2 w3 : world) :
  same_registries w1 w2 -> same_registries w2 w3 -> same_registries w1 w3.
Proof.
  intros (U1 & P1 & C1 & G1) (U2 & P2 & C2 & G2).
  repeat split; try congruence. eapply console_grows_trans; eauto.
Qed.

Lemma same_registries_print (s : string) (w : world) :
  same_registries w (set_stdout (stdout w ++ [s]) w).
Proof. repeat split. now exists [s]. Qed.

Lemma same_registries_read (s : string) (rest : list string) (w : world) :
  same_registries w (set_stdin rest (set_stdout (stdout w ++ [s]) w)).
Proof. repeat split. now exists [s]. Qed.

(** Frame rules: all that is kept of a console step is [same_registries]. *)
Lemma frame_print (s : string) (Q : result unit -> world -> Prop) (w : world) :
  (forall w', same_registries w w' -> Q (Ok tt) w') -> wp (print s) Q w.
Proof. intros H. apply wp_print, H, same_registries_print. Qed.

Lemma frame_input (prompt : string) (Q : result string -> world -> Prop) (w : world) :
  (forall w', same_registries w w' -> Q (Raise EOFError) w') ->
  (forall line w', same_registries w w' -> Q (Ok line) w') ->
  wp (input prompt) Q w.
Proof.
  intros H1 H2. apply wp_input.
  - intros _. apply H1, same_registries_print.
  - intros line rest _. apply H2, same_registries_read.
Qed.

Lemma frame_save_data (Q : result unit -> world -> Prop) (w : world) :
  (forall w', same_registries w w' -> Q (Ok tt) w') ->
  wp data_storage.save_data Q w.
Proof.
  intros H. unfold wp. apply H.
  repeat split; try reflexivity. exists []. cbn. now rewrite app_nil_r.
Qed.

Lemma get_current_user_eq (w : world) :
  data_storage.get_current_user w = (Ok (logged_in w), w).
Proof.
  unfold data_storage.get_current_user, logged_in, bind, get, ret.
  destruct (current_user_email w) as [e|]; [|reflexivity].
  now destruct (PyStr.truthy e && dict_in e (users_data w)).
Qed.

Lemma wp_get_current_user (Q : result (option user) -> world -> Prop) (w : world) :
  Q (Ok (logged_in w)) w -> wp data_storage.get_current_user Q w.
Proof. intros H. eapply wp_eq; [apply get_current_user_eq | exact H]. Qed.

End WpRules.

(** ** validation.py *)

Section PhoneNumbers.
Import Re validation Spec.

Lemma chop_newline_none (s : string) :
  PyStr.forallb_str (fun c => negb (Ascii.eqb c "010")) s = true ->
  chop_newline s = None.
Proof.
  induction s as [|c s IH]; simpl; [reflexivity|].
  intros H. apply andb_true_iff in H as [Hc Hs].
  destruct s as [|d s].
  - destruct (Ascii.eqb c "010"); [discriminate | reflexivity].
  - rewrite (IH Hs). reflexivity.
Qed.

Lemma phone_noise_is_separator (c : ascii) : phone_noise c = is_separator c.
Proof.
  unfold phone_noise, is_separator, one_of, space. cbn [PyStr.contains].
  rewrite orb_false_r, !orb_assoc, !(Ascii.eqb_sym c). reflexivity.
Qed.

Lemma sub_noise_without_separators (s : string) :
  sub_class_empty phone_noise s = without_separators s.
Proof.
  unfold sub_class_empty, without_separators.
  induction s as [|c s IH]; simpl; [reflexivity|].
  rewrite phone_noise_is_separator, IH. reflexivity.
Qed.

Lemma without_separators_no_newline (s : string) :
  PyStr.forallb_str (fun c => negb (Ascii.eqb c "010")) (without_separators s) = true.
Proof.
  unfold without_separators.
  induction s as [|c s IH]; simpl; [reflexivity|].
  destruct (is_separator c) eqn:E; simpl; [exact IH|].
  rewrite IH, andb_true_r.
  destruct (Ascii.eqb c "010") eqn:N; [|reflexivity].
  apply Ascii.eqb_eq in N; subst. discriminate.
Qed.

Lemma lang_country_code (s : string) :
  lang country_code s <-> optional_country_code s.
Proof.
  unfold country_code, optional_country_code, country_codes.
  rewrite lang_opt, !lang_alt_inv, !lang_lit. simpl. intuition congruence.
Qed.

Lemma one_of_0125 (c : ascii) :
  one_of "0125" c = true ->
  In (String "0" (String "1" (String c EmptyString))) mobile_prefixes.
Proof.
  unfold one_of, mobile_prefixes. cbn [PyStr.contains].
  rewrite orb_false_r, !orb_true_iff, !Ascii.eqb_eq.
  intros [<- | [<- | [<- | <-]]]; simpl; auto.
Qed.

Lemma lang_mobile (s : string) : lang mobile_pattern s <-> mobile_shape s.
Proof.
  unfold mobile_pattern, mobile_shape. split.
  - intros H.
    apply lang_cat_inv in H as (cc & r1 & -> & Hcc & H).
    apply lang_cat_inv in H as (l & r2 & -> & Hl & H).
    apply lang_cat_inv in H as (k & ds & -> & Hk & Hds).
    apply lang_country_code in Hcc. apply lang_lit in Hl as ->.
    apply lang_class in Hk as (c & -> & Hc). apply lang_rep_class in Hds.
    exists cc, (String "0" (String "1" (String c EmptyString))), ds.
    repeat split; try tauto. now apply one_of_0125.
  - intros (cc & pre & ds & -> & Hcc & Hpre & Hds).
    apply lang_cat_inv. exists cc, (pre +++ ds).
    split; [reflexivity|]. split; [now apply lang_country_code|].
    assert (Hc : exists c, pre = String "0" (String "1" (String c EmptyString))
                           /\ one_of "0125" c = true).
    { simpl in Hpre. destruct Hpre as [<- | [<- | [<- | [<- | []]]]]; eauto. }
    destruct Hc as (c & -> & Hc).
    apply lang_cat_inv. exists "01", (String c ds).
    split; [reflexivity|]. split; [now apply lang_lit|].
    apply lang_cat_inv. exists (String c EmptyString), ds.
    split; [reflexivity|]. split; [apply lang_class; eauto|].
    now apply lang_rep_class.
Qed.

Lemma lang_landline (s : string) : lang landline_pattern s <-> landline_shape s.
Proof.
  unfold landline_pattern, landline_shape, landline_prefix. split.
  - intros H.
    apply lang_cat_inv in H as (cc & r1 & -> & Hcc & H).
    apply lang_cat_inv in H as (l & ds & -> & Hl & Hds).
    apply lang_country_code in Hcc. apply lang_lit in Hl as ->.
    apply lang_rep_class in Hds. exists cc, ds.
    split; [reflexivity|]. split; [assumption | exact Hds].
  - intros (cc & ds & -> & Hcc & Hds).
    apply lang_cat_inv. exists cc, ("02" +++ ds).
    split; [reflexivity|]. split; [now apply lang_country_code|].
    apply lang_cat_inv. exists "02", ds.
    split; [reflexivity|]. split; [now apply lang_lit|].
    now apply lang_rep_class.
Qed.

Lemma match_anchored_clean (r : regex) (s : string) :
  match_anchored r (without_separators s) = true <-> lang r (without_separators s).
Proof.
  unfold match_anchored.
  rewrite (chop_newline_none _ (without_separators_no_newline s)), orb_false_r.
  apply fullmatch_lang.
Qed.

(** C8. [validate_egyptian_phone] accepts "01012345678" and "0212345678",
    rejects "123" and "+1 555 0100", and in general, among the strings of
    ASCII text, accepts exactly those that, once whitespace, hyphens and
    parentheses are removed, are an optional country-code variant (+20,
    0020 or 20) followed by a mobile prefix 010/011/012/015 and eight
    digits, or by the landline prefix 02 and eight digits. *)
Theorem validate_egyptian_phone_spec :
  validate_egyptian_phone "01012345678" = true /\
  validate_egyptian_phone "0212345678" = true /\
  validate_egyptian_phone "123" = false /\
  validate_egyptian_phone "+1 555 0100" = false /\
  forall phone : string,
    PyStr.ascii_text phone = true ->
    (validate_egyptian_phone phone = true <->
     mobile_shape (without_separators phone) \/
     landline_shape (without_separators phone)).
Proof.
  repeat (split; [vm_compute; reflexivity|]).
  intros phone _. unfold validate_egyptian_phone, patterns. simpl.
  rewrite sub_noise_without_separators, orb_false_r, orb_true_iff.
  rewrite !match_anchored_clean, lang_mobile, lang_landline. reflexivity.
Qed.

End PhoneNumbers.

(** ** Dates *)

Section Dates.
Import Datetime validation Spec.

Lemma lex_opp (c1 c2 : comparison) :
  CompOpp (lex c1 c2) = lex (CompOpp c1) (CompOpp c2).
Proof. now destruct c1. Qed.

Lemma date_compare_antisym (a b : date) :
  date_compare b a = CompOpp (date_compare a b).
Proof.
  unfold date_compare. rewrite !lex_opp, <- !Nat.compare_antisym. reflexivity.
Qed.

Lemma datetime_compare_antisym (a b : datetime) :
  datetime_compare b a = CompOpp (datetime_compare a b).
Proof.
  unfold datetime_compare.
  rewrite !lex_opp, <- !Nat.compare_antisym, <- date_compare_antisym. reflexivity.
Qed.

(** [end <= start] is the negation of [start < end] *)
Lemma datetime_leb_ltb (a b : datetime) :
  datetime_leb b a = negb (datetime_ltb a b).
Proof.
  unfold datetime_leb, datetime_ltb. rewrite (datetime_compare_antisym a b).
  now destruct (datetime_compare a b).
Qed.

Lemma date_compare_refl (d : date) : date_compare d d = Eq.
Proof. unfold date_compare. now rewrite !Nat.compare_refl. Qed.

Lemma date_leb_refl (d : date) : date_leb d d = true.
Proof. unfold date_leb. now rewrite date_compare_refl. Qed.

Lemma validate_date_strptime (s : string) :
  validate_date s = true -> exists d, strptime_date s = Some d.
Proof.
  unfold validate_date, strptime.
  destruct (strptime_date s) as [d|]; simpl; [eauto | discriminate].
Qed.

(** C3. For a parseable pair of strings [validate_date_range] returns
    [(True, "")] whenever the start is not before the current moment and
    the start is before the end; it returns [False] with a non-empty
    message whenever the end is not after the start, and whenever the start
    is strictly before the current moment; for ASCII text that is not
    parseable it returns [(False, "Invalid date format!")].  It never
    raises and leaves the state alone. *)
Theorem validate_date_range_spec (w : world) (start_date end_date : string) :
  (forall start_dt end_dt,
     strptime start_date = Some start_dt ->
     strptime end_date = Some end_dt ->
     (datetime_leb (clock w) start_dt = true ->
      datetime_ltb start_dt end_dt = true ->
      validate_date_range start_date end_date w = (Ok (true, EmptyString), w)) /\
     (datetime_leb end_dt start_dt = true \/ datetime_ltb start_dt (clock w) = true ->
      exists msg, msg <> EmptyString /\
        validate_date_range start_date end_date w = (Ok (false, msg), w))) /\
  (PyStr.ascii_text start_date = true -> PyStr.ascii_text end_date = true ->
   strptime start_date = None \/ strptime end_date = None ->
   validate_date_range start_date end_date w = (Ok (false, "Invalid date format!"), w)).
Proof.
  unfold validate_date_range, datetime_geb. split.
  - intros start_dt end_dt -> ->. rewrite !datetime_leb_ltb. split.
    + intros Hnow Hlt. rewrite Hlt. simpl. unfold bind, now, ret. simpl.
      apply negb_true_iff in Hnow. now rewrite Hnow.
    + intros H. destruct (datetime_ltb start_dt end_dt) eqn:Hlt; simpl.
      * destruct H as [H | H]; [discriminate|].
        unfold bind, now, ret. simpl. rewrite H.
        eexists; split; [|reflexivity]. discriminate.
      * eexists; split; [|reflexivity]. discriminate.
  - intros _ _ [-> | H]; [reflexivity|].
    destruct (strptime start_date); [now rewrite H | reflexivity].
Qed.

Lemma matching_projects_filter (d : date) (projects : list project) :
  Forall dates_parseable projects ->
  project_manager.matching_projects d projects = inr (filter (running_on d) projects).
Proof.
  induction 1 as [|p ps [Hs He] _ IH]; simpl; [reflexivity|].
  apply validate_date_strptime in Hs as [s Hs].
  apply validate_date_strptime in He as [e He].
  unfold running_on. rewrite Hs, He, IH.
  now destruct (date_leb s d && date_leb d e).
Qed.

Lemma running_on_iff (d : date) (p : project) :
  running_on d p = true <->
  exists s e, strptime_date (p_start_date p) = Some s /\
              strptime_date (p_end_date p) = Some e /\
              date_leb s d = true /\ date_leb d e = true.
Proof.
  unfold running_on. split.
  - destruct (strptime_date (p_start_date p)) as [s|]; [|discriminate].
    destruct (strptime_date (p_end_date p)) as [e|]; [|discriminate].
    intros H. apply andb_true_iff in H. exists s, e. tauto.
  - intros (s & e & -> & -> & H1 & H2). now rewrite H1, H2.
Qed.

(** [search_projects_by_date] on a console that holds the date: what it
    prints is decided by the projects that run on that date. *)
Lemma search_projects_by_date_run (w : world) (line : string) (rest : list string)
      (d : date) :
  stdin w = line :: rest ->
  strptime_date (PyStr.strip line) = Some d ->
  Forall dates_parseable (projects_data w) ->
  project_manager.search_projects_by_date w =
  let w1 := set_stdin rest
              (set_stdout (stdout w ++ [(nl +++ "=== SEARCH PROJECTS BY DATE ===") +++ nl;
                                        "Enter date (YYYY-MM-DD): "]) w) in
  match filter (running_on d) (projects_data w) with
  | [] => print ("No projects found running on " +++ PyStr.strip line) w1
  | found =>
      (print (nl +++ "Projects running on " +++ PyStr.strip line +++ ":") ;;
       for_each (enumerate1 found) (project_manager.print_project true)) w1
  end.
Proof.
  intros Hin Hd Hall.
  pose proof (matching_projects_filter d _ Hall) as Hm.
  destruct w as [us ps cur uf pf sin out clk]. cbn [stdin projects_data] in *. subst sin.
  unfold project_manager.search_projects_by_date. run.
  unfold validate_date, strptime. rewrite Hd. cbn [option_map negb]. run.
  rewrite Hm.
  destruct (filter (running_on d) ps); run; rewrite <- !app_assoc; reflexivity.
Qed.

(** C4. When the dates stored in the registry are parseable as YYYY-MM-DD,
    the projects that [search_projects_by_date] collects for a query date
    [d] are exactly the projects of the registry, in their order and
    whoever owns them, with [start_date <= d <= end_date]; a project whose
    interval starts or ends on [d] itself is among them; and these are the
    projects the operation goes on to print. *)
Theorem search_projects_by_date_spec (d : date) (projects : list project) :
  Forall dates_parseable projects ->
  project_manager.matching_projects d projects = inr (filter (running_on d) projects) /\
  (forall p, In p (filter (running_on d) projects) <->
     In p projects /\
     exists s e, strptime_date (p_start_date p) = Some s /\
                 strptime_date (p_end_date p) = Some e /\
                 date_leb s d = true /\ date_leb d e = true) /\
  (forall p e, In p projects ->
     strptime_date (p_start_date p) = Some d ->
     strptime_date (p_end_date p) = Some e -> date_leb d e = true ->
     In p (filter (running_on d) projects)) /\
  (forall p s, In p projects ->
     strptime_date (p_start_date p) = Some s ->
     strptime_date (p_end_date p) = Some d -> date_leb s d = true ->
     In p (filter (running_on d) projects)) /\
  (forall (w : world) (line : string) (rest : list string),
     projects_data w = projects ->
     stdin w = line :: rest ->
     strptime_date (PyStr.strip line) = Some d ->
     project_manager.search_projects_by_date w =
     let w1 := set_stdin rest
                 (set_stdout (stdout w ++ [(nl +++ "=== SEARCH PROJECTS BY DATE ===") +++ nl;
                                           "Enter date (YYYY-MM-DD): "]) w) in
     match filter (running_on d) projects with
     | [] => print ("No projects found running on " +++ PyStr.strip line) w1
     | found =>
         (print (nl +++ "Projects running on " +++ PyStr.strip line +++ ":") ;;
          for_each (enumerate1 found) (project_manager.print_project true)) w1
     end).
Proof.
  intros Hall. split; [now apply matching_projects_filter|].
  split; [|split; [|split]].
  - intros p. rewrite filter_In, running_on_iff. reflexivity.
  - intros p e Hin Hs He Hle. apply filter_In. split; [assumption|].
    apply running_on_iff. exists d, e. now rewrite date_leb_refl.
  - intros p s Hin Hs He Hle. apply filter_In. split; [assumption|].
    apply running_on_iff. exists s, d. now rewrite date_leb_refl.
  - intros w line rest <- Hin Hd. now apply search_projects_by_date_run.
Qed.

End Dates.

(** ** data_storage.py: what a saved line gives back *)

Section Storage.
Import PyStr PyFloat data_storage Spec.

Lemma field_ok_inv (s : string) :
  field_ok s = true ->
  contains "|" s = false /\ contains "010" s = false /\ contains "013" s = false.
Proof.
  unfold field_ok. rewrite !andb_true_iff, !negb_true_iff. tauto.
Qed.

Lemma str_bool_parse (b : bool) : String.eqb (lower (str_bool b)) "true" = b.
Proof. now destruct b. Qed.

Lemma str_bool_no_char (b : bool) (c : ascii) :
  contains c "TrueFalse" = false -> contains c (str_bool b) = false.
Proof.
  destruct b; simpl; rewrite !orb_false_iff; tauto.
Qed.

Lemma user_line_record (u : user) : user_line u = user_record u +++ nl.
Proof. unfold user_line, user_record. now rewrite !append_assoc. Qed.

Lemma project_line_record (p : project) : project_line p = project_record p +++ nl.
Proof. unfold project_line, project_record. now rewrite !append_assoc. Qed.

Ltac field_facts H :=
  simpl in H; rewrite ?andb_true_iff in H;
  repeat match type of H with
         | _ /\ _ => let H1 := fresh "Hf" in destruct H as [H1 H]; apply field_ok_inv in H1
         end.

Lemma strip_user_line (u : user) :
  lstrip (u_email u) = u_email u ->
  rstrip (u_created_at u) = u_created_at u ->
  strip (user_line u) = user_record u.
Proof.
  intros Hl Hr. unfold strip, user_line, user_record. cbn [String.append].
  rewrite (lstrip_app_keep _ _ Hl) by reflexivity.
  rewrite !rstrip_app_sep by reflexivity.
  rewrite rstrip_app_empty by reflexivity. now rewrite Hr.
Qed.

Lemma split_user_record (u : user) :
  forallb field_ok (user_fields u) = true ->
  split "|" (user_record u) =
  [u_email u; u_first_name u; u_last_name u; u_password_hash u; u_mobile u;
   str_bool (u_is_active u); u_created_at u].
Proof.
  intros H. field_facts H. unfold user_record. cbn [String.append].
  repeat (rewrite split_app_sep; [|tauto || (apply str_bool_no_char; reflexivity)]).
  rewrite split_no_sep by tauto. reflexivity.
Qed.

Lemma truthy_user_record (u : user) : truthy (user_record u) = true.
Proof. unfold user_record. cbn [String.append]. apply truthy_app_cons. Qed.

(** Loading the line of a stored user files the same record. *)
Lemma load_user_line_saved (users : dict user) (u : user) :
  forallb field_ok (user_fields u) = true ->
  lstrip (u_email u) = u_email u ->
  rstrip (u_created_at u) = u_created_at u ->
  load_user_line users (user_line u) = dict_set (u_email u) u users.
Proof.
  intros Hf Hl Hr. unfold load_user_line.
  rewrite (strip_user_line u Hl Hr), (split_user_record u Hf).
  rewrite truthy_user_record. cbn [List.length Nat.eqb nth]. rewrite str_bool_parse. now destruct u.
Qed.

Lemma strip_project_line (p : project) :
  lstrip (p_title p) = p_title p ->
  strip (project_line p) = project_record p.
Proof.
  intros Hl. unfold strip, project_line, project_record. cbn [String.append].
  rewrite (lstrip_app_keep _ _ Hl) by reflexivity.
  rewrite !rstrip_app_sep by reflexivity.
  rewrite rstrip_app_empty by reflexivity.
  now rewrite (rstrip_no_space _ (repr_no_space _)).
Qed.

Lemma split_project_record (p : project) :
  forallb field_ok (project_fields p) = true ->
  split "|" (project_record p) =
  [p_title p; p_details p; repr (p_total_target p); p_start_date p; p_end_date p;
   p_owner_email p; p_created_at p; repr (p_current_amount p)].
Proof.
  intros H. field_facts H. unfold project_record. cbn [String.append].
  repeat (rewrite split_app_sep; [|tauto || (apply repr_no_char; reflexivity)]).
  rewrite split_no_sep by (apply repr_no_char; reflexivity). reflexivity.
Qed.

Lemma truthy_project_record (p : project) : truthy (project_record p) = true.
Proof. unfold project_record. cbn [String.append]. apply truthy_app_cons. Qed.

(** Loading the line of a stored project appends the same record. *)
Lemma load_project_line_saved (projects : list project) (p : project) :
  forallb field_ok (project_fields p) = true ->
  project_storable p ->
  load_project_line projects (project_line p) = inr (projects ++ [p]).
Proof.
  intros Hf ([_ Hl] & Ht & Hc). unfold load_project_line.
  rewrite (strip_project_line p Hl), (split_project_record p Hf).
  rewrite truthy_project_record. cbn [List.length Nat.eqb nth].
  unfold float_stable in Ht, Hc. rewrite Ht, Hc. now destruct p.
Qed.


(** Records hold no line break when their fields hold none. *)
Lemma user_record_one_line (u : user) :
  forallb field_ok (user_fields u) = true ->
  contains "010" (user_record u) = false /\ contains "013" (user_record u) = false.
Proof.
  intros H. field_facts H. unfold user_record.
  rewrite !contains_app.
  rewrite (str_bool_no_char _ "010" eq_refl), (str_bool_no_char _ "013" eq_refl).
  repeat match goal with
         | E : _ /\ _ |- _ => destruct E as [_ [-> ->]]
         end.
  split; reflexivity.
Qed.

Lemma project_record_one_line (p : project) :
  forallb field_ok (project_fields p) = true ->
  contains "010" (project_record p) = false /\
  contains "013" (project_record p) = false.
Proof.
  intros H. field_facts H. unfold project_record.
  rewrite !contains_app.
  rewrite !(repr_no_char _ "010" eq_refl), !(repr_no_char _ "013" eq_refl).
  repeat match goal with
         | E : _ /\ _ |- _ => destruct E as [_ [-> ->]]
         end.
  split; reflexivity.
Qed.

(** A dictionary filled key by key with distinct keys lists them in order. *)
Lemma dict_set_new {V} (k : string) (v : V) (d : dict V) :
  ~ In k (map fst d) -> dict_set k v d = d ++ [(k, v)].
Proof.
  induction d as [|[k' v'] d IH]; simpl; [reflexivity|].
  intros H. destruct (String.eqb_spec k' k) as [->|_]; [tauto|].
  rewrite IH; [reflexivity | tauto].
Qed.

Lemma load_saved_users (l acc : dict user) :
  Forall (fun kv => forallb field_ok (user_fields (snd kv)) = true) l ->
  Forall user_storable l ->
  NoDup (map fst (acc ++ l)) ->
  fold_left load_user_line (map (fun kv => user_line (snd kv)) l) acc = acc ++ l.
Proof.
  revert acc. induction l as [|[k u] l IH]; intros acc Hp Hs Hnd; simpl.
  - now rewrite app_nil_r.
  - inversion Hp as [|? ? Hpu Hpl]; inversion Hs as [|? ? (Hk & _ & Hl & _ & Hr) Hsl];
      subst.
    simpl in Hk, Hl, Hr, Hpu. subst k.
    rewrite (load_user_line_saved _ _ Hpu Hl Hr).
    rewrite map_app in Hnd. simpl in Hnd.
    rewrite dict_set_new by (apply NoDup_remove_2 in Hnd; rewrite in_app_iff in *; tauto).
    rewrite IH; auto.
    + now rewrite <- app_assoc.
    + rewrite <- app_assoc. simpl. now rewrite map_app.
Qed.



Lemma load_saved_projects (l acc : list project) :
  Forall (fun p => forallb field_ok (project_fields p) = true) l ->
  Forall project_storable l ->
  load_project_lines acc (map project_line l) = inr (acc ++ l).
Proof.
  revert acc. induction l as [|p l IH]; intros acc Hp Hs; simpl.
  - now rewrite app_nil_r.
  - inversion Hp; inversion Hs; subst.
    rewrite load_project_line_saved by assumption.
    rewrite IH by assumption. now rewrite <- app_assoc.
Qed.

End Storage.

(** ** data_storage.py: [load_data] and the round trip *)

Section StorageClaims.
Import PyStr PyFloat data_storage Spec.

Lemma read_saved_users (users : dict user) :
  Forall (fun kv => forallb field_ok (user_fields (snd kv)) = true) users ->
  Forall user_storable users ->
  NoDup (map fst users) ->
  read_users (Text (String.concat EmptyString
                      (map (fun kv => user_line (snd kv)) users))) = inr users.
Proof.
  intros Hp Hs Hnd. unfold read_users. f_equal.
  rewrite (map_ext _ (fun kv => user_record (snd kv) +++ nl))
    by (intros; apply user_line_record).
  rewrite <- (map_map (fun kv => user_record (snd kv)) (fun b => b +++ nl)).
  rewrite file_lines_concat.
  - rewrite map_map.
    rewrite (map_ext _ (fun kv => user_line (snd kv)))
      by (intros; symmetry; apply user_line_record).
    now apply (load_saved_users users []).
  - apply Forall_map. eapply Forall_impl; [|exact Hp].
    intros kv H. now apply user_record_one_line.
Qed.

Lemma read_saved_projects (projects : list project) :
  Forall (fun p => forallb field_ok (project_fields p) = true) projects ->
  Forall project_storable projects ->
  read_projects (Text (String.concat EmptyString (map project_line projects)))
  = inr projects.
Proof.
  intros Hp Hs. unfold read_projects.
  rewrite (map_ext _ (fun p => project_record p +++ nl))
    by (intros; apply project_line_record).
  rewrite <- (map_map project_record (fun b => b +++ nl)).
  rewrite file_lines_concat.
  - rewrite map_map.
    rewrite (map_ext _ project_line) by (intros; symmetry; apply project_line_record).
    now apply (load_saved_projects projects []).
  - apply Forall_map. eapply Forall_impl; [|exact Hp].
    intros p H. now apply project_record_one_line.
Qed.

(** The registries after [load_data], file by file. *)
Lemma load_data_ok (w : world) : fst (load_data w) = Ok tt.
Proof.
  unfold load_data, bind, get, modify, ret.
  destruct (users_file w); [|destruct (read_users _)..]; cbv beta iota;
    (destruct (projects_file w); [|destruct (read_projects _)..]); reflexivity.
Qed.

Lemma load_data_users (w : world) :
  users_data (snd (load_data w)) =
  match users_file w with
  | NoFile => users_data w
  | f => match read_users f with inr users => users | inl _ => [] end
  end.
Proof.
  unfold load_data, bind, get, modify, ret.
  destruct (users_file w); [|destruct (read_users _)..]; cbv beta iota;
    (destruct (projects_file w); [|destruct (read_projects _)..]); reflexivity.
Qed.

Lemma load_data_projects (w : world) :
  projects_data (snd (load_data w)) =
  match projects_file w with
  | NoFile => projects_data w
  | f => match read_projects f with inr projects => projects | inl _ => [] end
  end.
Proof.
  unfold load_data, bind, get, modify, ret.
  destruct (users_file w); [|destruct (read_users _)..]; cbv beta iota;
    (destruct (projects_file w); [|destruct (read_projects _)..]); reflexivity.
Qed.

Lemma has_fields_false_user (users : dict user) (line : string) :
  has_fields 7 line = false -> load_user_line users line = users.
Proof.
  unfold has_fields, fields_of, load_user_line. intros ->.
  now destruct (truthy (strip line)).
Qed.

Lemma has_fields_false_project (projects : list project) (line : string) :
  has_fields 8 line = false -> load_project_line projects line = inr projects.
Proof.
  unfold has_fields, fields_of, load_project_line. intros ->.
  now destruct (truthy (strip line)).
Qed.

Lemma load_users_filter (lines : list string) :
  forall acc,
    fold_left load_user_line lines acc =
    fold_left load_user_line (filter (has_fields 7) lines) acc.
Proof.
  induction lines as [|l ls IH]; intros acc; simpl; [reflexivity|].
  destruct (has_fields 7 l) eqn:E; simpl.
  - apply IH.
  - rewrite (has_fields_false_user _ _ E). apply IH.
Qed.

Lemma load_projects_filter (lines : list string) :
  forall acc,
    load_project_lines acc lines =
    load_project_lines acc (filter (has_fields 8) lines).
Proof.
  induction lines as [|l ls IH]; intros acc; simpl; [reflexivity|].
  destruct (has_fields 8 l) eqn:E; simpl.
  - destruct (load_project_line acc l); [reflexivity | apply IH].
  - rewrite (has_fields_false_project _ _ E). apply IH.
Qed.

Lemma bad_amount_raises (projects : list project) (line : string) :
  bad_amount line -> load_project_line projects line = inl ValueError.
Proof.
  unfold bad_amount, has_fields, fields_of, load_project_line.
  intros [Hn Hbad]. rewrite Hn.
  destruct (truthy (strip line)) eqn:T.
  - destruct Hbad as [-> | H]; [reflexivity|].
    destruct (py_float (nth 2 _ _)); [now rewrite H | reflexivity].
  - destruct (strip line); [discriminate Hn | discriminate T].
Qed.

Lemma bad_amount_aborts (lines : list string) :
  Exists bad_amount lines ->
  forall acc, exists e, load_project_lines acc lines = inl e.
Proof.
  induction 1 as [l ls Hbad | l ls _ IH]; intros acc; simpl.
  - rewrite (bad_amount_raises _ _ Hbad). eauto.
  - destruct (load_project_line acc l); eauto.
Qed.

(** A line with the right number of fields, field by field. *)
Lemma load_user_line_fields (users : dict user) (line : string) :
  has_fields 7 line = true -> load_user_line users line = file_user users line.
Proof.
  unfold has_fields, fields_of, load_user_line, file_user, user_of_line, fields_of.
  intros Hn. rewrite Hn.
  destruct (truthy (strip line)) eqn:T; [reflexivity|].
  destruct (strip line); [discriminate Hn | discriminate T].
Qed.

Lemma load_project_line_fields (projects : list project) (line : string) :
  has_fields 8 line = true ->
  load_project_line projects line =
  match project_of_line line with
  | Some p => inr (projects ++ [p])
  | None => inl ValueError
  end.
Proof.
  unfold has_fields, fields_of, load_project_line, project_of_line, fields_of.
  intros Hn. rewrite Hn.
  destruct (truthy (strip line)) eqn:T.
  - destruct (py_float (nth 2 _ _)); [|reflexivity].
    now destruct (py_float (nth 7 _ _)).
  - destruct (strip line); [discriminate Hn | discriminate T].
Qed.

Lemma load_users_fields (lines : list string) :
  forall acc,
    fold_left load_user_line lines acc =
    fold_left file_user (filter (has_fields 7) lines) acc.
Proof.
  induction lines as [|l ls IH]; intros acc; simpl; [reflexivity|].
  destruct (has_fields 7 l) eqn:E; simpl.
  - rewrite (load_user_line_fields _ _ E). apply IH.
  - rewrite (has_fields_false_user _ _ E). apply IH.
Qed.

Lemma load_projects_fields (lines : list string) :
  forall acc,
    load_project_lines acc lines =
    match all_some (map project_of_line (filter (has_fields 8) lines)) with
    | Some projects => inr (acc ++ projects)
    | None => inl ValueError
    end.
Proof.
  induction lines as [|l ls IH]; intros acc; simpl.
  - now rewrite app_nil_r.
  - destruct (has_fields 8 l) eqn:E; simpl.
    + rewrite (load_project_line_fields _ _ E).
      destruct (project_of_line l) as [p|]; [|reflexivity].
      rewrite IH.
      destruct (all_some _); [now rewrite <- app_assoc | reflexivity].
    + rewrite (has_fields_false_project _ _ E). apply IH.
Qed.

(** C6. [load_data] never raises.  Of a file of ASCII text, a line is
    split on ['|'] and is used only when it has 7 fields (users file) or 8
    fields (projects file); every other line is dropped.  The users are
    the lines of 7 fields, filed under the first field, with the fields
    taken in the order email, first name, last name, hash, phone, flag,
    time; the projects are the lines of 8 fields in the order of the file,
    with the third and the eighth field read by [float].  A file that
    cannot be read, and a projects file with a line of 8 fields whose
    target or current amount is not a number, leave the corresponding
    registry empty; a file that is not there leaves it as it is. *)
Theorem load_data_spec :
  (forall w, fst (load_data w) = Ok tt) /\
  (forall users line,
     has_fields 7 line = false -> load_user_line users line = users) /\
  (forall projects line,
     has_fields 8 line = false -> load_project_line projects line = inr projects) /\
  (forall w content,
     users_file w = Text content -> ascii_text content = true ->
     users_data (snd (load_data w)) =
     fold_left file_user (filter (has_fields 7) (file_lines content)) []) /\
  (forall w content,
     projects_file w = Text content -> ascii_text content = true ->
     projects_data (snd (load_data w)) =
     match all_some (map project_of_line
                         (filter (has_fields 8) (file_lines content))) with
     | Some projects => projects
     | None => []
     end) /\
  (forall w, users_file w = Unreadable -> users_data (snd (load_data w)) = []) /\
  (forall w, projects_file w = Unreadable -> projects_data (snd (load_data w)) = []) /\
  (forall w, users_file w = NoFile -> users_data (snd (load_data w)) = users_data w) /\
  (forall w, projects_file w = NoFile ->
             projects_data (snd (load_data w)) = projects_data w) /\
  (forall w content,
     projects_file w = Text content -> ascii_text content = true ->
     Exists bad_amount (file_lines content) ->
     projects_data (snd (load_data w)) = []).
Proof.
  repeat split.
  - apply load_data_ok.
  - apply has_fields_false_user.
  - apply has_fields_false_project.
  - intros w content E _. rewrite load_data_users, E. simpl.
    apply load_users_fields.
  - intros w content E _. rewrite load_data_projects, E. simpl.
    rewrite load_projects_fields. now destruct (all_some _).
  - intros w E. now rewrite load_data_users, E.
  - intros w E. now rewrite load_data_projects, E.
  - intros w E. now rewrite load_data_users, E.
  - intros w E. now rewrite load_data_projects, E.
  - intros w content E _ H. rewrite load_data_projects, E. simpl.
    destruct (bad_amount_aborts _ H []) as [e ->]. reflexivity.
Qed.






End StorageClaims.

(** ** user_auth.py *)

Section UserAuth.
Import PyStr validation data_storage user_auth Spec Logic.

Lemma dict_get_set_same {V} (k : string) (v : V) (d : dict V) :
  dict_get k (dict_set k v d) = Some v.
Proof.
  induction d as [|[k' v'] d IH]; simpl.
  - now rewrite String.eqb_refl.
  - destruct (String.eqb k' k) eqn:E; simpl.
    + now rewrite String.eqb_refl.
    + now rewrite E.
Qed.

Lemma verify_password_iff (stored password : string) :
  verify_password stored password = true <-> stored = Sha256.hexdigest password.
Proof. unfold verify_password, hash_password. apply String.eqb_eq. Qed.

(** [login_user] on a console that holds the two lines it reads. *)
Lemma login_user_result (w : world) (e p : string) (rest : list string) :
  stdin w = e :: p :: rest ->
  login_user w =
  let email := lower (strip e) in
  let out := stdout w ++ [(nl +++ "=== LOGIN ===") +++ nl; "Email: "; "Password: "] in
  let refuse msg := (Ok false, set_stdout (out ++ [msg +++ nl]) (set_stdin rest w)) in
  match dict_get email (users_data w) with
  | None => refuse "❌ Email not found!"
  | Some u =>
      if negb (u_is_active u) then refuse "❌ Account not activated!"
      else if negb (verify_password (u_password_hash u) (strip p))
      then refuse "❌ Invalid password!"
      else (Ok true,
            set_stdout (out ++ [("✅ Welcome, " +++ u_first_name u +++ " " +++
                                 u_last_name u +++ "!") +++ nl])
              (set_current_user_email (Some email) (set_stdin rest w)))
  end.
Proof.
  destruct w as [us ps cur uf pf sin out clk]. simpl. intros ->.
  unfold login_user. run.
  destruct (dict_get (lower (strip e)) us) as [u|].
  - destruct (u_is_active u); cbn [negb].
    + destruct (verify_password (u_password_hash u) (strip p)); cbn [negb]; run;
        now rewrite <- !app_assoc.
    + run. now rewrite <- !app_assoc.
  - run. now rewrite <- !app_assoc.
Qed.

(** What a successful registration leaves behind. *)
Lemma register_user_success (w w1 : world)
      (fn ln e pw cpw mob act : string) (rest : list string) :
  stdin w = fn :: ln :: e :: pw :: cpw :: mob :: act :: rest ->
  register_user w = (Ok true, w1) ->
  exists u,
    dict_get (lower (strip e)) (users_data w1) = Some u /\
    u_is_active u = String.eqb (lower act) "y" /\
    u_password_hash u = Sha256.hexdigest (strip pw) /\
    stdin w1 = rest.
Proof.
  destruct w as [us ps cur uf pf sin out clk]. simpl. intros ->.
  unfold register_user. run.
  destruct (validate_name (strip fn)); cbn [negb]; run; [|discriminate].
  destruct (validate_name (strip ln)); cbn [negb]; run; [|discriminate].
  destruct (validate_email (lower (strip e))); cbn [negb]; run; [|discriminate].
  destruct (dict_in (lower (strip e)) us); run; [discriminate|].
  destruct (String.length (strip pw) <? 6); run; [discriminate|].
  destruct (String.eqb (strip pw) (strip cpw)); cbn [negb]; run; [|discriminate].
  destruct (validate_egyptian_phone (strip mob)); cbn [negb]; run; [|discriminate].
  destruct (String.eqb (lower act) "y") eqn:Ey; run.
  - rewrite dict_get_set_same. run.
    intros H. injection H as <-. cbn [users_data stdin].
    rewrite dict_get_set_same. eexists. repeat split; reflexivity.
  - intros H. injection H as <-. cbn [users_data stdin].
    rewrite dict_get_set_same. eexists. repeat split; reflexivity.
Qed.

(** C5. With the two lines it reads on the console (ASCII text),
    [login_user] returns
    [False] exactly when the email it looks up (the entered one, stripped
    and lowercased) is not in the registry, or the account is not active,
    or the SHA-256 hash of the entered password (stripped) is not the
    stored one; it then prints one message, raises nothing and leaves the
    current-user pointer as it was.  Otherwise it returns [True] and the
    pointer is that email.  After a successful [register_user], a login
    with the same email and password succeeds exactly when the account was
    activated at the prompt, and is refused as not activated otherwise. *)
Theorem login_user_spec :
  (forall (w : world) (e p : string) (rest : list string),
     stdin w = e :: p :: rest ->
     ascii_text e = true -> ascii_text p = true ->
     let email := lower (strip e) in
     let r := login_user w in
     (fst r = Ok false <-> login_failure (users_data w) email (strip p)) /\
     (fst r = Ok false \/ fst r = Ok true) /\
     (fst r = Ok false ->
      current_user_email (snd r) = current_user_email w /\
      exists msg, msg <> EmptyString /\
        stdout (snd r) =
        stdout w ++ [(nl +++ "=== LOGIN ===") +++ nl; "Email: "; "Password: ";
                     msg +++ nl]) /\
     (fst r = Ok true -> current_user_email (snd r) = Some email) /\
     users_data (snd r) = users_data w) /\
  (forall (w w1 : world) (fn ln e pw cpw mob act : string) (rest : list string),
     stdin w = fn :: ln :: e :: pw :: cpw :: mob :: act :: e :: pw :: rest ->
     register_user w = (Ok true, w1) ->
     (fst (login_user w1) = Ok true <-> lower act = "y") /\
     (lower act <> "y" ->
      fst (login_user w1) = Ok false /\
      last (stdout (snd (login_user w1))) EmptyString
      = "❌ Account not activated!" +++ nl)).
Proof.
  split.
  - intros w e p rest Hin _ _. cbv zeta. rewrite (login_user_result w e p rest Hin).
    cbv zeta. unfold login_failure.
    destruct (dict_get (lower (strip e)) (users_data w)) as [u|] eqn:Eu.
    + destruct (u_is_active u) eqn:Ea; cbn [negb].
      * destruct (verify_password (u_password_hash u) (strip p)) eqn:Ev; cbn [negb].
        -- apply verify_password_iff in Ev. cbn [fst snd].
           repeat split; auto; try discriminate.
           intros [H | [(u' & H & Hu) | (u' & H & Hu)]]; congruence.
        -- assert (Hne : u_password_hash u <> Sha256.hexdigest (strip p)).
           { intros H. apply verify_password_iff in H. congruence. }
           cbn [fst snd]. repeat split; eauto; try discriminate.
           eexists. split;
             [|cbn [stdout set_stdout snd]; rewrite <- app_assoc; reflexivity].
           discriminate.
      * cbn [fst snd]. repeat split; eauto; try discriminate.
        eexists. split;
             [|cbn [stdout set_stdout snd]; rewrite <- app_assoc; reflexivity].
           discriminate.
    + cbn [fst snd]. repeat split; eauto; try discriminate.
      eexists. split;
             [|cbn [stdout set_stdout snd]; rewrite <- app_assoc; reflexivity].
           discriminate.
  - intros w w1 fn ln e pw cpw mob act rest Hin Hreg.
    destruct (register_user_success _ _ _ _ _ _ _ _ _ _ Hin Hreg)
      as (u & Hu & Ha & Hh & Hin1).
    rewrite (login_user_result w1 e pw rest Hin1). cbv zeta.
    rewrite Hu, Ha.
    assert (Hv : verify_password (u_password_hash u) (strip pw) = true)
      by now apply verify_password_iff.
    rewrite Hv. destruct (String.eqb_spec (lower act) "y") as [Hy | Hy]; cbn [negb fst snd].
    + split; [tauto | congruence].
    + split; [split; [discriminate | tauto]|].
      intros _. split; [reflexivity|]. cbn [stdout set_stdout]. apply last_last.
Qed.

End UserAuth.

(** ** [login_user] normalises the email *)

Section LoginCase.
Import PyStr user_auth Spec.

Lemma in_range_iff (lo hi : nat) (c : ascii) :
  in_range lo hi c = true <-> lo <= ord c <= hi.
Proof. unfold in_range. rewrite andb_true_iff, !Nat.leb_le. tauto. Qed.

Lemma isalpha_iff (c : ascii) :
  isalpha c = true <-> 65 <= ord c <= 90 \/ 97 <= ord c <= 122.
Proof. unfold isalpha, isupper, islower. now rewrite orb_true_iff, !in_range_iff. Qed.

Lemma ascii_of_ord (c : ascii) : ascii_of_nat (ord c) = c.
Proof. apply ascii_nat_embedding. Qed.

Lemma lower_char_upper (c : ascii) :
  65 <= ord c <= 90 -> lower_char c = ascii_of_nat (ord c + 32).
Proof.
  intros H. unfold lower_char, isupper.
  now rewrite (proj2 (in_range_iff 65 90 c) H).
Qed.

Lemma lower_char_not_upper (c : ascii) : ~ 65 <= ord c <= 90 -> lower_char c = c.
Proof.
  intros H. unfold lower_char, isupper.
  destruct (in_range 65 90 c) eqn:E; [|reflexivity].
  apply in_range_iff in E. tauto.
Qed.

Lemma case_variant_lower (c d : ascii) :
  case_variant c d -> lower_char c = lower_char d.
Proof.
  intros [-> | (Hc & Hd & Ho)]; [reflexivity|].
  apply isalpha_iff in Hc, Hd. destruct Ho as [Ho | Ho].
  - rewrite (lower_char_upper d) by lia. rewrite (lower_char_not_upper c) by lia.
    now rewrite <- Ho, ascii_of_ord.
  - rewrite (lower_char_upper c) by lia. rewrite (lower_char_not_upper d) by lia.
    now rewrite <- Ho, ascii_of_ord.
Qed.

Lemma isspace_iff (c : ascii) :
  isspace c = true <-> 9 <= ord c <= 13 \/ 28 <= ord c <= 32.
Proof. unfold isspace. now rewrite orb_true_iff, !in_range_iff. Qed.

Lemma case_variant_isspace (c d : ascii) :
  case_variant c d -> isspace c = isspace d.
Proof.
  intros [-> | (Hc & Hd & _)]; [reflexivity|].
  apply isalpha_iff in Hc, Hd.
  destruct (isspace c) eqn:Ec; destruct (isspace d) eqn:Ed; try reflexivity;
    try (apply isspace_iff in Ec; lia); apply isspace_iff in Ed; lia.
Qed.

Lemma same_up_to_case_lstrip (s t : string) :
  same_up_to_case s t -> same_up_to_case (lstrip s) (lstrip t).
Proof.
  induction 1 as [|c d s t Hcd Hst IH]; simpl; [constructor|].
  rewrite (case_variant_isspace _ _ Hcd).
  destruct (isspace d); [exact IH | now constructor].
Qed.

Lemma same_up_to_case_rstrip (s t : string) :
  same_up_to_case s t -> same_up_to_case (rstrip s) (rstrip t).
Proof.
  induction 1 as [|c d s t Hcd Hst IH]; simpl; [constructor|].
  rewrite (case_variant_isspace _ _ Hcd).
  destruct (rstrip s) as [|c' s']; destruct (rstrip t) as [|d' t'];
    inversion IH; subst.
  - destruct (isspace d); [constructor|].
    apply suc_cons; [assumption | constructor].
  - apply suc_cons; [assumption|]. now apply suc_cons.
Qed.

Lemma same_up_to_case_lower (s t : string) :
  same_up_to_case s t -> lower s = lower t.
Proof.
  induction 1 as [|c d s t Hcd Hst IH]; simpl; [reflexivity|].
  now rewrite (case_variant_lower _ _ Hcd), IH.
Qed.

Lemma lstrip_blank_app (l s : string) : blank l -> lstrip (l +++ s) = lstrip s.
Proof.
  unfold blank. induction l as [|c l IH]; simpl; [reflexivity|].
  intros H. apply andb_true_iff in H as [-> Hl]. now apply IH.
Qed.

Lemma rstrip_blank (r : string) : blank r -> rstrip r = EmptyString.
Proof.
  unfold blank. induction r as [|c r IH]; simpl; [reflexivity|].
  intros H. apply andb_true_iff in H as [-> Hr]. now rewrite (IH Hr).
Qed.

Lemma lstrip_blank (r : string) : blank r -> lstrip r = EmptyString.
Proof. intros H. rewrite <- (append_nil_r r). now rewrite lstrip_blank_app. Qed.

Lemma strip_app_blank (m r : string) : blank r -> strip (m +++ r) = strip m.
Proof.
  intros Hr. unfold strip. induction m as [|c m IH]; simpl.
  - now rewrite (lstrip_blank r Hr).
  - destruct (isspace c); [exact IH|].
    apply (rstrip_app_empty (String c m) r), rstrip_blank, Hr.
Qed.

(** Whitespace around the input and the case of its letters do not reach
    the lookup. *)
Lemma email_variant_normal (e1 e2 : string) :
  email_variant e1 e2 -> lower (strip e1) = lower (strip e2).
Proof.
  intros (l1 & m1 & r1 & l2 & m2 & r2 & -> & -> & Hl1 & Hr1 & Hl2 & Hr2 & Hm).
  assert (Hs : forall l m r, blank l -> blank r -> strip (l +++ m +++ r) = strip m).
  { intros l m r Hl Hr. unfold strip. rewrite (lstrip_blank_app _ _ Hl).
    apply (strip_app_blank m r Hr). }
  rewrite !Hs by assumption. unfold strip.
  apply same_up_to_case_lower, same_up_to_case_rstrip, same_up_to_case_lstrip, Hm.
Qed.

(** C10. On a console of ASCII text, [login_user] gives the same outcome,
    and leaves the same state, for two email inputs that differ only in
    letter case and surrounding whitespace; an input that so differs from a
    registry key, which is stripped and lowercase, looks up that key. *)
Theorem login_user_email_insensitive :
  (forall (w : world) (e1 e2 : string) (rest : list string),
     ascii_text e1 = true -> ascii_text e2 = true ->
     Forall (fun line => ascii_text line = true) rest ->
     email_variant e1 e2 ->
     login_user (set_stdin (e1 :: rest) w) = login_user (set_stdin (e2 :: rest) w)) /\
  (forall key e : string,
     ascii_text key = true -> ascii_text e = true ->
     lower (strip key) = key -> email_variant key e -> lower (strip e) = key).
Proof.
  split.
  - intros w e1 e2 rest _ _ _ Hv. apply email_variant_normal in Hv.
    destruct w as [us ps cur uf pf sin out clk].
    unfold login_user. run. rewrite Hv. reflexivity.
  - intros key e _ _ Hk Hv. apply email_variant_normal in Hv. congruence.
Qed.

End LoginCase.

(** ** project_manager.py: references and list updates *)

Section ProjectLemmas.
Import PyStr PyFloat data_storage project_manager Spec Logic.

Lemma refs_from_spec (email : string) (projects : list project) :
  forall i r,
    In r (refs_from i email projects) ->
    i <= r /\ exists p, nth_error projects (r - i) = Some p /\ owned_by email p = true.
Proof.
  induction projects as [|q ps IH]; intros i r; simpl; [tauto|].
  destruct (owned_by email q) eqn:E; simpl.
  - intros [<- | H].
    + rewrite Nat.sub_diag. split; [lia|]. now exists q.
    + apply IH in H as (Hle & p & Hp & Ho). split; [lia|].
      exists p. split; [|assumption].
      replace (r - i) with (S (r - S i)) by lia. exact Hp.
  - intros H. apply IH in H as (Hle & p & Hp & Ho). split; [lia|].
    exists p. split; [|assumption].
    replace (r - i) with (S (r - S i)) by lia. exact Hp.
Qed.

(** The references [get_user_projects] returns are references to projects
    of that owner. *)
Lemma refs_owned (email : string) (projects : list project) (r : nat) :
  In r (refs_from 0 email projects) -> owned_ref email r projects.
Proof.
  intros H. apply refs_from_spec in H as (_ & p & Hp & Ho).
  rewrite Nat.sub_0_r in Hp. now exists p.
Qed.

(** Read through, the references give the owner's projects in order. *)
Lemma refs_from_filter (email : string) (projects : list project) :
  forall i,
    map (fun r => nth_error projects (r - i)) (refs_from i email projects)
    = map Some (filter (owned_by email) projects).
Proof.
  induction projects as [|q ps IH]; intros i; simpl; [reflexivity|].
  assert (Hshift : map (fun r => nth_error (q :: ps) (r - i)) (refs_from (S i) email ps)
                   = map (fun r => nth_error ps (r - S i)) (refs_from (S i) email ps)).
  { apply map_ext_in. intros r Hr. apply refs_from_spec in Hr as [Hle _].
    replace (r - i) with (S (r - S i)) by lia. reflexivity. }
  destruct (owned_by email q); simpl.
  - rewrite Nat.sub_diag. simpl. f_equal. rewrite Hshift. apply IH.
  - rewrite Hshift. apply IH.
Qed.

Lemma list_update_id {A} (r : nat) (l : list A) : list_update r (fun x => x) l = l.
Proof.
  revert r. induction l as [|x l IH]; intros [|r]; simpl; try reflexivity.
  now rewrite IH.
Qed.

Lemma list_update_twice {A} (r : nat) (f g : A -> A) (l : list A) :
  list_update r g (list_update r f l) = list_update r (fun x => g (f x)) l.
Proof.
  revert r. induction l as [|x l IH]; intros [|r]; simpl; try reflexivity.
  now rewrite IH.
Qed.

Lemma list_update_length {A} (r : nat) (f : A -> A) (l : list A) :
  List.length (list_update r f l) = List.length l.
Proof.
  revert r. induction l as [|x l IH]; intros [|r]; simpl; try reflexivity.
  now rewrite IH.
Qed.

Lemma nth_error_list_update {A} (r j : nat) (f : A -> A) (l : list A) :
  nth_error (list_update r f l) j =
  if j =? r then option_map f (nth_error l j) else nth_error l j.
Proof.
  revert r j. induction l as [|x l IH]; intros [|r] [|j]; simpl; try reflexivity.
  - now destruct (j =? r).
  - apply IH.
Qed.

Lemma others_list_update (email : string) (r : nat) (f : project -> project)
      (projects : list project) :
  owned_ref email r projects ->
  (forall p, p_owner_email (f p) = p_owner_email p) ->
  others email (list_update r f projects) = others email projects.
Proof.
  intros (p & Hp & Ho) Hf. revert r Hp.
  induction projects as [|q ps IH]; intros [|r] Hp; simpl in *; try discriminate.
  - injection Hp as ->. unfold owned_by in *. rewrite Hf, Ho. reflexivity.
  - now rewrite (IH r Hp).
Qed.

Lemma owned_ref_list_update (email : string) (r : nat) (f : project -> project)
      (projects : list project) :
  owned_ref email r projects ->
  (forall p, p_owner_email (f p) = p_owner_email p) ->
  owned_ref email r (list_update r f projects).
Proof.
  intros (p & Hp & Ho) Hf. exists (f p). split.
  - now rewrite nth_error_list_update, Nat.eqb_refl, Hp.
  - unfold owned_by in *. now rewrite Hf.
Qed.

Lemma project_eqb_owner (p q : project) :
  project_eqb p q = true -> p_owner_email p = p_owner_email q.
Proof.
  unfold project_eqb. rewrite !andb_true_iff. intros H.
  apply String.eqb_eq. tauto.
Qed.

(** What [remove] takes out belongs to the owner of the selected project. *)
Lemma others_list_remove (email : string) (x : project) (projects : list project) :
  owned_by email x = true ->
  forall i r projects',
    i <= r -> nth_error projects (r - i) = Some x ->
    list_remove i r x projects = Some projects' ->
    others email projects' = others email projects.
Proof.
  intros Hx. induction projects as [|y ps IH]; intros i r ps' Hle Hn; simpl;
    [discriminate|].
  destruct ((i =? r) || project_eqb y x) eqn:E.
  - intros H. injection H as <-.
    assert (Hy : owned_by email y = true).
    { apply orb_true_iff in E as [E | E].
      - apply Nat.eqb_eq in E. subst. rewrite Nat.sub_diag in Hn. simpl in Hn.
        congruence.
      - unfold owned_by in *. now rewrite (project_eqb_owner _ _ E). }
    now rewrite Hy.
  - apply orb_false_iff in E as [E _]. apply Nat.eqb_neq in E.
    replace (r - i) with (S (r - S i)) in Hn by lia. simpl in Hn.
    destruct (list_remove (S i) r x ps) as [ps1|] eqn:Er; simpl; [|discriminate].
    intros H. injection H as <-. simpl.
    rewrite (IH (S i) r ps1); [reflexivity | lia | assumption | assumption].
Qed.

Lemma deref_eq (r : nat) (w : world) :
  deref r w = (match nth_error (projects_data w) r with
               | Some p => Ok p
               | None => Raise KeyError
               end, w).
Proof.
  unfold deref, bind, get, ret, raise.
  now destruct (nth_error (projects_data w) r).
Qed.

End ProjectLemmas.

(** ** project_manager.py: listing and selecting *)

Section ProjectFrames.
Import PyStr PyFloat data_storage project_manager Spec Logic.

Lemma frame_deref (r : nat) (Q : result project -> world -> Prop) (w : world) :
  (forall p, nth_error (projects_data w) r = Some p -> Q (Ok p) w) ->
  Q (Raise KeyError) w ->
  wp (deref r) Q w.
Proof.
  intros H1 H2. eapply wp_eq; [apply deref_eq|].
  destruct (nth_error (projects_data w) r); auto.
Qed.

(** The loop that prints the titles, on references that are all valid. *)
Lemma print_titles_loop (projects : list project) :
  forall (irs : list (nat * nat)) (ips : list (nat * project)) (w : world),
    projects_data w = projects ->
    map (fun ir => (fst ir, nth_error projects (snd ir))) irs
    = map (fun ip => (fst ip, Some (snd ip))) ips ->
    for_each irs (fun ir => p <- deref (snd ir) ;;
                            print (str_nat (fst ir) +++ ". " +++ p_title p)) w
    = (Ok tt,
       set_stdout (stdout w ++
                   map (fun ip => (str_nat (fst ip) +++ ". " +++ p_title (snd ip)) +++ nl) ips)
                  w).
Proof.
  induction irs as [|[i r] irs IH]; intros [|[i' p] ips] w Hw Hmap;
    try discriminate Hmap.
  - simpl. rewrite app_nil_r. now destruct w.
  - simpl in Hmap. injection Hmap as <- Hp Hmap.
    cbn [for_each]. unfold bind at 1. unfold bind at 1.
    rewrite deref_eq, Hw. cbn [snd fst]. rewrite Hp.
    unfold print at 1, modify. rewrite IH with (ips := ips); auto.
    cbn [stdout set_stdout fst snd]. rewrite <- app_assoc. reflexivity.
Qed.

Lemma enumerate1_map {A B} (f : A -> B) (l : list A) :
  enumerate1 (map f l) = map (fun ia => (fst ia, f (snd ia))) (enumerate1 l).
Proof.
  unfold enumerate1. rewrite length_map. generalize 1.
  induction l as [|x l IH]; intros n; simpl; [reflexivity|]. now rewrite IH.
Qed.

(** [print_titles] on the references of [email] prints the titles of the
    projects of [email]. *)
Lemma print_titles_eq (email : string) (w : world) :
  print_titles (refs_from 0 email (projects_data w)) w
  = (Ok tt,
     set_stdout (stdout w ++ title_lines (filter (owned_by email) (projects_data w))) w).
Proof.
  unfold print_titles, title_lines.
  apply (print_titles_loop (projects_data w)); [reflexivity|].
  pose proof (refs_from_filter email (projects_data w) 0) as H.
  rewrite (map_ext (fun r => nth_error (projects_data w) (r - 0))
                   (nth_error (projects_data w))) in H
    by (intros; now rewrite Nat.sub_0_r).
  apply (f_equal enumerate1) in H. rewrite !enumerate1_map in H. exact H.
Qed.

(** A selection is a reference of the list that was shown. *)
Lemma frame_select (prompt : string) (refs : list ref)
      (Q : result (option ref) -> world -> Prop) (w : world) :
  (forall w', same_registries w w' -> Q (Raise EOFError) w') ->
  (forall w', same_registries w w' -> Q (Ok None) w') ->
  (forall r w', In r refs -> same_registries w w' -> Q (Ok (Some r)) w') ->
  wp (select_project prompt refs) Q w.
Proof.
  intros Heof Hnone Hsome. unfold select_project.
  apply wp_bind, frame_input; [exact Heof|].
  intros line w1 H1. destruct (PyNum.py_int line) as [n|].
  - destruct ((n - 1 <? 0)%Z || (Z.of_nat (List.length refs) <=? n - 1)%Z) eqn:E.
    + apply wp_bind, frame_print. intros w2 H2. apply wp_ret, Hnone.
      eapply same_registries_trans; eauto.
    + apply orb_false_iff in E as [E1 E2].
      apply Z.ltb_ge in E1. apply Z.leb_gt in E2.
      destruct (nth_error refs (Z.to_nat (n - 1))) as [r|] eqn:Er.
      * apply wp_ret, Hsome; [|assumption]. eapply nth_error_In; eauto.
      * apply nth_error_None in Er. lia.
  - apply wp_bind, frame_print. intros w2 H2. apply wp_ret, Hnone.
    eapply same_registries_trans; eauto.
Qed.

(** The invariant of an edit survives console steps and assignments to
    the title, the details and the target. *)
Lemma edit_inv_step (w0 : world) (email : string) (r : nat) (shown : list string)
      (w w' : world) :
  edit_inv w0 email r shown w -> same_registries w w' -> edit_inv w0 email r shown w'.
Proof.
  intros (U & C & [more S] & E & O) (U' & P' & C' & [l G]).
  unfold edit_inv. rewrite P'.
  repeat split; try congruence.
  exists (more ++ l). now rewrite G, S, <- !app_assoc.
Qed.

Lemma edit_inv_assign (w0 : world) (email : string) (r : nat) (shown : list string)
      (w : world) (f : project -> project) :
  (forall p, same_frame p (f p)) ->
  edit_inv w0 email r shown w ->
  edit_inv w0 email r shown (set_projects_data (list_update r f (projects_data w)) w).
Proof.
  intros Hf (U & C & S & (g & Hg & E) & O).
  repeat split; try assumption.
  - exists (fun p => f (g p)). split.
    + intros p. destruct (Hg p) as (A1 & A2 & A3 & A4 & A5).
      destruct (Hf (g p)) as (B1 & B2 & B3 & B4 & B5).
      repeat split; congruence.
    + cbn [projects_data set_projects_data]. now rewrite E, list_update_twice.
  - cbn [projects_data set_projects_data]. apply owned_ref_list_update; [assumption|].
    intros p. now destruct (Hf p) as (_ & _ & B3 & _).
Qed.

Lemma same_frame_with_title (v : string) (p : project) : same_frame p (with_title v p).
Proof. repeat split. Qed.

Lemma same_frame_with_details (v : string) (p : project) :
  same_frame p (with_details v p).
Proof. repeat split. Qed.

Lemma same_frame_with_total_target (v : float) (p : project) :
  same_frame p (with_total_target v p).
Proof. repeat split. Qed.

End ProjectFrames.

(** ** [edit_user_project] *)

Section Edit.
Import PyStr PyFloat data_storage project_manager Spec Logic.

(** a console step under the invariant [Hinv] *)
Ltac console Hinv :=
  match goal with
  | H : same_registries _ _ |- _ =>
      apply (edit_inv_step _ _ _ _ _ _ Hinv) in H; clear Hinv; rename H into Hinv
  end.

Lemma edit_post_of_inv (w w' : world) (cu : user) (r : nat) :
  logged_in w = Some cu ->
  In r (refs_from 0 (u_email cu) (projects_data w)) ->
  edit_inv w (u_email cu) r
    ([(nl +++ "=== EDIT PROJECT ===") +++ nl; "Your projects:" +++ nl] ++
     title_lines (filter (owned_by (u_email cu)) (projects_data w))) w' ->
  edit_post w w'.
Proof.
  intros Hcu Hr (U & C & [more S] & E & O). unfold edit_post.
  rewrite Hcu. cbv zeta.
  destruct (refs_from 0 (u_email cu) (projects_data w)) as [|r0 refs] eqn:Hrefs;
    [destruct Hr|].
  repeat split; try assumption.
  - exists more. now rewrite S, <- !app_assoc.
  - exists r. split; assumption.
Qed.

Lemma edited_at_refl (r : nat) (projects : list project) : edited_at r projects projects.
Proof.
  exists (fun p => p). split; [repeat split | now rewrite list_update_id].
Qed.

Lemma edit_user_project_effect (w : world) :
  wp edit_user_project (fun _ w' => edit_post w w') w.
Proof.
  unfold edit_user_project.
  apply wp_bind, wp_get_current_user.
  destruct (logged_in w) as [cu|] eqn:Hcu.
  2:{ apply wp_bind, frame_print. intros w1 (U & P & C & _). apply wp_ret.
      unfold edit_post. now rewrite Hcu. }
  unfold get_user_projects at 1. apply wp_bind, wp_bind, wp_get, wp_ret.
  destruct (refs_from 0 (u_email cu) (projects_data w)) as [|r0 refs0] eqn:Hrefs.
  { apply wp_bind, frame_print. intros w1 (U & P & C & _). apply wp_ret.
    unfold edit_post. rewrite Hcu. cbv zeta. now rewrite Hrefs. }
  rewrite <- Hrefs.
  apply wp_bind, wp_print. apply wp_bind, wp_print. apply wp_bind.
  match goal with
  | |- wp _ _ ?w2 => eapply wp_eq; [exact (print_titles_eq (u_email cu) w2)|]
  end.
  cbn [projects_data set_stdout stdout].
  set (shown := [(nl +++ "=== EDIT PROJECT ===") +++ nl; "Your projects:" +++ nl] ++
                title_lines (filter (owned_by (u_email cu)) (projects_data w))).
  match goal with |- wp _ _ ?w3 => set (w3' := w3) end.
  assert (Hbase : forall r, In r (refs_from 0 (u_email cu) (projects_data w)) ->
                            edit_inv w (u_email cu) r shown w3').
  { intros r Hr. repeat split.
    - exists []. subst w3' shown. cbn [stdout set_stdout].
      now rewrite app_nil_r, <- !app_assoc.
    - apply edited_at_refl.
    - now apply refs_owned. }
  assert (Hquit : forall w', same_registries w3' w' -> edit_post w w').
  { intros w' H. apply (edit_post_of_inv w w' cu r0 Hcu).
    - rewrite Hrefs. now left.
    - apply (edit_inv_step _ _ _ _ w3'); [|assumption].
      apply Hbase. rewrite Hrefs. now left. }
  apply wp_bind, frame_select; [exact Hquit | |].
  { intros w4 H4. apply wp_ret, Hquit, H4. }
  intros r w4 Hr H4. pose proof (Hbase r Hr) as Hinv. console Hinv.
  clear Hbase Hquit. clearbody w3'.
  assert (Hdone : forall w', edit_inv w (u_email cu) r shown w' -> edit_post w w')
    by (intros w'; now apply edit_post_of_inv).
  apply wp_bind, frame_deref; [intros p Hp | now apply Hdone].
  apply wp_bind, frame_print. intros w5 H5. console Hinv.
  apply wp_bind, frame_print. intros w6 H6. console Hinv.
  apply wp_bind, frame_input; [intros w7 H7; console Hinv; now apply Hdone|].
  intros new_title w7 H7. console Hinv.
  apply wp_bind.
  apply (wp_mono _ (fun r' w' => r' = Ok tt /\ edit_inv w (u_email cu) r shown w')).
  2:{ destruct (truthy (strip new_title)).
      - apply wp_modify. split; [reflexivity|].
        apply edit_inv_assign; [apply same_frame_with_title | assumption].
      - apply wp_ret. now split. }
  clear Hinv. intros _ w8 [-> Hinv].
  apply wp_bind, frame_deref; [intros p1 Hp1 | now apply Hdone].
  apply wp_bind, frame_input; [intros w9 H9; console Hinv; now apply Hdone|].
  intros new_details w9 H9. console Hinv.
  apply wp_bind.
  apply (wp_mono _ (fun r' w' => r' = Ok tt /\ edit_inv w (u_email cu) r shown w')).
  2:{ destruct (truthy (strip new_details)).
      - apply wp_modify. split; [reflexivity|].
        apply edit_inv_assign; [apply same_frame_with_details | assumption].
      - apply wp_ret. now split. }
  clear Hinv. intros _ w10 [-> Hinv].
  apply wp_bind, frame_deref; [intros p2 Hp2 | now apply Hdone].
  apply wp_bind, frame_input; [intros w11 H11; console Hinv; now apply Hdone|].
  intros new_target w11 H11. console Hinv.
  apply wp_bind.
  apply (wp_mono _ (fun r' w' => r' = Ok tt /\ edit_inv w (u_email cu) r shown w')).
  2:{ destruct (truthy (strip new_target)); [|apply wp_ret; now split].
      destruct (py_float (strip new_target)) as [v|].
      - destruct (gtb v (of_Z 0)).
        + apply wp_modify. split; [reflexivity|].
          apply edit_inv_assign; [apply same_frame_with_total_target | assumption].
        + apply frame_print. intros w12 H12. console Hinv. now split.
      - apply frame_print. intros w12 H12. console Hinv. now split. }
  clear Hinv. intros _ w12 [-> Hinv].
  apply wp_bind, frame_save_data. intros w13 H13. console Hinv.
  apply wp_bind, frame_print. intros w14 H14. console Hinv.
  apply wp_ret. now apply Hdone.
Qed.

End Edit.

(** ** [delete_user_project] *)

Section Delete.
Import PyStr PyFloat data_storage project_manager Spec Logic.

Lemma listed_step (w0 : world) (shown : list string) (w w' : world) :
  listed w0 shown w -> same_registries w w' -> listed w0 shown w'.
Proof.
  intros (U & P & C & [more S]) (U' & P' & C' & [l G]).
  unfold listed. repeat split; try congruence.
  exists (more ++ l). now rewrite G, S, <- !app_assoc.
Qed.

Ltac console Hinv :=
  match goal with
  | H : same_registries _ _ |- _ =>
      apply (listed_step _ _ _ _ Hinv) in H; clear Hinv; rename H into Hinv
  end.

Lemma list_remove_length (x : project) (projects : list project) :
  forall i r projects',
    list_remove i r x projects = Some projects' ->
    List.length projects = S (List.length projects').
Proof.
  induction projects as [|y ps IH]; intros i r ps'; simpl; [discriminate|].
  destruct ((i =? r) || project_eqb y x).
  - intros H. now injection H as <-.
  - destruct (list_remove (S i) r x ps) as [ps1|] eqn:E; simpl; [|discriminate].
    intros H. injection H as <-. simpl. now rewrite (IH _ _ _ E).
Qed.

Lemma delete_post_of_listed (w w' : world) (cu : user) :
  logged_in w = Some cu ->
  listed w
    ([(nl +++ "=== DELETE PROJECT ===") +++ nl; "Your projects:" +++ nl] ++
     title_lines (filter (owned_by (u_email cu)) (projects_data w))) w' ->
  delete_post w w'.
Proof.
  intros Hcu (U & P & C & [more S]). unfold delete_post.
  rewrite Hcu. cbv zeta.
  destruct (refs_from 0 (u_email cu) (projects_data w)); [now repeat split|].
  repeat split; try assumption.
  - exists more. now rewrite S, <- !app_assoc.
  - now rewrite P.
  - rewrite P. lia.
Qed.

Lemma delete_user_project_effect (w : world) :
  wp delete_user_project (fun _ w' => delete_post w w') w.
Proof.
  unfold delete_user_project.
  apply wp_bind, wp_get_current_user.
  destruct (logged_in w) as [cu|] eqn:Hcu.
  2:{ apply wp_bind, frame_print. intros w1 (U & P & C & _). apply wp_ret.
      unfold delete_post. now rewrite Hcu. }
  unfold get_user_projects at 1. apply wp_bind, wp_bind, wp_get, wp_ret.
  destruct (refs_from 0 (u_email cu) (projects_data w)) as [|r0 refs0] eqn:Hrefs.
  { apply wp_bind, frame_print. intros w1 (U & P & C & _). apply wp_ret.
    unfold delete_post. rewrite Hcu. cbv zeta. now rewrite Hrefs. }
  rewrite <- Hrefs.
  apply wp_bind, wp_print. apply wp_bind, wp_print. apply wp_bind.
  match goal with
  | |- wp _ _ ?w2 => eapply wp_eq; [exact (print_titles_eq (u_email cu) w2)|]
  end.
  cbn [projects_data set_stdout stdout].
  set (shown := [(nl +++ "=== DELETE PROJECT ===") +++ nl; "Your projects:" +++ nl] ++
                title_lines (filter (owned_by (u_email cu)) (projects_data w))).
  match goal with |- wp _ _ ?w3 => set (w3' := w3) end.
  assert (Hinv : listed w shown w3').
  { repeat split. exists []. subst w3' shown. cbn [stdout set_stdout].
    now rewrite app_nil_r, <- !app_assoc. }
  clearbody w3'.
  assert (Hdone : forall w', listed w shown w' -> delete_post w w')
    by (intros w'; now apply delete_post_of_listed).
  apply wp_bind, frame_select.
  { intros w4 H4. console Hinv. now apply Hdone. }
  { intros w4 H4. console Hinv. apply wp_ret. now apply Hdone. }
  intros r w4 Hr H4. console Hinv.
  apply wp_bind, frame_deref; [intros p Hp | now apply Hdone].
  assert (Hp0 : nth_error (projects_data w) r = Some p)
    by (destruct Hinv as (_ & P4 & _); congruence).
  apply wp_bind, frame_input; [intros w5 H5; console Hinv; now apply Hdone|].
  intros confirm w5 H5. console Hinv.
  destruct (String.eqb (lower confirm) "y").
  2:{ apply wp_bind, frame_print. intros w6 H6. console Hinv.
      apply wp_ret. now apply Hdone. }
  apply wp_bind, wp_get.
  destruct Hinv as (U & P & C & [more S]).
  destruct (list_remove 0 r p (projects_data w5)) as [ps'|] eqn:Erm;
    [|apply wp_raise; apply Hdone; repeat split; eauto].
  rewrite P in Erm.
  assert (Hothers : others (u_email cu) ps' = others (u_email cu) (projects_data w)).
  { destruct (refs_owned _ _ _ Hr) as (p' & Hp' & Ho).
    assert (p' = p) by congruence. subst p'.
    apply (others_list_remove _ p (projects_data w) Ho 0 r ps'); [lia | | assumption].
    now rewrite Nat.sub_0_r. }
  clear Hp0.
  pose proof (list_remove_length _ _ _ _ _ Erm) as Hlen.
  assert (Hfinal : forall w', users_data w' = users_data w ->
                     current_user_email w' = current_user_email w ->
                     projects_data w' = ps' -> console_grows w5 w' ->
                     delete_post w w').
  { intros w' U' C' P' [l G]. unfold delete_post. rewrite Hcu. cbv zeta.
    rewrite Hrefs, P'.
    repeat split; try assumption.
    - exists (more ++ l). rewrite G, S. unfold shown. now rewrite <- !app_assoc.
    - lia. }
  apply wp_bind, wp_modify.
  apply wp_bind, frame_save_data. intros w6 (U6 & P6 & C6 & G6).
  apply wp_bind, frame_print. intros w7 (U7 & P7 & C7 & G7).
  apply wp_ret. apply Hfinal; try congruence.
  - rewrite U7, U6. exact U.
  - rewrite C7, C6. exact C.
  - now rewrite P7, P6.
  - destruct G6 as [l6 G6]. destruct G7 as [l7 G7]. exists (l6 ++ l7).
    cbn [stdout set_projects_data] in G6. now rewrite G7, G6, app_assoc.
Qed.

End Delete.

(** ** [edit_user_project] with a valid selection and three answers *)

Section EditPath.
Import PyStr PyFloat data_storage project_manager Spec Logic.

Lemma nth_error_update_same {A} (r : nat) (f : A -> A) (l : list A) (x : A) :
  nth_error l r = Some x -> nth_error (list_update r f l) r = Some (f x).
Proof. intros H. now rewrite nth_error_list_update, Nat.eqb_refl, H. Qed.

Lemma list_update_ext {A} (r : nat) (f g : A -> A) (l : list A) (x : A) :
  nth_error l r = Some x -> f x = g x -> list_update r f l = list_update r g l.
Proof.
  revert r. induction l as [|y l IH]; intros [|r] H E; simpl in *; try reflexivity.
  - injection H as ->. now rewrite E.
  - now rewrite (IH r H E).
Qed.

Lemma edit_user_project_path (w : world) (cu : user) (c t d g : string)
      (rest : list string) (n : Z) (r : nat) (p : project) :
  logged_in w = Some cu ->
  stdin w = c :: t :: d :: g :: rest ->
  PyNum.py_int c = Some n -> (1 <= n)%Z ->
  nth_error (refs_from 0 (u_email cu) (projects_data w)) (Z.to_nat (n - 1)) = Some r ->
  nth_error (projects_data w) r = Some p ->
  exists uf pf,
    edit_user_project w =
    (Ok true,
     set_users_file uf (set_projects_file pf
       (set_stdin rest
         (set_stdout
            (stdout w ++
             [(nl +++ "=== EDIT PROJECT ===") +++ nl; "Your projects:" +++ nl] ++
             title_lines (filter (owned_by (u_email cu)) (projects_data w)) ++
             ["Select project number to edit: ";
              (nl +++ "Editing: " +++ p_title p) +++ nl;
              "Press Enter to keep current value." +++ nl;
              "Title (" +++ p_title p +++ "): ";
              "Details (" +++ p_details p +++ "): ";
              "Target (" +++ repr (p_total_target p) +++ "): "] ++
             target_warning g ++ ["✅ Project updated successfully!" +++ nl])
            (set_projects_data
               (list_update r (apply_edit t d g) (projects_data w)) w))))).
Proof.
  intros Hcu Hin Hc Hn Hr Hp.
  unfold edit_user_project.
  rewrite (bind_ok _ _ _ _ _ (get_current_user_eq w)), Hcu.
  destruct w as [us ps cur uf0 pf0 sin out clk].
  cbn [stdin projects_data] in *. subst sin. clear Hcu.
  unfold get_user_projects. run.
  destruct (refs_from 0 (u_email cu) ps) as [|r0 refs0] eqn:Hrefs.
  { destruct (Z.to_nat (n - 1)); discriminate Hr. }
  rewrite <- Hrefs in *. clear Hrefs r0 refs0. run.
  match goal with
  | |- context [print_titles _ ?w2] =>
      pose proof (print_titles_eq (u_email cu) w2) as Ht; run_in Ht
  end.
  rewrite Ht. clear Ht.
  unfold select_project. run. rewrite Hc.
  assert (Hsel : ((n - 1 <? 0)%Z ||
                  (Z.of_nat (List.length (refs_from 0 (u_email cu) ps)) <=? n - 1)%Z)
                 = false).
  { apply orb_false_iff. split; [apply Z.ltb_ge; lia|]. apply Z.leb_gt.
    assert (Z.to_nat (n - 1) < List.length (refs_from 0 (u_email cu) ps))
      by (apply nth_error_Some; congruence).
    lia. }
  rewrite Hsel, Hr. run. unfold deref. run. rewrite Hp. run.
  unfold apply_edit, accepted_target, target_warning.
  destruct (truthy (strip t)); unfold assign; run;
    rewrite ?(nth_error_update_same _ _ _ _ Hp), ?Hp; run;
    (destruct (truthy (strip d)); run;
     rewrite ?list_update_twice;
     rewrite ?(nth_error_update_same _ _ _ _ Hp), ?Hp; run;
     (destruct (truthy (strip g)); run;
      [destruct (py_float (strip g)) as [v|]; run;
       [destruct (gtb v (of_Z 0)); run|]|]));
    rewrite ?list_update_twice;
    do 2 eexists; rewrite <- ?app_assoc; cbn [app];
    (f_equal; f_equal;
     first [ reflexivity
           | apply (list_update_ext _ _ _ _ _ Hp); reflexivity
           | now rewrite <- (list_update_id r ps) at 1;
             apply (list_update_ext _ _ _ _ _ Hp); destruct p ]).
Qed.

End EditPath.

(** ** project_manager.py: the frame of an edit and owner scoping *)

Section ProjectClaims.
Import PyStr PyFloat data_storage project_manager Spec Logic.

Lemma edited_at_pointwise (r : nat) (ps ps' : list project) :
  edited_at r ps ps' ->
  List.length ps' = List.length ps /\
  (forall j p p', nth_error ps j = Some p -> nth_error ps' j = Some p' ->
                  same_frame p p') /\
  (forall j, j <> r -> nth_error ps' j = nth_error ps j).
Proof.
  intros (f & Hf & ->). split; [apply list_update_length|]. split.
  - intros j p p' Hp. rewrite nth_error_list_update, Hp.
    destruct (j =? r); simpl; intros H; injection H as <-; [apply Hf | repeat split].
  - intros j Hj. rewrite nth_error_list_update.
    destruct (Nat.eqb_spec j r); [contradiction | reflexivity].
Qed.

Lemma edited_at_others (email : string) (r : nat) (ps ps' : list project) :
  owned_ref email r ps -> edited_at r ps ps' -> others email ps' = others email ps.
Proof.
  intros Ho (f & Hf & ->). apply others_list_update; [assumption|].
  intros p. now destruct (Hf p) as (_ & _ & H & _).
Qed.

(** a target at or below zero does not pass the test of the edit *)
Lemma leb_zero_not_gtb (v : float) : leb v (of_Z 0) = true -> gtb v (of_Z 0) = false.
Proof. destruct v as [[]|[]| |[] m e]; vm_compute; congruence. Qed.

Lemma refs_nil_iff (email : string) (ps : list project) :
  refs_from 0 email ps = [] <-> filter (owned_by email) ps = [].
Proof.
  pose proof (refs_from_filter email ps 0) as H.
  split; intros E; rewrite E in H; simpl in H.
  - destruct (filter (owned_by email) ps); [reflexivity | discriminate].
  - destruct (refs_from 0 email ps); [reflexivity | discriminate].
Qed.

(** C7. Whatever is typed and however [edit_user_project] ends, the users
    registry is unchanged, no project is added or removed, every project
    keeps its start date, end date, owner, creation time and current
    amount, and at most one project changes at all.  With a valid
    selection and the three answers (ASCII text) the operation returns
    [True]: a blank
    answer keeps the title, the details or the target; a target that is
    not a number, or not above zero, keeps the target and prints a warning,
    and the title and details are edited all the same. *)
Theorem edit_user_project_frame :
  (forall w : world,
     let w' := snd (edit_user_project w) in
     users_data w' = users_data w /\
     List.length (projects_data w') = List.length (projects_data w) /\
     (forall j p p',
        nth_error (projects_data w) j = Some p ->
        nth_error (projects_data w') j = Some p' -> same_frame p p') /\
     (exists r, forall j,
        j <> r -> nth_error (projects_data w') j = nth_error (projects_data w) j)) /\
  (forall (w : world) (cu : user) (c t d g : string) (rest : list string)
          (n : Z) (r : nat) (p : project),
     logged_in w = Some cu ->
     stdin w = c :: t :: d :: g :: rest ->
     Forall (fun line => ascii_text line = true) [c; t; d; g] ->
     PyNum.py_int c = Some n -> (1 <= n)%Z ->
     nth_error (refs_from 0 (u_email cu) (projects_data w)) (Z.to_nat (n - 1)) = Some r ->
     nth_error (projects_data w) r = Some p ->
     let res := edit_user_project w in
     fst res = Ok true /\
     exists p',
       nth_error (projects_data (snd res)) r = Some p' /\
       p_title p' = (if truthy (strip t) then strip t else p_title p) /\
       p_details p' = (if truthy (strip d) then strip d else p_details p) /\
       (truthy (strip g) = false -> p_total_target p' = p_total_target p) /\
       (truthy (strip g) = true -> py_float (strip g) = None ->
        p_total_target p' = p_total_target p /\
        In ("⚠️  Invalid target format, keeping current value." +++ nl)
           (stdout (snd res))) /\
       (forall v, truthy (strip g) = true -> py_float (strip g) = Some v ->
        (gtb v (of_Z 0) = true -> p_total_target p' = v) /\
        (gtb v (of_Z 0) = false ->
         p_total_target p' = p_total_target p /\
         In ("⚠️  Invalid target, keeping current value." +++ nl) (stdout (snd res)))) /\
       same_frame p p').
Proof.
  split.
  - intros w. cbv zeta.
    pose proof (edit_user_project_effect w) as H. unfold wp, edit_post in H.
    destruct H as (U & _ & H). split; [exact U|].
    assert (Hsame : projects_data (snd (edit_user_project w)) = projects_data w ->
              List.length (projects_data (snd (edit_user_project w)))
              = List.length (projects_data w) /\
              (forall j p p',
                 nth_error (projects_data w) j = Some p ->
                 nth_error (projects_data (snd (edit_user_project w))) j = Some p' ->
                 same_frame p p') /\
              (exists r, forall j, j <> r ->
                 nth_error (projects_data (snd (edit_user_project w))) j
                 = nth_error (projects_data w) j)).
    { intros ->. split; [reflexivity|]. split.
      - intros j p p' H1 H2. assert (p' = p) by congruence. subst. repeat split.
      - exists 0. reflexivity. }
    destruct (logged_in w) as [cu|]; [|now apply Hsame].
    cbv zeta in H.
    destruct (refs_from 0 (u_email cu) (projects_data w)); [now apply Hsame|].
    destruct H as (_ & k & _ & He).
    apply edited_at_pointwise in He as (Hl & Hf & Ho).
    split; [exact Hl|]. split; [exact Hf|]. now exists k.
  - intros w cu c t d g rest n r p Hcu Hin _ Hc Hn Hr Hp. cbv zeta.
    destruct (edit_user_project_path w cu c t d g rest n r p Hcu Hin Hc Hn Hr Hp)
      as (uf & pf & ->).
    cbn [fst snd projects_data stdout set_users_file set_projects_file set_stdin
         set_stdout set_projects_data].
    split; [reflexivity|]. exists (apply_edit t d g p).
    split; [now apply nth_error_update_same|].
    unfold apply_edit, accepted_target, target_warning.
    cbn [p_title p_details p_total_target].
    split; [reflexivity|]. split; [reflexivity|]. split; [now intros ->|].
    split; [|split; [|repeat split]].
    + intros -> ->. split; [reflexivity|].
      rewrite !in_app_iff. do 4 right. left. now left.
    + intros v -> ->. split; intros ->; [reflexivity|]. split; [reflexivity|].
      rewrite !in_app_iff. do 4 right. left. now left.
Qed.

End ProjectClaims.

(** ** [create_new_project] and the progress shown in the listings *)

Section Create.
Import PyStr PyFloat validation data_storage project_manager Spec Logic.

Lemma validate_date_range_pure (start_date end_date : string) (w : world) :
  exists v, validate_date_range start_date end_date w = (Ok v, w).
Proof.
  unfold validate_date_range.
  destruct (Datetime.strptime start_date) as [s|]; [|eexists; reflexivity].
  destruct (Datetime.strptime end_date) as [e|]; [|eexists; reflexivity].
  destruct (Datetime.datetime_geb s e); [eexists; reflexivity|].
  unfold bind, now, ret. cbn [fst snd].
  destruct (Datetime.datetime_ltb s (clock w)); eexists; reflexivity.
Qed.

Lemma create_post_step (w w1 w2 : world) :
  same_registries w w1 -> same_registries w1 w2 -> same_registries w w2.
Proof. apply same_registries_trans. Qed.

Lemma create_post_same (w w' : world) : same_registries w w' -> create_post w w'.
Proof. intros (U & P & _). split; [exact U | now left]. Qed.

(** a console step along [same_registries] *)
Ltac console Hinv :=
  match goal with
  | H : same_registries _ _ |- _ =>
      apply (same_registries_trans _ _ _ Hinv) in H; clear Hinv; rename H into Hinv
  end.

(** a refusal: one message, then [False] *)
Ltac refuse Hinv :=
  apply wp_bind, frame_print; intros ? ?; console Hinv;
  apply wp_ret; now apply create_post_same.

Lemma create_new_project_effect (w : world) :
  wp create_new_project (fun _ w' => create_post w w') w.
Proof.
  unfold create_new_project.
  apply wp_bind, wp_get_current_user.
  pose proof (same_registries_refl w) as Hinv.
  destruct (logged_in w) as [cu|] eqn:Hcu; [|refuse Hinv].
  apply wp_bind, frame_print. intros w1 H1. console Hinv.
  apply wp_bind, frame_input;
    [intros w2 H2; console Hinv; now apply create_post_same|].
  intros title w2 H2. console Hinv.
  destruct (truthy (strip title)); cbn [negb]; [|refuse Hinv].
  apply wp_bind, frame_input;
    [intros w3 H3; console Hinv; now apply create_post_same|].
  intros details w3 H3. console Hinv.
  destruct (truthy (strip details)); cbn [negb]; [|refuse Hinv].
  apply wp_bind, frame_input;
    [intros w4 H4; console Hinv; now apply create_post_same|].
  intros target_text w4 H4. console Hinv.
  destruct (py_float target_text) as [total_target|]; [|refuse Hinv].
  destruct (leb total_target (of_Z 0)) eqn:Hpos; [refuse Hinv|].
  apply wp_bind, frame_input;
    [intros w5 H5; console Hinv; now apply create_post_same|].
  intros start_date w5 H5. console Hinv.
  destruct (validate_date (strip start_date)); cbn [negb]; [|refuse Hinv].
  apply wp_bind, frame_input;
    [intros w6 H6; console Hinv; now apply create_post_same|].
  intros end_date w6 H6. console Hinv.
  destruct (validate_date (strip end_date)); cbn [negb]; [|refuse Hinv].
  apply wp_bind.
  destruct (validate_date_range_pure (strip start_date) (strip end_date) w6)
    as [[is_valid error_msg] Hv].
  eapply wp_eq; [exact Hv|].
  destruct is_valid; cbn [negb]; [|refuse Hinv].
  unfold create_project_data.
  apply wp_bind, wp_bind, wp_now, wp_ret.
  apply wp_bind, wp_modify.
  destruct Hinv as (U & P & C & G).
  apply wp_bind, frame_save_data. intros w7 (U7 & P7 & _).
  apply wp_bind, frame_print. intros w8 (U8 & P8 & _).
  cbn [users_data projects_data set_projects_data] in U7, P7.
  apply wp_ret. split.
  - rewrite U8, U7. exact U.
  - right. eexists cu, _. split; [exact Hcu|]. split.
    + rewrite P8, P7, P. reflexivity.
    + repeat split. exact Hpos.
Qed.

(** The progress of a project: the quotient times 100, or
    [ZeroDivisionError] when the target is a zero. *)
Lemma progress_of_nonzero (p : project) (w : world) :
  nonzero_target p ->
  progress_of p w =
  (Ok (mul (SFdiv prec emax (p_current_amount p) (p_total_target p)) (of_Z 100)), w).
Proof.
  intros Hnz. unfold progress_of, div.
  destruct (p_total_target p) as [s| | |] eqn:E; try reflexivity.
  exfalso. exact (Hnz s E).
Qed.

Lemma progress_of_zero (p : project) (w : world) :
  ~ nonzero_target p -> progress_of p w = (Raise ZeroDivisionError, w).
Proof.
  intros Hz. unfold progress_of, div.
  destruct (p_total_target p) eqn:E; try reflexivity;
    exfalso; apply Hz; intros sg; congruence.
Qed.

Lemma print_project_ok (with_owner : bool) (ip : nat * project) (w : world) :
  nonzero_target (snd ip) ->
  exists lines, print_project with_owner ip w = (Ok tt, set_stdout (stdout w ++ lines) w).
Proof.
  destruct ip as [i p]. cbn [snd]. intros Hnz. unfold print_project, print_amounts.
  rewrite (bind_ok _ _ _ _ _ (progress_of_nonzero p w Hnz)).
  destruct w as [us ps cur uf pf sin out clk]; destruct with_owner; run;
    eexists; rewrite <- !app_assoc; reflexivity.
Qed.

Lemma print_project_zero (with_owner : bool) (ip : nat * project) (w : world) :
  ~ nonzero_target (snd ip) ->
  print_project with_owner ip w = (Raise ZeroDivisionError, w).
Proof.
  destruct ip as [i p]. cbn [snd]. intros Hz. unfold print_project.
  unfold bind at 1. now rewrite (progress_of_zero p w Hz).
Qed.

(** No division by zero in a listing of projects whose targets are not
    zero. *)
Lemma listing_ok (with_owner : bool) (l : list (nat * project)) :
  Forall (fun ip => nonzero_target (snd ip)) l ->
  forall w, exists lines,
    for_each l (print_project with_owner) w = (Ok tt, set_stdout (stdout w ++ lines) w).
Proof.
  induction 1 as [|ip l Hip _ IH]; intros w.
  - exists []. simpl. rewrite app_nil_r. now destruct w.
  - destruct (print_project_ok with_owner ip w Hip) as [l1 H1].
    destruct (IH (set_stdout (stdout w ++ l1) w)) as [l2 H2].
    exists (l1 ++ l2). cbn [for_each]. rewrite (bind_ok _ _ _ _ _ H1), H2.
    cbn [stdout set_stdout]. now rewrite app_assoc.
Qed.

Lemma enumerate1_snd {A} (l : list A) : map snd (enumerate1 l) = l.
Proof.
  unfold enumerate1. generalize 1.
  induction l as [|x l IH]; intros n; simpl; [reflexivity|]. now rewrite IH.
Qed.

Lemma view_all_projects_ok (w : world) :
  Forall nonzero_target (projects_data w) ->
  exists w', view_all_projects w = (Ok tt, w').
Proof.
  intros H. unfold view_all_projects.
  unfold bind at 1. unfold print at 1, modify. unfold bind at 1, get.
  cbn [projects_data set_stdout].
  destruct (projects_data w) as [|p ps] eqn:E; [eexists; reflexivity|].
  rewrite <- E in *.
  assert (Hl : Forall (fun ip => nonzero_target (snd ip)) (enumerate1 (projects_data w))).
  { apply Forall_forall. intros ip Hin. rewrite Forall_forall in H. apply H.
    rewrite <- (enumerate1_snd (projects_data w)). now apply in_map. }
  match goal with
  | |- exists w', for_each _ _ ?w1 = _ =>
      destruct (listing_ok true _ Hl w1) as [lines ->]
  end.
  eexists. reflexivity.
Qed.

(** A project with a zero target stops the listing with
    [ZeroDivisionError]. *)
Lemma view_all_projects_zero (w : world) (p : project) (rest : list project) :
  projects_data w = p :: rest -> ~ nonzero_target p ->
  fst (view_all_projects w) = Raise ZeroDivisionError.
Proof.
  intros E Hz. unfold view_all_projects.
  unfold bind at 1. unfold print at 1, modify. unfold bind at 1, get.
  cbn [projects_data set_stdout]. rewrite E.
  cbn [enumerate1 List.length seq combine for_each].
  unfold bind at 1. now rewrite print_project_zero.
Qed.

(** C9. The code at the failing input: a logged-in user who answers "nan"
    at the target prompt of [create_new_project] gets a project whose
    target is NaN, which is not above zero.  The test [total_target <= 0]
    does not catch NaN; the test [target_value > 0] of [edit_user_project]
    refuses the same answer. *)
Theorem create_new_project_accepts_nan :
  fst (create_new_project Examples.nan_session) = Ok true /\
  map p_total_target (projects_data (snd (create_new_project Examples.nan_session)))
  = [of_Z 5000; of_Z 120000; nan] /\
  py_float "nan" = Some nan /\
  leb nan (of_Z 0) = false /\
  gtb nan (of_Z 0) = false /\
  accepted_target "nan" = None.
Proof. repeat split; vm_compute; reflexivity. Qed.

End Create.
(** ** The theorems at sample data *)

Section Witnesses.
Import PyStr PyFloat Datetime validation data_storage user_auth project_manager.
Import Spec Logic Examples.

Lemma sample_world_plain : fields_plain sample_world.
Proof. split; repeat constructor. Defined.

Lemma sample_world_storable : storable sample_world.
Proof.
  split; [|split].
  - repeat constructor; simpl; intuition discriminate.
  - repeat constructor.
  - repeat constructor; vm_compute; reflexivity.
Defined.




Lemma validate_date_range_spec_witness :
  validate_date_range "2030-01-01" "2030-06-01" sample_world
  = (Ok (true, EmptyString), sample_world).
Proof.
  refine (proj1 (proj1 (validate_date_range_spec sample_world "2030-01-01" "2030-06-01")
                       _ _ eq_refl eq_refl) _ _); reflexivity.
Defined.

Lemma sample_world_dates : Forall dates_parseable (projects_data sample_world).
Proof. repeat constructor. Defined.

Lemma search_projects_by_date_spec_witness :
  project_manager.matching_projects (mkdate 2030 6 1) (projects_data sample_world)
  = inr [wells; school].
Proof.
  exact (proj1 (search_projects_by_date_spec (mkdate 2030 6 1) _ sample_world_dates)).
Defined.

Lemma load_data_spec_witness :
  projects_data (snd (load_data (set_projects_file (Text broken_file) sample_world))) = [].
Proof.
  refine (proj2 (proj2 (proj2 (proj2 (proj2 (proj2 (proj2 (proj2 (proj2
            load_data_spec))))))))
            (set_projects_file (Text broken_file) sample_world) broken_file
            eq_refl eq_refl _).
  apply Exists_cons_tl, Exists_cons_hd. split; [reflexivity | left; reflexivity].
Defined.

Lemma register_session_registers :
  register_user register_session = (Ok true, snd (register_user register_session)).
Proof. vm_compute. reflexivity. Defined.

Lemma login_user_spec_witness :
  fst (login_user (snd (register_user register_session))) = Ok false.
Proof.
  refine (proj1 (proj2 (proj2 login_user_spec register_session _
                          "Omar" "Adel" "Omar@Example.com" "hunter22" "hunter22"
                          "01112345678" "n" [] eq_refl register_session_registers) _)).
  discriminate.
Defined.

Lemma edit_user_project_frame_witness :
  fst (edit_user_project edit_session) = Ok true.
Proof.
  refine (proj1 (proj2 edit_user_project_frame edit_session ali
                   "1" "Deep wells" EmptyString "lots" [] 1%Z 0 wells
                   eq_refl eq_refl _ eq_refl _ eq_refl eq_refl)).
  - repeat constructor.
  - discriminate.
Defined.

Lemma shouted_email_variant : email_variant "  ALI@Example.COM " "ali@example.com".
Proof.
  exists "  ", "ALI@Example.COM", " ", EmptyString, "ali@example.com", EmptyString.
  repeat (split; [reflexivity|]).
  repeat (apply suc_cons;
          [first [ left; reflexivity
                 | right; split; [reflexivity|]; split; [reflexivity|];
                   right; reflexivity ]|]).
  apply suc_nil.
Defined.

Lemma login_user_email_insensitive_witness :
  login_user (set_stdin ["  ALI@Example.COM "; "secret1"] sample_world)
  = login_user (set_stdin ["ali@example.com"; "secret1"] sample_world).
Proof.
  refine (proj1 login_user_email_insensitive sample_world
                "  ALI@Example.COM " "ali@example.com" ["secret1"]
                eq_refl eq_refl _ shouted_email_variant).
  repeat constructor.
Defined.

End Witnesses.


(** ** More on [strip] *)

Section StripParts.
Import PyStr Spec.

Lemma lstrip_parts (s : string) : exists l, s = l +++ lstrip s /\ blank l.
Proof.
  induction s as [|c s (l & Hs & Hl)]; simpl.
  - now exists EmptyString.
  - destruct (isspace c) eqn:E.
    + exists (String c l). split; [simpl; now rewrite <- Hs|].
      unfold blank in *. simpl. now rewrite E.
    + now exists EmptyString.
Qed.

Lemma rstrip_parts (s : string) : exists r, s = rstrip s +++ r /\ blank r.
Proof.
  induction s as [|c s (r & Hs & Hr)]; simpl.
  - now exists EmptyString.
  - destruct (rstrip s) as [|d t] eqn:E.
    + destruct (isspace c) eqn:Ec.
      * exists (String c r). simpl in Hs. subst s. split; [reflexivity|].
        unfold blank in *. simpl. now rewrite Ec.
      * exists r. simpl in *. now subst s.
    + exists r. split; [|assumption]. simpl. now rewrite Hs at 1.
Qed.

(** [strip] takes whitespace, and nothing else, from both ends. *)
Lemma strip_parts (s : string) :
  exists l r, s = l +++ strip s +++ r /\ blank l /\ blank r.
Proof.
  destruct (lstrip_parts s) as (l & Hs & Hl).
  destruct (rstrip_parts (lstrip s)) as (r & Hm & Hr).
  exists l, r. unfold strip. now rewrite <- Hm.
Qed.

Lemma lstrip_idem (s : string) : lstrip (lstrip s) = lstrip s.
Proof.
  induction s as [|c s IH]; simpl; [reflexivity|].
  destruct (isspace c) eqn:E; [exact IH|]. simpl. now rewrite E.
Qed.

Lemma rstrip_idem (s : string) : rstrip (rstrip s) = rstrip s.
Proof.
  induction s as [|c s IH]; simpl; [reflexivity|].
  destruct (rstrip s) as [|d t] eqn:E.
  - destruct (isspace c) eqn:Ec; simpl; [reflexivity | now rewrite Ec].
  - cbn [rstrip] in *. now rewrite IH.
Qed.

(** What is left of [s] when whitespace is taken from its end starts as
    [s] does. *)
Lemma lstrip_rstrip_keep (s : string) : lstrip s = s -> lstrip (rstrip s) = rstrip s.
Proof.
  destruct s as [|c s]; simpl; [reflexivity|].
  destruct (isspace c) eqn:E.
  - intros H. exfalso.
    destruct (lstrip_parts s) as (l & Hs & _).
    apply (f_equal String.length) in H. apply (f_equal String.length) in Hs.
    rewrite append_length in Hs. simpl in H. lia.
  - intros _. destruct (rstrip s); simpl; now rewrite E.
Qed.

Lemma lstrip_strip (s : string) : lstrip (strip s) = strip s.
Proof. unfold strip. apply lstrip_rstrip_keep, lstrip_idem. Qed.

Lemma rstrip_strip (s : string) : rstrip (strip s) = strip s.
Proof. unfold strip. apply rstrip_idem. Qed.

Lemma strip_idem (s : string) : strip (strip s) = strip s.
Proof. unfold strip at 1. now rewrite lstrip_strip, rstrip_strip. Qed.

Lemma blank_app (a b : string) : blank a -> blank b -> blank (a +++ b).
Proof. unfold blank. intros Ha Hb. now rewrite forallb_str_app, Ha, Hb. Qed.

(** A string is blank exactly when nothing is left of it. *)
Lemma strip_empty_iff (s : string) : strip s = EmptyString <-> blank s.
Proof.
  split.
  - intros H. destruct (strip_parts s) as (l & r & Hs & Hl & Hr).
    rewrite H in Hs. simpl in Hs. rewrite Hs. now apply blank_app.
  - intros H. unfold strip. now rewrite (lstrip_blank s H).
Qed.

(** A string that [rstrip] leaves alone does not end in whitespace. *)
Lemma rstrip_fixed_last (s : string) (c : ascii) :
  rstrip (s +++ String c EmptyString) = s +++ String c EmptyString -> isspace c = false.
Proof.
  destruct (isspace c) eqn:E; [|reflexivity].
  intros H. exfalso.
  rewrite rstrip_app_empty in H by (simpl; now rewrite E).
  destruct (rstrip_parts s) as (r & Hs & _).
  apply (f_equal String.length) in H. apply (f_equal String.length) in Hs.
  rewrite append_length in *. simpl in H. lia.
Qed.

End StripParts.

(** ** validation.py: [validate_email] and [validate_name] *)

Section EmailAndName.
Import PyStr Re validation Spec Behaviour.

Lemma lang_star_class (p : ascii -> bool) (s : string) :
  lang (Star (Class p)) s <-> forallb_str p s = true.
Proof.
  induction s as [|a s IH]; simpl.
  - split; [reflexivity | constructor].
  - split.
    + intros H. apply lang_star_cons_inv in H as (s1 & s2 & -> & H1 & H2).
      apply lang_class in H1 as (c & E & Hc). injection E as E1 E2. subst c s1.
      simpl in *. now rewrite Hc, (proj1 IH H2).
    + intros H. apply andb_true_iff in H as [Ha Hs].
      change (String a s) with (String a EmptyString +++ s).
      apply L_StarCons; [now constructor | now apply IH].
Qed.

Lemma lang_plus_class (p : ascii -> bool) (s : string) :
  lang (Plus (Class p)) s <-> s <> EmptyString /\ forallb_str p s = true.
Proof.
  unfold Plus. rewrite lang_cat_inv. split.
  - intros (s1 & s2 & -> & H1 & H2). apply lang_class in H1 as (c & -> & Hc).
    apply lang_star_class in H2. simpl. rewrite Hc, H2. split; [discriminate | reflexivity].
  - intros [Hne H]. destruct s as [|c s]; [congruence|]. simpl in H.
    apply andb_true_iff in H as [Hc Hs].
    exists (String c EmptyString), s. split; [reflexivity|].
    split; [now constructor | now apply lang_star_class].
Qed.

Lemma lang_atleast_class (p : ascii -> bool) (n : nat) (s : string) :
  lang (AtLeast n (Class p)) s <-> n <= String.length s /\ forallb_str p s = true.
Proof.
  unfold AtLeast. rewrite lang_cat_inv. split.
  - intros (s1 & s2 & -> & H1 & H2). apply lang_rep_class in H1 as [Hl Hp].
    apply lang_star_class in H2.
    rewrite append_length, forallb_str_app, Hp, H2. split; [lia | reflexivity].
  - revert s. induction n as [|n IH]; intros s [Hl Hp].
    + exists EmptyString, s. split; [reflexivity|].
      split; [now apply lang_rep_class | now apply lang_star_class].
    + destruct s as [|c s]; simpl in Hl; [lia|]. simpl in Hp.
      apply andb_true_iff in Hp as [Hc Hs].
      destruct (IH s) as (s1 & s2 & -> & H1 & H2); [split; [lia | assumption]|].
      exists (String c s1), s2. split; [reflexivity|]. split; [|assumption].
      apply lang_rep_class in H1 as [Hl1 Hp1].
      apply lang_rep_class. simpl. now rewrite Hc, Hl1, Hp1.
Qed.

Lemma lang_email (s : string) : lang email_pattern s <-> email_shape s.
Proof.
  unfold email_pattern, email_shape. split.
  - intros H.
    apply lang_cat_inv in H as (loc & r1 & -> & Hloc & H).
    apply lang_cat_inv in H as (a & r2 & -> & Ha & H).
    apply lang_cat_inv in H as (dom & r3 & -> & Hdom & H).
    apply lang_cat_inv in H as (d & tld & -> & Hd & Htld).
    apply lang_chr in Ha as ->. apply lang_chr in Hd as ->.
    apply lang_plus_class in Hloc as [? ?]. apply lang_plus_class in Hdom as [? ?].
    apply lang_atleast_class in Htld as [? ?].
    exists loc, dom, tld. repeat split; assumption.
  - intros (loc & dom & tld & -> & H1 & H2 & H3 & H4 & H5 & H6).
    apply lang_cat_inv. exists loc, ("@" +++ dom +++ "." +++ tld).
    split; [reflexivity|]. split; [now apply lang_plus_class|].
    apply lang_cat_inv. exists "@", (dom +++ "." +++ tld).
    split; [reflexivity|]. split; [constructor|].
    apply lang_cat_inv. exists dom, ("." +++ tld).
    split; [reflexivity|]. split; [now apply lang_plus_class|].
    apply lang_cat_inv. exists ".", tld.
    split; [reflexivity|]. split; [constructor | now apply lang_atleast_class].
Qed.

Lemma chop_newline_spec (s t : string) : chop_newline s = Some t <-> s = t +++ nl.
Proof.
  revert t. induction s as [|c s IH]; intros t.
  - simpl. split; [discriminate|]. destruct t; discriminate.
  - destruct s as [|d s].
    + simpl. destruct (Ascii.eqb_spec c "010") as [-> | Hc].
      * split.
        -- intros H. now injection H as <-.
        -- destruct t as [|x [|y t]]; simpl; intros H; try discriminate; reflexivity.
      * split; [discriminate|].
        destruct t as [|x [|y t]]; simpl; intros H; try discriminate.
        injection H as ->. now elim Hc.
    + change (chop_newline (String c (String d s)))
        with (option_map (String c) (chop_newline (String d s))).
      destruct (chop_newline (String d s)) as [u|]; simpl.
      * pose proof (proj1 (IH u) eq_refl) as E. split.
        -- intros H. injection H as <-. simpl. now rewrite E.
        -- destruct t as [|x t]; simpl; intros H; [discriminate|].
           injection H as <- H. apply IH in H. congruence.
      * split; [discriminate|].
        destruct t as [|x t]; simpl; intros H; [discriminate|].
        injection H as <- H. apply IH in H. discriminate.
Qed.

(** A property of the characters the pattern allows holds of every
    character of an accepted address. *)
Lemma email_shape_chars (q : ascii -> bool) (s : string) :
  (forall c, local_char c = true -> q c = true) ->
  (forall c, domain_char c = true -> q c = true) ->
  q "@"%char = true ->
  email_shape s -> forallb_str q s = true.
Proof.
  intros Hloc Hdom Hat (loc & dom & tld & -> & _ & Hl & _ & Hd & _ & Ht).
  rewrite !forallb_str_app.
  rewrite (forallb_str_impl _ _ loc Hloc Hl), (forallb_str_impl _ _ dom Hdom Hd).
  assert (Htl : forallb_str q tld = true).
  { apply (forallb_str_impl letter); [|assumption].
    intros c H. apply Hloc. unfold local_char. now rewrite H. }
  simpl. rewrite Hat, Htl, (Hloc "."%char eq_refl). reflexivity.
Qed.

Lemma isspace_lower_char (c : ascii) : isspace (lower_char c) = isspace c.
Proof. destruct c as [[] [] [] [] [] [] [] []]; reflexivity. Qed.

Lemma rstrip_lower (s : string) : rstrip (lower s) = lower (rstrip s).
Proof.
  induction s as [|c s IH]; simpl; [reflexivity|].
  rewrite IH, isspace_lower_char.
  destruct (rstrip s); simpl; [now destruct (isspace c) | reflexivity].
Qed.

Lemma lstrip_lower (s : string) : lstrip (lower s) = lower (lstrip s).
Proof.
  induction s as [|c s IH]; simpl; [reflexivity|].
  rewrite isspace_lower_char. now destruct (isspace c).
Qed.

(** A string with no whitespace at its end is matched as a whole. *)
Lemma match_anchored_stripped (r : regex) (s : string) :
  rstrip s = s -> match_anchored r s = true <-> lang r s.
Proof.
  intros Hs. unfold match_anchored.
  destruct (chop_newline s) as [t|] eqn:E.
  - apply chop_newline_spec in E. subst s.
    now apply rstrip_fixed_last in Hs.
  - rewrite orb_false_r. apply fullmatch_lang.
Qed.

Lemma local_char_plain (c : ascii) :
  local_char c = true -> negb (isspace c) && negb (Ascii.eqb c "|") = true.
Proof. destruct c as [[] [] [] [] [] [] [] []]; vm_compute; congruence. Qed.

Lemma domain_char_plain (c : ascii) :
  domain_char c = true -> negb (isspace c) && negb (Ascii.eqb c "|") = true.
Proof. destruct c as [[] [] [] [] [] [] [] []]; vm_compute; congruence. Qed.

(** X1. [validate_email] accepts exactly the addresses made of a
    non-empty local part of letters, digits and [._%+-], an [@], a
    non-empty domain of letters, digits, dots and hyphens, a dot and two
    or more letters; because of the [$] of the pattern it also accepts
    such an address followed by one line feed.  On an input that does not
    end in whitespace, as [register_user] passes it, only the shape itself
    is accepted.  An accepted shape holds no whitespace and no [|]. *)
Theorem validate_email_spec :
  (forall s, validate_email s = true <->
             email_shape s \/ exists t, s = t +++ nl /\ email_shape t) /\
  (forall s, rstrip s = s -> (validate_email s = true <-> email_shape s)) /\
  (forall s, rstrip (lower (strip s)) = lower (strip s)) /\
  (forall s, email_shape s ->
             forallb_str (fun c => negb (isspace c)) s = true /\ contains "|" s = false) /\
  validate_email "a.b@example.com" = true /\
  validate_email "not-an-email" = false /\
  validate_email "a@b" = false.
Proof.
  split; [|split; [|split; [|split; [|repeat split]]]].
  - intros s. unfold validate_email, match_anchored.
    rewrite orb_true_iff, fullmatch_lang, lang_email. split.
    + intros [H | H]; [now left|]. right.
      destruct (chop_newline s) as [t|] eqn:E; [|discriminate].
      apply chop_newline_spec in E. exists t.
      split; [assumption|]. now apply lang_email, fullmatch_lang.
    + intros [H | (t & -> & H)]; [now left|]. right.
      rewrite (proj2 (chop_newline_spec (t +++ nl) t) eq_refl).
      now apply fullmatch_lang, lang_email.
  - intros s Hs. unfold validate_email.
    now rewrite match_anchored_stripped, lang_email.
  - intros s. unfold strip. now rewrite rstrip_lower, rstrip_idem.
  - intros s H.
    pose proof (email_shape_chars _ s local_char_plain domain_char_plain eq_refl H) as Hq.
    split.
    + revert Hq. apply forallb_str_impl. intros c Hc.
      now apply andb_true_iff in Hc as [Hc _].
    + apply (forallb_str_not_contains _ _ _ (eq_refl : _ "|"%char = false) Hq).
Qed.

(** X2. On ASCII text [validate_name] accepts exactly the strings
    that consist of letters and whitespace and hold at least one letter;
    such a string holds no [|]. *)
Theorem validate_name_spec (s : string) :
  ascii_text s = true ->
  (validate_name s = true <-> name_shape s) /\
  (name_shape s -> contains "|" s = false).
Proof.
  intros _. split.
  - unfold validate_name, name_shape.
    destruct (strip_parts s) as (l & r & Hs & Hl & Hr).
    assert (Hblank : forall t, blank t -> forallb_str name_char t = true).
    { intros t. apply forallb_str_impl. intros c Hc. unfold name_char.
      now rewrite Hc, orb_true_r. }
    assert (Hall : forallb_str name_char s = forallb_str name_char (strip s)).
    { rewrite Hs at 1. rewrite !forallb_str_app, (Hblank l Hl), (Hblank r Hr).
      now rewrite andb_true_r. }
    assert (Hsp : forallb_str isspace s = false <-> truthy (strip s) = true).
    { split.
      - intros H. destruct (strip s) eqn:E; [|reflexivity].
        apply strip_empty_iff in E. unfold blank in E. congruence.
      - intros H. destruct (forallb_str isspace s) eqn:E; [|reflexivity].
        apply strip_empty_iff in E. rewrite E in H. discriminate. }
    rewrite Hall, Hsp. fold name_char.
    destruct s as [|c s]; [simpl; split; [discriminate | intros [_ H]; discriminate]|].
    cbn [truthy negb orb].
    destruct (truthy (strip (String c s))); cbn [negb];
      [rewrite andb_true_r; tauto | split; [discriminate | intros [_ H]; discriminate]].
  - intros [H _].
    apply (forallb_str_not_contains name_char "|" s eq_refl H).
Qed.

End EmailAndName.

(** ** user_auth.py: the stored password hash *)

Section PasswordHash.
Import PyStr Sha256 user_auth Behaviour.

Lemma hex_digit_char (n : N) : hex_char (hex_digit n) = true.
Proof.
  unfold hex_digit. generalize (N.to_nat n). intros i.
  do 17 (destruct i as [|i]; [reflexivity|]). reflexivity.
Qed.

Lemma string_of_list_length (l : list ascii) :
  String.length (string_of_list_ascii l) = List.length l.
Proof. induction l as [|c l IH]; simpl; [reflexivity | now rewrite IH]. Qed.

Lemma string_of_list_forallb (p : ascii -> bool) (l : list ascii) :
  forallb_str p (string_of_list_ascii l) = forallb p l.
Proof. induction l as [|c l IH]; simpl; [reflexivity | now rewrite IH]. Qed.

Lemma hex8_shape (x : N) :
  String.length (hex8 x) = 8 /\ forallb_str hex_char (hex8 x) = true.
Proof.
  unfold hex8. rewrite string_of_list_length, string_of_list_forallb, length_map.
  split; [reflexivity|]. apply forallb_forall.
  intros c Hc. apply in_map_iff in Hc as (i & <- & _). apply hex_digit_char.
Qed.

Lemma digest_words_eight (msg : list N) :
  exists a b c d e f g h, digest_words msg = [a; b; c; d; e; f; g; h].
Proof.
  unfold digest_words.
  destruct (fold_left compress _ initial) as [[[[[[[a b] c] d] e] f] g] h].
  now exists a, b, c, d, e, f, g, h.
Qed.

Lemma hexdigest_shape (s : string) :
  String.length (hexdigest s) = 64 /\ forallb_str hex_char (hexdigest s) = true.
Proof.
  unfold hexdigest.
  destruct (digest_words_eight (map N_of_ascii (list_ascii_of_string s)))
    as (a & b & c & d & e & f & g & h & ->).
  cbn [map String.concat].
  rewrite !append_length, !forallb_str_app.
  destruct (hex8_shape a) as [-> ->], (hex8_shape b) as [-> ->],
           (hex8_shape c) as [-> ->], (hex8_shape d) as [-> ->],
           (hex8_shape e) as [-> ->], (hex8_shape f) as [-> ->],
           (hex8_shape g) as [-> ->], (hex8_shape h) as [-> ->].
  split; reflexivity.
Qed.

Lemma hex_char_plain (c : ascii) :
  hex_char c = true -> negb (isspace c) && negb (Ascii.eqb c "|") = true.
Proof. destruct c as [[] [] [] [] [] [] [] []]; vm_compute; congruence. Qed.

(** X3. Whatever the password, [hash_password] returns 64 lowercase
    hexadecimal digits: the stored hash holds no [|], no whitespace and no
    line break, and [verify_password] accepts the password it was made
    from. *)
Theorem hash_password_hex (password : string) :
  String.length (hash_password password) = 64 /\
  forallb_str hex_char (hash_password password) = true /\
  contains "|" (hash_password password) = false /\
  forallb_str (fun c => negb (isspace c)) (hash_password password) = true /\
  verify_password (hash_password password) password = true.
Proof.
  unfold verify_password, hash_password.
  destruct (hexdigest_shape password) as [Hl Hh].
  assert (Hq := forallb_str_impl _ _ _ hex_char_plain Hh).
  repeat split; try assumption.
  - apply (forallb_str_not_contains _ _ _ (eq_refl : _ "|"%char = false) Hq).
  - revert Hq. apply forallb_str_impl. intros c Hc.
    now apply andb_true_iff in Hc as [Hc _].
  - apply String.eqb_refl.
Qed.

End PasswordHash.

(** ** Console steps *)

Section ConsoleSteps.
Import Logic Behaviour.

Lemma reads_refl (w : world) : reads w w.
Proof. now exists []. Qed.

Lemma reads_trans (w1 w2 w3 : world) : reads w1 w2 -> reads w2 w3 -> reads w1 w3.
Proof.
  intros [t1 H1] [t2 H2]. exists (t1 ++ t2). now rewrite H1, H2, app_assoc.
Qed.

Lemma reads_length (w w' : world) :
  reads w w' -> List.length (stdin w') <= List.length (stdin w).
Proof. intros [t H]. rewrite H, length_app. lia. Qed.

Lemma moved_refl (w : world) : moved w w.
Proof. repeat split. apply console_grows_refl. apply reads_refl. Qed.

Lemma moved_trans (w1 w2 w3 : world) : moved w1 w2 -> moved w2 w3 -> moved w1 w3.
Proof.
  intros (C1 & G1 & R1) (C2 & G2 & R2). repeat split.
  - congruence.
  - eapply console_grows_trans; eauto.
  - eapply reads_trans; eauto.
Qed.

Lemma console_only_refl (w : world) : console_only w w.
Proof. repeat split. apply console_grows_refl. apply reads_refl. Qed.

Lemma console_only_trans (w1 w2 w3 : world) :
  console_only w1 w2 -> console_only w2 w3 -> console_only w1 w3.
Proof.
  intros (U1 & P1 & S1 & [F1 F1'] & M1) (U2 & P2 & S2 & [F2 F2'] & M2).
  repeat split; try congruence; apply (moved_trans _ _ _ M1 M2).
Qed.

Lemma console_only_moved (w w' : world) : console_only w w' -> moved w w'.
Proof. now intros (_ & _ & _ & _ & M). Qed.

Lemma console_only_same_registries (w w' : world) :
  console_only w w' -> same_registries w w'.
Proof. intros (U & P & S & _ & _ & G & _). now repeat split. Qed.

Lemma console_only_print (s : string) (w : world) :
  console_only w (set_stdout (stdout w ++ [s]) w).
Proof. repeat split. now exists [s]. now exists []. Qed.

Lemma console_only_read (s line : string) (rest : list string) (w : world) :
  stdin w = line :: rest ->
  console_only w (set_stdin rest (set_stdout (stdout w ++ [s]) w)).
Proof. intros H. repeat split. now exists [s]. now exists [line]. Qed.

(** Rules for the console steps that keep [console_only]. *)
Lemma cstep_print (s : string) (Q : result unit -> world -> Prop) (w : world) :
  (forall w', console_only w w' -> Q (Ok tt) w') -> wp (print s) Q w.
Proof. intros H. apply wp_print, H, console_only_print. Qed.

Lemma cstep_input (prompt : string) (Q : result string -> world -> Prop) (w : world) :
  (forall w', console_only w w' -> Q (Raise EOFError) w') ->
  (forall line w', console_only w w' -> stdin w = line :: stdin w' -> Q (Ok line) w') ->
  wp (input prompt) Q w.
Proof.
  intros H1 H2. apply wp_input.
  - intros _. apply H1, console_only_print.
  - intros line rest E. apply H2; [exact (console_only_read _ _ _ _ E) | exact E].
Qed.

Lemma in_sync_save (w : world) : in_sync (snd (data_storage.save_data w)).
Proof. split; reflexivity. Qed.

Lemma in_sync_console (w w' : world) : in_sync w -> console_only w w' -> in_sync w'.
Proof.
  intros [A B] (U & P & _ & [F1 F2] & _). unfold in_sync. now rewrite U, P, F1, F2.
Qed.

Lemma accounts_kept_refl (users : dict user) : accounts_kept users users.
Proof. now intros e u. Qed.

Lemma accounts_kept_trans (a b c : dict user) :
  accounts_kept a b -> accounts_kept b c -> accounts_kept a c.
Proof. intros H1 H2 e u H. apply H2, H1, H. Qed.

Lemma dict_get_app {V} (k : string) (d1 d2 : dict V) :
  dict_get k (d1 ++ d2) =
  match dict_get k d1 with Some v => Some v | None => dict_get k d2 end.
Proof.
  induction d1 as [|[k' v'] d1 IH]; simpl; [reflexivity|].
  now destruct (String.eqb k' k).
Qed.

(** Filing an account under a free email keeps the others. *)
Lemma accounts_kept_new (users : dict user) (e : string) (u : user) :
  dict_get e users = None -> accounts_kept users (users ++ [(e, u)]).
Proof.
  intros Hfree k v Hk. rewrite dict_get_app, Hk. reflexivity.
Qed.

Lemma dict_set_last {V} (k : string) (v v' : V) (d : dict V) :
  dict_get k d = None -> dict_set k v' (d ++ [(k, v)]) = d ++ [(k, v')].
Proof.
  induction d as [|[k' x] d IH]; simpl.
  - now rewrite String.eqb_refl.
  - destruct (String.eqb k' k); [discriminate|]. intros H. now rewrite IH.
Qed.

Lemma dict_set_free {V} (k : string) (v : V) (d : dict V) :
  dict_get k d = None -> dict_set k v d = d ++ [(k, v)].
Proof.
  induction d as [|[k' x] d IH]; simpl; [reflexivity|].
  destruct (String.eqb k' k); [discriminate|]. intros H. now rewrite IH.
Qed.

Lemma dict_in_false {V} (k : string) (d : dict V) :
  dict_in k d = false <-> dict_get k d = None.
Proof. unfold dict_in. destruct (dict_get k d); split; congruence. Qed.

End ConsoleSteps.

(** ** user_auth.py: what [register_user] and [login_user] leave behind *)

(** a console step under the invariant [Hinv], kept by [step] *)
Ltac console_step step Hinv :=
  match goal with
  | H : Behaviour.console_only _ _ |- _ =>
      let Hn := fresh "Hn" in
      pose proof (step _ _ Hinv H) as Hn; clear Hinv H; rename Hn into Hinv
  end.

Section UserContracts.
Import PyStr validation data_storage user_auth Logic Behaviour.

Lemma save_data_eq (w : world) :
  save_data w =
  (Ok tt, set_projects_file (Text (projects_text (projects_data w)))
            (set_users_file (Text (users_text (users_data w))) w)).
Proof. reflexivity. Qed.

Lemma register_post_quiet (w w' : world) (r : result bool) :
  console_only w w' -> ends_well r -> r <> Ok true -> register_post w r w'.
Proof.
  intros (U & P & S & F & M) Hr Hne. repeat split; try assumption; try apply M.
  left. now repeat split; try apply F.
Qed.

Lemma registered_step (w : world) (u : user) (w1 w2 : world) :
  registered w u w1 -> console_only w1 w2 -> registered w u w2.
Proof.
  intros (M & P & S & Hf & U & Y) H.
  pose proof (in_sync_console _ _ Y H) as Y2.
  destruct H as (U2 & P2 & S2 & F2 & M2).
  repeat split; try congruence; try apply (moved_trans _ _ _ M M2); apply Y2.
Qed.

Lemma register_post_done (w w' : world) (u : user) (r : result bool) :
  registered w u w' ->
  r = Ok true \/ (r = Raise EOFError /\ u_is_active u = false) ->
  register_post w r w'.
Proof.
  intros (M & P & S & Hf & U & Y) Hr. repeat split; try assumption; try apply M.
  - destruct Hr as [-> | [-> _]]; simpl; auto.
  - right. exists u. auto.
Qed.

Lemma register_user_contract (w : world) : wp register_user (register_post w) w.
Proof.
  unfold register_user.
  pose proof (console_only_refl w) as Hinv.
  assert (Hquit : forall w', console_only w w' -> register_post w (Raise EOFError) w').
  { intros w' H. apply register_post_quiet; [assumption | reflexivity | discriminate]. }
  assert (Hno : forall msg w', console_only w w' ->
                               wp (print msg ;; ret false) (register_post w) w').
  { intros msg w' H. apply wp_bind, cstep_print. intros w2 H2.
    apply wp_ret, register_post_quiet;
      [eapply console_only_trans; eauto | exact I | discriminate]. }
  apply wp_bind, cstep_print. intros w1 H1. console_step (console_only_trans w) Hinv.
  apply wp_bind, cstep_input;
    [intros w2 H2; console_step (console_only_trans w) Hinv; now apply Hquit|].
  intros fn w2 H2 _. console_step (console_only_trans w) Hinv.
  destruct (validate_name (strip fn)); cbn [negb]; [|now apply Hno].
  apply wp_bind, cstep_input;
    [intros w3 H3; console_step (console_only_trans w) Hinv; now apply Hquit|].
  intros ln w3 H3 _. console_step (console_only_trans w) Hinv.
  destruct (validate_name (strip ln)); cbn [negb]; [|now apply Hno].
  apply wp_bind, cstep_input;
    [intros w4 H4; console_step (console_only_trans w) Hinv; now apply Hquit|].
  intros e w4 H4 _. console_step (console_only_trans w) Hinv.
  destruct (validate_email (lower (strip e))); cbn [negb]; [|now apply Hno].
  apply wp_bind, wp_get.
  destruct (dict_in (lower (strip e)) (users_data w4)) eqn:Hin; [now apply Hno|].
  apply dict_in_false in Hin. rewrite (proj1 Hinv) in Hin.
  apply wp_bind, cstep_input;
    [intros w5 H5; console_step (console_only_trans w) Hinv; now apply Hquit|].
  intros pw w5 H5 _. console_step (console_only_trans w) Hinv.
  destruct (String.length (strip pw) <? 6); [now apply Hno|].
  apply wp_bind, cstep_input;
    [intros w6 H6; console_step (console_only_trans w) Hinv; now apply Hquit|].
  intros cpw w6 H6 _. console_step (console_only_trans w) Hinv.
  destruct (String.eqb (strip pw) (strip cpw)); cbn [negb]; [|now apply Hno].
  apply wp_bind, cstep_input;
    [intros w7 H7; console_step (console_only_trans w) Hinv; now apply Hquit|].
  intros mob w7 H7 _. console_step (console_only_trans w) Hinv.
  destruct (validate_egyptian_phone (strip mob)); cbn [negb]; [|now apply Hno].
  clear Hquit Hno.
  unfold create_user. apply wp_bind, wp_bind, wp_now, wp_ret.
  set (email := lower (strip e)) in *.
  set (u := mkuser (strip fn) (strip ln) email (hash_password (strip pw)) (strip mob)
                   false (Datetime.isoformat (clock w7))).
  apply wp_bind, wp_modify. apply wp_bind.
  eapply wp_eq; [apply save_data_eq|]. cbv beta iota.
  match goal with |- wp _ _ ?w8 => set (w8' := w8) end.
  assert (Hreg : registered w u w8').
  { destruct Hinv as (U & P & S & F & M).
    repeat split; try assumption; try apply M.
    - subst w8'. cbn [users_data set_projects_file set_users_file set_users_data].
      rewrite U. now apply dict_set_free. }
  clearbody w8'. clear Hinv. rename Hreg into Hinv.
  apply wp_bind, cstep_print. intros w9 H9. console_step (registered_step w u) Hinv.
  apply wp_bind, cstep_print. intros w10 H10. console_step (registered_step w u) Hinv.
  apply wp_bind, cstep_input.
  { intros w11 H11. console_step (registered_step w u) Hinv.
    apply (register_post_done _ _ u); [assumption | right; now split]. }
  intros act w11 H11 _. console_step (registered_step w u) Hinv.
  apply wp_bind.
  apply (wp_mono _ (fun r' w' => r' = Ok tt /\ exists u', registered w u' w')).
  { intros r' w' [-> [u' Hu']]. apply wp_ret.
    apply (register_post_done _ _ u'); [assumption | now left]. }
  destruct (String.eqb (lower act) "y").
  - unfold activate_user. apply wp_bind, wp_bind, wp_get.
    destruct Hinv as (M & P & S & Hf & U & Y).
    assert (Hu : dict_get email (users_data w11) = Some u).
    { rewrite U, dict_get_app. change (u_email u) with email in Hf. rewrite Hf.
      simpl. now rewrite String.eqb_refl. }
    rewrite Hu. apply wp_modify. apply wp_bind.
    eapply wp_eq; [apply save_data_eq|]. cbv beta iota.
    apply cstep_print. intros w12 H12. split; [reflexivity|].
    set (u' := mkuser (u_first_name u) (u_last_name u) (u_email u) (u_password_hash u)
                      (u_mobile u) true (u_created_at u)).
    exists u'. eapply registered_step; [|exact H12].
    repeat split; try assumption; try apply M.
    cbn [users_data set_projects_file set_users_file set_users_data].
    rewrite U. now apply dict_set_last.
  - apply wp_ret. split; [reflexivity|]. now exists u.
Qed.

Lemma login_post_quiet (w w' : world) (r : result bool) :
  console_only w w' -> ends_well r -> r <> Ok true -> login_post w r w'.
Proof.
  intros (U & P & S & F & M) Hr Hne. repeat split; try assumption; try apply M;
    try apply F.
  left. now split.
Qed.

Lemma login_user_contract (w : world) : wp login_user (login_post w) w.
Proof.
  unfold login_user.
  pose proof (console_only_refl w) as Hinv.
  assert (Hquit : forall w', console_only w w' -> login_post w (Raise EOFError) w').
  { intros w' H. apply login_post_quiet; [assumption | reflexivity | discriminate]. }
  assert (Hno : forall msg w', console_only w w' ->
                               wp (print msg ;; ret false) (login_post w) w').
  { intros msg w' H. apply wp_bind, cstep_print. intros w2 H2.
    apply wp_ret, login_post_quiet;
      [eapply console_only_trans; eauto | exact I | discriminate]. }
  apply wp_bind, cstep_print. intros w1 H1. console_step (console_only_trans w) Hinv.
  apply wp_bind, cstep_input;
    [intros w2 H2; console_step (console_only_trans w) Hinv; now apply Hquit|].
  intros e w2 H2 _. console_step (console_only_trans w) Hinv.
  apply wp_bind, cstep_input;
    [intros w3 H3; console_step (console_only_trans w) Hinv; now apply Hquit|].
  intros p w3 H3 _. console_step (console_only_trans w) Hinv.
  apply wp_bind, wp_get.
  destruct (dict_get (lower (strip e)) (users_data w3)) as [u|] eqn:Hu;
    [|now apply Hno].
  rewrite (proj1 Hinv) in Hu.
  destruct (u_is_active u) eqn:Ha; cbn [negb]; [|now apply Hno].
  destruct (verify_password (u_password_hash u) (strip p)); cbn [negb];
    [|now apply Hno].
  unfold set_current_user. apply wp_bind, wp_modify.
  apply wp_bind, wp_print, wp_ret.
  destruct Hinv as (U & P & S & [F1 F2] & C & [out G] & R).
  repeat split; try assumption.
  - exists (out ++ [("✅ Welcome, " +++ u_first_name u +++ " " +++ u_last_name u +++ "!")
                    +++ nl]).
    cbn [stdout set_stdout set_current_user_email]. now rewrite G, app_assoc.
  - right. exists (lower (strip e)), u. repeat split; assumption.
Qed.

(** A registration whose answers pass the checks. *)
Lemma register_user_accepts (w : world) (fn ln e pw cpw mob act : string)
      (rest : list string) :
  stdin w = fn :: ln :: e :: pw :: cpw :: mob :: act :: rest ->
  registration_accepted (users_data w) fn ln e pw cpw mob = true ->
  let users := users_data w ++
               [(lower (strip e), new_account (clock w) fn ln e pw mob act)] in
  register_user w =
  (Ok true,
   mkworld users (projects_data w) (current_user_email w)
           (Text (users_text users)) (Text (projects_text (projects_data w)))
           rest
           (stdout w ++
            [(nl +++ "=== REGISTRATION ===") +++ nl; "First Name: "; "Last Name: ";
             "Email: "; "Password: "; "Confirm Password: "; "Mobile Phone: ";
             "✅ Registration successful!" +++ nl;
             "⚠️  Account created but not activated. Please activate your account to login."
               +++ nl;
             "Activate account now? (y/n): "] ++
            (if String.eqb (lower act) "y" then ["✅ Account activated!" +++ nl] else []))
           (clock w)).
Proof.
  intros Hin Hacc. unfold registration_accepted in Hacc. unfold new_account.
  destruct w as [us ps cur uf pf sin out clk]. cbn [stdin users_data clock] in *.
  subst sin. cbv zeta. unfold register_user. run.
  destruct (validate_name (strip fn)); [|discriminate Hacc]. cbn [negb]. run.
  destruct (validate_name (strip ln)); [|discriminate Hacc]. cbn [negb]. run.
  destruct (validate_email (lower (strip e))); [|discriminate Hacc]. cbn [negb]. run.
  destruct (dict_in (lower (strip e)) us) eqn:Hfree; [discriminate Hacc|]. run.
  apply dict_in_false in Hfree.
  rewrite Nat.leb_antisym in Hacc.
  destruct (String.length (strip pw) <? 6); [discriminate Hacc|]. run.
  destruct (String.eqb (strip pw) (strip cpw)); [|discriminate Hacc]. cbn [negb]. run.
  destruct (validate_egyptian_phone (strip mob)); [|discriminate Hacc].
  cbn [negb]. run.
  destruct (String.eqb (lower act) "y"); run.
  - rewrite dict_get_set_same. run.
    rewrite (dict_set_free _ _ _ Hfree), (dict_set_last _ _ _ _ Hfree).
    rewrite <- !app_assoc. reflexivity.
  - rewrite (dict_set_free _ _ _ Hfree), app_nil_r.
    rewrite <- !app_assoc. reflexivity.
Qed.

(** A registration that fails a check. *)
Lemma register_user_rejects (w : world) (fn ln e pw cpw mob : string)
      (rest : list string) :
  stdin w = fn :: ln :: e :: pw :: cpw :: mob :: rest ->
  registration_accepted (users_data w) fn ln e pw cpw mob = false ->
  exists w', register_user w = (Ok false, w') /\ console_only w w'.
Proof.
  intros Hin Hacc. unfold registration_accepted in Hacc.
  assert (Hq : forall (taken out : list string) (left : list string),
             stdin w = taken ++ left ->
             console_only w (set_stdin left (set_stdout (stdout w ++ out) w))).
  { intros taken out left E. repeat split; [now exists out | now exists taken]. }
  destruct w as [us ps cur uf pf sin out clk]. cbn [stdin users_data clock stdout] in *.
  subst sin. unfold register_user. run.
  destruct (validate_name (strip fn)); cbn [negb]; run.
  2:{ eexists. split; [reflexivity|]. rewrite <- !app_assoc. apply (Hq [fn]). reflexivity. }
  destruct (validate_name (strip ln)); cbn [negb]; run.
  2:{ eexists. split; [reflexivity|]. rewrite <- !app_assoc.
      apply (Hq [fn; ln]). reflexivity. }
  destruct (validate_email (lower (strip e))); cbn [negb]; run.
  2:{ eexists. split; [reflexivity|]. rewrite <- !app_assoc.
      apply (Hq [fn; ln; e]). reflexivity. }
  destruct (dict_in (lower (strip e)) us); run.
  1:{ eexists. split; [reflexivity|]. rewrite <- !app_assoc.
      apply (Hq [fn; ln; e]). reflexivity. }
  rewrite Nat.leb_antisym in Hacc.
  destruct (String.length (strip pw) <? 6); run.
  1:{ eexists. split; [reflexivity|]. rewrite <- !app_assoc.
      apply (Hq [fn; ln; e; pw]). reflexivity. }
  destruct (String.eqb (strip pw) (strip cpw)); cbn [negb]; run.
  2:{ eexists. split; [reflexivity|]. rewrite <- !app_assoc.
      apply (Hq [fn; ln; e; pw; cpw]). reflexivity. }
  destruct (validate_egyptian_phone (strip mob)); cbn [negb]; run.
  2:{ eexists. split; [reflexivity|]. rewrite <- !app_assoc.
      apply (Hq [fn; ln; e; pw; cpw; mob]). reflexivity. }
  discriminate Hacc.
Qed.

(** X4. With its seven answers on the console (in ASCII),
    [register_user] returns [True] exactly when both names pass
    [validate_name], the lowercased email passes [validate_email] and is
    not registered yet, the password has six characters or more and is
    confirmed, and the phone passes [validate_egyptian_phone], each answer
    stripped first.  It then files one account last in the registry, under
    the lowercased email, with the SHA-256 hash of the password, active
    exactly when the last answer is y or Y, and both files hold the
    registries.  Otherwise it returns [False] and changes neither the
    registries nor the files. *)
Theorem register_user_spec (w : world) (fn ln e pw cpw mob act : string)
        (rest : list string) :
  stdin w = fn :: ln :: e :: pw :: cpw :: mob :: act :: rest ->
  Forall (fun line => ascii_text line = true) [fn; ln; e; pw; cpw; mob; act] ->
  let accepted := registration_accepted (users_data w) fn ln e pw cpw mob in
  let r := register_user w in
  (fst r = Ok true <-> accepted = true) /\
  (accepted = true ->
   users_data (snd r) =
   users_data w ++ [(lower (strip e), new_account (clock w) fn ln e pw mob act)] /\
   in_sync (snd r) /\ stdin (snd r) = rest) /\
  (accepted = false ->
   fst r = Ok false /\ users_data (snd r) = users_data w /\ files_kept w (snd r)) /\
  projects_data (snd r) = projects_data w /\
  current_user_email (snd r) = current_user_email w.
Proof.
  intros Hin _. cbv zeta.
  destruct (registration_accepted (users_data w) fn ln e pw cpw mob) eqn:Hacc.
  - rewrite (register_user_accepts w _ _ _ _ _ _ _ _ Hin Hacc). cbn [fst snd].
    repeat split; try discriminate.
  - destruct (register_user_rejects w _ _ _ _ _ _ _ Hin Hacc)
      as (w' & -> & U & P & S & F & _).
    cbn [fst snd]. repeat split; try discriminate; try assumption; try apply F.
Qed.

End UserContracts.

(** ** What [register_user] stores can be read back *)

Section RegisteredPlain.
Import PyStr Re validation data_storage user_auth Spec Logic Behaviour.

Lemma contains_strip (c : ascii) (s : string) :
  contains c s = false -> contains c (strip s) = false.
Proof.
  destruct (strip_parts s) as (l & r & Hs & _). intros H. rewrite Hs in H.
  rewrite !contains_app in H. apply orb_false_iff in H as [_ H].
  now apply orb_false_iff in H as [H _].
Qed.

Lemma contains_lower_line (c : ascii) (s : string) :
  lower_char c = c -> (forall d, lower_char d = c -> d = c) ->
  contains c s = false -> contains c (lower s) = false.
Proof.
  intros Hc Hinj. induction s as [|d s IH]; simpl; [reflexivity|].
  intros H. apply orb_false_iff in H as [Hd Hs]. rewrite (IH Hs), orb_false_r.
  destruct (Ascii.eqb_spec (lower_char d) c) as [E|]; [|reflexivity].
  apply Hinj in E. subst d. now rewrite Ascii.eqb_refl in Hd.
Qed.

Lemma one_line_strip (s : string) : one_line s -> one_line (strip s).
Proof. intros [A B]. split; now apply contains_strip. Qed.

Lemma one_line_lower (s : string) : one_line s -> one_line (lower s).
Proof.
  intros [A B]. split; (apply contains_lower_line; [reflexivity | | assumption]);
    intros d; destruct d as [[] [] [] [] [] [] [] []]; vm_compute; congruence.
Qed.

Lemma field_ok_intro (s : string) :
  contains "|" s = false -> one_line s -> field_ok s = true.
Proof. intros A [B C]. unfold field_ok. now rewrite A, B, C. Qed.

(** digits of a number *)
Lemma digits_uint_empty (u : Decimal.uint) :
  forallb_str isdigit (NilEmpty.string_of_uint u) = true.
Proof. induction u; simpl; auto. Qed.

Lemma digits_str_nat (n : nat) : forallb_str isdigit (str_nat n) = true.
Proof.
  unfold str_nat, NilZero.string_of_uint. destruct (Nat.to_uint n); try reflexivity;
    apply (digits_uint_empty (_ u)).
Qed.

Lemma digits_pad (w n : nat) : forallb_str isdigit (Datetime.pad w n) = true.
Proof.
  unfold Datetime.pad, zfill. rewrite forallb_str_app, digits_str_nat, andb_true_r.
  induction (w - String.length (str_nat n)); simpl; auto.
Qed.

Lemma isoformat_chars (t : Datetime.datetime) :
  forallb_str iso_char (Datetime.isoformat t) = true.
Proof.
  assert (Hd : forall w n, forallb_str iso_char (Datetime.pad w n) = true).
  { intros w n. apply (forallb_str_impl isdigit); [|apply digits_pad].
    intros c H. unfold iso_char. now rewrite H. }
  unfold Datetime.isoformat. rewrite !forallb_str_app, !Hd.
  destruct (Datetime.microsecond t); [reflexivity|].
  rewrite forallb_str_app, Hd. reflexivity.
Qed.

Lemma iso_char_plain (c : ascii) :
  iso_char c = true -> negb (isspace c) && negb (Ascii.eqb c "|") = true.
Proof. destruct c as [[] [] [] [] [] [] [] []]; vm_compute; congruence. Qed.

(** A string whose characters are neither whitespace nor [|] is a field
    that [strip] leaves alone. *)
Lemma plain_chars_field (s : string) :
  forallb_str (fun c => negb (isspace c) && negb (Ascii.eqb c "|")) s = true ->
  field_ok s = true /\ lstrip s = s /\ rstrip s = s.
Proof.
  intros H.
  assert (Hsp : forallb_str (fun c => negb (isspace c)) s = true).
  { revert H. apply forallb_str_impl. intros c Hc.
    now apply andb_true_iff in Hc as [Hc _]. }
  split; [|split; [now apply lstrip_no_space | now apply rstrip_no_space]].
  apply field_ok_intro.
  - apply (forallb_str_not_contains _ _ _ (eq_refl : _ "|"%char = false) H).
  - split.
    + apply (forallb_str_not_contains _ _ _ (eq_refl : _ "010"%char = false) Hsp).
    + apply (forallb_str_not_contains _ _ _ (eq_refl : _ "013"%char = false) Hsp).
Qed.

(** The characters of an accepted phone number. *)
Lemma country_code_chars (cc : string) :
  optional_country_code cc -> forallb_str phone_char cc = true.
Proof.
  intros [-> | H]; [reflexivity|]. simpl in H.
  destruct H as [<- | [<- | [<- | []]]]; reflexivity.
Qed.

Lemma digits_phone_chars (s : string) :
  forallb_str isdigit s = true -> forallb_str phone_char s = true.
Proof.
  apply forallb_str_impl. intros c H. unfold phone_char.
  now rewrite H, orb_true_r.
Qed.

Lemma filter_keeps_chars (p q : ascii -> bool) (s : string) :
  (forall c, q c = false -> p c = true) ->
  forallb_str p (filter_str q s) = true -> forallb_str p s = true.
Proof.
  intros Hq. induction s as [|c s IH]; simpl; [reflexivity|].
  destruct (q c) eqn:E; simpl.
  - intros H. apply andb_true_iff in H as [Hc Hs]. now rewrite Hc, IH.
  - intros H. now rewrite (Hq c E), IH.
Qed.

Lemma validate_egyptian_phone_chars (phone : string) :
  validate_egyptian_phone phone = true -> forallb_str phone_char phone = true.
Proof.
  unfold validate_egyptian_phone, patterns. simpl.
  rewrite sub_noise_without_separators, orb_false_r, orb_true_iff.
  rewrite !match_anchored_clean, lang_mobile, lang_landline.
  intros H.
  assert (Hc : forallb_str phone_char (without_separators phone) = true).
  { destruct H as [(cc & pre & ds & -> & Hcc & Hpre & _ & Hds)
                  | (cc & ds & -> & Hcc & _ & Hds)];
      rewrite !forallb_str_app, (country_code_chars _ Hcc), (digits_phone_chars _ Hds).
    - simpl in Hpre. destruct Hpre as [<- | [<- | [<- | [<- | []]]]]; reflexivity.
    - reflexivity. }
  revert Hc. unfold without_separators. apply filter_keeps_chars.
  intros c E. apply negb_false_iff in E. unfold phone_char. now rewrite E.
Qed.

Lemma phone_char_no_pipe : phone_char "|" = false.
Proof. reflexivity. Qed.

Lemma dict_get_none_keys {V} (k : string) (d : dict V) :
  dict_get k d = None -> ~ In k (map fst d).
Proof.
  induction d as [|[k' v] d IH]; simpl; [tauto|].
  destruct (String.eqb_spec k' k) as [->|Hne]; [discriminate|].
  intros H [E | E]; [congruence | now apply IH].
Qed.

Lemma local_char_ascii (c : ascii) : local_char c = true -> is_ascii c = true.
Proof. destruct c as [[] [] [] [] [] [] [] []]; vm_compute; congruence. Qed.

Lemma domain_char_ascii (c : ascii) : domain_char c = true -> is_ascii c = true.
Proof. destruct c as [[] [] [] [] [] [] [] []]; vm_compute; congruence. Qed.

Lemma iso_char_ascii (c : ascii) : iso_char c = true -> is_ascii c = true.
Proof. destruct c as [[] [] [] [] [] [] [] []]; vm_compute; congruence. Qed.

(** The account that accepted answers make holds plain fields. *)
Lemma new_account_plain (users : dict user) (t : Datetime.datetime)
      (fn ln e pw cpw mob act : string) :
  Forall one_line [fn; ln; e; pw; cpw; mob; act] ->
  registration_accepted users fn ln e pw cpw mob = true ->
  let u := new_account t fn ln e pw mob act in
  forallb field_ok (user_fields u) = true /\
  lstrip (u_email u) = u_email u /\ rstrip (u_created_at u) = u_created_at u /\
  ascii_text (u_email u) = true /\ ascii_text (u_created_at u) = true.
Proof.
  intros Hlines Hacc. unfold registration_accepted in Hacc.
  rewrite !andb_true_iff in Hacc.
  destruct Hacc as ((((((Hfn & Hln) & He) & _) & _) & _) & Hmob).
  inversion_clear Hlines as [|? ? Lfn Hl1]. inversion_clear Hl1 as [|? ? Lln Hl2].
  inversion_clear Hl2 as [|? ? Le Hl3]. inversion_clear Hl3 as [|? ? _ Hl4].
  inversion_clear Hl4 as [|? ? _ Hl5]. inversion_clear Hl5 as [|? ? Lmob _].
  cbv zeta. unfold new_account, user_fields.
  cbn [u_email u_first_name u_last_name u_password_hash u_mobile u_created_at forallb].
  (* the email *)
  assert (Hem : forallb_str (fun c => negb (isspace c) && negb (Ascii.eqb c "|"))
                            (lower (strip e)) = true).
  { apply (email_shape_chars _ _ local_char_plain domain_char_plain eq_refl).
    apply lang_email, (match_anchored_stripped email_pattern); [|exact He].
    unfold strip. now rewrite rstrip_lower, rstrip_idem. }
  destruct (plain_chars_field _ Hem) as (-> & Hl & _).
  (* the names *)
  assert (Hname : forall s, one_line s -> validate_name (strip s) = true ->
                            field_ok (strip s) = true).
  { intros s Ls Hs. apply field_ok_intro; [|now apply one_line_strip].
    unfold validate_name in Hs.
    destruct (negb (truthy (strip s)) || negb (truthy (strip (strip s))));
      [discriminate|].
    apply andb_true_iff in Hs as [Hs _]. rewrite strip_idem in Hs.
    apply (forallb_str_not_contains _ "|" _ eq_refl Hs). }
  rewrite (Hname fn Lfn Hfn), (Hname ln Lln Hln).
  (* the hash *)
  destruct (hexdigest_shape (strip pw)) as [_ Hh].
  destruct (plain_chars_field _ (forallb_str_impl _ _ _ hex_char_plain Hh)) as (Hhash & _).
  unfold hash_password. rewrite Hhash.
  (* the phone *)
  assert (Hph : field_ok (strip mob) = true).
  { apply field_ok_intro; [|now apply one_line_strip].
    apply (forallb_str_not_contains _ _ _ phone_char_no_pipe
                                    (validate_egyptian_phone_chars _ Hmob)). }
  rewrite Hph.
  (* the time *)
  destruct (plain_chars_field _ (forallb_str_impl _ _ _ iso_char_plain (isoformat_chars t)))
    as (-> & _ & Hr).
  repeat split; try assumption.
  - apply (email_shape_chars _ _ local_char_ascii domain_char_ascii eq_refl).
    apply lang_email, (match_anchored_stripped email_pattern); [|exact He].
    unfold strip. now rewrite rstrip_lower, rstrip_idem.
  - exact (forallb_str_impl _ _ _ iso_char_ascii (isoformat_chars t)).
Qed.

Lemma NoDup_snoc {A} (l : list A) (x : A) : NoDup l -> ~ In x l -> NoDup (l ++ [x]).
Proof.
  induction 1 as [|y l Hy Hl IH]; simpl; intros Hx.
  - repeat constructor. tauto.
  - constructor.
    + rewrite in_app_iff. simpl. intros [H | [H | []]]; [tauto | subst; tauto].
    + apply IH. tauto.
Qed.

(** A fresh [load_data] of files that hold the registries. *)
Lemma load_in_sync (w : world) :
  fields_plain w -> storable w -> in_sync w ->
  users_data (snd (load_data (restart w))) = users_data w /\
  projects_data (snd (load_data (restart w))) = projects_data w.
Proof.
  intros [Hpu Hpp] (Hnd & Hsu & Hsp) [Fu Fp]. split.
  - rewrite load_data_users.
    cbn [restart users_file set_users_data set_projects_data set_current_user_email].
    rewrite Fu. unfold users_text. now rewrite read_saved_users.
  - rewrite load_data_projects.
    cbn [restart projects_file set_users_data set_projects_data set_current_user_email].
    rewrite Fp. unfold projects_text. now rewrite read_saved_projects.
Qed.

(** X5. An accepted registration, with answers in ASCII that hold no
    line break (as [input] returns them), keeps the registries readable:
    when no stored field held a [|] or a line break and the records were
    as [load_data] reads them back (each user filed under its email; the
    first field of a line, email or title, ASCII text with no leading
    whitespace; a user's [created_at] ASCII text with no trailing
    whitespace; every amount read back by [float] from its [str]), the
    same is true afterwards, and a new process that loads the two files
    finds every account and every project again, the new account
    included. *)
Theorem register_user_restart (w : world) (fn ln e pw cpw mob act : string)
        (rest : list string) :
  stdin w = fn :: ln :: e :: pw :: cpw :: mob :: act :: rest ->
  Forall (fun line => ascii_text line = true /\ one_line line)
         [fn; ln; e; pw; cpw; mob; act] ->
  registration_accepted (users_data w) fn ln e pw cpw mob = true ->
  fields_plain w -> storable w ->
  let w' := snd (register_user w) in
  fields_plain w' /\ storable w' /\
  users_data (snd (load_data (restart w'))) = users_data w' /\
  projects_data (snd (load_data (restart w'))) = projects_data w' /\
  dict_get (lower (strip e)) (users_data (snd (load_data (restart w'))))
  = Some (new_account (clock w) fn ln e pw mob act).
Proof.
  intros Hin Hlines Hacc Hplain Hstor. cbv zeta.
  rewrite (register_user_accepts w _ _ _ _ _ _ _ _ Hin Hacc). cbn [snd].
  set (u := new_account (clock w) fn ln e pw mob act).
  match goal with |- fields_plain ?x /\ _ => set (w' := x) end.
  assert (Hl : Forall one_line [fn; ln; e; pw; cpw; mob; act]).
  { eapply Forall_impl; [|exact Hlines]. now intros s [_ H]. }
  destruct (new_account_plain (users_data w) (clock w) _ _ _ _ _ _ act Hl Hacc)
    as (Hf & Hls & Hrs & Hae & Hat).
  fold u in Hf, Hls, Hrs, Hae, Hat.
  assert (Hfree : dict_get (lower (strip e)) (users_data w) = None).
  { unfold registration_accepted in Hacc. rewrite !andb_true_iff in Hacc.
    destruct Hacc as ((((_ & Hd) & _) & _) & _).
    apply negb_true_iff in Hd. now apply dict_in_false. }
  destruct Hplain as [Hpu Hpp]. destruct Hstor as (Hnd & Hsu & Hsp).
  assert (Hplain' : fields_plain w').
  { split; [|exact Hpp]. subst w'. cbn [users_data].
    apply Forall_app. split; [exact Hpu|]. now repeat constructor. }
  assert (Hstor' : storable w').
  { split; [|split; [|exact Hsp]]; subst w'; cbn [users_data].
    - rewrite map_app. cbn [map fst]. apply NoDup_snoc; [exact Hnd|].
      now apply dict_get_none_keys.
    - apply Forall_app. split; [exact Hsu|]. repeat constructor; assumption. }
  assert (Hsync : in_sync w') by (split; reflexivity).
  destruct (load_in_sync w' Hplain' Hstor' Hsync) as [Hu Hp].
  repeat split; try assumption; try apply Hplain'; try apply Hstor'.
  rewrite Hu. subst w'. cbn [users_data].
  rewrite dict_get_app, Hfree. simpl. now rewrite String.eqb_refl.
Qed.

End RegisteredPlain.

(** ** user_auth.py: registration and the session on every run *)

Section UserTheorems.
Import PyStr validation data_storage user_auth Logic Behaviour.

(** X6. However [register_user] ends, with a value or at the end
    of the input, it raises nothing but [EOFError]; every account that was
    registered is still there, unchanged; at most one account is added,
    last and under an email that was free, and then both files have been
    rewritten from the registries, even if the input ends at the
    activation prompt; the projects and the session pointer are as
    before; [True] is returned only with the files rewritten, and [False]
    only with registries and files untouched. *)
Theorem register_user_frame (w : world) :
  let r := register_user w in
  ends_well (fst r) /\
  accounts_kept (users_data w) (users_data (snd r)) /\
  (users_data (snd r) = users_data w \/
   exists e u, dict_get e (users_data w) = None /\
               users_data (snd r) = users_data w ++ [(e, u)] /\ in_sync (snd r)) /\
  projects_data (snd r) = projects_data w /\
  current_user_email (snd r) = current_user_email w /\
  (fst r = Ok true -> in_sync (snd r)) /\
  (fst r = Ok false -> users_data (snd r) = users_data w /\ files_kept w (snd r)).
Proof.
  cbv zeta. pose proof (register_user_contract w) as H. unfold wp in H.
  destruct H as (M & Hr & P & S & [(U & F & Hne) | (u & Hfree & U & Y & Hres)]).
  - repeat split; try assumption; try apply F; try congruence;
      try (rewrite U; apply accounts_kept_refl); now left.
  - repeat split; try assumption; try apply Y;
      try (rewrite U; now apply accounts_kept_new);
      try (right; now exists (u_email u), u);
      destruct Hres as [E' | [E' _]]; congruence.
Qed.

(** X7. [login_user] changes nothing but the console and the
    session pointer, and raises nothing but [EOFError].  When it returns
    [True] the pointer is the email of an active account of the registry,
    and [get_current_user] then returns that account, unless the email is
    the empty string: the pointer is then set and [get_current_user]
    still returns [None].  When it does not return [True] the pointer is
    as before.  After [logout_user], [get_current_user] returns [None],
    and the registries and files are untouched. *)
Theorem session_lifecycle (w : world) :
  (let r := login_user w in
   ends_well (fst r) /\
   users_data (snd r) = users_data w /\ projects_data (snd r) = projects_data w /\
   files_kept w (snd r) /\
   (fst r = Ok true ->
    exists e u,
      current_user_email (snd r) = Some e /\
      dict_get e (users_data w) = Some u /\ u_is_active u = true /\
      fst (get_current_user (snd r))
      = Ok (if String.eqb e EmptyString then None else Some u)) /\
   (fst r <> Ok true -> current_user_email (snd r) = current_user_email w)) /\
  (let r := logout_user w in
   fst r = Ok tt /\ fst (get_current_user (snd r)) = Ok None /\
   users_data (snd r) = users_data w /\ projects_data (snd r) = projects_data w /\
   files_kept w (snd r) /\ stdin (snd r) = stdin w).
Proof.
  split; cbv zeta.
  - pose proof (login_user_contract w) as H. unfold wp in H.
    destruct H as (M & Hr & U & P & F & [(S & Hne) | (e & u & Hu & Ha & S & Hres)]).
    + repeat split; try assumption; try apply F; try congruence; now intros _.
    + repeat split; try assumption; try apply F; try congruence.
      exists e, u. repeat split; try assumption.
      rewrite get_current_user_eq. cbn [fst]. unfold logged_in.
      rewrite S, U. unfold dict_in. rewrite Hu.
      now destruct e.
  - repeat split.
Qed.

End UserTheorems.

(** ** project_manager.py: [create_new_project] on every run *)

Section CreateContract.
Import PyStr PyFloat validation data_storage project_manager Spec Logic Behaviour.

Lemma creation_post_quiet (w w' : world) (r : result bool) :
  console_only w w' -> ends_well r -> r <> Ok true -> creation_post w r w'.
Proof.
  intros (U & P & S & F & M) Hr Hne. repeat split; try assumption; try apply M.
  left. now repeat split; try apply F.
Qed.

Lemma truthy_nonempty (s : string) : truthy s = true -> s <> EmptyString.
Proof. destruct s; [discriminate | discriminate]. Qed.

Lemma datetime_geb_false (a b : Datetime.datetime) :
  Datetime.datetime_geb a b = false -> Datetime.datetime_ltb a b = true.
Proof. unfold Datetime.datetime_geb. now destruct (Datetime.datetime_ltb a b). Qed.

(** The verdict of [validate_date_range] on two dates that parse. *)
Lemma validate_date_range_run (start_date end_date : string) (w : world)
      (s e : Datetime.datetime) :
  Datetime.strptime start_date = Some s -> Datetime.strptime end_date = Some e ->
  validate_date_range start_date end_date w =
  (Ok (if Datetime.datetime_geb s e then (false, "End date must be after start date!")
       else if Datetime.datetime_ltb s (clock w)
            then (false, "Start date cannot be in the past!")
            else (true, EmptyString)), w).
Proof.
  intros Hs He. unfold validate_date_range. rewrite Hs, He.
  destruct (Datetime.datetime_geb s e); [reflexivity|].
  unfold bind, now, ret. now destruct (Datetime.datetime_ltb s (clock w)).
Qed.

Lemma create_new_project_contract (w : world) :
  wp create_new_project (creation_post w) w.
Proof.
  unfold create_new_project.
  pose proof (console_only_refl w) as Hinv.
  assert (Hquit : forall w', console_only w w' -> creation_post w (Raise EOFError) w').
  { intros w' H. apply creation_post_quiet; [assumption | reflexivity | discriminate]. }
  assert (Hno : forall msg w', console_only w w' ->
                               wp (print msg ;; ret false) (creation_post w) w').
  { intros msg w' H. apply wp_bind, cstep_print. intros w2 H2.
    apply wp_ret, creation_post_quiet;
      [eapply console_only_trans; eauto | exact I | discriminate]. }
  apply wp_bind, wp_get_current_user.
  destruct (logged_in w) as [cu|] eqn:Hcu; [|now apply Hno].
  apply wp_bind, cstep_print. intros w1 H1. console_step (console_only_trans w) Hinv.
  apply wp_bind, cstep_input;
    [intros w2 H2; console_step (console_only_trans w) Hinv; now apply Hquit|].
  intros title w2 H2 _. console_step (console_only_trans w) Hinv.
  destruct (truthy (strip title)) eqn:Ht; cbn [negb]; [|now apply Hno].
  apply wp_bind, cstep_input;
    [intros w3 H3; console_step (console_only_trans w) Hinv; now apply Hquit|].
  intros details w3 H3 _. console_step (console_only_trans w) Hinv.
  destruct (truthy (strip details)) eqn:Hd; cbn [negb]; [|now apply Hno].
  apply wp_bind, cstep_input;
    [intros w4 H4; console_step (console_only_trans w) Hinv; now apply Hquit|].
  intros target_text w4 H4 _. console_step (console_only_trans w) Hinv.
  destruct (py_float target_text) as [total_target|]; [|now apply Hno].
  destruct (leb total_target (of_Z 0)) eqn:Hpos; [now apply Hno|].
  apply wp_bind, cstep_input;
    [intros w5 H5; console_step (console_only_trans w) Hinv; now apply Hquit|].
  intros start_date w5 H5 _. console_step (console_only_trans w) Hinv.
  destruct (validate_date (strip start_date)) eqn:Hs; cbn [negb]; [|now apply Hno].
  apply wp_bind, cstep_input;
    [intros w6 H6; console_step (console_only_trans w) Hinv; now apply Hquit|].
  intros end_date w6 H6 _. console_step (console_only_trans w) Hinv.
  destruct (validate_date (strip end_date)) eqn:He; cbn [negb]; [|now apply Hno].
  unfold validate_date in Hs, He.
  destruct (Datetime.strptime (strip start_date)) as [s|] eqn:Es; [|discriminate].
  destruct (Datetime.strptime (strip end_date)) as [e|] eqn:Ee; [|discriminate].
  apply wp_bind.
  eapply wp_eq; [exact (validate_date_range_run _ _ w6 s e Es Ee)|]. cbv beta iota.
  destruct (Datetime.datetime_geb s e) eqn:Hge; cbn [negb]; [now apply Hno|].
  destruct (Datetime.datetime_ltb s (clock w6)) eqn:Hpast; cbn [negb]; [now apply Hno|].
  unfold create_project_data.
  apply wp_bind, wp_bind, wp_now, wp_ret.
  apply wp_bind, wp_modify. apply wp_bind.
  eapply wp_eq; [apply save_data_eq|]. cbv beta iota.
  apply wp_bind, cstep_print. intros w7 H7. apply wp_ret.
  destruct Hinv as (U & P & S & F & C & G & R).
  destruct H7 as (U7 & P7 & S7 & [F7 F7'] & C7 & G7 & R7).
  cbn [users_data projects_data current_user_email users_file projects_file clock
       set_projects_file set_users_file set_projects_data] in *.
  repeat split; try congruence.
  - eapply console_grows_trans; [exact G|]. destruct G7 as [l7 G7]. exists l7.
    exact G7.
  - eapply reads_trans; [exact R|]. exact R7.
  - right. exists cu.
    exists (mkproject (strip title) (strip details) total_target (strip start_date)
                      (strip end_date) (u_email cu) (Datetime.isoformat (clock w6)) zero).
    split; [exact Hcu|]. split.
    + repeat split; try assumption; try (now apply truthy_nonempty).
      * cbn [p_created_at]. now rewrite C.
      * exists s, e. cbn [p_start_date p_end_date].
        repeat split; try assumption.
        -- now apply datetime_geb_false.
        -- now rewrite <- C.
    + repeat split; try congruence.
Qed.

Lemma validate_date_eq (s : string) :
  validate_date s = match Datetime.strptime s with Some _ => true | None => false end.
Proof. reflexivity. Qed.

(** A creation whose answers pass the checks. *)
Lemma create_new_project_accepts (w : world) (cu : user)
      (title details target start_date end_date : string) (rest : list string) :
  logged_in w = Some cu ->
  stdin w = title :: details :: target :: start_date :: end_date :: rest ->
  creation_accepted (clock w) title details target start_date end_date = true ->
  let projects := projects_data w ++
                  [new_project (u_email cu) (clock w) title details target
                               start_date end_date] in
  create_new_project w =
  (Ok true,
   mkworld (users_data w) projects (current_user_email w)
           (Text (users_text (users_data w))) (Text (projects_text projects))
           rest
           (stdout w ++
            [(nl +++ "=== CREATE PROJECT ===") +++ nl; "Project Title: ";
             "Project Details: "; "Total Target (EGP): "; "Start Date (YYYY-MM-DD): ";
             "End Date (YYYY-MM-DD): "; "✅ Project created successfully!" +++ nl])
           (clock w)).
Proof.
  intros Hcu Hin Hacc. unfold creation_accepted in Hacc. unfold new_project.
  unfold create_new_project. rewrite (bind_ok _ _ _ _ _ (get_current_user_eq w)), Hcu.
  destruct w as [us ps cur uf pf sin out clk]. cbn [stdin users_data clock] in *.
  subst sin. cbv zeta. run.
  destruct (truthy (strip title)); [|discriminate Hacc]. cbn [negb]. run.
  destruct (truthy (strip details)); [|discriminate Hacc]. cbn [negb]. run.
  destruct (py_float target) as [v|]; [|discriminate Hacc].
  destruct (leb v (of_Z 0)); [discriminate Hacc|]. run.
  unfold validate_date, validate_date_range.
  destruct (Datetime.strptime (strip start_date)) as [s|]; [|discriminate Hacc].
  cbn [negb]. run.
  destruct (Datetime.strptime (strip end_date)) as [e|]; [|discriminate Hacc].
  cbn [negb]. run. cbn [andb negb] in Hacc. apply andb_true_iff in Hacc as [H1 H2].
  unfold Datetime.datetime_geb. rewrite H1. cbn [negb]. run.
  apply negb_true_iff in H2. rewrite H2. run. cbn [negb].
  unfold create_project_data. run.
  rewrite <- !app_assoc. reflexivity.
Qed.

(** A creation that fails a check. *)
Lemma create_new_project_rejects (w : world) (cu : user)
      (title details target start_date end_date : string) (rest : list string) :
  logged_in w = Some cu ->
  stdin w = title :: details :: target :: start_date :: end_date :: rest ->
  creation_accepted (clock w) title details target start_date end_date = false ->
  exists w', create_new_project w = (Ok false, w') /\ console_only w w'.
Proof.
  intros Hcu Hin Hacc. unfold creation_accepted in Hacc.
  assert (Hq : forall (taken out : list string) (left : list string),
             stdin w = taken ++ left ->
             console_only w (set_stdin left (set_stdout (stdout w ++ out) w))).
  { intros taken out left E. repeat split; [now exists out | now exists taken]. }
  unfold create_new_project. rewrite (bind_ok _ _ _ _ _ (get_current_user_eq w)), Hcu.
  destruct w as [us ps cur uf pf sin out clk]. cbn [stdin users_data clock stdout] in *.
  subst sin. run.
  destruct (truthy (strip title)); cbn [negb]; run.
  2:{ eexists. split; [reflexivity|]. rewrite <- !app_assoc.
      apply (Hq [title]). reflexivity. }
  destruct (truthy (strip details)); cbn [negb]; run.
  2:{ eexists. split; [reflexivity|]. rewrite <- !app_assoc.
      apply (Hq [title; details]). reflexivity. }
  destruct (py_float target) as [v|]; run.
  2:{ eexists. split; [reflexivity|]. rewrite <- !app_assoc.
      apply (Hq [title; details; target]). reflexivity. }
  destruct (leb v (of_Z 0)); run.
  1:{ eexists. split; [reflexivity|]. rewrite <- !app_assoc.
      apply (Hq [title; details; target]). reflexivity. }
  unfold validate_date, validate_date_range.
  destruct (Datetime.strptime (strip start_date)) as [s|]; cbn [negb]; run.
  2:{ eexists. split; [reflexivity|]. rewrite <- !app_assoc.
      apply (Hq [title; details; target; start_date]). reflexivity. }
  destruct (Datetime.strptime (strip end_date)) as [e|]; cbn [negb]; run.
  2:{ eexists. split; [reflexivity|]. rewrite <- !app_assoc.
      apply (Hq [title; details; target; start_date; end_date]). reflexivity. }
  cbn [andb negb] in Hacc. unfold Datetime.datetime_geb.
  destruct (Datetime.datetime_ltb s e); cbn [negb andb] in *; run.
  2:{ eexists. split; [reflexivity|]. rewrite <- !app_assoc.
      apply (Hq [title; details; target; start_date; end_date]). reflexivity. }
  destruct (Datetime.datetime_ltb s clk); cbn [negb andb] in *; run; [|discriminate Hacc].
  eexists. split; [reflexivity|]. rewrite <- !app_assoc.
  apply (Hq [title; details; target; start_date; end_date]). reflexivity.
Qed.

(** X8. With a user logged in and its five answers on the console
    (in ASCII), [create_new_project] returns [True] exactly when the
    stripped title and details are not empty, [float] reads the target and
    the test [total_target <= 0] is false for it, both stripped dates
    parse, the start is before the end and not before the clock.  It then
    appends one project to the registry, owned by the current user, with
    the stripped answers, nothing pledged and the time of creation, and
    both files hold the registries.  Otherwise it returns [False] and
    changes neither the registries nor the files.  The users and the
    session are never touched. *)
Theorem create_new_project_spec (w : world) (cu : user)
        (title details target start_date end_date : string) (rest : list string) :
  fst (get_current_user w) = Ok (Some cu) ->
  stdin w = title :: details :: target :: start_date :: end_date :: rest ->
  Forall (fun line => ascii_text line = true)
         [title; details; target; start_date; end_date] ->
  let accepted := creation_accepted (clock w) title details target start_date end_date in
  let r := create_new_project w in
  (fst r = Ok true <-> accepted = true) /\
  (accepted = true ->
   projects_data (snd r) =
   projects_data w ++
   [new_project (u_email cu) (clock w) title details target start_date end_date] /\
   in_sync (snd r) /\ stdin (snd r) = rest) /\
  (accepted = false ->
   fst r = Ok false /\ projects_data (snd r) = projects_data w /\
   files_kept w (snd r)) /\
  users_data (snd r) = users_data w /\
  current_user_email (snd r) = current_user_email w.
Proof.
  intros Hcu Hin _. rewrite get_current_user_eq in Hcu. cbn [fst] in Hcu.
  injection Hcu as Hcu. cbv zeta.
  destruct (creation_accepted (clock w) title details target start_date end_date)
    eqn:Hacc.
  - rewrite (create_new_project_accepts w cu _ _ _ _ _ _ Hcu Hin Hacc). cbn [fst snd].
    repeat split; try discriminate.
  - destruct (create_new_project_rejects w cu _ _ _ _ _ _ Hcu Hin Hacc)
      as (w' & -> & U & P & S & F & _).
    cbn [fst snd]. repeat split; try discriminate; try assumption; try apply F.
Qed.

End CreateContract.

(** ** project_manager.py: the listings *)

Section Listings.
Import PyStr PyFloat validation data_storage project_manager Spec Logic Behaviour.

Lemma print_project_run (with_owner : bool) (i : nat) (p : project) (w : world) :
  print_project with_owner (i, p) w =
  if zero_target p then (Raise ZeroDivisionError, w)
  else (Ok tt, set_stdout (stdout w ++ entry_lines with_owner i p) w).
Proof.
  unfold print_project, progress_of, print_amounts, zero_target, entry_lines, progress,
    div.
  destruct w as [us ps cur uf pf sin out clk].
  destruct (p_total_target p) eqn:E; destruct with_owner; run;
    rewrite <- ?app_assoc; reflexivity.
Qed.

Lemma listing_run (with_owner : bool) (projects : list project) :
  forall (i : nat) (w : world),
    for_each (combine (seq i (List.length projects)) projects)
             (print_project with_owner) w =
    (listing_result projects,
     set_stdout (stdout w ++ listed_entries with_owner i projects) w).
Proof.
  unfold listing_result.
  induction projects as [|p ps IH]; intros i w.
  - simpl. rewrite app_nil_r. now destruct w.
  - cbn [List.length seq combine for_each existsb listed_entries].
    unfold bind at 1. rewrite print_project_run.
    destruct (zero_target p); cbn [orb].
    + rewrite app_nil_r. now destruct w.
    + rewrite IH. cbn [stdout set_stdout]. now rewrite <- app_assoc.
Qed.

(** The same loop over references, as [view_my_projects] runs it. *)
Lemma listing_run_refs (mine : list project) :
  forall (refs : list nat) (i : nat) (w : world),
    map (nth_error (projects_data w)) refs = map Some mine ->
    for_each (combine (seq i (List.length refs)) refs)
             (fun ir => p <- deref (snd ir) ;; print_project false (fst ir, p)) w =
    (listing_result mine, set_stdout (stdout w ++ listed_entries false i mine) w).
Proof.
  unfold listing_result.
  induction mine as [|p ps IH]; intros [|r refs] i w Hmap; try discriminate Hmap.
  - simpl. rewrite app_nil_r. now destruct w.
  - cbn [map] in Hmap. injection Hmap as Hr Hmap.
    cbn [List.length seq combine for_each existsb listed_entries].
    unfold bind at 1. unfold bind at 1. rewrite deref_eq. cbn [snd fst].
    rewrite Hr, print_project_run.
    destruct (zero_target p); cbn [orb].
    + rewrite app_nil_r. now destruct w.
    + rewrite IH by exact Hmap. cbn [stdout set_stdout]. now rewrite <- app_assoc.
Qed.

Lemma zero_target_nonzero (p : project) : zero_target p = false <-> nonzero_target p.
Proof.
  unfold zero_target, nonzero_target. split.
  - intros H s E. now rewrite E in H.
  - intros H. destruct (p_total_target p) eqn:E; try reflexivity.
    now elim (H s).
Qed.

Lemma existsb_zero_target (projects : list project) :
  existsb zero_target projects = false <-> Forall nonzero_target projects.
Proof.
  induction projects as [|p ps IH]; simpl.
  - split; [constructor | reflexivity].
  - rewrite orb_false_iff, IH, zero_target_nonzero. split.
    + intros [A B]. now constructor.
    + intros H. now inversion H.
Qed.

(** What [view_all_projects] does. *)
Lemma view_all_projects_run (w : world) :
  view_all_projects w =
  (listing_result (projects_data w),
   set_stdout (stdout w ++
               [(nl +++ "=== ALL PROJECTS ===") +++ nl] ++
               match projects_data w with
               | [] => ["No projects available." +++ nl]
               | projects => listed_entries true 1 projects
               end) w).
Proof.
  destruct w as [us ps cur uf pf sin out clk]. unfold view_all_projects. run.
  destruct ps as [|p ps].
  - unfold listing_result. cbn [existsb]. run. rewrite <- ?app_assoc. reflexivity.
  - unfold enumerate1. rewrite listing_run. cbn [stdout set_stdout].
    now rewrite <- app_assoc.
Qed.

(** What [view_my_projects] does for the user [cu]. *)
Lemma view_my_projects_run (w : world) (cu : user) :
  logged_in w = Some cu ->
  let mine := filter (owned_by (u_email cu)) (projects_data w) in
  view_my_projects w =
  (listing_result mine,
   set_stdout (stdout w ++
               [(nl +++ "=== MY PROJECTS ===") +++ nl] ++
               match mine with
               | [] => ["You haven't created any projects yet." +++ nl]
               | _ => listed_entries false 1 mine
               end) w).
Proof.
  intros Hcu. cbv zeta. unfold view_my_projects.
  rewrite (bind_ok _ _ _ _ _ (get_current_user_eq w)), Hcu.
  pose proof (refs_from_filter (u_email cu) (projects_data w) 0) as Hrefs.
  rewrite (map_ext (fun r => nth_error (projects_data w) (r - 0))
                   (nth_error (projects_data w))) in Hrefs
    by (intros; now rewrite Nat.sub_0_r).
  clear Hcu. destruct w as [us ps cur uf pf sin out clk].
  cbn [projects_data] in *. unfold get_user_projects. run.
  destruct (refs_from 0 (u_email cu) ps) as [|r refs] eqn:Er;
    destruct (filter (owned_by (u_email cu)) ps) as [|p mine] eqn:Em;
    try discriminate Hrefs.
  - unfold listing_result. cbn [existsb]. run. rewrite <- ?app_assoc. reflexivity.
  - unfold enumerate1.
    rewrite (listing_run_refs (p :: mine)) by exact Hrefs.
    cbn [stdout set_stdout]. now rewrite <- app_assoc.
Qed.

Lemma listed_entries_all (with_owner : bool) (projects : list project) :
  forall i,
    existsb zero_target projects = false ->
    listed_entries with_owner i projects =
    concat (map (fun ip => entry_lines with_owner (fst ip) (snd ip))
                (combine (seq i (List.length projects)) projects)).
Proof.
  induction projects as [|p ps IH]; intros i H; simpl in *; [reflexivity|].
  apply orb_false_iff in H as [-> H]. now rewrite IH.
Qed.

Lemma listed_entries_stop (with_owner : bool) (pre : list project) (p : project)
      (post : list project) :
  forall i,
    existsb zero_target pre = false -> zero_target p = true ->
    listed_entries with_owner i (pre ++ p :: post) =
    concat (map (fun ip => entry_lines with_owner (fst ip) (snd ip))
                (combine (seq i (List.length pre)) pre)).
Proof.
  induction pre as [|q pre IH]; intros i H Hp; simpl in *.
  - now rewrite Hp.
  - apply orb_false_iff in H as [-> H]. now rewrite IH.
Qed.

Lemma existsb_stop (pre : list project) (p : project) (post : list project) :
  zero_target p = true -> existsb zero_target (pre ++ p :: post) = true.
Proof.
  intros H. rewrite existsb_app. simpl. rewrite H. now rewrite orb_true_r.
Qed.

(** X9. [view_all_projects] prints the heading and, when the
    registry is empty, one line that says so.  Otherwise it prints the
    entries of the projects in registry order, numbered from 1, six lines
    each: title, owner, details, target, pledged amount with the
    percentage, and duration.  At the first project whose target is a zero
    (0.0 or -0.0) it raises [ZeroDivisionError], with the entries before
    that project printed and nothing of it or after it.  It changes
    nothing but the console. *)
Theorem view_all_projects_spec (w : world) :
  let projects := projects_data w in
  let heading := (nl +++ "=== ALL PROJECTS ===") +++ nl in
  (projects = [] ->
   view_all_projects w =
   (Ok tt, set_stdout (stdout w ++ [heading; "No projects available." +++ nl]) w)) /\
  (projects <> [] -> existsb zero_target projects = false ->
   view_all_projects w =
   (Ok tt, set_stdout (stdout w ++ heading :: entries true projects) w)) /\
  (forall pre p post,
     projects = pre ++ p :: post ->
     existsb zero_target pre = false -> zero_target p = true ->
     view_all_projects w =
     (Raise ZeroDivisionError, set_stdout (stdout w ++ heading :: entries true pre) w)) /\
  (forall p, List.length (entry_lines true 1 p) = 6).
Proof.
  cbv zeta. rewrite view_all_projects_run. unfold listing_result, entries, enumerate1.
  split; [|split; [|split]].
  - intros ->. reflexivity.
  - intros Hne Hz. rewrite Hz.
    destruct (projects_data w) as [|p ps] eqn:E; [congruence|].
    now rewrite (listed_entries_all true (p :: ps) 1 Hz).
  - intros pre p post E Hpre Hp. rewrite E.
    rewrite (existsb_stop pre p post Hp).
    rewrite <- (listed_entries_stop true pre p post 1 Hpre Hp).
    now destruct pre.
  - reflexivity.
Qed.

(** X10. With a user logged in, [view_my_projects] lists the
    projects of the registry whose owner is the current user's email, in
    registry order and numbered from 1, five lines each (no owner line),
    and no other project; with none, it prints one line that says so.  A
    zero target stops it with [ZeroDivisionError] only when the project is
    one of the user's own.  Without a login it prints one message.  It
    changes nothing but the console. *)
Theorem view_my_projects_spec (w : world) :
  let heading := (nl +++ "=== MY PROJECTS ===") +++ nl in
  (fst (get_current_user w) = Ok None ->
   view_my_projects w =
   (Ok tt, set_stdout (stdout w ++ ["❌ Please login first!" +++ nl]) w)) /\
  (forall cu,
     fst (get_current_user w) = Ok (Some cu) ->
     let mine := filter (owned_by (u_email cu)) (projects_data w) in
     (mine = [] ->
      view_my_projects w =
      (Ok tt,
       set_stdout (stdout w ++ [heading; "You haven't created any projects yet." +++ nl])
                  w)) /\
     (mine <> [] -> existsb zero_target mine = false ->
      view_my_projects w =
      (Ok tt, set_stdout (stdout w ++ heading :: entries false mine) w)) /\
     (forall pre p post,
        mine = pre ++ p :: post ->
        existsb zero_target pre = false -> zero_target p = true ->
        view_my_projects w =
        (Raise ZeroDivisionError,
         set_stdout (stdout w ++ heading :: entries false pre) w))) /\
  (forall p, List.length (entry_lines false 1 p) = 5).
Proof.
  cbv zeta. split; [|split].
  - rewrite get_current_user_eq. cbn [fst]. intros H. injection H as H.
    unfold view_my_projects.
    rewrite (bind_ok _ _ _ _ _ (get_current_user_eq w)), H. reflexivity.
  - intros cu. rewrite get_current_user_eq. cbn [fst]. intros H. injection H as H.
    rewrite (view_my_projects_run w cu H). unfold listing_result, entries, enumerate1.
    split; [|split].
    + intros ->. reflexivity.
    + intros Hne Hz. rewrite Hz.
      destruct (filter (owned_by (u_email cu)) (projects_data w)) as [|p ps] eqn:E;
        [congruence|].
      now rewrite (listed_entries_all false (p :: ps) 1 Hz).
    + intros pre p post E Hpre Hp. rewrite E.
      rewrite (existsb_stop pre p post Hp).
      rewrite <- (listed_entries_stop false pre p post 1 Hpre Hp).
      now destruct pre.
  - reflexivity.
Qed.

End Listings.

(** ** project_manager.py: operations that need a login *)

Section LoginRequired.
Import PyStr PyFloat validation data_storage project_manager Spec Logic Behaviour.

Lemma guest_refused (w : world) :
  logged_in w = None ->
  let refused := set_stdout (stdout w ++ ["❌ Please login first!" +++ nl]) w in
  create_new_project w = (Ok false, refused) /\
  edit_user_project w = (Ok false, refused) /\
  delete_user_project w = (Ok false, refused) /\
  view_my_projects w = (Ok tt, refused).
Proof.
  intros H. cbv zeta.
  unfold create_new_project, edit_user_project, delete_user_project, view_my_projects.
  rewrite !(bind_ok _ _ _ _ _ (get_current_user_eq w)), H.
  repeat split.
Qed.

(** X11. [get_current_user] returns [None] exactly when the session
    pointer is unset, is the empty string, or names an email that is not
    in the registry.  In that case [create_new_project],
    [edit_user_project] and [delete_user_project] print one message and
    return [False], and [view_my_projects] prints the same message: no
    line is read, and nothing but the console changes. *)
Theorem login_required :
  (forall w,
     fst (get_current_user w) = Ok None <->
     current_user_email w = None \/
     current_user_email w = Some EmptyString \/
     exists e, current_user_email w = Some e /\ dict_get e (users_data w) = None) /\
  (forall w,
     fst (get_current_user w) = Ok None ->
     let refused := set_stdout (stdout w ++ ["❌ Please login first!" +++ nl]) w in
     create_new_project w = (Ok false, refused) /\
     edit_user_project w = (Ok false, refused) /\
     delete_user_project w = (Ok false, refused) /\
     view_my_projects w = (Ok tt, refused)).
Proof.
  split.
  - intros w. rewrite get_current_user_eq. cbn [fst]. unfold logged_in, dict_in.
    destruct (current_user_email w) as [e|]; [|split; auto].
    destruct e as [|c e]; cbn [truthy andb].
    + split; auto.
    + destruct (dict_get (String c e) (users_data w)) as [u|] eqn:E.
      * split; [discriminate|].
        intros [H | [H | (e' & H & H')]]; try discriminate. congruence.
      * split; [|reflexivity]. intros _. right. right. eauto.
  - intros w. rewrite get_current_user_eq. cbn [fst]. intros H. injection H as H.
    now apply guest_refused.
Qed.

End LoginRequired.

(** ** project_manager.py: [edit_user_project] and [delete_user_project]
    on every run *)

Section EditDelete.
Import PyStr PyFloat validation data_storage project_manager Spec Logic Behaviour.

(** A selection is a reference of the list that was shown. *)
Lemma cstep_select (prompt : string) (refs : list ref)
      (Q : result (option ref) -> world -> Prop) (w : world) :
  (forall w', console_only w w' -> Q (Raise EOFError) w') ->
  (forall w', console_only w w' -> Q (Ok None) w') ->
  (forall r w', In r refs -> console_only w w' -> Q (Ok (Some r)) w') ->
  wp (select_project prompt refs) Q w.
Proof.
  intros Heof Hnone Hsome. unfold select_project.
  apply wp_bind, cstep_input; [exact Heof|].
  intros line w1 H1 _. destruct (PyNum.py_int line) as [n|].
  - destruct ((n - 1 <? 0)%Z || (Z.of_nat (List.length refs) <=? n - 1)%Z) eqn:E.
    + apply wp_bind, cstep_print. intros w2 H2. apply wp_ret, Hnone.
      eapply console_only_trans; eauto.
    + apply orb_false_iff in E as [E1 E2].
      apply Z.ltb_ge in E1. apply Z.leb_gt in E2.
      destruct (nth_error refs (Z.to_nat (n - 1))) as [r|] eqn:Er.
      * apply wp_ret, Hsome; [|assumption]. eapply nth_error_In; eauto.
      * apply nth_error_None in Er. lia.
  - apply wp_bind, cstep_print. intros w2 H2. apply wp_ret, Hnone.
    eapply console_only_trans; eauto.
Qed.

Lemma print_titles_console (email : string) (w : world) :
  exists w', print_titles (refs_from 0 email (projects_data w)) w = (Ok tt, w') /\
             console_only w w'.
Proof.
  eexists. split; [apply print_titles_eq|].
  repeat split. now eexists. now exists [].
Qed.

Lemma revised_refl (p : project) : revised p p.
Proof. split; [repeat split | now left]. Qed.

Lemma revised_trans (p q r : project) : revised p q -> revised q r -> revised p r.
Proof.
  intros [(A1 & A2 & A3 & A4 & A5) Ha] [(B1 & B2 & B3 & B4 & B5) Hb].
  split; [repeat split; congruence|].
  destruct Hb as [Hb | Hb]; [|now right].
  destruct Ha as [Ha | Ha]; [left; congruence | right; congruence].
Qed.

Lemma editing_step (w : world) (r : nat) (w1 w2 : world) :
  editing w r w1 -> console_only w1 w2 -> editing w r w2.
Proof.
  intros (M & U & S & [F1 F2] & Hr & f & Hf & P) (U2 & P2 & S2 & [G1 G2] & M2).
  repeat split; try congruence; try apply (moved_trans _ _ _ M M2).
  exists f. split; [assumption | congruence].
Qed.

Lemma editing_assign (w : world) (r : nat) (w1 : world) (g : project -> project) :
  (forall p, revised p (g p)) ->
  editing w r w1 ->
  editing w r (set_projects_data (list_update r g (projects_data w1)) w1).
Proof.
  intros Hg (M & U & S & F & Hr & f & Hf & P).
  repeat split; try assumption; try apply M; try apply F.
  exists (fun p => g (f p)). split.
  - intros p. eapply revised_trans; [apply Hf | apply Hg].
  - cbn [projects_data set_projects_data]. now rewrite P, list_update_twice.
Qed.

Lemma editing_deref (w : world) (r : nat) (w1 : world) :
  editing w r w1 -> exists p, nth_error (projects_data w1) r = Some p.
Proof.
  intros (_ & _ & _ & _ & Hr & f & _ & P).
  destruct (nth_error (projects_data w1) r) as [p|] eqn:E; [eauto|].
  apply nth_error_None in E. rewrite P, list_update_length in E. lia.
Qed.

Lemma edit_outcome_quiet (w w' : world) (r : result bool) :
  console_only w w' -> ends_well r -> r <> Ok true -> edit_outcome w r w'.
Proof.
  intros (U & P & S & F & M) Hr Hne. repeat split; try assumption; try apply M;
    try apply F; try congruence.
  exists 0, (fun p => p). split; [apply revised_refl | now rewrite list_update_id].
Qed.

Lemma edit_outcome_cut (w : world) (r : nat) (w' : world) :
  editing w r w' -> edit_outcome w (Raise EOFError) w'.
Proof.
  intros (M & U & S & F & Hr & f & Hf & P).
  repeat split; try assumption; try apply M; try apply F; try discriminate.
  now exists r, f.
Qed.

Lemma gtb_revised (v : float) (p : project) :
  gtb v (of_Z 0) = true -> revised p (with_total_target v p).
Proof. intros H. split; [repeat split | now right]. Qed.

Lemma edit_user_project_contract (w : world) :
  wp edit_user_project (edit_outcome w) w.
Proof.
  unfold edit_user_project.
  pose proof (console_only_refl w) as Hinv.
  assert (Hno : forall msg w', console_only w w' ->
                               wp (print msg ;; ret false) (edit_outcome w) w').
  { intros msg w' H. apply wp_bind, cstep_print. intros w2 H2.
    apply wp_ret, edit_outcome_quiet;
      [eapply console_only_trans; eauto | exact I | discriminate]. }
  apply wp_bind, wp_get_current_user.
  destruct (logged_in w) as [cu|] eqn:Hcu; [|now apply Hno].
  unfold get_user_projects at 1. apply wp_bind, wp_bind, wp_get, wp_ret.
  destruct (refs_from 0 (u_email cu) (projects_data w)) as [|r0 refs0] eqn:Hrefs;
    [now apply Hno|].
  rewrite <- Hrefs. clear Hno.
  apply wp_bind, cstep_print. intros w1 H1. console_step (console_only_trans w) Hinv.
  apply wp_bind, cstep_print. intros w2 H2. console_step (console_only_trans w) Hinv.
  apply wp_bind.
  pose proof (proj1 (proj2 Hinv)) as P2. rewrite <- P2.
  destruct (print_titles_console (u_email cu) w2) as (w3 & Ht & H3).
  eapply wp_eq; [exact Ht|]. cbv beta iota. console_step (console_only_trans w) Hinv.
  rewrite P2. clear Ht P2.
  apply wp_bind, cstep_select.
  { intros w4 H4. console_step (console_only_trans w) Hinv.
    apply edit_outcome_quiet; [assumption | reflexivity | discriminate]. }
  { intros w4 H4. console_step (console_only_trans w) Hinv.
    apply wp_ret, edit_outcome_quiet; [assumption | exact I | discriminate]. }
  intros r w4 Hr H4. console_step (console_only_trans w) Hinv.
  assert (Hed : editing w r w4).
  { destruct Hinv as (U & P & S & F & M).
    repeat split; try assumption; try apply M; try apply F.
    - destruct (refs_owned _ _ _ Hr) as (p & Hp & _).
      apply nth_error_Some. congruence.
    - exists (fun p => p). split; [apply revised_refl | now rewrite list_update_id]. }
  clear Hinv. rename Hed into Hinv.
  destruct (editing_deref _ _ _ Hinv) as [p Hp].
  apply wp_bind. eapply wp_eq; [apply deref_eq|]. rewrite Hp. cbv beta iota.
  apply wp_bind, cstep_print. intros w5 H5. console_step (editing_step w r) Hinv.
  apply wp_bind, cstep_print. intros w6 H6. console_step (editing_step w r) Hinv.
  apply wp_bind, cstep_input;
    [intros w7 H7; console_step (editing_step w r) Hinv; now apply (edit_outcome_cut w r)|].
  intros new_title w7 H7 _. console_step (editing_step w r) Hinv.
  apply wp_bind.
  apply (wp_mono _ (fun r' w' => r' = Ok tt /\ editing w r w')).
  2:{ destruct (truthy (strip new_title)).
      - apply wp_modify. split; [reflexivity|].
        apply editing_assign; [|assumption].
        intros q. split; [repeat split | now left].
      - apply wp_ret. now split. }
  clear Hinv. intros _ w8 [-> Hinv].
  destruct (editing_deref _ _ _ Hinv) as [p1 Hp1].
  apply wp_bind. eapply wp_eq; [apply deref_eq|]. rewrite Hp1. cbv beta iota.
  apply wp_bind, cstep_input;
    [intros w9 H9; console_step (editing_step w r) Hinv; now apply (edit_outcome_cut w r)|].
  intros new_details w9 H9 _. console_step (editing_step w r) Hinv.
  apply wp_bind.
  apply (wp_mono _ (fun r' w' => r' = Ok tt /\ editing w r w')).
  2:{ destruct (truthy (strip new_details)).
      - apply wp_modify. split; [reflexivity|].
        apply editing_assign; [|assumption].
        intros q. split; [repeat split | now left].
      - apply wp_ret. now split. }
  clear Hinv. intros _ w10 [-> Hinv].
  destruct (editing_deref _ _ _ Hinv) as [p2 Hp2].
  apply wp_bind. eapply wp_eq; [apply deref_eq|]. rewrite Hp2. cbv beta iota.
  apply wp_bind, cstep_input;
    [intros w11 H11; console_step (editing_step w r) Hinv;
     now apply (edit_outcome_cut w r)|].
  intros new_target w11 H11 _. console_step (editing_step w r) Hinv.
  apply wp_bind.
  apply (wp_mono _ (fun r' w' => r' = Ok tt /\ editing w r w')).
  2:{ destruct (truthy (strip new_target)); [|apply wp_ret; now split].
      destruct (py_float (strip new_target)) as [v|].
      - destruct (gtb v (of_Z 0)) eqn:Hv.
        + apply wp_modify. split; [reflexivity|].
          apply editing_assign; [|assumption]. intros q. now apply gtb_revised.
        + apply cstep_print. intros w12 H12. console_step (editing_step w r) Hinv.
          now split.
      - apply cstep_print. intros w12 H12. console_step (editing_step w r) Hinv.
        now split. }
  clear Hinv. intros _ w12 [-> Hinv].
  apply wp_bind. eapply wp_eq; [apply save_data_eq|]. cbv beta iota.
  apply wp_bind, cstep_print. intros w13 H13. apply wp_ret.
  destruct Hinv as ((C & G & R) & U & S & F & Hlen & f & Hf & P).
  destruct H13 as (U13 & P13 & S13 & [F13 F13'] & C13 & G13 & R13).
  cbn [users_data projects_data current_user_email users_file projects_file clock
       set_projects_file set_users_file] in *.
  split; [|split; [exact I|]].
  { repeat split; [congruence | |].
    - eapply console_grows_trans; [exact G|]. destruct G13 as [l G13]. now exists l.
    - eapply reads_trans; [exact R|]. exact R13. }
  split; [congruence|]. split; [congruence|]. split.
  { exists r, f. split; [assumption | congruence]. }
  split; [|split].
  - intros _. split; congruence.
  - intros H. now elim H.
  - discriminate.
Qed.

(** [remove] finds the selected project or an equal one before it; it
    never fails on a project of the list. *)
Lemma list_remove_spec (x : project) (l : list project) :
  forall i r,
    i <= r -> nth_error l (r - i) = Some x ->
    exists j y,
      j <= r - i /\ nth_error l j = Some y /\
      (j = r - i \/ project_eqb y x = true) /\
      (forall k q, k < j -> nth_error l k = Some q -> project_eqb q x = false) /\
      list_remove i r x l = Some (without j l).
Proof.
  induction l as [|y l IH]; intros i r Hle Hn.
  - destruct (r - i); discriminate Hn.
  - cbn [list_remove].
    destruct ((i =? r) || project_eqb y x) eqn:E.
    + exists 0, y. split; [lia|]. split; [reflexivity|]. split.
      * apply orb_true_iff in E as [E | E]; [|now right].
        apply Nat.eqb_eq in E. left. lia.
      * split; [intros k q Hk; lia | reflexivity].
    + apply orb_false_iff in E as [E Ey]. apply Nat.eqb_neq in E.
      replace (r - i) with (S (r - S i)) in * by lia. cbn [nth_error] in Hn.
      destruct (IH (S i) r) as (j & z & Hj & Hz & Hor & Hfirst & Hrm); [lia | exact Hn|].
      exists (S j), z. split; [lia|]. split; [exact Hz|]. split.
      * destruct Hor as [-> | Hor]; [now left | now right].
      * split.
        -- intros [|k] q Hk Hq; cbn [nth_error] in Hq.
           ++ now injection Hq as <-.
           ++ apply (Hfirst k q); [lia | exact Hq].
        -- rewrite Hrm. reflexivity.
Qed.

Lemma delete_outcome_quiet (w w' : world) (r : result bool) :
  console_only w w' -> ends_well r -> r <> Ok true -> delete_outcome w r w'.
Proof.
  intros (U & P & S & F & M) Hr Hne. repeat split; try assumption; try apply M.
  left. now repeat split; try apply F.
Qed.

Lemma delete_user_project_contract (w : world) :
  wp delete_user_project (delete_outcome w) w.
Proof.
  unfold delete_user_project.
  pose proof (console_only_refl w) as Hinv.
  assert (Hno : forall msg w', console_only w w' ->
                               wp (print msg ;; ret false) (delete_outcome w) w').
  { intros msg w' H. apply wp_bind, cstep_print. intros w2 H2.
    apply wp_ret, delete_outcome_quiet;
      [eapply console_only_trans; eauto | exact I | discriminate]. }
  assert (Hquit : forall w', console_only w w' -> delete_outcome w (Raise EOFError) w').
  { intros w' H. apply delete_outcome_quiet; [assumption | reflexivity | discriminate]. }
  apply wp_bind, wp_get_current_user.
  destruct (logged_in w) as [cu|] eqn:Hcu; [|now apply Hno].
  unfold get_user_projects at 1. apply wp_bind, wp_bind, wp_get, wp_ret.
  destruct (refs_from 0 (u_email cu) (projects_data w)) as [|r0 refs0] eqn:Hrefs;
    [now apply Hno|].
  rewrite <- Hrefs.
  apply wp_bind, cstep_print. intros w1 H1. console_step (console_only_trans w) Hinv.
  apply wp_bind, cstep_print. intros w2 H2. console_step (console_only_trans w) Hinv.
  apply wp_bind.
  pose proof (proj1 (proj2 Hinv)) as P2. rewrite <- P2.
  destruct (print_titles_console (u_email cu) w2) as (w3 & Ht & H3).
  eapply wp_eq; [exact Ht|]. cbv beta iota. console_step (console_only_trans w) Hinv.
  rewrite P2. clear Ht P2.
  apply wp_bind, cstep_select.
  { intros w4 H4. console_step (console_only_trans w) Hinv. now apply Hquit. }
  { intros w4 H4. console_step (console_only_trans w) Hinv.
    apply wp_ret, delete_outcome_quiet; [assumption | exact I | discriminate]. }
  intros r w4 Hr H4. console_step (console_only_trans w) Hinv.
  destruct (refs_owned _ _ _ Hr) as (p & Hp & Hown).
  apply wp_bind. eapply wp_eq; [apply deref_eq|].
  rewrite (proj1 (proj2 Hinv)), Hp. cbv beta iota.
  apply wp_bind, cstep_input;
    [intros w5 H5; console_step (console_only_trans w) Hinv; now apply Hquit|].
  intros confirm w5 H5 _. console_step (console_only_trans w) Hinv.
  destruct (String.eqb (lower confirm) "y"); [|now apply Hno].
  apply wp_bind, wp_get.
  destruct (list_remove_spec p (projects_data w) 0 r) as (j & y & Hj & Hy & Hor & _ & Hrm);
    [lia | now rewrite Nat.sub_0_r|].
  rewrite Nat.sub_0_r in Hj, Hor.
  rewrite (proj1 (proj2 Hinv)), Hrm.
  apply wp_bind, wp_modify.
  apply wp_bind. eapply wp_eq; [apply save_data_eq|]. cbv beta iota.
  apply wp_bind, cstep_print. intros w6 H6. apply wp_ret.
  destruct Hinv as (U & P & S & F & C & G & R).
  destruct H6 as (U6 & P6 & S6 & [F6 F6'] & C6 & G6 & R6).
  cbn [users_data projects_data current_user_email users_file projects_file clock
       set_projects_file set_users_file set_projects_data] in *.
  split; [|split; [exact I|]].
  { repeat split; [congruence | |].
    - eapply console_grows_trans; [exact G|]. destruct G6 as [l G6]. now exists l.
    - eapply reads_trans; [exact R|]. exact R6. }
  split; [congruence|]. split; [congruence|].
  right. exists cu, r, p, j, y.
  repeat split; try assumption; congruence.
Qed.

Lemma lower_is_y (s : string) :
  String.eqb (lower s) "y" = true <-> s = "y" \/ s = "Y".
Proof.
  rewrite String.eqb_eq. destruct s as [|c [|d s]]; simpl.
  - split; [discriminate | intros [H | H]; discriminate].
  - split.
    + intros H. injection H as H. revert H.
      destruct c as [[] [] [] [] [] [] [] []]; vm_compute; intros H;
        try discriminate H; auto.
    + intros [H | H]; injection H as ->; reflexivity.
  - split; [discriminate | intros [H | H]; discriminate].
Qed.

(** What is shown before the selection. *)
Lemma selection_shown (w : world) (cu : user) (c : string) (rest : list string)
      (heading prompt : string) (k : option ref -> M bool) :
  stdin w = c :: rest ->
  refs_from 0 (u_email cu) (projects_data w) <> [] ->
  (print heading ;; print "Your projects:" ;;
   print_titles (refs_from 0 (u_email cu) (projects_data w)) ;;
   selected <- select_project prompt (refs_from 0 (u_email cu) (projects_data w)) ;;
   k selected) w =
  let mine := filter (owned_by (u_email cu)) (projects_data w) in
  let w1 := set_stdin rest
              (set_stdout (stdout w ++ [heading +++ nl; "Your projects:" +++ nl] ++
                           title_lines mine ++ [prompt]) w) in
  match PyNum.py_int c with
  | None => (print "❌ Invalid input!" ;; k None) w1
  | Some n =>
      if ((n <? 1)%Z || (Z.of_nat (List.length mine) <? n)%Z)
      then (print "❌ Invalid selection!" ;; k None) w1
      else match nth_error (refs_from 0 (u_email cu) (projects_data w))
                           (Z.to_nat (n - 1)) with
           | Some r => k (Some r) w1
           | None => (Raise KeyError, w1)
           end
  end.
Proof.
  intros Hin Hne. cbv zeta.
  assert (Hlen : List.length (refs_from 0 (u_email cu) (projects_data w))
                 = List.length (filter (owned_by (u_email cu)) (projects_data w))).
  { pose proof (refs_from_filter (u_email cu) (projects_data w) 0) as H.
    apply (f_equal (@List.length _)) in H. now rewrite !length_map in H. }
  rewrite <- Hlen. clear Hlen.
  destruct w as [us ps cur uf pf sin out clk]. cbn [stdin projects_data] in *.
  subst sin. run.
  match goal with
  | |- context [print_titles _ ?w2] =>
      pose proof (print_titles_eq (u_email cu) w2) as Ht; run_in Ht
  end.
  rewrite Ht. clear Ht.
  unfold select_project. run.
  destruct (PyNum.py_int c) as [n|]; run.
  - replace ((n - 1 <? 0)%Z) with ((n <? 1)%Z)
      by (destruct (Z.ltb_spec n 1), (Z.ltb_spec (n - 1) 0); lia || reflexivity).
    replace ((Z.of_nat (List.length (refs_from 0 (u_email cu) ps)) <=? n - 1)%Z)
      with ((Z.of_nat (List.length (refs_from 0 (u_email cu) ps)) <? n)%Z)
      by (destruct (Z.ltb_spec (Z.of_nat (List.length (refs_from 0 (u_email cu) ps))) n),
            (Z.leb_spec (Z.of_nat (List.length (refs_from 0 (u_email cu) ps))) (n - 1));
          lia || reflexivity).
    destruct ((n <? 1)%Z || (Z.of_nat (List.length (refs_from 0 (u_email cu) ps)) <? n)%Z);
      run.
    + rewrite <- !app_assoc. reflexivity.
    + destruct (nth_error (refs_from 0 (u_email cu) ps) (Z.to_nat (n - 1)));
        run; rewrite <- !app_assoc; reflexivity.
  - rewrite <- !app_assoc. reflexivity.
Qed.

Lemma get_user_projects_eq (email : string) (w : world) :
  get_user_projects email w = (Ok (refs_from 0 email (projects_data w)), w).
Proof. reflexivity. Qed.

(** X12. With a user logged in who owns [n] projects, n >= 1, an
    answer to the selection prompt of [edit_user_project] or
    [delete_user_project] that [int] does not read (in ASCII; a numeral
    of more than 4300 digits is not read either), or that
    reads as a number below 1 or above [n], selects nothing: the operation
    lists the user's titles, prints Invalid input! or Invalid selection!
    and returns [False], with nothing changed but the console; no
    negative number indexes from the end. *)
Theorem selection_refused (w : world) (cu : user) (answer : string)
        (rest : list string) (msg : string) :
  fst (get_current_user w) = Ok (Some cu) ->
  stdin w = answer :: rest ->
  ascii_text answer = true ->
  let mine := filter (owned_by (u_email cu)) (projects_data w) in
  mine <> [] ->
  selection_error (List.length mine) answer = Some msg ->
  let shown heading prompt :=
    set_stdin rest
      (set_stdout (stdout w ++ [heading +++ nl; "Your projects:" +++ nl] ++
                   title_lines mine ++ [prompt; msg +++ nl]) w) in
  edit_user_project w =
  (Ok false, shown (nl +++ "=== EDIT PROJECT ===") "Select project number to edit: ") /\
  delete_user_project w =
  (Ok false, shown (nl +++ "=== DELETE PROJECT ===") "Select project number to delete: ").
Proof.
  intros Hcu Hin _ mine Hne Herr shown. subst mine shown.
  rewrite get_current_user_eq in Hcu. cbn [fst] in Hcu. injection Hcu as Hcu.
  assert (Hrefs : refs_from 0 (u_email cu) (projects_data w) <> []).
  { intros E. now apply refs_nil_iff in E. }
  unfold selection_error in Herr.
  assert (Hfin : forall out,
             (Ok false,
              set_stdout (stdout (set_stdin rest (set_stdout (stdout w ++ out) w))
                          ++ [msg +++ nl])
                         (set_stdin rest (set_stdout (stdout w ++ out) w)))
             = (Ok false, set_stdin rest (set_stdout (stdout w ++ out ++ [msg +++ nl]) w))).
  { intros out. destruct w. cbn. now rewrite <- app_assoc. }
  split.
  - unfold edit_user_project.
    rewrite (bind_ok _ _ _ _ _ (get_current_user_eq w)), Hcu.
    rewrite (bind_ok _ _ _ _ _ (get_user_projects_eq (u_email cu) w)).
    destruct (refs_from 0 (u_email cu) (projects_data w)) as [|r0 refs0] eqn:E;
      [congruence|].
    rewrite <- E in *.
    rewrite (selection_shown w cu answer rest _ _ _ Hin Hrefs). cbv zeta.
    destruct (PyNum.py_int answer) as [n|].
    + destruct ((n <? 1)%Z || _); [|discriminate Herr]. injection Herr as <-.
      unfold bind, print, modify, ret. cbn [fst snd]. rewrite Hfin.
      now rewrite <- !app_assoc.
    + injection Herr as <-.
      unfold bind, print, modify, ret. cbn [fst snd]. rewrite Hfin.
      now rewrite <- !app_assoc.
  - unfold delete_user_project.
    rewrite (bind_ok _ _ _ _ _ (get_current_user_eq w)), Hcu.
    rewrite (bind_ok _ _ _ _ _ (get_user_projects_eq (u_email cu) w)).
    destruct (refs_from 0 (u_email cu) (projects_data w)) as [|r0 refs0] eqn:E;
      [congruence|].
    rewrite <- E in *.
    rewrite (selection_shown w cu answer rest _ _ _ Hin Hrefs). cbv zeta.
    destruct (PyNum.py_int answer) as [n|].
    + destruct ((n <? 1)%Z || _); [|discriminate Herr]. injection Herr as <-.
      unfold bind, print, modify, ret. cbn [fst snd]. rewrite Hfin.
      now rewrite <- !app_assoc.
    + injection Herr as <-.
      unfold bind, print, modify, ret. cbn [fst snd]. rewrite Hfin.
      now rewrite <- !app_assoc.
Qed.

(** The [n]-th of the user's projects, through its reference. *)
Lemma nth_mine_ref (email : string) (projects : list project) (k : nat) (p : project) :
  nth_error (filter (owned_by email) projects) k = Some p ->
  exists r, nth_error (refs_from 0 email projects) k = Some r /\
            nth_error projects r = Some p.
Proof.
  intros H.
  pose proof (refs_from_filter email projects 0) as Hm.
  rewrite (map_ext (fun r => nth_error projects (r - 0)) (nth_error projects)) in Hm
    by (intros; now rewrite Nat.sub_0_r).
  apply (f_equal (fun l => nth_error l k)) in Hm.
  rewrite !nth_error_map, H in Hm. cbn [option_map] in Hm.
  match type of Hm with
  | option_map _ ?x = _ => destruct x as [r|] eqn:Er
  end; simpl in Hm; [|discriminate Hm].
  injection Hm as Hm. exists r. split; [exact Er | exact Hm].
Qed.

Lemma selection_error_none (n : nat) (answer : string) (k : Z) :
  PyNum.py_int answer = Some k ->
  selection_error n answer = None <-> (1 <= k <= Z.of_nat n)%Z.
Proof.
  intros H. unfold selection_error. rewrite H.
  destruct (Z.ltb_spec k 1), (Z.ltb_spec (Z.of_nat n) k); simpl;
    split; intros H'; try discriminate H'; try lia; reflexivity.
Qed.

(** [delete_user_project] with a valid selection and an answer to the
    confirmation prompt. *)
Lemma delete_user_project_path (w : world) (cu : user) (answer confirm : string)
      (rest : list string) (n : Z) (p : project) :
  logged_in w = Some cu ->
  stdin w = answer :: confirm :: rest ->
  PyNum.py_int answer = Some n -> (1 <= n)%Z ->
  nth_error (filter (owned_by (u_email cu)) (projects_data w)) (Z.to_nat (n - 1)) = Some p ->
  exists sel j y,
    nth_error (projects_data w) sel = Some p /\
    nth_error (projects_data w) j = Some y /\
    j <= sel /\ (j = sel \/ project_eqb y p = true) /\
    (forall k q, k < j -> nth_error (projects_data w) k = Some q ->
                 project_eqb q p = false) /\
    delete_user_project w =
    let shown :=
      stdout w ++
      [(nl +++ "=== DELETE PROJECT ===") +++ nl; "Your projects:" +++ nl] ++
      title_lines (filter (owned_by (u_email cu)) (projects_data w)) ++
      ["Select project number to delete: ";
       "Are you sure you want to delete '" +++ p_title p +++ "'? (y/N): "] in
    if String.eqb (lower confirm) "y" then
      (Ok true,
       mkworld (users_data w) (without j (projects_data w)) (current_user_email w)
               (Text (users_text (users_data w)))
               (Text (projects_text (without j (projects_data w))))
               rest (shown ++ ["✅ Project deleted successfully!" +++ nl]) (clock w))
    else
      (Ok false,
       set_stdin rest (set_stdout (shown ++ ["❌ Deletion cancelled." +++ nl]) w)).
Proof.
  intros Hcu Hin Hn H1 Hp.
  destruct (nth_mine_ref _ _ _ _ Hp) as (r & Hr & Hpr).
  destruct (list_remove_spec p (projects_data w) 0 r) as (j & y & Hj & Hy & Hor & Hfirst & Hrm);
    [lia | now rewrite Nat.sub_0_r|].
  rewrite Nat.sub_0_r in Hj, Hor.
  exists r, j, y. repeat (split; [assumption|]).
  assert (Hrefs : refs_from 0 (u_email cu) (projects_data w) <> []).
  { intros E. rewrite E in Hr. destruct (Z.to_nat (n - 1)); discriminate Hr. }
  assert (Hsel : selection_error
                   (List.length (filter (owned_by (u_email cu)) (projects_data w)))
                   answer = None).
  { apply (selection_error_none _ _ n Hn).
    assert (Z.to_nat (n - 1) <
            List.length (filter (owned_by (u_email cu)) (projects_data w)))
      by (apply nth_error_Some; congruence).
    lia. }
  unfold selection_error in Hsel. rewrite Hn in Hsel.
  unfold delete_user_project.
  rewrite (bind_ok _ _ _ _ _ (get_current_user_eq w)), Hcu.
  rewrite (bind_ok _ _ _ _ _ (get_user_projects_eq (u_email cu) w)).
  destruct (refs_from 0 (u_email cu) (projects_data w)) as [|r0 refs0] eqn:E;
    [congruence|].
  rewrite <- E in *.
  rewrite (selection_shown w cu answer (confirm :: rest) _ _ _ Hin Hrefs). cbv zeta.
  rewrite Hn.
  destruct ((n <? 1)%Z || _); [discriminate Hsel|]. rewrite Hr.
  clear Hcu Hin E Hrefs Hsel.
  destruct w as [us ps cur uf pf sin out clk]. cbn [projects_data users_data stdout
    current_user_email clock] in *.
  unfold deref. run. rewrite Hpr. run.
  destruct (String.eqb (lower confirm) "y"); run.
  - rewrite Hrm. run. rewrite <- !app_assoc. reflexivity.
  - rewrite <- !app_assoc. reflexivity.
Qed.

(** X13. With a user logged in, a valid selection (a numeral that
    [int] reads, of at most 4300 digits) and an answer to
    the confirmation prompt on the console (in ASCII),
    [delete_user_project] returns [True] exactly when the answer is y or
    Y as typed (it is not stripped).  It then takes one project out of the
    registry, the first one that is the selected project itself or
    compares equal to it field by field, keeps the others in their order,
    and rewrites both files.  Any other answer prints Deletion cancelled.
    and returns [False] with registries and files untouched.  The users
    and the session are never touched. *)
Theorem delete_user_project_spec (w : world) (cu : user) (answer confirm : string)
        (rest : list string) (n : Z) (p : project) :
  fst (get_current_user w) = Ok (Some cu) ->
  stdin w = answer :: confirm :: rest ->
  ascii_text answer = true /\ ascii_text confirm = true ->
  PyNum.py_int answer = Some n -> (1 <= n)%Z ->
  nth_error (filter (owned_by (u_email cu)) (projects_data w)) (Z.to_nat (n - 1)) = Some p ->
  let r := delete_user_project w in
  (fst r = Ok true <-> confirm = "y" \/ confirm = "Y") /\
  (fst r = Ok true ->
   exists sel j y,
     nth_error (projects_data w) sel = Some p /\
     nth_error (projects_data w) j = Some y /\
     j <= sel /\ (j = sel \/ project_eqb y p = true) /\
     (forall k q, k < j -> nth_error (projects_data w) k = Some q ->
                  project_eqb q p = false) /\
     projects_data (snd r) = without j (projects_data w) /\
     in_sync (snd r)) /\
  (fst r <> Ok true ->
   fst r = Ok false /\ projects_data (snd r) = projects_data w /\
   files_kept w (snd r) /\
   last (stdout (snd r)) EmptyString = "❌ Deletion cancelled." +++ nl) /\
  users_data (snd r) = users_data w /\
  current_user_email (snd r) = current_user_email w /\
  stdin (snd r) = rest.
Proof.
  intros Hcu Hin _ Hn H1 Hp.
  rewrite get_current_user_eq in Hcu. cbn [fst] in Hcu. injection Hcu as Hcu.
  destruct (delete_user_project_path w cu answer confirm rest n p Hcu Hin Hn H1 Hp)
    as (sel & j & y & Hsel & Hy & Hj & Hor & Hfirst & Hrun).
  cbv zeta in *. rewrite Hrun. rewrite <- lower_is_y.
  destruct (String.eqb (lower confirm) "y"); cbn [fst snd].
  - repeat split; try discriminate; try congruence.
    + intros _. exists sel, j, y. repeat split; assumption.
  - repeat split; try discriminate; try congruence.
    cbn [stdout set_stdin set_stdout]. apply last_last.
Qed.

End EditDelete.

(** ** project_manager.py: what an edit can do, and when changes are saved *)

Section Outcomes.
Import PyStr PyFloat validation data_storage user_auth project_manager.
Import Spec Logic Behaviour.

Lemma list_update_In {A} (j : nat) (f : A -> A) (l : list A) (x : A) :
  In x (list_update j f l) -> In x l \/ exists y, In y l /\ x = f y.
Proof.
  revert j. induction l as [|a l IH]; intros [|j]; simpl; try tauto.
  - intros [<- | H]; [right; exists a; auto | auto].
  - intros [<- | H]; [auto|].
    destruct (IH j H) as [H' | (y & Hy & ->)]; [auto | right; exists y; auto].
Qed.

(** X14. However [edit_user_project] ends, it raises nothing but
    [EOFError] (no reference it follows is ever missing); no project is
    added or removed, and every target afterwards is either a target that
    was there before or a number above zero, so an edit never stores a
    zero, a negative number or NaN.  [True] is returned only with both
    files rewritten from the registries; in every other case the files
    are untouched, and with [False] the registry is untouched as well.
    An edit that the end of the input cuts off after an answer keeps that
    answer in the registry and not in the files. *)
Theorem edit_user_project_outcome :
  (forall w,
     let r := edit_user_project w in
     ends_well (fst r) /\
     List.length (projects_data (snd r)) = List.length (projects_data w) /\
     Forall (fun p' => In (p_total_target p') (map p_total_target (projects_data w)) \/
                       gtb (p_total_target p') (of_Z 0) = true)
            (projects_data (snd r)) /\
     (fst r = Ok true -> in_sync (snd r)) /\
     (fst r <> Ok true -> files_kept w (snd r)) /\
     (fst r = Ok false -> projects_data (snd r) = projects_data w)) /\
  (let r := edit_user_project Sessions.cut_edit in
   fst r = Raise EOFError /\
   map p_title (projects_data (snd r)) = ["Deep wells"; "School"] /\
   map p_title (projects_data Sessions.cut_edit) = ["Wells"; "School"] /\
   files_kept Sessions.cut_edit (snd r)).
Proof.
  split.
  - intros w. cbv zeta.
    pose proof (edit_user_project_contract w) as H. unfold wp in H.
    destruct H as (_ & Hr & _ & _ & (j & f & Hf & P) & Hs & Hk & Hu).
    repeat split; try assumption; try (now apply Hk).
    + now rewrite P, list_update_length.
    + apply Forall_forall. intros p' Hin. rewrite P in Hin.
      destruct (list_update_In _ _ _ _ Hin) as [H | (y & Hy & ->)].
      * left. now apply in_map.
      * destruct (Hf y) as [_ [E | E]]; [left | now right].
        rewrite E. now apply in_map.
    + now apply Hs.
    + now apply Hs.
  - cbv zeta. repeat split; vm_compute; reflexivity.
Qed.

(** X15. A change of a registry is written out before the operation
    goes on: however [register_user], [create_new_project] and
    [delete_user_project] end, if the registry differs from what it was
    then both files hold the registries; each of the four operations that
    change a registry returns [True] only with both files rewritten, and
    [False] only with registries and files as they were. *)
Theorem changes_are_saved (w : world) :
  (users_data (snd (register_user w)) <> users_data w ->
   in_sync (snd (register_user w))) /\
  (projects_data (snd (create_new_project w)) <> projects_data w ->
   in_sync (snd (create_new_project w))) /\
  (projects_data (snd (delete_user_project w)) <> projects_data w ->
   in_sync (snd (delete_user_project w))) /\
  (forall op, In op [register_user; create_new_project; edit_user_project;
                     delete_user_project] ->
     (fst (op w) = Ok true -> in_sync (snd (op w))) /\
     (fst (op w) = Ok false ->
      users_data (snd (op w)) = users_data w /\
      projects_data (snd (op w)) = projects_data w /\
      files_kept w (snd (op w)))).
Proof.
  pose proof (register_user_contract w) as Hreg.
  pose proof (create_new_project_contract w) as Hcre.
  pose proof (edit_user_project_contract w) as Hed.
  pose proof (delete_user_project_contract w) as Hdel.
  unfold wp in *.
  destruct Hreg as (_ & _ & Pr & _ & Hreg).
  destruct Hcre as (_ & _ & Uc & _ & Hcre).
  destruct Hed as (_ & _ & Ue & _ & _ & Hes & Hek & Heu).
  destruct Hdel as (_ & _ & Ud & _ & Hdel).
  split; [|split; [|split]].
  - destruct Hreg as [(U & _) | (u & _ & _ & Y & _)]; [congruence | now intros _].
  - destruct Hcre as [(P & _) | (cu & p & _ & _ & _ & Y & _)]; [congruence | now intros _].
  - destruct Hdel as [(P & _) | (cu & sel & p & j & y & _ & _ & _ & _ & _ & _ & _ & Y & _)];
      [congruence | now intros _].
  - intros op [<- | [<- | [<- | [<- | []]]]].
    + destruct Hreg as [(U & F & Hne) | (u & _ & _ & Y & [E | [E _]])];
        (split; [intros E'; congruence || exact Y | intros E'; try congruence]).
      repeat split; try assumption; apply F.
    + destruct Hcre as [(P & F & Hne) | (cu & p & _ & _ & _ & Y & E)];
        (split; [intros E'; congruence || exact Y | intros E'; try congruence]).
      repeat split; try assumption; apply F.
    + split; [exact Hes|]. intros E.
      assert (Hne : fst (edit_user_project w) <> Ok true) by congruence.
      repeat split; try assumption; try (now apply Heu); now apply Hek.
    + destruct Hdel as [(P & F & Hne)
                       | (cu & sel & p & j & y & _ & _ & _ & _ & _ & _ & _ & Y & E)];
        (split; [intros E'; congruence || exact Y | intros E'; try congruence]).
      repeat split; try assumption; apply F.
Qed.

End Outcomes.

(** ** project_manager.py: [search_projects_by_date] when something is wrong *)

Section SearchErrors.
Import PyStr PyFloat Datetime validation data_storage project_manager.
Import Spec Logic Behaviour.

Lemma console_only_out (w : world) (lines : list string) :
  console_only w (set_stdout (stdout w ++ lines) w).
Proof. repeat split. now exists lines. now exists []. Qed.

(** A stored date that does not parse stops the search. *)
Lemma matching_projects_bad (d : date) (projects : list project) :
  Exists (fun p => validate_date (p_start_date p) = false \/
                   validate_date (p_end_date p) = false) projects ->
  matching_projects d projects = inl ValueError.
Proof.
  unfold validate_date, strptime.
  induction projects as [|p ps IH]; intros H; [inversion H|].
  cbn [matching_projects].
  destruct (strptime_date (p_start_date p)) as [s|] eqn:Es; [|reflexivity].
  destruct (strptime_date (p_end_date p)) as [e|] eqn:Ee; [|reflexivity].
  inversion H as [? ? Hp | ? ? Hps]; subst.
  - rewrite Es, Ee in Hp. cbn in Hp. destruct Hp; discriminate.
  - now rewrite (IH Hps).
Qed.

Lemma matching_projects_sub (d : date) (projects found : list project) :
  matching_projects d projects = inr found -> incl found projects.
Proof.
  revert found. induction projects as [|p ps IH]; intros found; cbn [matching_projects].
  - intros H. injection H as <-. apply incl_nil_l.
  - destruct (strptime_date (p_start_date p)); [|discriminate].
    destruct (strptime_date (p_end_date p)); [|discriminate].
    destruct (matching_projects d ps) as [e|l]; [discriminate|].
    specialize (IH l eq_refl).
    destruct (date_leb _ _ && date_leb _ _); intros H; injection H as <-.
    + intros x [<- | Hx]; [now left | right; now apply IH].
    + intros x Hx. right. now apply IH.
Qed.

Lemma matching_projects_error (d : date) (projects : list project) (e : exn) :
  matching_projects d projects = inl e -> ~ Forall dates_parseable projects.
Proof.
  intros H Hall. rewrite (matching_projects_filter d projects Hall) in H. discriminate.
Qed.

(** What [search_projects_by_date] does once the date is read. *)
Lemma search_projects_by_date_run_any (w : world) (line : string) (rest : list string) :
  stdin w = line :: rest ->
  search_projects_by_date w =
  let w1 := set_stdin rest
              (set_stdout (stdout w ++ [(nl +++ "=== SEARCH PROJECTS BY DATE ===") +++ nl;
                                        "Enter date (YYYY-MM-DD): "]) w) in
  match strptime_date (strip line) with
  | None => (Ok tt, set_stdout (stdout w1 ++ ["❌ Invalid date format!" +++ nl]) w1)
  | Some d =>
      match matching_projects d (projects_data w) with
      | inl e => (Raise e, w1)
      | inr [] =>
          (Ok tt, set_stdout (stdout w1 ++
                              [("No projects found running on " +++ strip line) +++ nl]) w1)
      | inr found =>
          (listing_result found,
           set_stdout (stdout w1 ++
                       [(nl +++ "Projects running on " +++ strip line +++ ":") +++ nl] ++
                       listed_entries true 1 found) w1)
      end
  end.
Proof.
  intros Hin. destruct w as [us ps cur uf pf sin out clk].
  cbn [stdin projects_data] in *. subst sin.
  unfold search_projects_by_date. run. unfold validate_date, strptime.
  destruct (strptime_date (strip line)) as [d|]; cbn [option_map negb]; run;
    [|rewrite <- !app_assoc; reflexivity].
  destruct (matching_projects d ps) as [e|[|p found]]; run;
    try (rewrite <- !app_assoc; reflexivity).
  unfold enumerate1. rewrite listing_run. cbn [stdout set_stdout].
  rewrite <- !app_assoc. reflexivity.
Qed.

Lemma search_projects_by_date_eof (w : world) :
  stdin w = [] ->
  search_projects_by_date w =
  (Raise EOFError,
   set_stdout (stdout w ++ [(nl +++ "=== SEARCH PROJECTS BY DATE ===") +++ nl;
                            "Enter date (YYYY-MM-DD): "]) w).
Proof.
  intros Hin. destruct w as [us ps cur uf pf sin out clk].
  cbn [stdin] in Hin. subst sin. unfold search_projects_by_date. run.
  now rewrite <- app_assoc.
Qed.

Lemma nonzero_sub (found projects : list project) :
  incl found projects -> Forall nonzero_target projects ->
  existsb zero_target found = false.
Proof.
  intros Hsub Hall. apply existsb_zero_target. apply Forall_forall.
  intros p Hp. rewrite Forall_forall in Hall. apply Hall, Hsub, Hp.
Qed.

Lemma search_projects_by_date_contract (w : world) :
  wp search_projects_by_date (reading_post w) w.
Proof.
  unfold wp. destruct (stdin w) as [|line rest] eqn:Hin.
  - rewrite (search_projects_by_date_eof w Hin). split.
    + apply console_only_out.
    + reflexivity.
  - rewrite (search_projects_by_date_run_any w line rest Hin). cbv zeta.
    assert (H1 : console_only w
               (set_stdin rest
                  (set_stdout (stdout w ++ [(nl +++ "=== SEARCH PROJECTS BY DATE ===") +++ nl;
                                            "Enter date (YYYY-MM-DD): "]) w))).
    { repeat split. now eexists. now exists [line]. }
    assert (H2 : forall lines,
               console_only w
                 (set_stdout
                    (stdout (set_stdin rest
                       (set_stdout (stdout w ++ [(nl +++ "=== SEARCH PROJECTS BY DATE ===") +++ nl;
                                                 "Enter date (YYYY-MM-DD): "]) w)) ++ lines)
                    (set_stdin rest
                       (set_stdout (stdout w ++ [(nl +++ "=== SEARCH PROJECTS BY DATE ===") +++ nl;
                                                 "Enter date (YYYY-MM-DD): "]) w)))).
    { intros lines. eapply console_only_trans; [exact H1 | apply console_only_out]. }
    destruct (strptime_date (strip line)) as [d|]; [|split; [apply H2 | now intros]].
    destruct (matching_projects d (projects_data w)) as [e|found] eqn:Em.
    + split; [exact H1|]. intros Hd _.
      now elim (matching_projects_error _ _ _ Em).
    + destruct found as [|p found]; [split; [apply H2 | now intros]|].
      split; [apply H2|]. intros _ Hz. cbn [fst]. unfold listing_result.
      now rewrite (nonzero_sub _ _ (matching_projects_sub _ _ _ Em) Hz).
Qed.

(** X16. With a line on the console and ASCII text in the stored
    dates, [search_projects_by_date] answers a line that is not a date,
    once stripped, with Invalid date format! and returns.  For a date, it
    raises [ValueError] as soon as one project of the registry, matching
    or not, has a start or end date that does not parse, before any result
    is printed.  When the matching projects are all listed the result is a
    value; a matching project whose target is zero stops the listing with
    [ZeroDivisionError].  In every case, and at the end of the input,
    nothing but the console changes. *)
Theorem search_projects_by_date_errors (w : world) (line : string) (rest : list string) :
  stdin w = line :: rest ->
  ascii_text line = true ->
  Forall (fun p => ascii_text (p_start_date p) = true /\ ascii_text (p_end_date p) = true)
         (projects_data w) ->
  let r := search_projects_by_date w in
  let asked := set_stdin rest
                 (set_stdout (stdout w ++ [(nl +++ "=== SEARCH PROJECTS BY DATE ===") +++ nl;
                                           "Enter date (YYYY-MM-DD): "]) w) in
  (validate_date (strip line) = false ->
   r = (Ok tt, set_stdout (stdout asked ++ ["❌ Invalid date format!" +++ nl]) asked)) /\
  (validate_date (strip line) = true ->
   Exists (fun p => validate_date (p_start_date p) = false \/
                    validate_date (p_end_date p) = false) (projects_data w) ->
   r = (Raise ValueError, asked)) /\
  (forall d found,
     strptime_date (strip line) = Some d ->
     matching_projects d (projects_data w) = inr found ->
     fst r = (if existsb zero_target found then Raise ZeroDivisionError else Ok tt)) /\
  console_only w (snd r) /\
  console_only (set_stdin [] w) (snd (search_projects_by_date (set_stdin [] w))) /\
  fst (search_projects_by_date (set_stdin [] w)) = Raise EOFError.
Proof.
  intros Hin _ _. cbv zeta.
  split; [|split; [|split; [|split; [|split]]]].
  - rewrite (search_projects_by_date_run_any w line rest Hin). cbv zeta.
    unfold validate_date, strptime.
    destruct (strptime_date (strip line)); [discriminate | reflexivity].
  - rewrite (search_projects_by_date_run_any w line rest Hin). cbv zeta.
    unfold validate_date at 1, strptime at 1.
    destruct (strptime_date (strip line)) as [d|]; [|discriminate].
    intros _ Hbad. now rewrite (matching_projects_bad d _ Hbad).
  - intros d found Hd Hm.
    rewrite (search_projects_by_date_run_any w line rest Hin). cbv zeta.
    rewrite Hd, Hm. now destruct found.
  - apply (search_projects_by_date_contract w).
  - apply (search_projects_by_date_contract (set_stdin [] w)).
  - now rewrite search_projects_by_date_eof.
Qed.

End SearchErrors.

(** ** Every operation as a step of a run *)

Section Steps.
Import PyStr PyFloat Datetime validation data_storage user_auth project_manager.
Import Spec Logic Behaviour.

Lemma gtb_zero_nonzero (v : float) : gtb v (of_Z 0) = true -> forall s, v <> S754_zero s.
Proof. intros H s ->. now destruct s. Qed.

Lemma leb_zero_nonzero (v : float) : leb v (of_Z 0) = false -> forall s, v <> S754_zero s.
Proof. intros H s ->. now destruct s. Qed.

Lemma safe_project_stable : stable safe_project.
Proof.
  split.
  - intros p p' [(S1 & S2 & _) Ht] [Hz [Hs He]]. split.
    + unfold nonzero_target in *. destruct Ht as [-> | Ht]; [exact Hz|].
      now apply gtb_zero_nonzero.
    + unfold dates_parseable. now rewrite S1, S2.
  - intros owner t p (_ & _ & Hpos & _ & _ & _ & s & e & Hs & He & _). split.
    + unfold nonzero_target. now apply leb_zero_nonzero.
    + unfold dates_parseable, validate_date. now rewrite Hs, He.
Qed.

Lemma Forall_list_update {A} (Q : A -> Prop) (j : nat) (f : A -> A) (l : list A) :
  (forall x, Q x -> Q (f x)) -> Forall Q l -> Forall Q (list_update j f l).
Proof.
  intros Hf. revert j. induction l as [|x l IH]; intros [|j] H; simpl;
    inversion H; subst; constructor; auto.
Qed.

Lemma Forall_without {A} (Q : A -> Prop) (j : nat) (l : list A) :
  Forall Q l -> Forall Q (firstn j l ++ skipn (S j) l).
Proof.
  intros H. apply Forall_app. split.
  - apply Forall_forall. intros x Hx. rewrite Forall_forall in H.
    apply H. eapply In_nth_error in Hx as [n Hn].
    apply nth_error_In with (n := n).
    rewrite nth_error_firstn in Hn. now destruct (n <? j).
  - apply Forall_forall. intros x Hx. rewrite Forall_forall in H.
    apply H. clear H. revert Hx. generalize (S j). intros k.
    revert l. induction k as [|k IH]; intros [|y l]; simpl; auto.
Qed.

(** A stable property of all projects survives a step. *)
Lemma projects_step_Forall (Q : project -> Prop) (ps ps' : list project) :
  stable Q -> projects_step ps ps' -> Forall Q ps -> Forall Q ps'.
Proof.
  intros [Hrev Hnew] Hstep H. destruct Hstep as [|owner t p Hp|j f Hf|j].
  - exact H.
  - apply Forall_app. split; [exact H|]. constructor; [|constructor].
    exact (Hnew owner t p Hp).
  - apply Forall_list_update; [|exact H]. intros x. apply Hrev, Hf.
  - now apply Forall_without.
Qed.

Lemma step_post_quiet {A} (w w' : world) (r : result A) :
  console_only w w' ->
  (Forall safe_project (projects_data w) -> ends_well r) ->
  step_post w r w'.
Proof.
  intros (U & P & S & F & M) Hr. repeat split; try apply M.
  - rewrite U. apply accounts_kept_refl.
  - rewrite P. constructor.
  - now intros _.
  - exact Hr.
Qed.

Lemma register_user_step (w : world) : step_post w (fst (register_user w)) (snd (register_user w)).
Proof.
  pose proof (register_user_contract w) as H. unfold wp in H.
  destruct H as (M & Hr & P & S & Hu).
  repeat split; try apply M.
  - destruct Hu as [(U & _) | (u & Hfree & U & _)]; rewrite U.
    + apply accounts_kept_refl.
    + now apply accounts_kept_new.
  - rewrite P. constructor.
  - now intros _.
  - now intros _.
Qed.

Lemma login_user_step (w : world) : step_post w (fst (login_user w)) (snd (login_user w)).
Proof.
  pose proof (login_user_contract w) as H. unfold wp in H.
  destruct H as (M & Hr & U & P & _).
  repeat split; try apply M.
  - rewrite U. apply accounts_kept_refl.
  - rewrite P. constructor.
  - now intros _.
  - now intros _.
Qed.

Lemma logout_user_step (w : world) : step_post w (fst (logout_user w)) (snd (logout_user w)).
Proof.
  repeat split; try (now intros _).
  - now exists ["✅ Logged out successfully!" +++ nl].
  - now exists [].
  - apply accounts_kept_refl.
  - constructor.
Qed.

Lemma create_new_project_step (w : world) :
  step_post w (fst (create_new_project w)) (snd (create_new_project w)).
Proof.
  pose proof (create_new_project_contract w) as H. unfold wp in H.
  destruct H as (M & Hr & U & S & Hp).
  repeat split; try apply M.
  - rewrite U. apply accounts_kept_refl.
  - destruct Hp as [(P & _) | (cu & p & _ & Hf & P & _)]; rewrite P.
    + constructor.
    + eapply step_add. exact Hf.
  - intros Hg. destruct Hp as [(P & _) | (cu & p & Hcu & _)]; [exact P | congruence].
  - now intros _.
Qed.

Lemma edit_user_project_step (w : world) :
  step_post w (fst (edit_user_project w)) (snd (edit_user_project w)).
Proof.
  pose proof (edit_user_project_contract w) as H. unfold wp in H.
  destruct H as (M & Hr & U & S & (j & f & Hf & P) & _).
  repeat split; try apply M.
  - rewrite U. apply accounts_kept_refl.
  - rewrite P. now apply step_edit.
  - intros Hg. destruct (guest_refused w Hg) as (_ & He & _). now rewrite He.
  - now intros _.
Qed.

Lemma delete_user_project_step (w : world) :
  step_post w (fst (delete_user_project w)) (snd (delete_user_project w)).
Proof.
  pose proof (delete_user_project_contract w) as H. unfold wp in H.
  destruct H as (M & Hr & U & S & Hp).
  repeat split; try apply M.
  - rewrite U. apply accounts_kept_refl.
  - destruct Hp as [(P & _) | (cu & sel & p & j & y & _ & _ & _ & _ & _ & _ & P & _)];
      rewrite P; constructor.
  - intros Hg. destruct (guest_refused w Hg) as (_ & _ & He & _). now rewrite He.
  - now intros _.
Qed.

Lemma Forall_safe_nonzero (projects : list project) :
  Forall safe_project projects -> Forall nonzero_target projects.
Proof. apply Forall_impl. now intros p [H _]. Qed.

Lemma Forall_safe_dates (projects : list project) :
  Forall safe_project projects -> Forall dates_parseable projects.
Proof. apply Forall_impl. now intros p [_ H]. Qed.

Lemma view_all_projects_step (w : world) :
  step_post w (fst (view_all_projects w)) (snd (view_all_projects w)).
Proof.
  rewrite view_all_projects_run. cbn [fst snd].
  apply step_post_quiet; [apply console_only_out|].
  intros H. unfold listing_result.
  now rewrite (proj2 (existsb_zero_target _) (Forall_safe_nonzero _ H)).
Qed.

Lemma view_my_projects_step (w : world) :
  step_post w (fst (view_my_projects w)) (snd (view_my_projects w)).
Proof.
  destruct (logged_in w) as [cu|] eqn:Hcu.
  - rewrite (view_my_projects_run w cu Hcu). cbn [fst snd].
    apply step_post_quiet; [apply console_only_out|].
    intros H. unfold listing_result.
    rewrite (nonzero_sub _ (projects_data w)); [exact I | | now apply Forall_safe_nonzero].
    intros p Hp. now apply filter_In in Hp as [Hp _].
  - destruct (guest_refused w Hcu) as (_ & _ & _ & ->). cbn [fst snd].
    apply step_post_quiet; [apply console_only_out | now intros _].
Qed.

Lemma search_projects_by_date_step (w : world) :
  step_post w (fst (search_projects_by_date w)) (snd (search_projects_by_date w)).
Proof.
  destruct (search_projects_by_date_contract w) as [Hc Hr].
  apply step_post_quiet; [exact Hc|].
  intros H. apply Hr; [now apply Forall_safe_dates | now apply Forall_safe_nonzero].
Qed.

End Steps.

(** ** crowdfunding_app.py: the menus and the loop of [main] *)

Section MainLoop.
Import PyStr PyFloat Datetime validation data_storage user_auth project_manager.
Import crowdfunding_app Spec Logic Behaviour.

Lemma logged_in_console (w w' : world) : console_only w w' -> logged_in w' = logged_in w.
Proof. intros (U & _ & S & _). unfold logged_in. now rewrite U, S. Qed.

(** An operation after console steps. *)
Lemma step_post_after {A} (w w1 w2 : world) (r : result A) :
  console_only w w1 -> step_post w1 r w2 -> step_post w r w2.
Proof.
  intros Hc (M & Ak & Ps & Hg & Hr).
  pose proof (logged_in_console _ _ Hc) as Hl.
  destruct Hc as (U & P & S & F & M1).
  rewrite U, P in *. rewrite Hl in Hg.
  repeat split; try apply (moved_trans _ _ _ M1 M); assumption.
Qed.

(** An operation whose value is dropped. *)
Lemma then_ret {A B} (c : M A) (b : B) (w : world) :
  (c ;; ret b) w =
  (match fst (c w) with Ok _ => Ok b | Raise e => Raise e end, snd (c w)).
Proof. unfold bind, ret. now destruct (c w) as [[a|e] w']. Qed.

Lemma step_post_then {A B} (c : M A) (b : B) (w : world) :
  step_post w (fst (c w)) (snd (c w)) ->
  step_post w (fst ((c ;; ret b) w)) (snd ((c ;; ret b) w)).
Proof.
  rewrite then_ret. cbn [fst snd]. intros (M & Ak & Ps & Hg & Hr).
  repeat split; try apply M; try assumption.
  intros H. specialize (Hr H). now destruct (fst (c w)).
Qed.

Lemma invalid_option_step (w : world) :
  step_post w (fst ((print "❌ Invalid option!" ;; ret true) w))
            (snd ((print "❌ Invalid option!" ;; ret true) w)).
Proof. apply step_post_quiet; [apply console_only_out | now intros _]. Qed.

Lemma handle_guest_menu_step (choice : string) (w : world) :
  step_post w (fst (handle_guest_menu choice w)) (snd (handle_guest_menu choice w)).
Proof.
  unfold handle_guest_menu.
  destruct (String.eqb choice "1"); [apply step_post_then, register_user_step|].
  destruct (String.eqb choice "2"); [apply step_post_then, login_user_step|].
  destruct (String.eqb choice "3"); [apply step_post_then, view_all_projects_step|].
  destruct (String.eqb choice "4"); [apply step_post_then, search_projects_by_date_step|].
  destruct (String.eqb choice "0").
  - apply step_post_quiet; [apply console_only_refl | now intros _].
  - apply invalid_option_step.
Qed.

Lemma handle_user_menu_step (choice : string) (w : world) :
  step_post w (fst (handle_user_menu choice w)) (snd (handle_user_menu choice w)).
Proof.
  unfold handle_user_menu.
  destruct (String.eqb choice "1"); [apply step_post_then, create_new_project_step|].
  destruct (String.eqb choice "2"); [apply step_post_then, view_all_projects_step|].
  destruct (String.eqb choice "3"); [apply step_post_then, view_my_projects_step|].
  destruct (String.eqb choice "4"); [apply step_post_then, edit_user_project_step|].
  destruct (String.eqb choice "5"); [apply step_post_then, delete_user_project_step|].
  destruct (String.eqb choice "6"); [apply step_post_then, search_projects_by_date_step|].
  destruct (String.eqb choice "7"); [apply step_post_then, logout_user_step|].
  destruct (String.eqb choice "0").
  - apply step_post_quiet; [apply console_only_refl | now intros _].
  - apply invalid_option_step.
Qed.

(** The guest menu offers nothing that changes a project. *)
Lemma handle_guest_menu_projects (choice : string) (w : world) :
  projects_data (snd (handle_guest_menu choice w)) = projects_data w.
Proof.
  unfold handle_guest_menu.
  destruct (String.eqb choice "1").
  { rewrite then_ret. cbn [snd].
    pose proof (register_user_contract w) as H. unfold wp in H. apply H. }
  destruct (String.eqb choice "2").
  { rewrite then_ret. cbn [snd].
    pose proof (login_user_contract w) as H. unfold wp in H. apply H. }
  destruct (String.eqb choice "3").
  { rewrite then_ret, view_all_projects_run. reflexivity. }
  destruct (String.eqb choice "4").
  { rewrite then_ret. cbn [snd].
    destruct (search_projects_by_date_contract w) as [(_ & P & _) _]. exact P. }
  destruct (String.eqb choice "0"); reflexivity.
Qed.

Lemma print_then {A} (s : string) (c : M A) (w : world) :
  (print s ;; c) w = c (set_stdout (stdout w ++ [s +++ nl]) w).
Proof. reflexivity. Qed.

Lemma print_run (s : string) (w : world) :
  print s w = (Ok tt, set_stdout (stdout w ++ [s +++ nl]) w).
Proof. reflexivity. Qed.

Lemma call_ok {A} (c : M A) (w w' : world) (a : A) :
  c w = (Ok a, w') -> call c w = (inl a, w').
Proof. unfold call. now intros ->. Qed.

Lemma and_then_ok {A B} (c : P A) (k : A -> P B) (w w' : world) (a : A) :
  c w = (inl a, w') -> and_then c k w = k a w'.
Proof. unfold and_then. now intros ->. Qed.

Lemma and_then_input {B} (prompt : string) (k : string -> P B) (w : world) :
  and_then (call (input prompt)) k w =
  match stdin w with
  | [] => (inr (Exn EOFError), set_stdout (stdout w ++ [prompt]) w)
  | line :: rest => k line (set_stdin rest (set_stdout (stdout w ++ [prompt]) w))
  end.
Proof. unfold and_then, call, input. now destruct (stdin w). Qed.

(** Printing a line more keeps what the menu has left so far. *)
Lemma shown_more (w shown : world) (lines : list string) :
  console_only w shown /\ stdin shown = stdin w ->
  console_only w (set_stdout (stdout shown ++ lines) shown) /\
  stdin (set_stdout (stdout shown ++ lines) shown) = stdin w.
Proof.
  intros [Hc Hin]. split; [|exact Hin].
  eapply console_only_trans; [exact Hc | apply console_only_out].
Qed.

Lemma shown_none (w : world) : console_only w w /\ stdin w = stdin w.
Proof. split; [apply console_only_refl | reflexivity]. Qed.

(** The menus only print. *)
Lemma show_guest_menu_run (w : world) :
  exists shown,
    (console_only w shown /\ stdin shown = stdin w) /\
    show_guest_menu w = (Ok tt, shown).
Proof.
  unfold show_guest_menu. rewrite !print_then, print_run.
  eexists. split; [|reflexivity].
  repeat apply shown_more. apply shown_none.
Qed.

Lemma show_user_menu_run (w : world) (cu : user) :
  logged_in w = Some cu ->
  exists shown,
    (console_only w shown /\ stdin shown = stdin w) /\
    show_user_menu w = (inl tt, shown).
Proof.
  intros Hcu. unfold show_user_menu.
  rewrite (and_then_ok _ _ _ _ _ (call_ok _ _ _ _ (get_current_user_eq w))), Hcu.
  eexists. split; [|apply call_ok; rewrite !print_then; apply print_run].
  repeat apply shown_more. apply shown_none.
Qed.

(** A turn, once the menu is shown: the choice is read and handled. *)
Lemma turn_run (w : world) :
  exists shown,
    console_only w shown /\ stdin shown = stdin w /\
    turn w =
    match stdin w with
    | [] => (inr (Exn EOFError),
             set_stdout (stdout shown ++ [nl +++ "Select option: "]) shown)
    | choice :: rest =>
        call ((match logged_in w with
               | None => handle_guest_menu
               | Some _ => handle_user_menu
               end) (strip choice))
             (set_stdin rest (set_stdout (stdout shown ++ [nl +++ "Select option: "]) shown))
    end.
Proof.
  unfold turn.
  rewrite (and_then_ok _ _ _ _ _ (call_ok _ _ _ _ (get_current_user_eq w))).
  destruct (logged_in w) as [cu|] eqn:Hcu.
  - destruct (show_user_menu_run w cu Hcu) as (shown & [Hc Hin] & E).
    exists shown. split; [exact Hc|]. split; [exact Hin|].
    rewrite (and_then_ok _ _ _ _ _ E), and_then_input, Hin. reflexivity.
  - destruct (show_guest_menu_run w) as (shown & [Hc Hin] & E).
    exists shown. split; [exact Hc|]. split; [exact Hin|].
    rewrite (and_then_ok _ _ _ _ _ (call_ok _ _ _ _ E)), and_then_input, Hin. reflexivity.
Qed.

Lemma call_step_post {A} (c : M A) (w : world) :
  fst (call c w) = match fst (c w) with Ok a => inl a | Raise e => inr (Exn e) end /\
  snd (call c w) = snd (c w).
Proof. unfold call. now destruct (c w) as [[a|e] w']. Qed.

Lemma turn_contract (w : world) : turn_post w (fst (turn w)) (snd (turn w)).
Proof.
  destruct (turn_run w) as (shown & Hs & Hin & ->).
  destruct (stdin w) as [|choice rest] eqn:E.
  - cbn [fst snd].
    assert (Hc : console_only w (set_stdout (stdout shown ++ [nl +++ "Select option: "]) shown)).
    { eapply console_only_trans; [exact Hs | apply console_only_out]. }
    destruct Hc as (U & P & S & F & M).
    repeat split; try apply M; try discriminate.
    + rewrite U. apply accounts_kept_refl.
    + rewrite P. constructor.
    + now intros _.
    + intros _. right. now right.
  - set (w1 := set_stdin rest (set_stdout (stdout shown ++ [nl +++ "Select option: "]) shown)).
    assert (Hc : console_only w w1).
    { eapply console_only_trans; [exact Hs|].
      subst w1. repeat split. now eexists. exists [choice]. cbn [stdin set_stdin].
      now rewrite Hin. }
    assert (Hlen : List.length (stdin w1) < List.length (stdin w)).
    { subst w1. cbn [stdin set_stdin]. rewrite E. simpl. lia. }
    set (handle := match logged_in w with
                   | None => handle_guest_menu
                   | Some _ => handle_user_menu
                   end).
    assert (Hstep : step_post w (fst (handle (strip choice) w1))
                              (snd (handle (strip choice) w1))).
    { apply (step_post_after w w1); [exact Hc|]. subst handle.
      destruct (logged_in w); [apply handle_user_menu_step | apply handle_guest_menu_step]. }
    destruct (call_step_post (handle (strip choice)) w1) as [-> ->].
    destruct Hstep as (M & Ak & Ps & Hg & Hr).
    repeat split; try apply M; try assumption.
    + intros _. destruct M as (_ & _ & R).
      eapply Nat.le_lt_trans; [|exact Hlen].
      destruct (handle (strip choice) w1) as [r' w2] eqn:Eh. cbn [snd] in *.
      assert (reads w1 w2).
      { pose proof (step_post_after w1 w1 w2 r' (console_only_refl w1)) as H.
        subst handle.
        destruct (logged_in w).
        - pose proof (handle_user_menu_step (strip choice) w1) as H'.
          rewrite Eh in H'. apply H'.
        - pose proof (handle_guest_menu_step (strip choice) w1) as H'.
          rewrite Eh in H'. apply H'. }
      now apply reads_length.
    + intros H. specialize (Hr H).
      destruct (fst (handle (strip choice) w1)) as [[|]|e]; cbn in Hr; auto.
      subst e. right. now right.
Qed.

End MainLoop.

(** ** crowdfunding_app.py: a whole run of [main] *)

Section Run.
Import PyStr PyFloat Datetime validation data_storage user_auth project_manager.
Import crowdfunding_app Spec Logic Behaviour.

Lemma projects_run_one (ps ps' : list project) :
  projects_step ps ps' -> projects_run ps ps'.
Proof. intros H. eapply run_more; [exact H | apply run_done]. Qed.


(** The loop: with more turns than there are lines to read it comes to an
    end. *)
Lemma while_true_run (fuel : nat) :
  forall w, List.length (stdin w) < fuel ->
  exists r w', while_true fuel turn w = Some (r, w') /\ run_post w r w'.
Proof.
  induction fuel as [|fuel IH]; intros w Hlen; [lia|].
  cbn [while_true].
  pose proof (turn_contract w) as (M & Ak & Ps & _ & Hin & Hr).
  destruct (turn w) as [[[|]|e] w1]; cbn [fst snd] in *.
  - destruct (IH w1) as (r & w' & E & M' & Ak' & Ps' & Hr').
    { specialize (Hin eq_refl). lia. }
    exists r, w'. split; [exact E|].
    repeat split; try apply (moved_trans _ _ _ M M').
    + exact (accounts_kept_trans _ _ _ Ak Ak').
    + exact (run_more _ _ _ Ps Ps').
    + intros F. apply Hr'.
      exact (projects_step_Forall _ _ _ safe_project_stable Ps F).
  - exists (inl tt), w1. split; [reflexivity|].
    repeat split; try apply M; try assumption.
    + now apply projects_run_one.
    + now left.
  - exists (inr e), w1. split; [reflexivity|].
    repeat split; try apply M; try assumption.
    + now apply projects_run_one.
    + intros F. destruct (Hr F) as [H|[H|H]]; try discriminate.
      injection H as ->. now right.
Qed.

(** More turns than that change nothing. *)
Lemma while_true_fuel (fuel : nat) :
  forall fuel' w, List.length (stdin w) < fuel -> List.length (stdin w) < fuel' ->
  while_true fuel' turn w = while_true fuel turn w.
Proof.
  induction fuel as [|fuel IH]; intros fuel' w Hlen Hlen'; [lia|].
  destruct fuel' as [|fuel']; [lia|].
  cbn [while_true].
  pose proof (turn_contract w) as (_ & _ & _ & _ & Hin & _).
  destruct (turn w) as [[[|]|e] w1]; cbn [fst snd] in *; try reflexivity.
  specialize (Hin eq_refl). apply IH; lia.
Qed.

(** [load_data] returns, and touches nothing but the two registries. *)
Lemma load_data_frame (w : world) :
  load_data w = (Ok tt, snd (load_data w)) /\
  stdin (snd (load_data w)) = stdin w /\ stdout (snd (load_data w)) = stdout w /\
  clock (snd (load_data w)) = clock w /\
  current_user_email (snd (load_data w)) = current_user_email w /\
  files_kept w (snd (load_data w)).
Proof.
  unfold load_data, bind, get, modify, ret, files_kept.
  destruct (users_file w) eqn:Eu; [|destruct (read_users _)..]; cbv beta iota;
    (destruct (projects_file w) eqn:Ep; [|destruct (read_projects _)..]);
    cbn [fst snd]; repeat split; assumption.
Qed.

Lemma main_with_start (fuel : nat) (w : world) :
  main_with fuel w =
  match while_true fuel turn
          (set_stdout (stdout w ++ ["🎉 Welcome to the Crowdfunding Platform!" +++ nl])
                      (snd (load_data w))) with
  | Some (inl _, w2) =>
      Some (inl tt, set_stdout (stdout w2 ++ ["👋 Goodbye!" +++ nl]) w2)
  | stopped => stopped
  end.
Proof.
  unfold main_with.
  destruct (load_data_frame w) as (E & _ & Hout & _).
  rewrite (and_then_ok _ _ _ _ _ (call_ok _ _ _ _ E)).
  rewrite (call_ok _ _ _ _ (print_run _ _)), Hout.
  destruct (while_true fuel turn _) as [[[[]|e] w2]|]; reflexivity.
Qed.

(** The state in which the loop starts. *)
Lemma main_start (w : world) :
  let w1 := set_stdout (stdout w ++ ["🎉 Welcome to the Crowdfunding Platform!" +++ nl])
                       (snd (load_data w)) in
  stdin w1 = stdin w /\
  users_data w1 = users_data (snd (load_data w)) /\
  projects_data w1 = projects_data (snd (load_data w)) /\
  current_user_email w1 = current_user_email w.
Proof.
  destruct (load_data_frame w) as (_ & Hin & _ & _ & Hcur & _).
  cbv zeta. now repeat split.
Qed.

(** A run of [main]: it ends, and what it leaves behind. *)
Lemma main_run (w : world) :
  exists r w',
    main w = Some (r, w') /\
    (exists lines,
       stdout w' =
       stdout w ++ ["🎉 Welcome to the Crowdfunding Platform!" +++ nl] ++ lines ++
       match r with inl _ => ["👋 Goodbye!" +++ nl] | inr _ => [] end) /\
    reads w w' /\
    accounts_kept (users_data (snd (load_data w))) (users_data w') /\
    projects_run (projects_data (snd (load_data w))) (projects_data w') /\
    (Forall safe_project (projects_data (snd (load_data w))) ->
     r = inl tt \/ r = inr (Exn EOFError)).
Proof.
  unfold main. rewrite main_with_start.
  destruct (main_start w) as (Hin & Hu & Hp & _).
  set (w1 := set_stdout _ (snd (load_data w))) in *.
  destruct (while_true_run (S (List.length (stdin w))) w1) as (r & w2 & E & M & Ak & Ps & Hr).
  { rewrite Hin. lia. }
  rewrite E. destruct M as (_ & [lines Hout] & R).
  rewrite Hu in Ak. rewrite Hp in Ps, Hr. unfold reads in R. rewrite Hin in R.
  assert (Hout1 : stdout w1 = stdout w ++ ["🎉 Welcome to the Crowdfunding Platform!" +++ nl])
    by reflexivity.
  destruct r as [[]|e].
  - eexists _, _. split; [reflexivity|].
    split; [|repeat split; assumption].
    exists lines. cbn [stdout set_stdout]. rewrite Hout, Hout1.
    now rewrite <- !app_assoc.
  - eexists _, _. split; [reflexivity|].
    split; [|repeat split; assumption].
    exists lines. rewrite Hout, Hout1, app_nil_r. now rewrite <- !app_assoc.
Qed.

End Run.

(** ** crowdfunding_app.py: what a run of the program does *)

Section MainTheorems.
Import PyStr PyFloat Datetime validation data_storage user_auth project_manager.
Import crowdfunding_app Spec Logic Behaviour.



Lemma ret_true_not_false {A} (c : M A) (w : world) :
  fst ((c ;; ret true) w) <> Ok false.
Proof. rewrite then_ret. cbn [fst]. now destruct (fst (c w)). Qed.

(** X17. [main] comes to an end on every console: each turn of its
    loop that goes on has read a line, so one turn more than there are
    lines waiting is enough, and more turns change nothing.  The console
    then shows the welcome line first and, when [main] returns, the goodbye
    line last.  With no line waiting it stops with [EOFError] at the first
    prompt. *)
Theorem main_terminates (w : world) :
  (exists r w',
     main w = Some (r, w') /\
     (exists lines,
        stdout w' =
        stdout w ++ ["🎉 Welcome to the Crowdfunding Platform!" +++ nl] ++ lines ++
        match r with inl _ => ["👋 Goodbye!" +++ nl] | inr _ => [] end) /\
     (exists taken, stdin w = taken ++ stdin w')) /\
  (forall fuel, List.length (stdin w) < fuel -> main_with fuel w = main w) /\
  (stdin w = [] -> exists w', main w = Some (inr (Exn EOFError), w')).
Proof.
  split; [|split].
  - destruct (main_run w) as (r & w' & E & Hout & R & _).
    exists r, w'. now repeat split.
  - intros fuel Hlen. unfold main. rewrite !main_with_start.
    destruct (main_start w) as (Hin & _).
    rewrite (while_true_fuel (S (List.length (stdin w))) fuel); [reflexivity| |];
      rewrite Hin; lia.
  - intros Hnil. unfold main. rewrite main_with_start, Hnil.
    destruct (main_start w) as (Hin & _).
    set (w1 := set_stdout _ (snd (load_data w))) in *.
    cbn [List.length while_true].
    destruct (turn_run w1) as (shown & _ & _ & ->).
    rewrite Hin, Hnil. now eexists.
Qed.

(** X18. When every project that [load_data] finds has a target
    that is not zero and dates that parse, [main] ends in one of two ways
    only: it returns, or the input ends and [EOFError] comes out of it.
    No answer typed at any prompt raises anything else (files and console
    lines in ASCII; the data files are taken to be writable). *)
Theorem main_raises_only_eof (w : world) :
  ascii_world w ->
  Forall safe_project (projects_data (snd (load_data w))) ->
  exists r w', main w = Some (r, w') /\ (r = inl tt \/ r = inr (Exn EOFError)).
Proof.
  intros _ Hsafe.
  destruct (main_run w) as (r & w' & E & _ & _ & _ & _ & Hr).
  exists r, w'. split; [exact E | exact (Hr Hsafe)].
Qed.

(** X19. Whatever is typed during a run of [main], every account
    that [load_data] found is still in the registry at the end, filed
    under the same email and with the same data: no operation of the menus
    changes or removes an account, and so an account that is not active
    stays inactive. *)
Theorem accounts_survive_run (w : world) :
  exists r w',
    main w = Some (r, w') /\
    forall e u,
      dict_get e (users_data (snd (load_data w))) = Some u ->
      dict_get e (users_data w') = Some u.
Proof.
  destruct (main_run w) as (r & w' & E & _ & _ & Ak & _).
  exists r, w'. split; [exact E | exact Ak].
Qed.


(** X21. The two menus: only the choice [0] makes a handler return
    [False], and it does nothing else; a choice that is not on the menu
    prints one line and changes nothing; and nothing on the guest menu
    changes the registry of projects. *)
Theorem menu_choices :
  (forall choice w,
     (fst (handle_guest_menu choice w) = Ok false <-> choice = "0") /\
     (fst (handle_user_menu choice w) = Ok false <-> choice = "0")) /\
  (forall w, handle_guest_menu "0" w = (Ok false, w) /\
             handle_user_menu "0" w = (Ok false, w)) /\
  (forall choice w,
     existsb (String.eqb choice) ["1"; "2"; "3"; "4"; "0"] = false ->
     handle_guest_menu choice w =
     (Ok true, set_stdout (stdout w ++ ["❌ Invalid option!" +++ nl]) w)) /\
  (forall choice w,
     existsb (String.eqb choice) ["1"; "2"; "3"; "4"; "5"; "6"; "7"; "0"] = false ->
     handle_user_menu choice w =
     (Ok true, set_stdout (stdout w ++ ["❌ Invalid option!" +++ nl]) w)) /\
  (forall choice w,
     projects_data (snd (handle_guest_menu choice w)) = projects_data w).
Proof.
  split; [|split; [|split; [|split]]].
  - intros choice w. split; split.
    + unfold handle_guest_menu.
      destruct (String.eqb choice "1"); [intros H; now apply ret_true_not_false in H|].
      destruct (String.eqb choice "2"); [intros H; now apply ret_true_not_false in H|].
      destruct (String.eqb choice "3"); [intros H; now apply ret_true_not_false in H|].
      destruct (String.eqb choice "4"); [intros H; now apply ret_true_not_false in H|].
      destruct (String.eqb choice "0") eqn:E; [intros _; now apply String.eqb_eq|].
      intros H; now apply ret_true_not_false in H.
    + now intros ->.
    + unfold handle_user_menu.
      destruct (String.eqb choice "1"); [intros H; now apply ret_true_not_false in H|].
      destruct (String.eqb choice "2"); [intros H; now apply ret_true_not_false in H|].
      destruct (String.eqb choice "3"); [intros H; now apply ret_true_not_false in H|].
      destruct (String.eqb choice "4"); [intros H; now apply ret_true_not_false in H|].
      destruct (String.eqb choice "5"); [intros H; now apply ret_true_not_false in H|].
      destruct (String.eqb choice "6"); [intros H; now apply ret_true_not_false in H|].
      destruct (String.eqb choice "7"); [intros H; now apply ret_true_not_false in H|].
      destruct (String.eqb choice "0") eqn:E; [intros _; now apply String.eqb_eq|].
      intros H; now apply ret_true_not_false in H.
    + now intros ->.
  - now intros w.
  - intros choice w H. cbn [existsb] in H. rewrite !orb_false_iff in H.
    destruct H as (H1 & H2 & H3 & H4 & H0 & _).
    unfold handle_guest_menu. now rewrite H1, H2, H3, H4, H0.
  - intros choice w H. cbn [existsb] in H. rewrite !orb_false_iff in H.
    destruct H as (H1 & H2 & H3 & H4 & H5 & H6 & H7 & H0 & _).
    unfold handle_user_menu. now rewrite H1, H2, H3, H4, H5, H6, H7, H0.
  - apply handle_guest_menu_projects.
Qed.

(** X22. A projects file that [load_data] gives up on is lost at the
    next registration (files and console lines in ASCII): when a line of
    the file makes [float] fail, the registry of projects is empty after
    loading, and a registration that succeeds then writes an empty
    projects file. *)
Theorem broken_projects_file_emptied (w : world) (content : string) (e : exn) :
  ascii_world w ->
  projects_file w = Text content ->
  read_projects (Text content) = inl e ->
  fst (register_user (snd (load_data w))) = Ok true ->
  projects_data (snd (load_data w)) = [] /\
  projects_file (snd (register_user (snd (load_data w)))) = Text EmptyString.
Proof.
  intros _ Hf Hr Hreg.
  assert (Hp : projects_data (snd (load_data w)) = []).
  { rewrite load_data_projects, Hf, Hr. reflexivity. }
  split; [exact Hp|].
  pose proof (register_user_contract (snd (load_data w))) as H. unfold wp in H.
  destruct H as (_ & _ & Hpd & _ & [(_ & _ & Hne) | (u & _ & _ & [_ Hs] & _)]).
  - now elim Hne.
  - rewrite Hs, Hpd, Hp. reflexivity.
Qed.

End MainTheorems.

(** ** data_storage.py: a separator typed into a title or the details *)

Section Separator.
Import PyStr PyFloat Datetime validation data_storage user_auth project_manager.
Import crowdfunding_app Spec Logic Behaviour.

Lemma dict_get_In {V} (k : string) (v : V) (d : dict V) :
  dict_get k d = Some v -> In (k, v) d.
Proof.
  induction d as [|[k' v'] d IH]; simpl; [discriminate|].
  destruct (String.eqb k' k) eqn:E.
  - apply String.eqb_eq in E. intros [= ->]. left. now subst.
  - intros H. right. now apply IH.
Qed.

Lemma split_length (s : string) : List.length (split "|" s) = S (separators s).
Proof.
  unfold separators. induction s as [|c s IH]; [reflexivity|].
  cbn [split filter_str]. destruct (Ascii.eqb c "|").
  - cbn [List.length String.length]. now rewrite IH.
  - destruct (split "|" s) as [|h t]; [discriminate|]. exact IH.
Qed.

Lemma separators_app (a b : string) : separators (a +++ b) = separators a + separators b.
Proof.
  unfold separators. induction a as [|c a IH]; [reflexivity|].
  cbn [String.append filter_str]. destruct (Ascii.eqb c "|"); cbn [String.length]; now rewrite IH.
Qed.

Lemma separators_none (s : string) : contains "|" s = false -> separators s = 0.
Proof.
  unfold separators. induction s as [|c s IH]; [reflexivity|].
  cbn [contains filter_str]. intros H. apply orb_false_iff in H as [-> H]. now apply IH.
Qed.

Lemma separators_some (s : string) : contains "|" s = true -> 1 <= separators s.
Proof.
  unfold separators. induction s as [|c s IH]; [discriminate|].
  cbn [contains filter_str]. destruct (Ascii.eqb c "|"); cbn [String.length orb]; [lia|].
  exact IH.
Qed.

Lemma separators_blank (s : string) : blank s -> separators s = 0.
Proof.
  intros H. apply separators_none.
  apply (forallb_str_not_contains isspace); [reflexivity | exact H].
Qed.

Lemma separators_strip (s : string) : separators (strip s) = separators s.
Proof.
  destruct (strip_parts s) as (l & r & Hs & Hl & Hr).
  rewrite Hs at 2. rewrite !separators_app.
  rewrite (separators_blank _ Hl), (separators_blank _ Hr). lia.
Qed.

(** The line of a project holds seven separators more than its fields. *)
Lemma separators_project_line (p : project) :
  separators (project_line p) =
  7 + list_sum (map separators (project_fields p)).
Proof.
  unfold project_line, project_fields.
  rewrite !separators_app.
  rewrite !(separators_none (repr _)) by (apply repr_no_char; reflexivity).
  unfold list_sum. cbn [map fold_right].
  change (separators "|") with 1. change (separators nl) with 0. lia.
Qed.

Lemma has_separator_sum (fields : list string) :
  existsb (contains "|") fields = true -> 1 <= list_sum (map separators fields).
Proof.
  induction fields as [|f fields IH]; [discriminate|].
  unfold list_sum in *. cbn [existsb map fold_right]. intros H.
  apply orb_true_iff in H as [H | H].
  - apply separators_some in H. lia.
  - specialize (IH H). lia.
Qed.

(** Such a line has more than eight fields, and [load_data] passes over it. *)
Lemma has_separator_fields (p : project) :
  has_separator p = true -> has_fields 8 (project_line p) = false.
Proof.
  intros H. unfold has_fields, fields_of.
  rewrite split_length, separators_strip, separators_project_line.
  apply has_separator_sum in H. apply Nat.eqb_neq. lia.
Qed.

Lemma project_record_lines (p : project) :
  Forall one_line (project_fields p) ->
  contains "010" (project_record p) = false /\
  contains "013" (project_record p) = false.
Proof.
  unfold project_fields. intros H.
  repeat match goal with
         | H : Forall _ (_ :: _) |- _ => inversion_clear H
         end.
  repeat match goal with
         | H : one_line _ |- _ => destruct H as [? ?]
         end.
  unfold project_record. rewrite !contains_app.
  rewrite !(repr_no_char _ "010" eq_refl), !(repr_no_char _ "013" eq_refl).
  repeat match goal with
         | E : contains _ _ = false |- _ => rewrite E; clear E
         end.
  split; reflexivity.
Qed.

Lemma load_project_lines_app (lines lines' : list string) :
  forall acc,
    load_project_lines acc (lines ++ lines') =
    match load_project_lines acc lines with
    | inl e => inl e
    | inr acc' => load_project_lines acc' lines'
    end.
Proof.
  induction lines as [|l lines IH]; intros acc; [reflexivity|].
  cbn [app load_project_lines].
  destruct (load_project_line acc l); [reflexivity | apply IH].
Qed.

(** Reading back a file written from a registry with one such project. *)
Lemma read_projects_separator (pre post : list project) (p : project) :
  Forall (fun q => forallb field_ok (project_fields q) = true) (pre ++ post) ->
  Forall project_storable (pre ++ post) ->
  Forall one_line (project_fields p) ->
  has_separator p = true ->
  read_projects (Text (projects_text (pre ++ p :: post))) = inr (pre ++ post).
Proof.
  intros Hf Hs Hl Hsep.
  apply Forall_app in Hf as [Hf1 Hf2]. apply Forall_app in Hs as [Hs1 Hs2].
  unfold read_projects, projects_text.
  rewrite (map_ext _ (fun q => project_record q +++ nl))
    by (intros; apply project_line_record).
  rewrite <- (map_map project_record (fun b => b +++ nl)).
  rewrite file_lines_concat.
  - rewrite map_map.
    rewrite (map_ext _ project_line) by (intros; symmetry; apply project_line_record).
    rewrite map_app, load_project_lines_app.
    rewrite (load_saved_projects pre [] Hf1 Hs1). cbn [app map load_project_lines].
    rewrite (has_fields_false_project _ _ (has_separator_fields p Hsep)).
    exact (load_saved_projects post pre Hf2 Hs2).
  - apply Forall_map, Forall_app. split; [|constructor].
    + eapply Forall_impl; [|exact Hf1]. intros q. apply project_record_one_line.
    + now apply project_record_lines.
    + eapply Forall_impl; [|exact Hf2]. intros q. apply project_record_one_line.
Qed.

(** X23. A project with a [|] in its title, details or another text
    field does not come back from the files: [save_data] writes its line
    with more than seven separators, [load_data] passes over a line that
    has not exactly eight fields, and a new process that loads the files
    finds the other projects only.  This is for fields that hold no line
    break, and for other projects that are stored as [load_data] reads
    them back: no [|] or line break in a field, a title of ASCII text with
    no leading whitespace, amounts that [float] reads back from their
    [str]. *)
Theorem separator_loses_project (w : world) (pre post : list project) (p : project) :
  projects_data w = pre ++ p :: post ->
  Forall (fun q => forallb field_ok (project_fields q) = true) (pre ++ post) ->
  Forall project_storable (pre ++ post) ->
  Forall one_line (project_fields p) ->
  has_separator p = true ->
  projects_data (save_then_load w) = pre ++ post.
Proof.
  intros Hp Hf Hs Hl Hsep. unfold save_then_load.
  rewrite load_data_projects. cbn [save_data bind get modify snd restart projects_file
    set_users_data set_projects_data set_current_user_email set_users_file
    set_projects_file users_data projects_data].
  rewrite Hp. fold (projects_text (pre ++ p :: post)).
  now rewrite (read_projects_separator pre post p Hf Hs Hl Hsep).
Qed.

(** X24. [create_new_project] does not look for a [|] in the
    title or the details.  Take a registry whose stored fields hold no [|]
    or line break and whose records are as [load_data] reads them back
    (each user filed under its email; emails and titles of ASCII text with
    no leading whitespace; every [created_at] of a user ASCII text with no
    trailing whitespace; amounts that [float] reads back from their
    [str]).  When the answers, ASCII text with no line break, pass the
    checks and the title or the details holds a [|], the project is
    appended and the files are rewritten, but a new process that loads the
    files finds the projects that were there before and not the new
    one. *)
Theorem create_with_separator_lost (w : world) (cu : user)
        (title details target start_date end_date : string) (rest : list string) :
  fst (get_current_user w) = Ok (Some cu) ->
  stdin w = title :: details :: target :: start_date :: end_date :: rest ->
  Forall (fun line => ascii_text line = true /\ one_line line)
         [title; details; target; start_date; end_date] ->
  creation_accepted (clock w) title details target start_date end_date = true ->
  contains "|" (strip title) || contains "|" (strip details) = true ->
  fields_plain w -> storable w ->
  let w' := snd (create_new_project w) in
  projects_data w' =
  projects_data w ++
  [new_project (u_email cu) (clock w) title details target start_date end_date] /\
  projects_data (snd (load_data (restart w'))) = projects_data w.
Proof.
  intros Hcu Hin Hlines Hacc Hsep [Hpu Hpp] (_ & _ & Hsp).
  rewrite get_current_user_eq in Hcu. cbn [fst] in Hcu. injection Hcu as Hcu.
  cbv zeta. rewrite (create_new_project_accepts w cu _ _ _ _ _ _ Hcu Hin Hacc).
  cbn [snd projects_data]. split; [reflexivity|].
  rewrite load_data_projects.
  cbn [restart projects_file set_users_data set_projects_data set_current_user_email].
  set (p := new_project _ _ _ _ _ _ _).
  assert (Hread : read_projects (Text (projects_text (projects_data w ++ [p])))
                  = inr (projects_data w ++ [])); [|now rewrite Hread, app_nil_r].
  apply (read_projects_separator (projects_data w) [] p);
    rewrite ?app_nil_r; try assumption.
  - inversion_clear Hlines as [|? ? [_ Lt] Hl1]. inversion_clear Hl1 as [|? ? [_ Ld] Hl2].
    inversion_clear Hl2 as [|? ? _ Hl3]. inversion_clear Hl3 as [|? ? [_ Ls] Hl4].
    inversion_clear Hl4 as [|? ? [_ Le] _].
    assert (Ho : one_line (u_email cu)).
    { unfold logged_in in Hcu.
      destruct (current_user_email w) as [e|]; [|discriminate].
      destruct (truthy e && dict_in e (users_data w)); [|discriminate].
      apply dict_get_In in Hcu.
      rewrite Forall_forall in Hpu. specialize (Hpu _ Hcu). cbn [snd] in Hpu.
      unfold user_fields in Hpu. cbn [forallb] in Hpu.
      apply andb_true_iff in Hpu as [Hpu _].
      apply field_ok_inv in Hpu. split; apply Hpu. }
    assert (Hc : one_line (isoformat (clock w))).
    { destruct (plain_chars_field _ (forallb_str_impl _ _ _ iso_char_plain
                                                      (isoformat_chars (clock w))))
        as (Hok & _). apply field_ok_inv in Hok. split; apply Hok. }
    subst p. unfold new_project, project_fields.
    cbn [p_title p_details p_start_date p_end_date p_owner_email p_created_at].
    repeat constructor; try (apply one_line_strip; assumption); try apply Ho; try apply Hc.
  - subst p. unfold has_separator, new_project, project_fields.
    cbn [p_title p_details existsb].
    apply orb_true_iff in Hsep as [-> | ->]; [reflexivity | apply orb_true_r].
Qed.

End Separator.

(** ** validation.py: the dates that [validate_date] accepts *)

Section Dates.
Import PyStr PyFloat Datetime validation data_storage user_auth project_manager.
Import Spec Logic Behaviour.

(** Decimal digits, one at a time. *)
Lemma string_of_uint_udigit (x : nat) (u : Decimal.uint) :
  x < 10 ->
  NilEmpty.string_of_uint (udigit x u) = String (digit_char x) (NilEmpty.string_of_uint u) /\
  NilZero.string_of_uint (udigit x u) = String (digit_char x) (NilEmpty.string_of_uint u).
Proof. intros H. do 10 (destruct x as [|x]; [split; reflexivity|]). lia. Qed.

Lemma of_uint_acc_udigit (x : nat) (u : Decimal.uint) (acc : nat) :
  x < 10 -> Nat.of_uint_acc (udigit x u) acc = Nat.of_uint_acc u (x + 10 * acc).
Proof.
  intros H.
  do 10 (destruct x as [|x];
         [cbn [udigit Nat.of_uint_acc]; now rewrite Nat.tail_mul_spec|]).
  lia.
Qed.

Lemma unorm_udigit (x : nat) (u : Decimal.uint) :
  1 <= x < 10 -> Decimal.unorm (udigit x u) = udigit x u.
Proof. intros H. do 10 (destruct x as [|x]; [try lia; reflexivity|]). lia. Qed.

Lemma digit_of_digit_char (x : nat) : x < 10 -> digit_of (digit_char x) = Some x.
Proof. intros H. do 10 (destruct x as [|x]; [reflexivity|]). lia. Qed.

(** A number below 10000, padded to four digits. *)
Lemma pad_four_digits (a b c d : nat) :
  a < 10 -> b < 10 -> c < 10 -> d < 10 ->
  pad 4 (d + 10 * (c + 10 * (b + 10 * a))) =
  String (digit_char a) (String (digit_char b)
    (String (digit_char c) (String (digit_char d) EmptyString))).
Proof.
  intros Ha Hb Hc Hd. unfold pad, str_nat.
  set (u := udigit a (udigit b (udigit c (udigit d Decimal.Nil)))).
  assert (Hu : Nat.of_uint u = d + 10 * (c + 10 * (b + 10 * a))).
  { unfold Nat.of_uint. subst u. rewrite !of_uint_acc_udigit by assumption.
    cbn [Nat.of_uint_acc]. lia. }
  rewrite <- Hu, DecimalNat.Unsigned.to_of. subst u.
  destruct a as [|a].
  - destruct b as [|b].
    + destruct c as [|c].
      * destruct d as [|d]; [reflexivity|].
        change (Decimal.unorm (udigit 0 (udigit 0 (udigit 0 (udigit (S d) Decimal.Nil)))))
          with (Decimal.unorm (udigit (S d) Decimal.Nil)).
        rewrite unorm_udigit by lia.
        now rewrite (proj2 (string_of_uint_udigit _ _ Hd)).
      * change (Decimal.unorm (udigit 0 (udigit 0 (udigit (S c) (udigit d Decimal.Nil)))))
          with (Decimal.unorm (udigit (S c) (udigit d Decimal.Nil))).
        rewrite unorm_udigit by lia.
        rewrite (proj2 (string_of_uint_udigit _ _ Hc)).
        now rewrite (proj1 (string_of_uint_udigit _ _ Hd)).
    + change (Decimal.unorm (udigit 0 (udigit (S b) (udigit c (udigit d Decimal.Nil)))))
        with (Decimal.unorm (udigit (S b) (udigit c (udigit d Decimal.Nil)))).
      rewrite unorm_udigit by lia.
      rewrite (proj2 (string_of_uint_udigit _ _ Hb)).
      rewrite (proj1 (string_of_uint_udigit _ _ Hc)).
      now rewrite (proj1 (string_of_uint_udigit _ _ Hd)).
  - rewrite unorm_udigit by lia.
    rewrite (proj2 (string_of_uint_udigit _ _ Ha)).
    rewrite (proj1 (string_of_uint_udigit _ _ Hb)).
    rewrite (proj1 (string_of_uint_udigit _ _ Hc)).
    now rewrite (proj1 (string_of_uint_udigit _ _ Hd)).
Qed.

Lemma parse_year_pad (y : nat) (r : string) :
  y < 10 * 1000 -> parse_year (pad 4 y +++ r) = Some (y, r).
Proof.
  intros Hy.
  pose proof (Nat.div_mod_eq y 10) as E1.
  pose proof (Nat.div_mod_eq (y / 10) 10) as E2.
  pose proof (Nat.div_mod_eq (y / 10 / 10) 10) as E3.
  pose proof (Nat.mod_upper_bound y 10) as B1.
  pose proof (Nat.mod_upper_bound (y / 10) 10) as B2.
  pose proof (Nat.mod_upper_bound (y / 10 / 10) 10) as B3.
  set (d := y mod 10) in *. set (c := (y / 10) mod 10) in *.
  set (b := (y / 10 / 10) mod 10) in *. set (a := y / 10 / 10 / 10) in *.
  assert (Hd : d < 10) by lia.
  assert (Hc : c < 10) by lia.
  assert (Hb : b < 10) by lia.
  assert (Ha : a < 10) by lia.
  assert (E : y = d + 10 * (c + 10 * (b + 10 * a))) by lia.
  rewrite E at 1. rewrite (pad_four_digits a b c d Ha Hb Hc Hd).
  cbn [String.append parse_year].
  rewrite !digit_of_digit_char by assumption. f_equal. f_equal. lia.
Qed.

Lemma digit_of_bound (c : ascii) (x : nat) : digit_of c = Some x -> x <= 9.
Proof.
  unfold digit_of. destruct (isdigit c) eqn:E; [|discriminate].
  apply in_range_iff in E. intros [= <-]. lia.
Qed.

Lemma parse_year_bound (s r : string) (y : nat) :
  parse_year s = Some (y, r) -> y < 10 * 1000.
Proof.
  destruct s as [|a [|b [|c [|d s]]]]; try discriminate.
  cbn [parse_year].
  destruct (digit_of a) eqn:Ea, (digit_of b) eqn:Eb, (digit_of c) eqn:Ec,
           (digit_of d) eqn:Ed; try discriminate.
  apply digit_of_bound in Ea, Eb, Ec, Ed. intros [= <- _]. lia.
Qed.

Lemma nonzero_digit_bound (c : ascii) : nonzero_digit c = true -> 1 <= ord c - 48 <= 9.
Proof. unfold nonzero_digit. rewrite in_range_iff. lia. Qed.

Lemma parse_month_bound (s r : string) (m : nat) :
  parse_month s = Some (m, r) -> 1 <= m <= 12.
Proof.
  destruct s as [|c1 [|c2 s]]; cbn [parse_month]; try discriminate.
  - destruct (nonzero_digit c1) eqn:E1; [|discriminate].
    apply nonzero_digit_bound in E1. intros [= <- _]. lia.
  - destruct (Ascii.eqb c1 "1" && in_range 48 50 c2) eqn:E.
    { apply andb_true_iff in E as [_ E]. apply in_range_iff in E. intros [= <- _]. lia. }
    destruct (Ascii.eqb c1 "0" && nonzero_digit c2) eqn:E0.
    { apply andb_true_iff in E0 as [_ E0]. apply nonzero_digit_bound in E0.
      intros [= <- _]. lia. }
    destruct (nonzero_digit c1) eqn:E1; [|discriminate].
    apply nonzero_digit_bound in E1. intros [= <- _]. lia.
Qed.

Lemma parse_day_pos (s r : string) (d : nat) : parse_day s = Some (d, r) -> 1 <= d.
Proof.
  destruct s as [|c1 [|c2 s]]; cbn [parse_day]; try discriminate.
  - destruct (nonzero_digit c1) eqn:E1; [|discriminate].
    apply nonzero_digit_bound in E1. intros [= <- _]. lia.
  - destruct (Ascii.eqb c1 "3" && in_range 48 49 c2); [intros [= <- _]; lia|].
    destruct (in_range 49 50 c1 && isdigit c2) eqn:E.
    { apply andb_true_iff in E as [E _]. apply in_range_iff in E. intros [= <- _]. lia. }
    destruct (Ascii.eqb c1 "0" && nonzero_digit c2) eqn:E0.
    { apply andb_true_iff in E0 as [_ E0]. apply nonzero_digit_bound in E0.
      intros [= <- _]. lia. }
    destruct (nonzero_digit c1) eqn:E1.
    { apply nonzero_digit_bound in E1. intros [= <- _]. lia. }
    destruct (Ascii.eqb c1 " " && nonzero_digit c2) eqn:E2; [|discriminate].
    apply andb_true_iff in E2 as [_ E2]. apply nonzero_digit_bound in E2.
    intros [= <- _]. lia.
Qed.

(** What [strptime] returns is a day of the calendar. *)
Lemma strptime_date_real (s : string) (d : date) :
  strptime_date s = Some d -> real_date d.
Proof.
  unfold strptime_date.
  destruct (parse_year s) as [[y r1]|] eqn:Ey; [|discriminate].
  destruct (expect "-" r1) as [r2|]; [|discriminate].
  destruct (parse_month r2) as [[m r3]|] eqn:Em; [|discriminate].
  destruct (expect "-" r3) as [r4|]; [|discriminate].
  destruct (parse_day r4) as [[dd [|]]|] eqn:Ed; try discriminate.
  destruct ((1 <=? y) && (dd <=? days_in_month y m)) eqn:E; [|discriminate].
  apply andb_true_iff in E as [E1 E2]. apply Nat.leb_le in E1, E2.
  intros [= <-]. unfold real_date. cbn [year month day].
  pose proof (parse_year_bound _ _ _ Ey). pose proof (parse_month_bound _ _ _ Em).
  pose proof (parse_day_pos _ _ _ Ed). lia.
Qed.

Lemma days_in_month_bound (y m : nat) : days_in_month y m <= 31.
Proof.
  unfold days_in_month.
  do 13 (destruct m as [|m]; [try lia; destruct (is_leap y); lia|]). lia.
Qed.

(** Months and days, padded or not, before any rest. *)
Lemma parse_month_pad (m : nat) (r : string) :
  1 <= m <= 12 ->
  parse_month (pad 2 m +++ String "-" r) = Some (m, String "-" r) /\
  parse_month (str_nat m +++ String "-" r) = Some (m, String "-" r).
Proof.
  intros Hm.
  do 13 (destruct m as [|m]; [try lia; split; reflexivity|]). lia.
Qed.

Lemma parse_day_pad (d : nat) :
  1 <= d <= 31 ->
  parse_day (pad 2 d) = Some (d, EmptyString) /\
  parse_day (str_nat d) = Some (d, EmptyString).
Proof.
  intros Hd.
  do 32 (destruct d as [|d]; [try lia; split; reflexivity|]). lia.
Qed.

(** X25. [validate_date] accepts ASCII text only if it is read as a day
    of the calendar: a year from 1 to 9999, a month from 1 to 12 and a day
    that the month has in that year, 29 February in leap years only.  It
    accepts every such day written as YYYY-MM-DD, and also with the month
    and the day written without a leading zero, and reads back the same
    day. *)
Theorem validate_date_spec :
  (forall s, ascii_text s = true ->
             (validate_date s = true <->
              exists d, strptime_date s = Some d /\ real_date d)) /\
  (forall d, real_date d ->
             strptime_date (iso_date d) = Some d /\ validate_date (iso_date d) = true /\
             strptime_date (short_date d) = Some d /\ validate_date (short_date d) = true) /\
  (forall y, days_in_month y 2 = if is_leap y then 29 else 28) /\
  validate_date "2024-02-29" = true /\ validate_date "2023-02-29" = false /\
  validate_date "2030-04-31" = false /\ validate_date "2030-13-01" = false /\
  validate_date "30-01-01" = false /\ validate_date "2030/01/01" = false /\
  validate_date "0000-01-01" = false /\ validate_date EmptyString = false.
Proof.
  split; [|split; [|split; [reflexivity | repeat split]]].
  - intros s _. unfold validate_date, strptime. split.
    + destruct (strptime_date s) as [d|] eqn:E; [|discriminate].
      intros _. exists d. split; [reflexivity | exact (strptime_date_real s d E)].
    + intros (d & -> & _). reflexivity.
  - intros [y m d] ((Hy1 & Hy2) & Hm & Hd1 & Hd2). cbn [year month day] in *.
    pose proof (days_in_month_bound y m) as Hb.
    destruct (parse_day_pad d ltac:(lia)) as [Dp Ds].
    assert (Hok : (1 <=? y) && (d <=? days_in_month y m) = true).
    { apply andb_true_iff. split; apply Nat.leb_le; lia. }
    assert (Hiso : strptime_date (iso_date (mkdate y m d)) = Some (mkdate y m d)).
    { unfold strptime_date, iso_date. cbn [year month day].
      rewrite (parse_year_pad y _ Hy2). cbn [String.append expect Ascii.eqb Bool.eqb].
      rewrite (proj1 (parse_month_pad m _ Hm)). cbn [expect Ascii.eqb Bool.eqb].
      now rewrite Dp, Hok. }
    assert (Hshort : strptime_date (short_date (mkdate y m d)) = Some (mkdate y m d)).
    { unfold strptime_date, short_date. cbn [year month day].
      rewrite (parse_year_pad y _ Hy2). cbn [String.append expect Ascii.eqb Bool.eqb].
      rewrite (proj2 (parse_month_pad m _ Hm)). cbn [expect Ascii.eqb Bool.eqb].
      now rewrite Ds, Hok. }
    unfold validate_date, strptime. rewrite Hiso, Hshort. now repeat split.
Qed.

End Dates.

(** ** project_manager.py: what [edit_user_project] and
    [delete_user_project] show *)

Section OwnerConsole.
Import PyStr PyFloat validation data_storage project_manager Spec Logic Behaviour.

(** The input ends at the selection prompt. *)
Lemma selection_eof (w : world) (cu : user) (heading prompt : string)
      (k : option ref -> M bool) :
  stdin w = [] ->
  (print heading ;; print "Your projects:" ;;
   print_titles (refs_from 0 (u_email cu) (projects_data w)) ;;
   selected <- select_project prompt (refs_from 0 (u_email cu) (projects_data w)) ;;
   k selected) w =
  (Raise EOFError,
   set_stdout (stdout w ++ [heading +++ nl; "Your projects:" +++ nl] ++
               title_lines (filter (owned_by (u_email cu)) (projects_data w)) ++
               [prompt]) w).
Proof.
  intros Hin.
  destruct w as [us ps cur uf pf sin out clk]. cbn [stdin projects_data] in *.
  subst sin. run.
  match goal with
  | |- context [print_titles _ ?w2] =>
      pose proof (print_titles_eq (u_email cu) w2) as Ht; run_in Ht
  end.
  rewrite Ht. clear Ht.
  unfold select_project. run. rewrite <- ?app_assoc. reflexivity.
Qed.

(** A valid answer selects one of the user's projects. *)
Lemma selection_valid (email : string) (projects : list project) (answer : string) :
  selection_error (List.length (filter (owned_by email) projects)) answer = None ->
  exists n p r,
    PyNum.py_int answer = Some n /\ (1 <= n)%Z /\
    ((n <? 1)%Z || (Z.of_nat (List.length (filter (owned_by email) projects)) <? n)%Z)
    = false /\
    nth_error (filter (owned_by email) projects) (Z.to_nat (n - 1)) = Some p /\
    nth_error (refs_from 0 email projects) (Z.to_nat (n - 1)) = Some r /\
    nth_error projects r = Some p.
Proof.
  unfold selection_error. destruct (PyNum.py_int answer) as [n|]; [|discriminate].
  destruct ((n <? 1)%Z || _) eqn:E; [discriminate|]. intros _.
  apply orb_false_iff in E as [E1 E2]. apply Z.ltb_ge in E1, E2.
  destruct (nth_error (filter (owned_by email) projects) (Z.to_nat (n - 1)))
    as [p|] eqn:Hp.
  - destruct (nth_mine_ref _ _ _ _ Hp) as (r & Hr & Hpr).
    exists n, p, r. repeat split; try assumption.
    apply orb_false_iff. split; [now apply Z.ltb_ge | now apply Z.ltb_ge].
  - apply nth_error_None in Hp. lia.
Qed.

Lemma refused_stdout (w : world) (rest out : list string) (msg : string) :
  stdout (snd ((print msg ;; ret false) (set_stdin rest (set_stdout (stdout w ++ out) w))))
  = stdout w ++ out ++ [msg +++ nl].
Proof. destruct w. cbn. now rewrite <- app_assoc. Qed.

(** The console after [edit_user_project], for a user with projects. *)
Lemma edit_user_project_stdout (w : world) (cu : user) :
  logged_in w = Some cu ->
  filter (owned_by (u_email cu)) (projects_data w) <> [] ->
  stdout (snd (edit_user_project w)) =
  stdout w ++ [(nl +++ "=== EDIT PROJECT ===") +++ nl; "Your projects:" +++ nl] ++
  title_lines (filter (owned_by (u_email cu)) (projects_data w)) ++
  edit_script (filter (owned_by (u_email cu)) (projects_data w)) (stdin w).
Proof.
  intros Hcu Hne.
  assert (Hrefs : refs_from 0 (u_email cu) (projects_data w) <> []).
  { intros E. now apply refs_nil_iff in E. }
  unfold edit_script, selection_script.
  destruct (stdin w) as [|c rest] eqn:Hin.
  { unfold edit_user_project.
    rewrite (bind_ok _ _ _ _ _ (get_current_user_eq w)), Hcu.
    rewrite (bind_ok _ _ _ _ _ (get_user_projects_eq (u_email cu) w)).
    destruct (refs_from 0 (u_email cu) (projects_data w)) as [|r0 refs0] eqn:E;
      [congruence|].
    rewrite <- E in *.
    rewrite (selection_eof w cu _ _ _ Hin). reflexivity. }
  destruct (selection_error _ c) as [msg|] eqn:Herr.
  { unfold edit_user_project.
    rewrite (bind_ok _ _ _ _ _ (get_current_user_eq w)), Hcu.
    rewrite (bind_ok _ _ _ _ _ (get_user_projects_eq (u_email cu) w)).
    destruct (refs_from 0 (u_email cu) (projects_data w)) as [|r0 refs0] eqn:E;
      [congruence|].
    rewrite <- E in *.
    rewrite (selection_shown w cu c rest _ _ _ Hin Hrefs). cbv zeta.
    unfold selection_error in Herr.
    destruct (PyNum.py_int c) as [n|].
    - destruct ((n <? 1)%Z || _); [|discriminate Herr]. injection Herr as <-.
      rewrite refused_stdout. now rewrite <- ?app_assoc.
    - injection Herr as <-. rewrite refused_stdout. now rewrite <- ?app_assoc. }
  destruct (selection_valid _ _ _ Herr) as (n & p & r & Hc & Hn & Hsel & Hp & Hr & Hpr).
  rewrite Hc, Hp. unfold edit_prompts.
  destruct rest as [|t [|d [|g rest]]].
  4: { destruct (edit_user_project_path w cu c t d g rest n r p Hcu Hin Hc Hn Hr Hpr)
         as (uf & pf & ->).
       cbn [snd stdout set_users_file set_projects_file set_stdin set_stdout
            set_projects_data].
       rewrite <- ?app_assoc. reflexivity. }
  all: unfold edit_user_project;
    rewrite (bind_ok _ _ _ _ _ (get_current_user_eq w)), Hcu;
    rewrite (bind_ok _ _ _ _ _ (get_user_projects_eq (u_email cu) w));
    (destruct (refs_from 0 (u_email cu) (projects_data w)) as [|r0 refs0] eqn:E;
       [congruence|]);
    rewrite <- E in *;
    rewrite (selection_shown w cu c _ _ _ _ Hin Hrefs); cbv zeta;
    rewrite Hc, Hsel, Hr;
    clear Hcu Hin E Hrefs Herr Hne;
    destruct w as [us ps cur uf pf sin out clk];
    cbn [projects_data users_data stdout current_user_email clock] in *;
    unfold deref; run; rewrite Hpr; run.
  - rewrite <- ?app_assoc. reflexivity.
  - destruct (truthy (strip t)); unfold assign; run;
      rewrite ?(nth_error_update_same _ _ _ _ Hpr), ?Hpr; run;
      rewrite <- ?app_assoc; reflexivity.
  - destruct (truthy (strip t)); unfold assign; run;
      rewrite ?(nth_error_update_same _ _ _ _ Hpr), ?Hpr; run;
      (destruct (truthy (strip d)); run;
       rewrite ?list_update_twice;
       rewrite ?(nth_error_update_same _ _ _ _ Hpr), ?Hpr; run);
      rewrite <- ?app_assoc; reflexivity.
Qed.

(** The console after [delete_user_project], for a user with projects. *)
Lemma delete_user_project_stdout (w : world) (cu : user) :
  logged_in w = Some cu ->
  filter (owned_by (u_email cu)) (projects_data w) <> [] ->
  stdout (snd (delete_user_project w)) =
  stdout w ++ [(nl +++ "=== DELETE PROJECT ===") +++ nl; "Your projects:" +++ nl] ++
  title_lines (filter (owned_by (u_email cu)) (projects_data w)) ++
  delete_script (filter (owned_by (u_email cu)) (projects_data w)) (stdin w).
Proof.
  intros Hcu Hne.
  assert (Hrefs : refs_from 0 (u_email cu) (projects_data w) <> []).
  { intros E. now apply refs_nil_iff in E. }
  unfold delete_script, selection_script.
  destruct (stdin w) as [|c rest] eqn:Hin.
  { unfold delete_user_project.
    rewrite (bind_ok _ _ _ _ _ (get_current_user_eq w)), Hcu.
    rewrite (bind_ok _ _ _ _ _ (get_user_projects_eq (u_email cu) w)).
    destruct (refs_from 0 (u_email cu) (projects_data w)) as [|r0 refs0] eqn:E;
      [congruence|].
    rewrite <- E in *.
    rewrite (selection_eof w cu _ _ _ Hin). reflexivity. }
  destruct (selection_error _ c) as [msg|] eqn:Herr.
  { unfold delete_user_project.
    rewrite (bind_ok _ _ _ _ _ (get_current_user_eq w)), Hcu.
    rewrite (bind_ok _ _ _ _ _ (get_user_projects_eq (u_email cu) w)).
    destruct (refs_from 0 (u_email cu) (projects_data w)) as [|r0 refs0] eqn:E;
      [congruence|].
    rewrite <- E in *.
    rewrite (selection_shown w cu c rest _ _ _ Hin Hrefs). cbv zeta.
    unfold selection_error in Herr.
    destruct (PyNum.py_int c) as [n|].
    - destruct ((n <? 1)%Z || _); [|discriminate Herr]. injection Herr as <-.
      rewrite refused_stdout. now rewrite <- ?app_assoc.
    - injection Herr as <-. rewrite refused_stdout. now rewrite <- ?app_assoc. }
  destruct (selection_valid _ _ _ Herr) as (n & p & r & Hc & Hn & Hsel & Hp & Hr & Hpr).
  rewrite Hc, Hp. unfold delete_prompts.
  destruct rest as [|confirm rest].
  - unfold delete_user_project.
    rewrite (bind_ok _ _ _ _ _ (get_current_user_eq w)), Hcu.
    rewrite (bind_ok _ _ _ _ _ (get_user_projects_eq (u_email cu) w)).
    destruct (refs_from 0 (u_email cu) (projects_data w)) as [|r0 refs0] eqn:E;
      [congruence|].
    rewrite <- E in *.
    rewrite (selection_shown w cu c _ _ _ _ Hin Hrefs). cbv zeta.
    rewrite Hc, Hsel, Hr.
    clear Hcu Hin E Hrefs Herr Hne.
    destruct w as [us ps cur uf pf sin out clk].
    cbn [projects_data users_data stdout current_user_email clock] in *.
    unfold deref. run. rewrite Hpr. run.
    rewrite <- ?app_assoc. reflexivity.
  - destruct (delete_user_project_path w cu c confirm rest n p Hcu Hin Hc Hn Hp)
      as (sel & j & y & _ & _ & _ & _ & _ & ->).
    cbv zeta.
    destruct (String.eqb (lower confirm) "y");
      cbn [snd stdout set_stdin set_stdout]; rewrite <- ?app_assoc; reflexivity.
Qed.

(** A user without projects is told so. *)
Lemma no_projects_stdout (w : world) (cu : user) :
  logged_in w = Some cu ->
  filter (owned_by (u_email cu)) (projects_data w) = [] ->
  stdout (snd (edit_user_project w))
  = stdout w ++ ["❌ You have no projects to edit!" +++ nl] /\
  stdout (snd (delete_user_project w))
  = stdout w ++ ["❌ You have no projects to delete!" +++ nl].
Proof.
  intros Hcu Hnone. apply refs_nil_iff in Hnone.
  unfold edit_user_project, delete_user_project.
  rewrite !(bind_ok _ _ _ _ _ (get_current_user_eq w)), Hcu.
  rewrite !(bind_ok _ _ _ _ _ (get_user_projects_eq (u_email cu) w)), Hnone.
  now destruct w.
Qed.

(** C2. While [a] is the current user, the projects that
    [edit_user_project] and [delete_user_project] list and offer for
    selection are the projects whose [owner_email] is the email of [a]:
    on a console of ASCII text, all that either operation prints is the
    heading, the numbered titles of those projects, and the prompts and
    messages for a selection among them, which show the selected project
    and no other; a user who owns no project gets one message.  Whatever
    is typed, the projects of every other owner are all still in the
    registry afterwards, unchanged and in their order. *)
Theorem owner_scoping (w : world) (a : user) :
  logged_in w = Some a ->
  let mine := filter (owned_by (u_email a)) (projects_data w) in
  Forall (fun p => p_owner_email p = u_email a) mine /\
  (forall r, In r (refs_from 0 (u_email a) (projects_data w)) ->
             owned_ref (u_email a) r (projects_data w)) /\
  (ascii_console w -> mine <> [] ->
   stdout (snd (edit_user_project w)) =
   stdout w ++ [(nl +++ "=== EDIT PROJECT ===") +++ nl; "Your projects:" +++ nl] ++
   title_lines mine ++ edit_script mine (stdin w)) /\
  (ascii_console w -> mine <> [] ->
   stdout (snd (delete_user_project w)) =
   stdout w ++ [(nl +++ "=== DELETE PROJECT ===") +++ nl; "Your projects:" +++ nl] ++
   title_lines mine ++ delete_script mine (stdin w)) /\
  (mine = [] ->
   stdout (snd (edit_user_project w))
   = stdout w ++ ["❌ You have no projects to edit!" +++ nl] /\
   stdout (snd (delete_user_project w))
   = stdout w ++ ["❌ You have no projects to delete!" +++ nl]) /\
  others (u_email a) (projects_data (snd (edit_user_project w)))
  = others (u_email a) (projects_data w) /\
  others (u_email a) (projects_data (snd (delete_user_project w)))
  = others (u_email a) (projects_data w).
Proof.
  intros Ha. cbv zeta.
  split.
  { apply Forall_forall. intros p Hp. apply filter_In in Hp as [_ Hp].
    now apply String.eqb_eq. }
  split; [intros k; apply refs_owned|].
  split; [intros _; now apply edit_user_project_stdout|].
  split; [intros _; now apply delete_user_project_stdout|].
  split; [now apply no_projects_stdout|].
  pose proof (edit_user_project_effect w) as He.
  pose proof (delete_user_project_effect w) as Hd.
  unfold wp, edit_post, delete_post in He, Hd. rewrite Ha in He, Hd. cbv zeta in He, Hd.
  destruct He as (_ & _ & He). destruct Hd as (_ & _ & Hd).
  destruct (refs_from 0 (u_email a) (projects_data w)) as [|r0 refs] eqn:Hrefs.
  - rewrite He, Hd. now split.
  - destruct He as (_ & r & Hr & He). destruct Hd as (_ & Hd & _).
    split; [|exact Hd].
    apply (edited_at_others _ r); [|exact He].
    apply refs_owned. now rewrite Hrefs.
Qed.

End OwnerConsole.

(** ** The theorems on the operations at sample data *)

Section MoreWitnesses.
Import PyStr PyFloat Datetime validation data_storage user_auth project_manager.
Import crowdfunding_app Spec Logic Behaviour Examples Sessions.

Lemma validate_name_spec_witness :
  (validate_name "Ali Hassan" = true <-> name_shape "Ali Hassan") /\
  (name_shape "Ali Hassan" -> contains "|" "Ali Hassan" = false).
Proof. exact (validate_name_spec "Ali Hassan" eq_refl). Defined.

Lemma register_session_ascii :
  Forall (fun line => ascii_text line = true /\ one_line line)
         ["Omar"; "Adel"; "Omar@Example.com"; "hunter22"; "hunter22"; "01112345678"; "n"].
Proof. repeat constructor. Qed.

Lemma register_session_accepted :
  registration_accepted (users_data register_session)
    "Omar" "Adel" "Omar@Example.com" "hunter22" "hunter22" "01112345678" = true.
Proof. vm_compute. reflexivity. Qed.

Lemma register_user_spec_witness :
  projects_data (snd (register_user register_session)) = projects_data register_session /\
  current_user_email (snd (register_user register_session)) = None.
Proof.
  refine (proj2 (proj2 (proj2
            (register_user_spec register_session "Omar" "Adel" "Omar@Example.com"
               "hunter22" "hunter22" "01112345678" "n"
               ["Omar@Example.com"; "hunter22"] eq_refl _)))).
  repeat constructor.
Defined.

Lemma register_user_restart_witness :
  dict_get "omar@example.com"
    (users_data (snd (load_data (restart (snd (register_user register_session))))))
  = Some (new_account noon "Omar" "Adel" "Omar@Example.com" "hunter22" "01112345678" "n").
Proof.
  exact (proj2 (proj2 (proj2 (proj2
           (register_user_restart register_session "Omar" "Adel" "Omar@Example.com"
              "hunter22" "hunter22" "01112345678" "n"
              ["Omar@Example.com"; "hunter22"] eq_refl register_session_ascii
              register_session_accepted sample_world_plain sample_world_storable))))).
Defined.

Lemma create_new_project_spec_witness :
  users_data (snd (create_new_project pipe_session)) = users_data pipe_session /\
  current_user_email (snd (create_new_project pipe_session)) = Some "ali@example.com".
Proof.
  refine (proj2 (proj2 (proj2
            (create_new_project_spec pipe_session ali "Roof|top" "Mend the roof" "9000"
               "2030-01-01" "2030-06-01" [] eq_refl eq_refl _)))).
  repeat constructor.
Defined.

Lemma selection_refused_witness :
  fst (edit_user_project off_list) = Ok false /\
  fst (delete_user_project off_list) = Ok false.
Proof.
  assert (H : filter (owned_by (u_email ali)) (projects_data off_list) <> [])
    by discriminate.
  destruct (selection_refused off_list ali "7" [] "❌ Invalid selection!"
              eq_refl eq_refl eq_refl H eq_refl) as [He Hd].
  split; [exact (f_equal fst He) | exact (f_equal fst Hd)].
Defined.

Lemma delete_user_project_spec_witness :
  users_data (snd (delete_user_project delete_session)) = users_data delete_session /\
  current_user_email (snd (delete_user_project delete_session)) = Some "ali@example.com" /\
  stdin (snd (delete_user_project delete_session)) = [].
Proof.
  refine (proj2 (proj2 (proj2
            (delete_user_project_spec delete_session ali "1" "y" [] 1%Z wells
               eq_refl eq_refl (conj eq_refl eq_refl) eq_refl _ eq_refl)))).
  apply Z.le_refl.
Defined.

Lemma search_projects_by_date_errors_witness :
  console_only day_search (snd (search_projects_by_date day_search)).
Proof.
  refine (proj1 (proj2 (proj2 (proj2
            (search_projects_by_date_errors day_search "2030-06-01" [] eq_refl eq_refl _))))).
  repeat constructor.
Defined.

Lemma sample_world_safe : Forall safe_project (projects_data sample_world).
Proof. repeat constructor; intros s; discriminate. Qed.

Lemma main_raises_only_eof_witness :
  exists r w', main guest_leaves = Some (r, w') /\ (r = inl tt \/ r = inr (Exn EOFError)).
Proof.
  refine (main_raises_only_eof guest_leaves _ sample_world_safe).
  repeat constructor.
Defined.

Lemma broken_file_unread : read_projects (Text broken_file) = inl ValueError.
Proof. vm_compute. reflexivity. Qed.

Lemma broken_start_registers :
  fst (register_user (snd (load_data broken_start))) = Ok true.
Proof. vm_compute. reflexivity. Qed.

Lemma broken_projects_file_emptied_witness :
  projects_data (snd (load_data broken_start)) = [] /\
  projects_file (snd (register_user (snd (load_data broken_start)))) = Text EmptyString.
Proof.
  refine (broken_projects_file_emptied broken_start broken_file ValueError
            _ eq_refl broken_file_unread broken_start_registers).
  split; [exact I | split; [reflexivity | repeat constructor]].
Defined.

Lemma separator_loses_project_witness :
  projects_data (save_then_load piped_world) = [wells; school].
Proof.
  refine (separator_loses_project piped_world [wells] [school] piped eq_refl
            (proj2 sample_world_plain) (proj2 (proj2 sample_world_storable)) _ eq_refl).
  repeat constructor.
Defined.

Lemma pipe_session_ascii :
  Forall (fun line => ascii_text line = true /\ one_line line)
         ["Roof|top"; "Mend the roof"; "9000"; "2030-01-01"; "2030-06-01"].
Proof. repeat constructor. Qed.

Lemma pipe_session_accepted :
  creation_accepted (clock pipe_session)
    "Roof|top" "Mend the roof" "9000" "2030-01-01" "2030-06-01" = true.
Proof. vm_compute. reflexivity. Qed.

Lemma create_with_separator_lost_witness :
  projects_data (snd (load_data (restart (snd (create_new_project pipe_session)))))
  = [wells; school].
Proof.
  exact (proj2 (create_with_separator_lost pipe_session ali "Roof|top" "Mend the roof"
                  "9000" "2030-01-01" "2030-06-01" [] eq_refl eq_refl
                  pipe_session_ascii pipe_session_accepted eq_refl
                  sample_world_plain sample_world_storable)).
Defined.

Lemma owner_scoping_witness :
  logged_in edit_session = Some ali /\
  stdout (snd (edit_user_project edit_session)) =
  stdout edit_session ++
  [(nl +++ "=== EDIT PROJECT ===") +++ nl; "Your projects:" +++ nl] ++
  title_lines (filter (owned_by (u_email ali)) (projects_data edit_session)) ++
  edit_script (filter (owned_by (u_email ali)) (projects_data edit_session))
              (stdin edit_session) /\
  others (u_email ali) (projects_data (snd (edit_user_project edit_session)))
  = others (u_email ali) (projects_data edit_session) /\
  others (u_email ali) (projects_data (snd (delete_user_project edit_session)))
  = others (u_email ali) (projects_data edit_session).
Proof.
  destruct (owner_scoping edit_session ali eq_refl) as (_ & _ & He & _ & _ & Ho).
  split; [reflexivity|].
  split; [|exact Ho].
  apply He.
  - repeat constructor.
  - intros E. vm_compute in E. discriminate E.
Defined.

End MoreWitnesses.
